(** * task-utils: the task processor (processing/TaskProcessor.py)

    A shallow embedding of the parameter validator, the staleness check,
    the generation bracket and the safe serializer, together with the
    properties established about them.

    Conventions.
    - Python values are the inductive [pyval]; a dictionary is an
      association list with string keys, read by first match.  The code
      is Python 2: a [bool] is an [int], [str] and [unicode] are one type
      of strings here, and a float is the rational it stands for.
    - A Python exception is [Raise msg]; a normal return is [Ok v].
      Methods that change files or spawn programs are functions from a
      [world] to a result and the world they leave ([M]).
    - The operating system is not part of the repository.  It is modelled
      as a tree of directories, regular files and symbolic links with a
      working directory, a clock and a log of spawned processes
      ([world]); the [os] and [os.path] functions the code calls are
      written over that tree after their POSIX behaviour.
    - Modification times are integers (a number of clock ticks); only
      their order matters to the code.
    - Spawned programs and the YAML encoder are parameters ([exec],
      [yaml_dump]).  A program acts on the tree through the files its
      standard streams are redirected to and through the regular files
      it writes by name (a compiler its output file); spawning itself
      is taken to succeed. *)

From Stdlib Require Import String Ascii List ZArith QArith Bool Lia.
Import ListNotations.

Close Scope Q_scope.
Close Scope Z_scope.
Local Open Scope string_scope.
Local Open Scope list_scope.
Local Open Scope nat_scope.

(** The Python class [Validator] has methods named [string] and [list];
    these abbreviations keep the Rocq types reachable next to them. *)
Abbreviation str := String.string (only parsing).
Abbreviation seq := Datatypes.list (only parsing).

(** ** Results of fallible code *)

Inductive result (A : Type) : Type :=
| Ok (a : A)
| Raise (msg : str).
Arguments Ok {A} a.
Arguments Raise {A} msg.

Definition rbind {A B} (r : result A) (k : A -> result B) : result B :=
  match r with
  | Ok a => k a
  | Raise m => Raise m
  end.

Declare Scope result_scope.
Delimit Scope result_scope with res.
Notation "x <- r ;; k" := (rbind r (fun x => k))
  (at level 61, r at next level, right associativity) : result_scope.
Notation "r ;;; k" := (rbind r (fun _ => k))
  (at level 61, right associativity) : result_scope.

Definition is_ok {A} (r : result A) : bool :=
  match r with Ok _ => true | Raise _ => false end.

(** ** Python values *)

#[warnings="-register-all"]
Inductive pyval : Type :=
| PNone
| PBool (b : bool)
| PInt (n : Z)
| PFloat (q : Q)
| PStr (s : str)
| PList (l : seq pyval)
| PDict (d : seq (str * pyval))
| PFunc (f : nat -> nat -> nat -> result pyval).

Definition pydict := seq (str * pyval).

Fixpoint dict_get {V} (d : seq (str * V)) (k : str) : option V :=
  match d with
  | [] => None
  | (k', v) :: d' => if (k' =? k)%string then Some v else dict_get d' k
  end.

Definition dict_has {V} (d : seq (str * V)) (k : str) : bool :=
  match dict_get d k with Some _ => true | None => false end.

(** [d[k] = v] on a dictionary: the first binding of [k] is replaced, a
    new key is added at the end. *)
Fixpoint dict_set {V} (d : seq (str * V)) (k : str) (v : V) : seq (str * V) :=
  match d with
  | [] => [(k, v)]
  | (k', v') :: d' =>
      if (k' =? k)%string then (k, v) :: d' else (k', v') :: dict_set d' k v
  end.

(** ** Strings *)

Definition startswith (s p : str) : bool := String.prefix p s.

Fixpoint endswith_char (s : str) (c : ascii) : bool :=
  match s with
  | EmptyString => false
  | String a EmptyString => Ascii.eqb a c
  | String _ s' => endswith_char s' c
  end.

(** [s.rfind(c)]: the index of the last [c] in [s]. *)
Fixpoint rfind_from (i : nat) (s : str) (c : ascii) (last : option nat) : option nat :=
  match s with
  | EmptyString => last
  | String a s' =>
      rfind_from (S i) s' c (if Ascii.eqb a c then Some i else last)
  end.

Definition rfind (s : str) (c : ascii) : option nat := rfind_from 0 s c None.

(** [s[i:]] *)
Fixpoint str_from (i : nat) (s : str) : str :=
  match i, s with
  | O, _ => s
  | S i', String _ s' => str_from i' s'
  | S _, EmptyString => EmptyString
  end.

(** Is some character of [s] at an index in [lo, hi) different from [c]? *)
Fixpoint other_char_between (s : str) (c : ascii) (i lo hi : nat) : bool :=
  match s with
  | EmptyString => false
  | String a s' =>
      ((lo <=? i)%nat && (i <? hi)%nat && negb (Ascii.eqb a c))
      || other_char_between s' c (S i) lo hi
  end.

(** [os.path.splitext(p)[1]] (posixpath): the extension starts at the last
    dot of the last path component, and leading dots of that component do
    not start an extension. *)
Definition splitext_ext (p : str) : str :=
  let filenameIndex :=
    match rfind p "/" with Some i => S i | None => O end in
  match rfind p "." with
  | Some dotIndex =>
      if ((filenameIndex <=? dotIndex)%nat
          && other_char_between p "." 0 filenameIndex dotIndex)%bool
      then str_from dotIndex p
      else ""
  | None => ""
  end.

(** [os.path.join(a, b)] (posixpath). *)
Definition join (a b : str) : str :=
  if startswith b "/" then b
  else if (a =? "")%string || endswith_char a "/" then a ++ b
  else a ++ "/" ++ b.

(** Decimal digits of a natural number, as [str(n)] prints them. *)
Definition digit_char (d : nat) : ascii :=
  ascii_of_nat (48 + d).

Fixpoint digits_fuel (fuel n : nat) (acc : str) : str :=
  match fuel with
  | O => acc
  | S f =>
      let acc' := String (digit_char (n mod 10)) acc in
      if (n <? 10)%nat then acc' else digits_fuel f (n / 10) acc'
  end.

Definition str_of_nat (n : nat) : str := digits_fuel (S n) n "".

Fixpoint zeros (k : nat) : str :=
  match k with O => "" | S k' => String "0" (zeros k') end.

(** ["%0<w>d" % n] for a non-negative [n]: zeros are added on the left up
    to a minimum width; longer numbers are printed in full. *)
Definition format_0d (w n : nat) : str :=
  let s := str_of_nat n in
  zeros (w - String.length s) ++ s.

(** Reading a decimal numeral back; used to state what the namers print. *)
Definition digit_of_char (c : ascii) : option nat :=
  let n := nat_of_ascii c in
  if ((48 <=? n) && (n <=? 57))%nat then Some (n - 48) else None.

Fixpoint decimal_from (acc : nat) (s : str) : option nat :=
  match s with
  | EmptyString => Some acc
  | String c s' =>
      match digit_of_char c with
      | Some d => decimal_from (10 * acc + d) s'
      | None => None
      end
  end.

Definition decimal (s : str) : option nat :=
  match s with
  | EmptyString => None
  | _ => decimal_from 0 s
  end.

(** ** Constants *)

Module Constants.

Definition types : seq str := ["Batch"; "OutputOnly"; "TwoSteps"].
Definition min_time : Q := (1 # 2)%Q.
Definition max_time : Q := (10 # 1)%Q.
Definition min_memory : Z := 16%Z.
Definition max_memory : Z := 1024%Z.
Definition min_subtasks : nat := 1.
Definition max_subtasks : nat := 100.
Definition min_subtask_testcases : Z := 1%Z.
Definition max_subtask_testcases : Z := 200%Z.
Definition min_total_testcases : Z := 1%Z.
Definition max_total_testcases : Z := 200%Z.
Definition min_subtask_score : Z := 0%Z.
Definition max_subtask_score : Z := 100%Z.
Definition max_attachments : nat := 100.
Definition max_auto_submits : nat := 30.
Definition max_auto_submit_len : nat := 30.
Definition max_auto_submit_score : Z := 1000%Z.
Definition source_exts : seq str := [".c"; ".cpp"; ".cxx"; ".cs"; ".java"].
Definition headers_exts : seq str := [".h"].
Definition output_generator_exts : seq str := [".c"; ".cpp"; ".cxx"].
Definition checker_exts : seq str := [".c"; ".cpp"; ".cxx"].
Definition statement_exts : seq str := [".pdf"].
Definition statement_langs : seq str := ["he"; "en"].
Definition gen_check_ignore_exts : seq str :=
  [".lyx"; ".pdf"; ".doc"; ".docx"; ".txt"].
Definition gen_check_ignore_dirs : seq str := ["auto.gen"].

(** Default input namer: <subtask>.<testcase>.in (1-based) *)
Definition input_namer (subtask_index subtask_testcase_index : nat)
    (_ : option nat) : str :=
  format_0d 2 (subtask_index + 1) ++ "."
    ++ format_0d 2 (subtask_testcase_index + 1) ++ ".in".

(** Default output namer: <subtask>.<testcase>.out (1-based) *)
Definition output_namer (subtask_index subtask_testcase_index : nat)
    (_ : option nat) : str :=
  format_0d 2 (subtask_index + 1) ++ "."
    ++ format_0d 2 (subtask_testcase_index + 1) ++ ".out".

End Constants.

Definition str_in (s : str) (l : seq str) : bool :=
  existsb (String.eqb s) l.

(** ** The file system

    A node is a regular file (modification time, contents), a directory
    (named entries) or a symbolic link (target path).  Canonical paths are
    lists of component names from the root. *)

#[warnings="-register-all"]
Inductive node : Type :=
| File (mtime : Z) (data : str)
| Dir (entries : seq (str * node))
| Symlink (target : str).

Record world : Type := mkWorld {
  root : node;              (* the directory tree, from "/" *)
  cwd : seq str;            (* os.getcwd(), as a canonical path *)
  clock : Z;                (* the time stamped on written files *)
  procs : seq (seq str)     (* command lines spawned so far, latest first *)
}.

Fixpoint split_path (s : str) : seq str :=
  match s with
  | EmptyString => [""]
  | String c s' =>
      if Ascii.eqb c "/" then "" :: split_path s'
      else match split_path s' with
           | [] => [String c ""]
           | x :: xs => String c x :: xs
           end
  end.

Fixpoint path_tail (p : seq str) : str :=
  match p with
  | [] => ""
  | [c] => c
  | c :: p' => c ++ "/" ++ path_tail p'
  end.

Definition path_string (p : seq str) : str := "/" ++ path_tail p.

(** The node at a canonical path; links are not followed. *)
Fixpoint lookup (n : node) (p : seq str) : option node :=
  match p with
  | [] => Some n
  | c :: p' =>
      match n with
      | Dir es =>
          match dict_get es c with
          | Some m => lookup m p'
          | None => None
          end
      | _ => None
      end
  end.

Definition is_dir_node (o : option node) : bool :=
  match o with Some (Dir _) => true | _ => false end.

Definition is_special (name : str) : bool :=
  (name =? "")%string || (name =? ".")%string.

Definition isabs (p : str) : bool := startswith p "/".

(** Purely lexical normalisation, as [os.path.normpath] does it. *)
Fixpoint normpath_from (cur rest : seq str) : seq str :=
  match rest with
  | [] => cur
  | name :: rest' =>
      if is_special name then normpath_from cur rest'
      else if (name =? "..")%string then normpath_from (removelast cur) rest'
      else normpath_from (cur ++ [name]) rest'
  end.

(** [os.path.realpath]: components are resolved left to right, a link is
    replaced by its target, [..] drops the last resolved component, and a
    component that does not exist is kept as it is.  [links] bounds the
    number of links followed; beyond it (a loop) the rest of the path is
    only normalised. *)
Fixpoint realpath_from (links : nat) (r : node) : seq str -> seq str -> seq str :=
  fix go (cur rest : seq str) {struct rest} : seq str :=
    match rest with
    | [] => cur
    | name :: rest' =>
        if is_special name then go cur rest'
        else if (name =? "..")%string then go (removelast cur) rest'
        else
          match lookup r (cur ++ [name]) with
          | Some (Symlink t) =>
              match links with
              | O => normpath_from (cur ++ [name]) rest'
              | S l =>
                  realpath_from l r (if isabs t then [] else cur)
                                (split_path t ++ rest')
              end
          | _ => go (cur ++ [name]) rest'
          end
    end.

(** Path resolution as the kernel does it for [stat] and [open]: every
    step is taken inside an existing directory, links are followed, and
    only the last component may be missing (the result then names the
    place where it would be created). *)
Fixpoint stat_from (links : nat) (r : node) : seq str -> seq str -> option (seq str) :=
  fix go (cur rest : seq str) {struct rest} : option (seq str) :=
    match rest with
    | [] => Some cur
    | name :: rest' =>
        if negb (is_dir_node (lookup r cur)) then None
        else if is_special name then go cur rest'
        else if (name =? "..")%string then go (removelast cur) rest'
        else
          match lookup r (cur ++ [name]) with
          | Some (Symlink t) =>
              match links with
              | O => None
              | S l =>
                  stat_from l r (if isabs t then [] else cur)
                            (split_path t ++ rest')
              end
          | Some _ => go (cur ++ [name]) rest'
          | None =>
              match rest' with
              | [] => Some (cur ++ [name])
              | _ => None
              end
          end
    end.

Definition link_budget : nat := 40.

Definition start_of (w : world) (p : str) : seq str :=
  if isabs p then [] else cwd w.

(** The canonical path [os.path.realpath] computes, as components. *)
Definition canon (w : world) (p : str) : seq str :=
  realpath_from link_budget (root w) (start_of w p) (split_path p).

Definition realpath (w : world) (p : str) : str := path_string (canon w p).

(** The canonical path a path string resolves to, links followed. *)
Definition locate (w : world) (p : str) : option (seq str) :=
  if (p =? "")%string then None
  else stat_from link_budget (root w) (start_of w p) (split_path p).

Definition stat (w : world) (p : str) : option node :=
  match locate w p with
  | Some q => lookup (root w) q
  | None => None
  end.

Definition isfile (w : world) (p : str) : bool :=
  match stat w p with Some (File _ _) => true | _ => false end.

Definition isdir (w : world) (p : str) : bool :=
  match stat w p with Some (Dir _) => true | _ => false end.

(** [os.path.getmtime]; the code only asks for the time of non-directories,
    and directories carry no time in this model. *)
Definition getmtime (w : world) (p : str) : result Z :=
  match stat w p with
  | Some (File m _) => Ok m
  | _ => Raise "OSError"
  end.

(** *** Changing the tree *)

Definition del_entry (name : str) (es : seq (str * node)) : seq (str * node) :=
  filter (fun kv => negb (fst kv =? name)%string) es.

Definition alter_entry (name : str) (f : option node -> option node)
    (es : seq (str * node)) : seq (str * node) :=
  match f (dict_get es name) with
  | Some n => dict_set es name n
  | None => del_entry name es
  end.

Fixpoint map_entry (name : str) (g : node -> node) (es : seq (str * node))
    : seq (str * node) :=
  match es with
  | [] => []
  | (k, v) :: es' =>
      if (k =? name)%string then (k, g v) :: es'
      else (k, v) :: map_entry name g es'
  end.

(** Apply [f] to the entry at canonical path [p] (create, replace or
    delete it); the directories above [p] must exist. *)
Fixpoint update (p : seq str) (f : option node -> option node) (n : node) : node :=
  match p with
  | [] => n
  | [name] =>
      match n with
      | Dir es => Dir (alter_entry name f es)
      | _ => n
      end
  | name :: p' =>
      match n with
      | Dir es => Dir (map_entry name (update p' f) es)
      | _ => n
      end
  end.

Definition set_root (w : world) (r : node) : world :=
  mkWorld r (cwd w) (clock w) (procs w).

Definition log_proc (w : world) (cmd : seq str) : world :=
  mkWorld (root w) (cwd w) (clock w) (cmd :: procs w).

(** ** Code that changes the world *)

Definition M (A : Type) : Type := world -> result A * world.

Definition ret {A} (a : A) : M A := fun w => (Ok a, w).
Definition throw {A} (msg : str) : M A := fun w => (Raise msg, w).
Definition bind {A B} (m : M A) (k : A -> M B) : M B :=
  fun w =>
    match m w with
    | (Ok a, w') => k a w'
    | (Raise e, w') => (Raise e, w')
    end.
Definition lift {A} (r : result A) : M A := fun w => (r, w).
Definition ask {A} (f : world -> A) : M A := fun w => (Ok (f w), w).

Declare Scope world_scope.
Delimit Scope world_scope with M.
Notation "x <- m ;; k" := (bind m (fun x => k))
  (at level 61, m at next level, right associativity) : world_scope.
Notation "m ;;; k" := (bind m (fun _ => k))
  (at level 61, right associativity) : world_scope.

(** Where [open(path, "w")] or [open(path, "a")] puts the file: the path
    must resolve, through links, to a regular file or to a free name in an
    existing directory. *)
Definition open_target (w : world) (path : str) : result (seq str) :=
  match locate w path with
  | Some q =>
      match lookup (root w) q with
      | Some (File _ _) | None => Ok q
      | Some _ => Raise "IOError"
      end
  | None => Raise "IOError"
  end.

(** [with open(path, "w") as stream: stream.write(data)] *)
Definition write_file (path data : str) : M unit :=
  fun w =>
    match open_target w path with
    | Ok q => (Ok tt, set_root w (update q (fun _ => Some (File (clock w) data)) (root w)))
    | Raise e => (Raise e, w)
    end.

(** [open(path).read()] *)
Definition read_file (w : world) (path : str) : result str :=
  match stat w path with
  | Some (File _ d) => Ok d
  | _ => Raise "IOError"
  end.

(** [open(path)] for reading: the path must resolve to a regular file.
    The result is the place of the file that was opened. *)
Definition open_source (w : world) (path : str) : result (seq str) :=
  match locate w path with
  | Some q =>
      match lookup (root w) q with
      | Some (File _ _) => Ok q
      | _ => Raise "IOError"
      end
  | None => Raise "IOError"
  end.

(** What is read from the file that was opened at [q]. *)
Definition contents_at (w : world) (q : seq str) : str :=
  match lookup (root w) q with
  | Some (File _ d) => d
  | _ => ""
  end.

(** The files a spawned program writes by name, in order: each is
    opened for writing like [open(path, "w")]; one that cannot be
    opened is not written. *)
Fixpoint leave_files (files : seq (str * str)) (w : world) : world :=
  match files with
  | [] => w
  | (path, data) :: rest => leave_files rest (snd (write_file path data w))
  end.

Definition touch_node (t : Z) (o : option node) : option node :=
  match o with
  | Some (File _ d) => Some (File t d)
  | _ => Some (File t "")
  end.

(** Where [os.remove(path)] acts: the directory part is resolved, the last
    component is taken as it is (a link is not followed). *)
Definition entry_of (w : world) (path : str) : option (seq str) :=
  let comps := split_path path in
  let name := last comps "" in
  if is_special name || (name =? "..")%string then None
  else
    match stat_from link_budget (root w) (start_of w path) (removelast comps) with
    | Some d => if is_dir_node (lookup (root w) d) then Some (d ++ [name]) else None
    | None => None
    end.

(** [os.remove(path)] *)
Definition remove (path : str) : M unit :=
  fun w =>
    match entry_of w path with
    | Some q =>
        match lookup (root w) q with
        | Some (File _ _) | Some (Symlink _) =>
            (Ok tt, set_root w (update q (fun _ => None) (root w)))
        | _ => (Raise "OSError", w)
        end
    | None => (Raise "OSError", w)
    end.

(** [os.path.normpath] of an absolute path: exactly two leading slashes
    are kept, [..] above the root is dropped. *)
Definition normpath_abs (p : str) : str :=
  let initial_slashes :=
    if startswith p "//" && negb (startswith p "///") then "//" else "/" in
  (initial_slashes ++ path_tail (normpath_from [] (split_path p)))%string.

(** [os.path.abspath] *)
Definition abspath (w : world) (p : str) : str :=
  normpath_abs (if isabs p then p else join (path_string (cwd w)) p).

(** ** Python operations on values *)

(** [isinstance(v, int)]: in Python 2 a [bool] is an [int]. *)
Definition int_value (v : pyval) : option Z :=
  match v with
  | PInt n => Some n
  | PBool b => Some (if b then 1%Z else 0%Z)
  | _ => None
  end.

Definition float_value (v : pyval) : option Q :=
  match v with
  | PFloat q => Some q
  | _ => None
  end.

Definition is_int_value (v : pyval) : bool :=
  match int_value v with Some _ => true | None => false end.

Definition is_float_value (v : pyval) : bool :=
  match float_value v with Some _ => true | None => false end.

(** The value a number is compared by; floats are the rationals they
    stand for. *)
Definition numeric_value (v : pyval) : Q :=
  match int_value v, float_value v with
  | Some n, _ => inject_Z n
  | None, Some q => q
  | None, None => 0%Q
  end.

(** [container[key]] for a string key. *)
Definition getitem (container : pyval) (key : str) : result pyval :=
  match container with
  | PDict d =>
      match dict_get d key with
      | Some v => Ok v
      | None => Raise "KeyError"
      end
  | _ => Raise "TypeError"
  end.

(** [container[i]] for an index [i >= 0]. *)
Definition getindex (container : pyval) (i : nat) : result pyval :=
  match container with
  | PList l =>
      match nth_error l i with
      | Some v => Ok v
      | None => Raise "IndexError"
      end
  | PStr s =>
      match String.get i s with
      | Some c => Ok (PStr (String c ""))
      | None => Raise "IndexError"
      end
  | _ => Raise "TypeError"
  end.

Fixpoint is_substring (k s : str) : bool :=
  String.prefix k s ||
  match s with
  | EmptyString => false
  | String _ s' => is_substring k s'
  end.

(** [key in container] for a string key. *)
Definition contains (container : pyval) (key : str) : result bool :=
  match container with
  | PDict d => Ok (dict_has d key)
  | PList l =>
      Ok (existsb (fun v => match v with PStr s => (s =? key)%string | _ => false end) l)
  | PStr s => Ok (is_substring key s)
  | _ => Raise "TypeError"
  end.

(** [f(a, b, c)] *)
Definition call3 (f : pyval) (a b c : nat) : result pyval :=
  match f with
  | PFunc g => g a b c
  | _ => Raise "TypeError"
  end.

(** [os.path.splitext(p)[1]] on a value: only strings have an extension. *)
Definition splitext (p : pyval) : result str :=
  match p with
  | PStr s => Ok (splitext_ext s)
  | _ => Raise "AttributeError"
  end.

Fixpoint for_each {A} (l : seq A) (body : A -> result unit) : result unit :=
  match l with
  | [] => Ok tt
  | x :: l' => (body x ;;; for_each l' body)%res
  end.

(** [for x in v]: the elements of a list, the characters of a string,
    the keys of a dictionary. *)
Definition iterate (v : pyval) : result (seq pyval) :=
  match v with
  | PList l => Ok l
  | PStr s => Ok (map (fun c => PStr (String c "")) (list_ascii_of_string s))
  | PDict d => Ok (map (fun kv => PStr (fst kv)) d)
  | _ => Raise "TypeError"
  end.

Fixpoint map_result {A B} (f : A -> result B) (l : seq A) : result (seq B) :=
  match l with
  | [] => Ok []
  | x :: l' => (y <- f x ;; ys <- map_result f l' ;; Ok (y :: ys))%res
  end.

(** ** The validator *)

Module Validator.

(** The keyword arguments the checks are called with; an absent
    argument takes the default of the method that reads it. *)
Record kwargs : Type := mkKw {
  allow_float : bool;
  min_val : option Q;
  max_val : option Q;
  min_len : option nat;
  max_len : option nat;
  min_list_len : option nat;
  max_list_len : option nat;
  min_str_len : option nat;
  max_str_len : option nat;
  base_dir : option str
}.

Definition no_kw : kwargs :=
  mkKw false None None None None None None None None None.

Definition below (x : Q) (bound : option Q) : bool :=
  match bound with
  | Some b => negb (Qle_bool b x)
  | None => false
  end.

Definition above (x : Q) (bound : option Q) : bool :=
  match bound with
  | Some b => negb (Qle_bool x b)
  | None => false
  end.

Definition shorter (n : nat) (bound : option nat) : bool :=
  match bound with
  | Some b => (n <? b)%nat
  | None => false
  end.

Definition longer (n : nat) (bound : option nat) : bool :=
  match bound with
  | Some b => (b <? n)%nat
  | None => false
  end.

(** Check if the given object is a number, with optional range check. *)
Definition number (number : pyval) (allow_float : bool)
    (min_val max_val : option Q) : bool :=
  let is_int := is_int_value number in
  let is_float := is_float_value number in
  if negb is_int && negb is_float then false
  else if negb is_int && negb allow_float then false
  else if below (numeric_value number) min_val then false
  else if above (numeric_value number) max_val then false
  else true.

(** Check if the given object is a string, with optional length check. *)
Definition string (string : pyval) (min_len max_len : option nat) : bool :=
  match string with
  | PStr s =>
      if shorter (String.length s) min_len then false
      else if longer (String.length s) max_len then false
      else true
  | _ => false
  end.

(** Check if the given path is a valid, existing file.
    Paths must be relative to base_dir if it is not None. *)
Definition file (w : world) (path : pyval) (base_dir : option str) : bool :=
  if negb (string path None None) then false
  else
    match path, base_dir with
    | PStr p, Some b =>
        let path := join b p in
        (* Security check: make sure the given path is actually inside
           the base directory. *)
        let path := realpath w path in
        if negb (startswith path b) then false
        else isfile w path
    | PStr p, None => isfile w p
    | _, _ => false
    end.

(** Check if the given path is a valid, existing directory.
    Paths must be relative to base_dir if it is not None. *)
Definition dir (w : world) (path : pyval) (base_dir : option str) : bool :=
  if negb (string path None None) then false
  else
    match path, base_dir with
    | PStr p, Some b =>
        let path := join b p in
        let path := realpath w path in
        if negb (startswith path b) then false
        else isdir w path
    | PStr p, None => isdir w p
    | _, _ => false
    end.

(** Check if the given object is a dictionary, with optional size check. *)
Definition dict (dictionary : pyval) (min_len max_len : option nat) : bool :=
  match dictionary with
  | PDict d =>
      if shorter (List.length d) min_len then false
      else if longer (List.length d) max_len then false
      else true
  | _ => false
  end.

(** Check if the given object is a list, with optional length check. *)
Definition list (items : pyval) (min_len max_len : option nat) : bool :=
  match items with
  | PList l =>
      if shorter (List.length l) min_len then false
      else if longer (List.length l) max_len then false
      else true
  | _ => false
  end.

Definition items_of (v : pyval) : seq pyval :=
  match v with PList l => l | _ => [] end.

Definition strings_list (strings : pyval)
    (min_list_len max_list_len min_str_len max_str_len : option nat) : bool :=
  if negb (list strings min_list_len max_list_len) then false
  else forallb (fun s => string s min_str_len max_str_len) (items_of strings).

Definition files_list (w : world) (paths : pyval)
    (min_list_len max_list_len : option nat) (base_dir : option str) : bool :=
  if negb (strings_list paths min_list_len max_list_len None None) then false
  else forallb (fun p => file w p base_dir) (items_of paths).

Definition numbers_list (numbers : pyval)
    (min_list_len max_list_len : option nat) (min_val max_val : option Q) : bool :=
  if negb (list numbers min_list_len max_list_len) then false
  else forallb (fun n => number n false min_val max_val) (items_of numbers).

(** Check if the given dictionary contains the given key. *)
Definition assert_key_exists (container : pydict) (key : str) : result unit :=
  if negb (dict_has container key) then Raise "Could not find key"
  else Ok tt.

(** The same check against a set of strings, for an arbitrary key: lists
    and dictionaries cannot be looked up in a set at all. *)
Definition assert_key_in_set (container : seq str) (key : pyval) : result unit :=
  match key with
  | PList _ | PDict _ => Raise "TypeError"
  | PStr s =>
      if negb (str_in s container) then Raise "Could not find key" else Ok tt
  | _ => Raise "Could not find key"
  end.

Definition is_dict (v : pyval) : bool :=
  match v with PDict _ => true | _ => false end.

Definition is_list (v : pyval) : bool :=
  match v with PList _ => true | _ => false end.

(** Check if the given object has the given type ([isinstance]). *)
Definition assert_type (isinstance : bool) (name : str) : result unit :=
  if negb isinstance then Raise (name ++ " is of the wrong type") else Ok tt.

(** Check if the given object is of the given type: the type name
    selects the check, which reads its keyword arguments. *)
Definition assert_value (w : world) (value : pyval) (_type : str) (name : str)
    (kw : kwargs) : result unit :=
  let validate_func : option bool :=
    if (_type =? "string")%string then
      Some (string value (min_len kw) (max_len kw))
    else if (_type =? "dict")%string then
      Some (dict value (min_len kw) (max_len kw))
    else if (_type =? "number")%string then
      Some (number value (allow_float kw) (min_val kw) (max_val kw))
    else if (_type =? "file")%string then
      Some (file w value (base_dir kw))
    else if (_type =? "dir")%string then
      Some (dir w value (base_dir kw))
    else if (_type =? "list")%string then
      Some (list value (min_len kw) (max_len kw))
    else if (_type =? "strings_list")%string then
      Some (strings_list value (min_list_len kw) (max_list_len kw)
              (min_str_len kw) (max_str_len kw))
    else if (_type =? "files_list")%string then
      Some (files_list w value (min_list_len kw) (max_list_len kw) (base_dir kw))
    else if (_type =? "numbers_list")%string then
      Some (numbers_list value (min_list_len kw) (max_list_len kw)
              (min_val kw) (max_val kw))
    else None in
  match validate_func with
  | None => Raise "TypeError"
  | Some ok =>
      if negb ok then Raise (name ++ " should be a valid " ++ _type)
      else Ok tt
  end.

Definition with_base (b : str) : kwargs :=
  mkKw false None None None None None None None None (Some b).

Definition in_range (allow_float : bool) (lo hi : Q) : kwargs :=
  mkKw allow_float (Some lo) (Some hi) None None None None None None None.

(** Check if the task type in the given parameters is valid. *)
Definition assert_task_type (params : pydict) : result unit :=
  (assert_key_exists params "type" ;;;
   ty <- getitem (PDict params) "type" ;;
   assert_key_in_set Constants.types ty)%res.

(** Check if the time and memory in the given task params are valid. *)
Definition assert_task_limits (w : world) (params : pydict) : result unit :=
  (assert_key_exists params "time" ;;;
   time <- getitem (PDict params) "time" ;;
   assert_value w time "number" "time"
     (in_range true Constants.min_time Constants.max_time) ;;;
   assert_key_exists params "memory" ;;;
   memory <- getitem (PDict params) "memory" ;;
   assert_value w memory "number" "memory"
     (in_range false (inject_Z Constants.min_memory)
                     (inject_Z Constants.max_memory)))%res.

(** Check if the attachments in the params is a valid list of files. *)
Definition assert_task_attachments (w : world) (params : pydict)
    (task_dir : str) : result unit :=
  match dict_get params "attachments" with
  | None => Ok tt
  | Some attachments =>
      assert_value w attachments "files_list" "attachments"
        (mkKw false None None None None None (Some Constants.max_attachments)
              None None (Some task_dir))
  end.

(** The loop over the graders: every extension is a known source
    extension and no extension occurs twice. *)
Fixpoint check_grader_exts (graders : seq pyval) (ext_set : seq str)
    : result unit :=
  match graders with
  | [] => Ok tt
  | grader :: rest =>
      (ext <- splitext grader ;;
       if negb (str_in ext Constants.source_exts)
       then Raise "Unknown grader extension"
       else if str_in ext ext_set
       then Raise "Duplicate grader type"
       else check_grader_exts rest (ext :: ext_set))%res
  end.

(** Check if the graders list in the params is a valid list of files. *)
Definition assert_task_graders (w : world) (params : pydict)
    (task_dir : str) : result unit :=
  match dict_get params "graders" with
  | None => Ok tt
  | Some graders =>
      (assert_value w graders "files_list" "graders" (with_base task_dir) ;;;
       check_grader_exts (items_of graders) [])%res
  end.

Definition check_ext (known : seq str) (msg : str) (path : pyval) : result unit :=
  (ext <- splitext path ;;
   if negb (str_in ext known) then Raise msg else Ok tt)%res.

(** Check if the managers list in the params is a valid list of files. *)
Definition assert_task_managers (w : world) (params : pydict)
    (task_dir : str) : result unit :=
  match dict_get params "managers" with
  | None => Ok tt
  | Some managers =>
      (assert_value w managers "files_list" "managers" (with_base task_dir) ;;;
       for_each (items_of managers)
         (check_ext Constants.source_exts "Unknown manager extension"))%res
  end.

(** Check if the headers list in the params is a valid list of files. *)
Definition assert_task_headers (w : world) (params : pydict)
    (task_dir : str) : result unit :=
  match dict_get params "headers" with
  | None => Ok tt
  | Some headers =>
      (assert_value w headers "files_list" "headers" (with_base task_dir) ;;;
       for_each (items_of headers)
         (check_ext Constants.headers_exts "Unknown header extension"))%res
  end.

(** Check if the output generator in the params is a valid C++ file. *)
Definition assert_task_output_generator (w : world) (params : pydict)
    (task_dir : str) : result unit :=
  match dict_get params "output_generator" with
  | None => Ok tt
  | Some output_generator =>
      (assert_value w output_generator "file" "output_generator"
         (with_base task_dir) ;;;
       check_ext Constants.output_generator_exts "Unknown generator extension"
         output_generator)%res
  end.

(** Check if the checker in the params is a valid C++ file.  In the
    gen_dir it should be named "checker" (no extension). *)
Definition assert_task_checker (w : world) (params : pydict)
    (task_dir : str) (gen_dir : option str) : result unit :=
  match dict_get params "checker" with
  | None => Ok tt
  | Some checker =>
      (assert_value w checker "file" "checker" (with_base task_dir) ;;;
       check_ext Constants.checker_exts "Unknown generator extension" checker ;;;
       match gen_dir with
       | Some g => assert_value w (PStr "checker") "file" "checker" (with_base g)
       | None => Ok tt
       end)%res
  end.

(** The loop over the statements, with the languages seen so far. *)
Fixpoint check_statements (w : world) (task_dir : str)
    (statements : seq pyval) (languages : seq str) : result unit :=
  match statements with
  | [] => Ok tt
  | statement_info :: rest =>
      (assert_type (is_dict statement_info) "statement_info" ;;;
       has_language <- contains statement_info "language" ;;
       if negb has_language then Raise "Statement must specify language."
       else
       has_path <- contains statement_info "path" ;;
       if negb has_path then Raise "Statement must specify path."
       else
       language <- getitem statement_info "language" ;;
       path <- getitem statement_info "path" ;;
       lang <- match language with
               | PStr l => Ok l
               | PList _ | PDict _ => Raise "TypeError"
               | _ => Raise "Unknown statement language"
               end ;;
       if negb (str_in lang Constants.statement_langs)
       then Raise "Unknown statement language"
       else if str_in lang languages
       then Raise "Statement language collision"
       else
       check_ext Constants.statement_exts "Unknown statement extension" path ;;;
       assert_value w path "file" "statement" (with_base task_dir) ;;;
       check_statements w task_dir rest (lang :: languages))%res
  end.

(** Check if the list of statements in the params is valid. *)
Definition assert_task_statements (w : world) (params : pydict)
    (task_dir : str) : result unit :=
  match dict_get params "statements" with
  | None => Ok tt
  | Some statements =>
      (assert_type (is_list statements) "statements" ;;;
       check_statements w task_dir (items_of statements) [])%res
  end.

(** Check if the given testcase is valid. *)
Definition assert_testcase (w : world) (params : pydict)
    (subtask_index subtask_testcase_index total_testcase_index : nat)
    (task_dir : str) (gen_dir : option str) : result unit :=
  (* Input and output are named using functions, and expected to exist. *)
  match dict_get params "existing_testcases_format" with
  | Some (PDict existing_format) =>
      (input_namer <- getitem (PDict existing_format) "input" ;;
       output_namer <- getitem (PDict existing_format) "output" ;;
       input_name <- call3 input_namer subtask_index subtask_testcase_index
                           total_testcase_index ;;
       output_name <- call3 output_namer subtask_index subtask_testcase_index
                            total_testcase_index ;;
       assert_value w input_name "file" "input" (with_base task_dir) ;;;
       assert_value w output_name "file" "output" (with_base task_dir))%res
  | _ =>
      (subtasks <- getitem (PDict params) "subtasks" ;;
       subtask <- getindex subtasks subtask_index ;;
       testcases <- getitem subtask "testcases" ;;
       testcase <- getindex testcases subtask_testcase_index ;;
       match gen_dir with
       | Some _ =>
           (* Input and output are expected to be generated, and the
              testcase contains "input" and "output" paths. *)
           input_name <- getitem testcase "input" ;;
           output_name <- getitem testcase "output" ;;
           assert_value w input_name "file" "input" (with_base task_dir) ;;;
           assert_value w output_name "file" "output" (with_base task_dir)
       | None =>
           (* The testcase is simply a dictionary. *)
           assert_value w testcase "dict" "testcase" no_kw
       end)%res
  end.

(** [xrange(n)] *)
Definition xrange (n : Z) : seq nat := List.seq 0 (Z.to_nat n).

(** Check if the given subtask inside the task params is valid.
    Return the number of testcases in the subtask. *)
Definition assert_subtask (w : world) (params : pydict) (subtask_index : nat)
    (acc_testcases : nat) (task_dir : str) (gen_dir : option str)
    : result nat :=
  (subtasks <- getitem (PDict params) "subtasks" ;;
   subtask <- getindex subtasks subtask_index ;;
   if negb (dict subtask None None) then Raise "Subtask must be a dictionary."
   else
   (* Score. *)
   has_score <- contains subtask "score" ;;
   if negb has_score then Raise "Subtask must specify score."
   else
   score <- getitem subtask "score" ;;
   assert_value w score "number" "subtask score"
     (in_range false (inject_Z Constants.min_subtask_score)
                     (inject_Z Constants.max_subtask_score)) ;;;
   (* Each subtask can contain previous subtasks (1-based indices). *)
   has_contains <- contains subtask "contains" ;;
   (if has_contains then
      other_subtasks <- getitem subtask "contains" ;;
      assert_value w other_subtasks "numbers_list" "contained subtasks"
        (mkKw false (Some (inject_Z 1)) (Some (inject_Z (Z.of_nat subtask_index)))
              None None None (Some subtask_index) None None None)
    else Ok tt) ;;;
   num_testcases <-
     (if dict_has params "existing_testcases_format" then
        (* Existing testcases. *)
        has_num <- contains subtask "num_testcases" ;;
        if negb has_num
        then Raise "Subtask must contain key 'num_testcases'"
        else getitem subtask "num_testcases"
      else
        (* Testcases to be generated. *)
        has_testcases <- contains subtask "testcases" ;;
        if negb has_testcases
        then Raise "Subtask must contain key 'testcases'."
        else
        testcases <- getitem subtask "testcases" ;;
        assert_value w testcases "list" "testcases" no_kw ;;;
        Ok (PInt (Z.of_nat (List.length (items_of testcases))))) ;;
   assert_value w num_testcases "number" "num_testcases"
     (in_range false (inject_Z Constants.min_subtask_testcases)
                     (inject_Z Constants.max_subtask_testcases)) ;;;
   let n := match int_value num_testcases with Some n => n | None => 0%Z end in
   for_each (xrange n)
     (fun index =>
        assert_testcase w params subtask_index index (acc_testcases + index)
          task_dir gen_dir) ;;;
   Ok (Z.to_nat n))%res.

(** The loop over the subtasks, with the number of testcases so far. *)
Fixpoint check_subtasks (w : world) (params : pydict) (indices : seq nat)
    (acc_testcases : nat) (task_dir : str) (gen_dir : option str)
    : result unit :=
  match indices with
  | [] => Ok tt
  | index :: rest =>
      (num_testcases <- assert_subtask w params index acc_testcases
                          task_dir gen_dir ;;
       check_subtasks w params rest (acc_testcases + num_testcases)
         task_dir gen_dir)%res
  end.

(** Check if the subtasks in the task params are valid. *)
Definition assert_task_subtasks (w : world) (params : pydict)
    (task_dir : str) (gen_dir : option str) : result unit :=
  match dict_get params "subtasks" with
  | None => Raise "Missing 'subtasks' in the task params."
  | Some subtasks =>
      if negb (list subtasks (Some Constants.min_subtasks)
                    (Some Constants.max_subtasks))
      then Raise "Subtasks should be a list of reasonable size."
      else check_subtasks w params
             (List.seq 0 (List.length (items_of subtasks))) 0 task_dir gen_dir
  end.

Definition is_batch (v : pyval) : bool :=
  match v with PStr s => (s =? "Batch")%string | _ => false end.

(** The checks on one auto-submit item. *)
Definition check_submit_item (w : world) (task_dir : str)
    (num_submission_files : nat) (submit_item : pyval) : result unit :=
  (assert_value w submit_item "dict" "auto submit item"
     (mkKw false None None (Some 3) (Some 3) None None None None None) ;;;
   let get k := match submit_item with
                | PDict d => match dict_get d k with Some v => v | None => PNone end
                | _ => PNone
                end in
   let name := get "name" in
   let score := get "score" in
   let files := get "files" in
   assert_value w name "string" "auto submit name"
     (mkKw false None None (Some 1) (Some Constants.max_auto_submit_len)
           None None None None None) ;;;
   assert_value w score "number" "auto submit score"
     (in_range true (inject_Z 0) (inject_Z Constants.max_auto_submit_score)) ;;;
   assert_value w files "files_list" "auto submit files"
     (mkKw false None None None None (Some num_submission_files)
           (Some num_submission_files) None None (Some task_dir)) ;;;
   for_each (items_of files)
     (check_ext Constants.source_exts
        "Auto submit file must have a valid source file extension."))%res.

(** Check if the "auto_submit" field is a valid list of submissions. *)
Definition assert_auto_submit (w : world) (params : pydict)
    (task_dir : str) : result unit :=
  match dict_get params "auto_submit" with
  | None => Ok tt
  | Some submit_items =>
      if negb (list submit_items (Some 0) (Some Constants.max_auto_submits))
      then Raise "Expected auto_submit to be a list"
      else
        match items_of submit_items with
        | [] => Ok tt
        | items =>
            (ty <- getitem (PDict params) "type" ;;
             if negb (is_batch ty)
             then Raise "Auto submit only supported in batch tasks currently."
             else for_each items (check_submit_item w task_dir 1))%res
        end
  end.

Definition is_output_only (v : pyval) : bool :=
  match v with PStr s => (s =? "OutputOnly")%string | _ => false end.

(** Validate the given task parameters dictionary. *)
Definition assert_task_params (w : world) (params : pyval) (task_dir : str)
    (gen_dir : option str) : result unit :=
  (assert_type (is_dict params) "task params" ;;;
   match params with
   | PDict params =>
       if negb (isdir w task_dir) then Raise "Expected valid dir"
       else
       assert_task_type params ;;;
       ty <- getitem (PDict params) "type" ;;
       let need_limits := negb (is_output_only ty) in
       (if need_limits then assert_task_limits w params else Ok tt) ;;;
       assert_task_attachments w params task_dir ;;;
       assert_task_graders w params task_dir ;;;
       assert_task_managers w params task_dir ;;;
       assert_task_headers w params task_dir ;;;
       assert_task_statements w params task_dir ;;;
       assert_task_output_generator w params task_dir ;;;
       assert_auto_submit w params task_dir ;;;
       (* If gen_dir is given, the generated files must exist. *)
       assert_task_checker w params task_dir gen_dir ;;;
       assert_task_subtasks w params task_dir gen_dir
   | _ => Raise "TypeError"
   end)%res.

End Validator.

(** ** The task processor *)

(** [len(v)] *)
Definition py_len (v : pyval) : result nat :=
  match v with
  | PList l => Ok (List.length l)
  | PDict d => Ok (List.length d)
  | PStr s => Ok (String.length s)
  | _ => Raise "TypeError"
  end.

(** [os.path.join(d, name)] where [name] is a value. *)
Definition join_val (d : str) (name : pyval) : result str :=
  match name with
  | PStr s => Ok (join d s)
  | _ => Raise "AttributeError"
  end.

(** What [yaml.safe_dump] can represent: plain data, no callables. *)
Fixpoint plain (v : pyval) : bool :=
  match v with
  | PFunc _ => false
  | PList l => (fix all (l : seq pyval) : bool :=
                  match l with
                  | [] => true
                  | x :: l' => plain x && all l'
                  end) l
  | PDict d => (fix all (d : seq (str * pyval)) : bool :=
                  match d with
                  | [] => true
                  | (_, x) :: d' => plain x && all d'
                  end) d
  | _ => true
  end.

Module TaskProcessor.

(** The object: [self.task_dir], [self.params], [self.module] (the
    [generate_testcase] function of the task module, when the
    parameters came from one) and [self.generator]. *)
Record processor : Type := mkProcessor {
  task_dir : str;
  params : pydict;
  module : option (pydict -> result pyval);
  generator : option str
}.

Definition set_generator (self : processor) (g : option str) : processor :=
  mkProcessor (task_dir self) (params self) (module self) g.

(** Check if the given file is irrelevant for task generation. *)
Definition is_file_irrelevant (_ filename : str) : bool :=
  if startswith filename "." then true
  else str_in (splitext_ext filename) Constants.gen_check_ignore_exts.

(** Check if the given directory is irrelevant for task generation. *)
Definition is_dir_irrelevant (_ dirname : str) : bool :=
  startswith dirname "." || str_in dirname Constants.gen_check_ignore_dirs.

(** Does [os.walk] list the entry [name] of the directory [top] among
    the directories?  It asks [os.path.isdir], which follows links. *)
Definition listed_as_dir (w : world) (top name : str) (child : node) : bool :=
  match child with
  | File _ _ => false
  | Dir _ => true
  | Symlink _ => isdir w (join top name)
  end.

(** [os.walk(top, topdown=True)] over the directory node [n] found at
    [top], where the consumer prunes the listed directories with
    [keep] before the walk descends: the triples (root, dirs, files) in
    the order they are produced.  Links to directories are listed but
    not entered. *)
Fixpoint walk (w : world) (keep : str -> str -> bool) (top : str) (n : node)
    : seq (str * seq str * seq str) :=
  match n with
  | Dir es =>
      let dirs := map fst (filter (fun e => listed_as_dir w top (fst e) (snd e)) es) in
      let files := map fst (filter (fun e => negb (listed_as_dir w top (fst e) (snd e))) es) in
      (top, filter (keep top) dirs, files)
      :: flat_map (fun e =>
                     match snd e with
                     | Dir _ =>
                         if keep top (fst e)
                         then walk w keep (join top (fst e)) (snd e)
                         else []
                     | _ => []
                     end) es
  | _ => []
  end.

(** The inner loop of the staleness check over the files of one
    directory. *)
Fixpoint newer_in (w : world) (last_ok_time : Z) (root : str) (files : seq str)
    : result bool :=
  match files with
  | [] => Ok false
  | filename :: rest =>
      if is_file_irrelevant root filename then newer_in w last_ok_time root rest
      else
        (t <- getmtime w (join root filename) ;;
         if (last_ok_time <? t)%Z then Ok true
         else newer_in w last_ok_time root rest)%res
  end.

(** The outer loop over the triples of the walk. *)
Fixpoint newer_under (w : world) (last_ok_time : Z)
    (triples : seq (str * seq str * seq str)) : result bool :=
  match triples with
  | [] => Ok false
  | (root, _, files) :: rest =>
      (found <- newer_in w last_ok_time root files ;;
       if found then Ok true else newer_under w last_ok_time rest)%res
  end.

(** Check whether this task needs to be generated. *)
Definition needs_generating (w : world) (task_dir gen_dir : str) : result bool :=
  let gen_error := join gen_dir "gen.error" in
  let gen_ok := join gen_dir "gen.ok" in
  if isfile w gen_error || negb (isfile w gen_ok) then Ok true
  else
    (last_ok_time <- getmtime w gen_ok ;;
     match stat w task_dir with
     | Some n =>
         newer_under w last_ok_time
           (walk w (fun root dirname => negb (is_dir_irrelevant root dirname))
                 task_dir n)
     | None => Ok false
     end)%res.

(** Touch a file, like the Unix touch command. *)
Definition touch (path : str) : M unit :=
  fun w =>
    match open_target w path with
    | Ok q => (Ok tt, set_root w (update q (touch_node (clock w)) (root w)))
    | Raise e => (Raise e, w)
    end.

(** Mark the given generation directory as having an error. *)
Definition mark_error (gen_dir : str) : M unit :=
  let gen_error := join gen_dir "gen.error" in
  let gen_ok := join gen_dir "gen.ok" in
  (touch gen_error ;;;
   is_file <- ask (fun w => isfile w gen_ok) ;;
   if is_file then remove gen_ok else ret tt)%M.

(** Mark the given generation directory as okay. *)
Definition mark_ok (gen_dir : str) : M unit :=
  let gen_error := join gen_dir "gen.error" in
  let gen_ok := join gen_dir "gen.ok" in
  (touch gen_ok ;;;
   is_file <- ask (fun w => isfile w gen_error) ;;
   if is_file then remove gen_error else ret tt)%M.

Section External.

(** What lies outside the repository: the programs that are spawned
    (command line and standard input to return code, standard output,
    standard error and the files the program writes by name, as a
    compiler writes its output file) and the YAML encoder for plain
    data. *)
Variable exec : seq str -> str -> Z * str * str * seq (str * str).
Variable yaml_dump : pyval -> str.

(** Run the given commands as a subprocess, wait for it to finish. *)
Definition run (commands : seq str) (input_string : str) (fail_abort : bool)
    : M (Z * str * str) :=
  fun w =>
    let '(return_code, stdout, stderr, files) := exec commands input_string in
    let w := leave_files files (log_proc w commands) in
    if negb (return_code =? 0)%Z && fail_abort
    then (Raise "Command returned non-zero", w)
    else (Ok (return_code, stdout, stderr), w).

(** [open(input_path)] when a path is given, a pipe otherwise. *)
Definition open_stdin (path : option str) : M (option (seq str)) :=
  match path with
  | Some p =>
      fun w =>
        (match open_source w p with
         | Ok q => Ok (Some q)
         | Raise e => Raise e
         end, w)
  | None => ret None
  end.

Definition redirect (path : option str) (data : str) : M unit :=
  match path with
  | Some p => write_file p data
  | None => ret tt
  end.

(** Run the given commands with stdin/stdout/stderr redirected to the
    given files: the files are opened in this order (the written ones
    emptied) before the process starts; the process reads what the
    input file then holds, and the written files receive its output
    (what the process writes by name is written first; what it prints
    is in the redirected files when it ends).  [communicate()] returns
    None for a stream that is not a pipe. *)
Definition run_io (commands : seq str) (input_path output_path error_path : option str)
    (fail_abort : bool) : M (Z * option str * option str) :=
  (input_stream <- open_stdin input_path ;;
   redirect output_path "" ;;;
   redirect error_path "" ;;;
   fun w =>
     let input :=
       match input_stream with
       | Some q => contents_at w q
       | None => ""
       end in
     let '(return_code, stdout, stderr, files) := exec commands input in
     let w := leave_files files (log_proc w commands) in
     (redirect output_path stdout ;;;
      redirect error_path stderr ;;;
      if negb (return_code =? 0)%Z && fail_abort
      then throw "Command returned non-zero"
      else ret (return_code,
                match output_path with Some _ => None | None => Some stdout end,
                match error_path with Some _ => None | None => Some stderr end))%M w)%M.

(** Compile the given C++ sources; return the stderr output of g++. *)
Definition compile_cpp (sources : seq str) (out_path : str) : M str :=
  let base_command := ["/usr/bin/g++"; "-Wall"; "-O2"; "-std=c++0x"; "-o"] in
  (r <- run (base_command ++ [out_path] ++ sources) "" true ;;
   ret (snd r))%M.

(** [stream.write(v)] into the file just opened at [path]. *)
Definition write_value (path : str) (v : pyval) : M unit :=
  match v with
  | PStr s => write_file path s
  | _ => throw "TypeError"
  end.

(** Generate the given testcase, and put the input and output files
    in gen_dir. *)
Definition _generate_testcase (self : processor) (testcase : pyval)
    (subtask_index subtask_testcase_index : nat) (gen_dir : str) : M unit :=
  let input_name := Constants.input_namer subtask_index subtask_testcase_index None in
  let output_name := Constants.output_namer subtask_index subtask_testcase_index None in
  let input_path := join gen_dir input_name in
  let output_path := join gen_dir output_name in
  (testcase_io <- lift match module self, testcase with
                       | Some generate_testcase, PDict args => generate_testcase args
                       | None, _ => Raise "AttributeError"
                       | _, _ => Raise "TypeError"
                       end ;;
   has_input <- lift (contains testcase_io "input") ;;
   if negb has_input then throw "Testcase must contain 'input' key."
   else
   write_file input_path "" ;;;
   input <- lift (getitem testcase_io "input") ;;
   write_value input_path input ;;;
   has_output <- lift (contains testcase_io "output") ;;
   if has_output then
     write_file output_path "" ;;;
     output <- lift (getitem testcase_io "output") ;;
     write_value output_path output
   else
     match generator self with
     | None => throw "Testcase did not specify output, but an output generator was not found."
     | Some g =>
         run_io [g] (Some input_path) (Some output_path) None true ;;;
         ret tt
     end)%M.

(** The loops of [generate_testcases] over subtasks and testcases. *)
Definition generate_subtask (self : processor) (gen_dir : str)
    (subtask_index : nat) (subtask : pyval) : M unit :=
  (testcases <- lift (getitem subtask "testcases") ;;
   n <- lift (py_len testcases) ;;
   (fix loop (indices : seq nat) : M unit :=
      match indices with
      | [] => ret tt
      | testcase_index :: rest =>
          testcase <- lift (getindex testcases testcase_index) ;;
          _generate_testcase self testcase subtask_index testcase_index gen_dir ;;;
          loop rest
      end) (List.seq 0 n))%M.

Fixpoint generate_subtasks (self : processor) (gen_dir : str)
    (subtask_index : nat) (subtasks : seq pyval) : M unit :=
  match subtasks with
  | [] => ret tt
  | subtask :: rest =>
      (generate_subtask self gen_dir subtask_index subtask ;;;
       generate_subtasks self gen_dir (S subtask_index) rest)%M
  end.

(** Generate the testcases for this task.  The processor is returned
    with [self.generator] as the method leaves it. *)
Definition generate_testcases (self : processor) (gen_dir : str) : M processor :=
  match module self with
  | None => throw "Cannot generate testcases without a module."
  | Some _ =>
      if dict_has (params self) "existing_testcases_format" then ret self
      else
        (self <-
           match dict_get (params self) "output_generator" with
           | Some source_name =>
               source_path <- lift (join_val (task_dir self) source_name) ;;
               let generator := join gen_dir "generator.out" in
               let self := set_generator self (Some generator) in
               compile_cpp [source_path] generator ;;;
               ret self
           | None => ret (set_generator self None)
           end ;;
         subtasks <- lift (getitem (PDict (params self)) "subtasks") ;;
         match subtasks with
         | PList l => generate_subtasks self gen_dir 0 l ;;; ret self
         | _ => throw "TypeError"
         end)%M
  end.

(** Compile the checker for this task. *)
Definition generate_checker (self : processor) (gen_dir : str) : M unit :=
  match dict_get (params self) "checker" with
  | None => ret tt
  | Some checker =>
      (source_path <- lift (join_val (task_dir self) checker) ;;
       let out_path := join gen_dir "checker" in
       compile_cpp [source_path] out_path ;;;
       ret tt)%M
  end.

(** The default namers as callables of three arguments. *)
Definition default_input_namer (si sti tti : nat) : result pyval :=
  Ok (PStr (Constants.input_namer si sti (Some tti))).

Definition default_output_namer (si sti tti : nat) : result pyval :=
  Ok (PStr (Constants.output_namer si sti (Some tti))).

(** The testcases of one subtask as file names: the inner loop of
    [_get_safe_yaml]. *)
Fixpoint testcase_paths (input_namer output_namer : pyval) (base : str)
    (subtask_index acc_testcases : nat) (indices : seq nat)
    : result (seq pyval) :=
  match indices with
  | [] => Ok []
  | subtask_testcase_index :: rest =>
      (let total_testcase_index := subtask_testcase_index + acc_testcases in
       input_name <- call3 input_namer subtask_index subtask_testcase_index
                           total_testcase_index ;;
       output_name <- call3 output_namer subtask_index subtask_testcase_index
                            total_testcase_index ;;
       input_path <- join_val base input_name ;;
       output_path <- join_val base output_name ;;
       more <- testcase_paths input_namer output_namer base subtask_index
                 acc_testcases rest ;;
       Ok (PDict [("input", PStr input_path); ("output", PStr output_path)]
           :: more))%res
  end.

(** The safe copy of one subtask, with its number of testcases.  The
    running count is a natural number: the counts of validated
    parameters are positive (with a negative count, which validation
    refuses, the code would count backwards). *)
Definition safe_subtask (existing : bool) (input_namer output_namer : pyval)
    (base : str) (subtask_index acc_testcases : nat) (subtask : pyval)
    : result (pyval * nat) :=
  ((* Get the number of testcases. *)
   num_testcases <-
     (if existing then getitem subtask "num_testcases"
      else
        testcases <- getitem subtask "testcases" ;;
        n <- py_len testcases ;;
        Ok (PInt (Z.of_nat n))) ;;
   (* Get the list of other subtasks contained in it. *)
   has_contains <- contains subtask "contains" ;;
   other_subtasks <-
     (if has_contains then getitem subtask "contains" else Ok (PList [])) ;;
   score <- getitem subtask "score" ;;
   n <- match int_value num_testcases with
        | Some n => Ok n
        | None => Raise "TypeError"
        end ;;
   testcases <- testcase_paths input_namer output_namer base subtask_index
                  acc_testcases (Validator.xrange n) ;;
   (* Make a safe copy of the subtask. *)
   Ok (PDict [("score", score);
              ("testcases", PList testcases);
              ("num_testcases", num_testcases);
              ("contains", other_subtasks)],
       Z.to_nat n))%res.

(** The loop of [_get_safe_yaml] over the subtasks. *)
Fixpoint safe_subtasks (existing : bool) (input_namer output_namer : pyval)
    (base : str) (subtask_index acc_testcases : nat) (subtasks : seq pyval)
    : result (seq pyval) :=
  match subtasks with
  | [] => Ok []
  | subtask :: rest =>
      (c <- safe_subtask existing input_namer output_namer base
              subtask_index acc_testcases subtask ;;
       more <- safe_subtasks existing input_namer output_namer base
                 (S subtask_index) (acc_testcases + snd c) rest ;;
       Ok (fst c :: more))%res
  end.

(** The dictionary [_get_safe_yaml] hands to the encoder. *)
Definition safe_params (self : processor) (gen_dir : str) : result pyval :=
  ((* We work on a shallow copy. *)
   let params_copy := params self in
   (* Determine whether the testcases already exist.
      If so, replace "existing_testcases_format" with True. *)
   let existing := dict_has params_copy "existing_testcases_format" in
   let params_copy :=
     if existing then dict_set params_copy "existing_testcases_format" (PBool true)
     else params_copy in
   (* The default input/output file names are taken from Constants.
      They are overridden by params if needed. *)
   namers <-
     (if existing then
        format <- getitem (PDict (params self)) "existing_testcases_format" ;;
        input_namer <- getitem format "input" ;;
        output_namer <- getitem format "output" ;;
        Ok (input_namer, output_namer)
      else Ok (PFunc default_input_namer, PFunc default_output_namer)) ;;
   (* Rewrite the subtasks' testcases with file names. *)
   subtasks <- getitem (PDict (params self)) "subtasks" ;;
   n <- py_len subtasks ;;
   match subtasks with
   | PList l =>
       (* Existing testcases are based in task_dir, generated ones
          are in gen_dir. *)
       let base := if existing then task_dir self else gen_dir in
       safe <- safe_subtasks existing (fst namers) (snd namers) base 0 0 l ;;
       Ok (PDict (dict_set params_copy "subtasks" (PList safe)))
   | _ => Raise "TypeError"
   end)%res.

(** [yaml.safe_dump]: fails on anything that is not plain data. *)
Definition safe_dump (v : pyval) : result str :=
  if plain v then Ok (yaml_dump v) else Raise "RepresenterError".

(** Create and return a YAML-safe dump based on the task params. *)
Definition _get_safe_yaml (self : processor) (gen_dir : str) : result str :=
  (params_copy <- safe_params self gen_dir ;;
   safe_dump params_copy)%res.

(** Dump the task parameters to a safe YAML file. *)
Definition generate_yaml (self : processor) (gen_dir yaml_path : str) : M unit :=
  (write_file yaml_path "" ;;;
   text <- lift (_get_safe_yaml self gen_dir) ;;
   write_file yaml_path text)%M.

(** Generate everything to the given gen_dir. *)
Definition generate_all (self : processor) (gen_dir : str)
    (yaml_path : option str) : M processor :=
  (needed <- (fun w => (needs_generating w (task_dir self) gen_dir, w)) ;;
   if negb needed then ret self
   else
     mark_error gen_dir ;;;
     let yaml_path :=
       match yaml_path with
       | Some p => p
       | None => join gen_dir "module.yaml"
       end in
     generate_yaml self gen_dir yaml_path ;;;
     generate_checker self gen_dir ;;;
     self <- generate_testcases self gen_dir ;;
     mark_ok gen_dir ;;;
     ret self)%M.

End External.

(** *** Construction and getters *)

(** A task module as the processor uses it: what its [get_task_params]
    returns and its [generate_testcase]. *)
Record task_module : Type := mkModule {
  get_task_params : result pyval;
  generate_testcase : pydict -> result pyval
}.

Section Loading.

(** What lies outside the repository: the YAML decoder, applied to the
    text of a file, and the import of a Python file as a module. *)
Variable yaml_load : str -> result pyval.
Variable load_source : world -> str -> result task_module.

(** Load the task parameters from a given source: the parameters and
    the module, if any. *)
Definition _load_params (w : world) (params_source : pyval)
    : result (pyval * option (pydict -> result pyval)) :=
  match params_source with
  | PDict _ => Ok (params_source, None)
  | PStr path =>
      let ext := splitext_ext path in
      if (ext =? ".yaml")%string then
        (text <- read_file w path ;;
         params <- yaml_load text ;;
         Ok (params, None))%res
      else if (ext =? ".py")%string then
        (module <- load_source w path ;;
         params <- get_task_params module ;;
         Ok (params, Some (generate_testcase module)))%res
      else Raise "Unsupported params file"
  | _ => Raise "Unsupported params format"
  end.

(** Create a new task processor. *)
Definition __init__ (w : world) (params_source : pyval) (task_dir : str)
    (post_gen_dir : option str) : result processor :=
  (loaded <- _load_params w params_source ;;
   Validator.assert_task_params w (fst loaded) task_dir post_gen_dir ;;;
   match fst loaded with
   | PDict params => Ok (mkProcessor task_dir params (snd loaded) None)
   | _ => Raise "TypeError"
   end)%res.

End Loading.

(** Return the type of this task. *)
Definition get_task_type (self : processor) : result pyval :=
  getitem (PDict (params self)) "type".

(** Return the time limit for this task. *)
Definition get_time (self : processor) : result pyval :=
  getitem (PDict (params self)) "time".

(** Return the memory limit for this task. *)
Definition get_memory (self : processor) : result pyval :=
  getitem (PDict (params self)) "memory".

(** [os.path.abspath(os.path.join(self.task_dir, path))] *)
Definition abs_in_task_dir (w : world) (self : processor) (path : pyval)
    : result pyval :=
  (p <- join_val (task_dir self) path ;;
   Ok (PStr (abspath w p)))%res.

(** Return a list of statements for this task, in the same format as in
    the task module, but with absolute paths. *)
Definition get_statements (w : world) (self : processor) : result pyval :=
  if negb (dict_has (params self) "statements") then Ok (PList [])
  else
    (statements <- getitem (PDict (params self)) "statements" ;;
     infos <- iterate statements ;;
     result <- map_result
                 (fun statement_info =>
                    language <- getitem statement_info "language" ;;
                    path <- getitem statement_info "path" ;;
                    abs <- abs_in_task_dir w self path ;;
                    Ok (PDict [("language", language); ("path", abs)]))
                 infos ;;
     Ok (PList result))%res.

(** The list of absolute paths under a key of the parameters. *)
Definition abs_paths_at (w : world) (self : processor) (key : str)
    : result pyval :=
  if negb (dict_has (params self) key) then Ok (PList [])
  else
    (paths <- getitem (PDict (params self)) key ;;
     items <- iterate paths ;;
     result <- map_result (abs_in_task_dir w self) items ;;
     Ok (PList result))%res.

(** Return a list of attachments for this task, in absolute paths. *)
Definition get_attachments (w : world) (self : processor) : result pyval :=
  abs_paths_at w self "attachments".

(** Return the list of graders, in absolute paths. *)
Definition get_graders (w : world) (self : processor) : result pyval :=
  abs_paths_at w self "graders".

(** Return the list of headers, in absolute paths. *)
Definition get_headers (w : world) (self : processor) : result pyval :=
  abs_paths_at w self "headers".

(** Return the list of managers, in absolute paths. *)
Definition get_managers (w : world) (self : processor) : result pyval :=
  abs_paths_at w self "managers".

(** Return the list of subtasks. *)
Definition get_subtasks (self : processor) : result pyval :=
  getitem (PDict (params self)) "subtasks".

(** Return the list of auto submit items, in absolute paths. *)
Definition get_auto_submit_items (w : world) (self : processor) : result pyval :=
  if negb (dict_has (params self) "auto_submit") then Ok (PList [])
  else
    (items <- getitem (PDict (params self)) "auto_submit" ;;
     items <- iterate items ;;
     new_items <- map_result
                    (fun item =>
                       files <- getitem item "files" ;;
                       files <- iterate files ;;
                       new_files <- map_result (abs_in_task_dir w self) files ;;
                       name <- getitem item "name" ;;
                       score <- getitem item "score" ;;
                       Ok (PDict [("name", name); ("score", score);
                                  ("files", PList new_files)]))
                    items ;;
     Ok (PList new_items))%res.

(** Return whether this task uses a checker. *)
Definition has_checker (self : processor) : bool :=
  dict_has (params self) "checker".

(** Return whether this task uses a grader. *)
Definition has_grader (self : processor) : bool :=
  dict_has (params self) "graders".

End TaskProcessor.

(** ** The documented template (templates/documented_template.py) *)

Module documented_template.

(** ["testcases/%d.in" % (tti + 1)] and its output counterpart. *)
Definition format_input (si sti tti : nat) : result pyval :=
  Ok (PStr ("testcases/" ++ str_of_nat (tti + 1) ++ ".in")).

Definition format_output (si sti tti : nat) : result pyval :=
  Ok (PStr ("testcases/" ++ str_of_nat (tti + 1) ++ ".out")).

(** Return a dictionary specifying all task parameters. *)
Definition get_task_params : pyval :=
  PDict
    [("type", PStr "Batch");
     ("time", PInt 3);
     ("memory", PInt 64);
     ("checker", PStr "checker.cpp");
     ("graders", PList [PStr "graders/grader.cpp"]);
     ("headers", PList [PStr "task.h"]);
     ("managers", PList [PStr "manager.cpp"]);
     ("statements",
      PList [PDict [("language", PStr "he"); ("path", PStr "statement.pdf")]]);
     ("attachments", PList [PStr "attachment.zip"]);
     ("output_generator", PStr "prog.cpp");
     ("existing_testcases_format",
      PDict [("input", PFunc format_input); ("output", PFunc format_output)]);
     ("subtasks",
      PList [PDict [("score", PInt 10);
                    ("testcases",
                     PList [PDict [("seed", PInt 123); ("n", PInt 2)];
                            PDict [("seed", PInt 456); ("n", PInt 2)]])];
             PDict [("score", PInt 90);
                    ("testcases",
                     PList [PDict [("seed", PInt 432); ("n", PInt 10)];
                            PDict [("seed", PInt 431); ("n", PInt 10)]])]])].

End documented_template.

(** ** Vocabulary of the statements and sample worlds *)

(** A small world to try the definitions on. *)
Definition demo_root : node :=
  Dir [("srv", Dir [("task", Dir [("a.cpp", File 5%Z "int main(){}");
                                  ("sub", Dir [("b.txt", File 9%Z "notes")]);
                                  ("out", Symlink "/etc/passwd");
                                  ("up", Symlink "../task-extra")]);
                    ("task-extra", Dir [("secret.c", File 3%Z "s3cr3t")]);
                    ("alias", Symlink "task")]);
       ("etc", Dir [("passwd", File 1%Z "root:x:0:0")])].

Definition demo_world : world := mkWorld demo_root ["srv"] 100%Z [].

Fixpoint is_prefix_of (d q : seq str) : bool :=
  match d, q with
  | [], _ => true
  | a :: d', b :: q' => (a =? b)%string && is_prefix_of d' q'
  | _ :: _, [] => false
  end.

(** Does [path] lie in the directory tree rooted at [base]?  Both are
    canonicalized and compared component by component. *)
Definition inside (w : world) (base path : str) : bool :=
  is_prefix_of (canon w base) (canon w path).

(** What a default name is made of: numeral, dot, numeral, suffix. *)
Definition two_numerals (name suffix : str) (a b : str) : Prop :=
  name = (a ++ "." ++ b ++ suffix)%string.

Definition namer_shape (s t : nat) : bool :=
  let a := format_0d 2 (s + 1) in
  let b := format_0d 2 (t + 1) in
  match decimal a, decimal b with
  | Some x, Some y =>
      (x =? s + 1)%nat && (y =? t + 1)%nat
      && (String.length a =? (if s + 1 <? 100 then 2 else 3))%nat
      && (String.length b =? (if t + 1 <? 100 then 2 else 3))%nat
  | _, _ => false
  end.

(** A site with a task directory, a sibling whose name extends the task
    directory's, and a link to the task directory. *)
Definition site_root : node :=
  Dir [("srv", Dir [("task", Dir [("checker.cpp", File 5%Z "int main(){}");
                                  ("notes", Dir [("plan.txt", File 9%Z "todo")]);
                                  ("passwd", Symlink "/etc/passwd")]);
                    ("task-extra", Dir [("secret.c", File 3%Z "s3cr3t")]);
                    ("alias", Symlink "task");
                    ("alias.bak", File 2%Z "old")]);
       ("etc", Dir [("passwd", File 1%Z "root:x:0:0")])].

Definition site : world := mkWorld site_root [] 100%Z [].

Definition site_params : pydict :=
  [("type", PStr "Batch"); ("time", PInt 3); ("memory", PInt 64);
   ("attachments", PList [PStr "../task-extra/secret.c"]);
   ("subtasks",
    PList [PDict [("score", PInt 100);
                  ("testcases", PList [PDict [("seed", PInt 1); ("n", PInt 2)]])]])].

(** A task directory and a generation directory next to it, after a
    generation run. *)
Definition audit_root : node :=
  Dir [("t", Dir [("a.in", File 4%Z "1"); ("a.out", File 4%Z "2")]);
       ("g", Dir [("01.01.in", File 7%Z "2 1 2"); ("01.01.out", File 7%Z "3");
                  ("gen.ok", File 8%Z "")])].

Definition audit : world := mkWorld audit_root [] 100%Z [].

Definition audit_params (input output : str) : pydict :=
  [("type", PStr "Batch"); ("time", PInt 3); ("memory", PInt 64);
   ("subtasks",
    PList [PDict [("score", PInt 100);
                  ("testcases",
                   PList [PDict [("input", PStr input); ("output", PStr output)]]);
                  ("num_testcases", PInt 1); ("contains", PList [])]])].

(** An integer number in a range, as [Validator.number] sees it with
    floats not allowed. *)
Definition int_between (lo hi : Z) (v : pyval) : Prop :=
  exists z, int_value v = Some z /\ (lo <= z <= hi)%Z.

(** Two subtasks, the second of which contains the first. *)
Definition two_subtasks (contained : seq pyval) : pydict :=
  [("type", PStr "Batch"); ("time", PFloat (3 # 2)); ("memory", PInt 64);
   ("subtasks",
    PList [PDict [("score", PInt 40); ("testcases", PList [PDict []])];
           PDict [("score", PInt 60); ("testcases", PList [PDict []]);
                  ("contains", PList contained)]])].

(** The names the walk passes over, as the specification words them. *)
Definition pruned_dir_name (d : str) : Prop :=
  startswith d "." = true \/ In d ["auto.gen"].

Definition skipped_file_name (f : str) : Prop :=
  startswith f "." = true
  \/ In (splitext_ext f) [".lyx"; ".pdf"; ".doc"; ".docx"; ".txt"].

Definition keep_dir (root dirname : str) : bool :=
  negb (TaskProcessor.is_dir_irrelevant root dirname).

(** [visited w top n fp]: [fp] is the path of a file under the directory
    [n] found at [top] that the staleness check looks at: a
    non-directory entry with a name that is not skipped, reached through
    directories (not links) none of which is pruned. *)
Inductive visited (w : world) : str -> node -> str -> Prop :=
| visited_here (top : str) (es : seq (str * node)) (name : str) (child : node) :
    In (name, child) es ->
    TaskProcessor.listed_as_dir w top name child = false ->
    ~ skipped_file_name name ->
    visited w top (Dir es) (join top name)
| visited_below (top : str) (es : seq (str * node)) (name : str)
    (es' : seq (str * node)) (fp : str) :
    In (name, Dir es') es ->
    ~ pruned_dir_name name ->
    visited w (join top name) (Dir es') fp ->
    visited w top (Dir es) fp.

(** The condition under which the task has to be generated, in the words
    of the specification. *)
Definition generation_needed (w : world) (task_dir gen_dir : str) : Prop :=
  isfile w (join gen_dir "gen.error") = true
  \/ isfile w (join gen_dir "gen.ok") = false
  \/ exists n fp t t_ok,
       stat w task_dir = Some n /\ visited w task_dir n fp
       /\ getmtime w fp = Ok t
       /\ getmtime w (join gen_dir "gen.ok") = Ok t_ok
       /\ (t_ok < t)%Z.

(** Every file the staleness check looks at has a modification time that
    can be read (none is a link to nothing). *)
Definition mtimes_readable (w : world) (task_dir : str) : Prop :=
  forall n fp, stat w task_dir = Some n -> visited w task_dir n fp ->
               is_ok (getmtime w fp) = true.

(** A task directory with a relevant source file, hidden and ignored
    entries, and a generation directory marked as done at time 8. *)
Definition stale_root (source_time : Z) : node :=
  Dir [("t", Dir [("gen.cpp", File source_time "int main(){}");
                  ("statement.pdf", File 50%Z "%PDF");
                  (".git", Dir [("HEAD", File 60%Z "ref")]);
                  ("auto.gen", Dir [("01.01.in", File 70%Z "1")]);
                  ("lib", Dir [("util.h", File 2%Z "//");
                               (".cache", File 80%Z "")])]);
       ("g", Dir [("gen.ok", File 8%Z "")])].

Definition stale (source_time : Z) : world :=
  mkWorld (stale_root source_time) [] 100%Z [].

(** A task directory in which a link to nothing comes before a source
    file that is newer than the ok marker. *)
Definition dangling_world : world :=
  mkWorld (Dir [("t", Dir [("old.cpp", Symlink "gone.cpp");
                           ("new.cpp", File 9%Z "")]);
                ("g", Dir [("gen.ok", File 8%Z "")])]) [] 100%Z [].

(** The fresh world with a link to nothing in the task directory. *)
Definition linked_world : world :=
  mkWorld (Dir [("t", Dir [("task.py", File 5%Z "params");
                           ("notes", Symlink "gone")]);
                ("g", Dir [])])
          [] 10%Z [].

(** No file that the staleness check looks at is newer than the ok
    marker. *)
Definition none_newer (w : world) (task_dir gen_dir : str) : Prop :=
  forall n fp t t_ok,
    stat w task_dir = Some n -> visited w task_dir n fp ->
    getmtime w fp = Ok t ->
    getmtime w (join gen_dir "gen.ok") = Ok t_ok ->
    (t <= t_ok)%Z.

(** What is found at a canonical path, without the contents of
    directories. *)
Inductive kind : Type :=
| KFile (mtime : Z) (data : str)
| KDir
| KLink (target : str).

Definition kind_of (o : option node) : option kind :=
  match o with
  | Some (File m d) => Some (KFile m d)
  | Some (Dir _) => Some KDir
  | Some (Symlink t) => Some (KLink t)
  | None => None
  end.

Definition entry_at (w : world) (q : seq str) : option kind :=
  kind_of (lookup (root w) q).

(** Every canonical path outside [ps] holds in [w'] what it held in [w]. *)
Definition unchanged_except (w w' : world) (ps : seq (seq str)) : Prop :=
  forall q, ~ In q ps -> entry_at w' q = entry_at w q.

(** The world after the file at [T] has been touched. *)
Definition touched (w : world) (T : seq str) : world :=
  set_root w (update T (touch_node (clock w)) (root w)).

(** A function that writes a regular file, whatever was there. *)
Definition writes_file (f : option node -> option node) : Prop :=
  forall o, exists m d, f o = Some (File m d).

(** A task module and the outside world of the examples: every spawned
    program succeeds and prints "out". *)
Definition demo_exec (cmd : seq str) (input : str)
    : Z * str * str * seq (str * str) :=
  (0%Z, "out", "", []).

Definition demo_yaml (v : pyval) : str := "yaml".

Definition demo_params : pydict :=
  [("type", PStr "Batch"); ("time", PInt 3); ("memory", PInt 64);
   ("subtasks",
    PList [PDict [("score", PInt 100);
                  ("testcases", PList [PDict [("seed", PInt 1); ("n", PInt 2)]])]])].

Definition demo_callback (args : pydict) : result pyval :=
  Ok (PDict [("input", PStr "2 1 2"); ("output", PStr "3")]).

Definition demo_self : TaskProcessor.processor :=
  TaskProcessor.mkProcessor "/t" demo_params (Some demo_callback) None.

(** The scenario of the specification, run twice: the first run writes
    the snapshot, the testcase files and the ok marker; the second run
    changes nothing and spawns nothing. *)
Definition fresh_world : world :=
  mkWorld (Dir [("t", Dir [("task.py", File 5%Z "params")]); ("g", Dir [])])
          [] 10%Z [].

(** What a spawned program returns and leaves. *)
Definition exit_code (exec : seq str -> str -> Z * str * str * seq (str * str))
    (commands : seq str) (input : str) : Z :=
  fst (fst (fst (exec commands input))).

Definition stdout_of (exec : seq str -> str -> Z * str * str * seq (str * str))
    (commands : seq str) (input : str) : str :=
  snd (fst (fst (exec commands input))).

Definition stderr_of (exec : seq str -> str -> Z * str * str * seq (str * str))
    (commands : seq str) (input : str) : str :=
  snd (fst (exec commands input)).

Definition files_of (exec : seq str -> str -> Z * str * str * seq (str * str))
    (commands : seq str) (input : str) : seq (str * str) :=
  snd (exec commands input).

(** The world after a program was spawned with the command line
    [commands] on the standard input [input]. *)
Definition spawned (exec : seq str -> str -> Z * str * str * seq (str * str))
    (commands : seq str) (input : str) (w : world) : world :=
  leave_files (files_of exec commands input) (log_proc w commands).

(** The files of a testcase in the generation directory. *)
Definition input_path_of (gen_dir : str) (si sti : nat) : str :=
  join gen_dir (Constants.input_namer si sti None).

Definition output_path_of (gen_dir : str) (si sti : nat) : str :=
  join gen_dir (Constants.output_namer si sti None).

(** The task module answers the testcase with the mapping [io]. *)
Definition answered (self : TaskProcessor.processor) (testcase : pyval)
    (io : pydict) : Prop :=
  exists cb args,
    TaskProcessor.module self = Some cb
    /\ testcase = PDict args
    /\ cb args = Ok (PDict io).

(** What a program reads from the file opened at [Ti] once the file at
    [To] has been emptied, when the first held [inp]. *)
Definition stdin_after (Ti To : seq str) (inp : str) : str :=
  if list_eq_dec string_dec Ti To then "" else inp.

(** The three ways generating a testcase fails, in the words of the
    specification: the mapping the task module returned lacks "input";
    it lacks "output" and no output generator is configured; the output
    generator that is spawned exits non-zero. *)
Definition generation_fails (exec : seq str -> str -> Z * str * str * seq (str * str))
    (self : TaskProcessor.processor) (testcase : pyval) (si sti : nat)
    (gen_dir : str) (w : world) : Prop :=
  exists io,
    answered self testcase io
    /\ (dict_has io "input" = false
        \/ (dict_has io "output" = false /\ TaskProcessor.generator self = None)
        \/ (dict_has io "output" = false
            /\ exists g inp Ti To,
                 TaskProcessor.generator self = Some g
                 /\ dict_get io "input" = Some (PStr inp)
                 /\ open_target w (input_path_of gen_dir si sti) = Ok Ti
                 /\ open_target w (output_path_of gen_dir si sti) = Ok To
                 /\ exit_code exec [g] (stdin_after Ti To inp) <> 0%Z)).

(** Everything generating a testcase needs to go through: the task
    module answers with a mapping whose "input" is the string [inp];
    the input and the output file can be opened for writing, at [Ti]
    and [To]; and "output" is the string [out], or it is absent and the
    output generator that is configured exits with zero after printing
    [out]. *)
Definition generation_succeeds (exec : seq str -> str -> Z * str * str * seq (str * str))
    (self : TaskProcessor.processor) (testcase : pyval) (si sti : nat)
    (gen_dir : str) (w : world) (io : pydict) (inp out : str)
    (Ti To : seq str) : Prop :=
  answered self testcase io
  /\ dict_get io "input" = Some (PStr inp)
  /\ open_target w (input_path_of gen_dir si sti) = Ok Ti
  /\ open_target w (output_path_of gen_dir si sti) = Ok To
  /\ (dict_get io "output" = Some (PStr out)
      \/ (dict_get io "output" = None
          /\ exists g,
               TaskProcessor.generator self = Some g
               /\ exit_code exec [g] (stdin_after Ti To inp) = 0%Z
               /\ out = stdout_of exec [g] (stdin_after Ti To inp))).

(** The output generator of [self], if it is spawned on [inp], writes
    no file by name. *)
Definition generator_leaves_nothing
    (exec : seq str -> str -> Z * str * str * seq (str * str))
    (self : TaskProcessor.processor) (inp : str) : Prop :=
  forall g, TaskProcessor.generator self = Some g -> files_of exec [g] inp = [].

(** A module that returns only the input, with and without an output
    generator, and with an output generator that fails. *)
Definition input_only (args : pydict) : result pyval :=
  Ok (PDict [("input", PStr "2 1 2")]).

Definition failing_exec (cmd : seq str) (input : str)
    : Z * str * str * seq (str * str) :=
  (1%Z, "partial", "crash", []).

(** A module that returns a number where the input string belongs. *)
Definition number_input (args : pydict) : result pyval :=
  Ok (PDict [("input", PInt 5); ("output", PStr "3")]).

(** The number of testcases the serializer reads off a subtask. *)
Definition declared_count (existing : bool) (subtask : pyval) : result pyval :=
  if existing then getitem subtask "num_testcases"
  else (testcases <- getitem subtask "testcases" ;;
        n <- py_len testcases ;;
        Ok (PInt (Z.of_nat n)))%res.

Definition subtask_size (existing : bool) (subtask : pyval) : nat :=
  match declared_count existing subtask with
  | Ok v => match int_value v with Some n => Z.to_nat n | None => 0 end
  | Raise _ => 0
  end.

(** The number of testcases in the subtasks before index [i]: the global
    index of the first testcase of subtask [i]. *)
Fixpoint testcases_before (existing : bool) (subtasks : seq pyval) (i : nat) : nat :=
  match i, subtasks with
  | S i', s :: rest => subtask_size existing s + testcases_before existing rest i'
  | _, _ => 0
  end.

(** [paths] lists, for the testcases [0 .. n-1] of subtask [si], the
    names the two namers give at consecutive global indices from [acc],
    joined to [base]. *)
Definition paths_named (input_namer output_namer : pyval) (base : str)
    (si acc n : nat) (paths : seq pyval) : Prop :=
  List.length paths = n
  /\ forall j, j < n ->
       exists name_in name_out,
         call3 input_namer si j (j + acc) = Ok (PStr name_in)
         /\ call3 output_namer si j (j + acc) = Ok (PStr name_out)
         /\ nth_error paths j
            = Some (PDict [("input", PStr (join base name_in));
                           ("output", PStr (join base name_out))]).

(** The safe copy of a subtask: exactly four keys. *)
Definition safe_copy_of (existing : bool) (input_namer output_namer : pyval)
    (base : str) (si acc : nat) (subtask copy : pyval) : Prop :=
  exists score num paths contained,
    copy = PDict [("score", score); ("testcases", PList paths);
                  ("num_testcases", num); ("contains", contained)]
    /\ getitem subtask "score" = Ok score
    /\ declared_count existing subtask = Ok num
    /\ (exists n, int_value num = Some n)
    /\ paths_named input_namer output_namer base si acc
         (subtask_size existing subtask) paths
    /\ (contains subtask "contains" = Ok true
        /\ getitem subtask "contains" = Ok contained
        \/ contains subtask "contains" = Ok false /\ contained = PList []).

(** The naming strategy in force and the directory the names are rooted
    at: the configured namers and the task directory in
    existing-testcases mode, the default namers and the generation
    directory otherwise. *)
Definition active_namers (self : TaskProcessor.processor) (gen_dir : str)
    (input_namer output_namer : pyval) (base : str) : Prop :=
  if dict_has (TaskProcessor.params self) "existing_testcases_format" then
    (exists format,
       dict_get (TaskProcessor.params self) "existing_testcases_format" = Some format
       /\ getitem format "input" = Ok input_namer
       /\ getitem format "output" = Ok output_namer)
    /\ base = TaskProcessor.task_dir self
  else
    input_namer = PFunc TaskProcessor.default_input_namer
    /\ output_namer = PFunc TaskProcessor.default_output_namer
    /\ base = gen_dir.

(** What the serializer's mapping [out] looks like, for the parameters of
    [self]. *)
Definition serialized (self : TaskProcessor.processor) (gen_dir : str)
    (out : pyval) : Prop :=
  let params := TaskProcessor.params self in
  let existing := dict_has params "existing_testcases_format" in
  exists d subs safe input_namer output_namer base,
    out = PDict d
    /\ dict_get params "subtasks" = Some (PList subs)
    /\ active_namers self gen_dir input_namer output_namer base
    /\ (forall k, k <> "subtasks" -> k <> "existing_testcases_format" ->
                  dict_get d k = dict_get params k)
    /\ dict_get d "existing_testcases_format"
       = (if existing then Some (PBool true) else None)
    /\ dict_get d "subtasks" = Some (PList safe)
    /\ List.length safe = List.length subs
    /\ forall i subtask, nth_error subs i = Some subtask ->
         exists copy,
           nth_error safe i = Some copy
           /\ safe_copy_of existing input_namer output_namer base i
                (testcases_before existing subs i) subtask copy.

(** A subtask that carries a key of its own, and a generation directory
    given by a relative path. *)
Definition named_subtask : pyval :=
  PDict [("score", PInt 100); ("name", PStr "small");
         ("testcases", PList [PDict [("seed", PInt 1)]])].

Definition named_params : pydict :=
  [("type", PStr "Batch"); ("time", PInt 3); ("memory", PInt 64);
   ("subtasks", PList [named_subtask])].

Definition named_self : TaskProcessor.processor :=
  TaskProcessor.mkProcessor "/srv/task" named_params (Some demo_callback) None.

(** The existing-testcases mode of the documented template: the names
    come from the configured functions and are rooted at the task
    directory; the format itself becomes True. *)
Definition template_namer (suffix : str) (si sti tti : nat) : result pyval :=
  Ok (PStr ("testcases/" ++ str_of_nat (tti + 1) ++ suffix)).

Definition existing_self : TaskProcessor.processor :=
  TaskProcessor.mkProcessor "/srv/task"
    [("type", PStr "Batch"); ("time", PInt 3); ("memory", PInt 64);
     ("existing_testcases_format",
      PDict [("input", PFunc (template_namer ".in"));
             ("output", PFunc (template_namer ".out"))]);
     ("subtasks", PList [PDict [("score", PInt 40); ("num_testcases", PInt 1)];
                         PDict [("score", PInt 60); ("num_testcases", PInt 2);
                                ("contains", PList [PInt 1])]])]
    None None.

(** The namers [safe_params] will pick are the ones validation called. *)
Definition picked_namers (params : pydict) (ni no : pyval) : Prop :=
  if dict_has params "existing_testcases_format" then
    exists ef, dict_get params "existing_testcases_format" = Some (PDict ef)
               /\ (forall ni' no', getitem (PDict ef) "input" = Ok ni' ->
                                   getitem (PDict ef) "output" = Ok no' ->
                                   ni' = ni /\ no' = no)
  else ni = PFunc TaskProcessor.default_input_namer
       /\ no = PFunc TaskProcessor.default_output_namer.

(** A task directory that holds the testcases the documented template
    names. *)
Definition existing_root : node :=
  Dir [("srv",
        Dir [("task",
              Dir [("testcases",
                    Dir [("1.in", File 1%Z "1"); ("1.out", File 1%Z "1");
                         ("2.in", File 1%Z "2"); ("2.out", File 1%Z "4");
                         ("3.in", File 1%Z "3"); ("3.out", File 1%Z "9")])])])].

Definition existing_world : world := mkWorld existing_root [] 100%Z [].

(** *** Validated parameters *)

(** The extension of a path given as a value; not a string, no extension. *)
Definition ext_of (v : pyval) : str :=
  match v with PStr s => splitext_ext s | _ => "" end.

(** [v] is a string naming a regular file that the path guard accepts
    for the base directory [b]. *)
Definition guarded_file (w : world) (b : str) (v : pyval) : Prop :=
  exists p, v = PStr p /\ Validator.file w (PStr p) (Some b) = true.

(** The language of a statement. *)
Definition lang_of (v : pyval) : str :=
  match v with
  | PDict d => match dict_get d "language" with Some (PStr l) => l | _ => "" end
  | _ => ""
  end.

(** A statement as validation wants it. *)
Definition statement_ok (w : world) (td : str) (s : pyval) : Prop :=
  exists d lang p,
    s = PDict d
    /\ dict_get d "language" = Some (PStr lang)
    /\ In lang Constants.statement_langs
    /\ dict_get d "path" = Some (PStr p)
    /\ splitext_ext p = ".pdf"
    /\ Validator.file w (PStr p) (Some td) = true.

(** A subtask as validation wants it: a mapping with an integer score
    between 0 and 100 and between 1 and 200 testcases. *)
Definition subtask_bounded (existing : bool) (s : pyval) : Prop :=
  exists sd score,
    s = PDict sd
    /\ dict_get sd "score" = Some score
    /\ int_between 0 100 score
    /\ if existing then
         exists num, dict_get sd "num_testcases" = Some num
                     /\ int_between 1 200 num
       else
         exists l, dict_get sd "testcases" = Some (PList l)
                   /\ 1 <= List.length l <= 200.

(** An automatic submission as validation wants it. *)
Definition submit_item_ok (w : world) (td : str) (item : pyval) : Prop :=
  exists d name score f,
    item = PDict d
    /\ List.length d = 3
    /\ dict_get d "name" = Some (PStr name)
    /\ 1 <= String.length name <= 30
    /\ dict_get d "score" = Some score
    /\ (is_int_value score = true \/ is_float_value score = true)
    /\ (forall z, int_value score = Some z -> (0 <= z <= 1000)%Z)
    /\ dict_get d "files" = Some (PList [f])
    /\ guarded_file w td f
    /\ In (ext_of f) Constants.source_exts.

(** What validation has checked, check by check. *)
Record validated (w : world) (params : pydict) (td : str) (gd : option str)
    : Prop := mkValidated {
  v_dir : isdir w td = true;
  v_type : Validator.assert_task_type params = Ok tt;
  v_limits : forall ty, dict_get params "type" = Some ty ->
               Validator.is_output_only ty = false ->
               Validator.assert_task_limits w params = Ok tt;
  v_attachments : Validator.assert_task_attachments w params td = Ok tt;
  v_graders : Validator.assert_task_graders w params td = Ok tt;
  v_managers : Validator.assert_task_managers w params td = Ok tt;
  v_headers : Validator.assert_task_headers w params td = Ok tt;
  v_statements : Validator.assert_task_statements w params td = Ok tt;
  v_output_generator : Validator.assert_task_output_generator w params td = Ok tt;
  v_auto_submit : Validator.assert_auto_submit w params td = Ok tt;
  v_checker : Validator.assert_task_checker w params td gd = Ok tt;
  v_subtasks : Validator.assert_task_subtasks w params td gd = Ok tt
}.

(** *** Writing files and marking *)

(** A regular file or nothing. *)
Definition file_or_none (k : option kind) : Prop :=
  k = None \/ exists m d, k = Some (KFile m d).

(** Two trees with the same directories and links: at every canonical
    path they hold the same thing, or each holds a regular file or
    nothing. *)
Definition same_dirs_links (r r' : node) : Prop :=
  forall q, kind_of (lookup r' q) = kind_of (lookup r q)
            \/ (file_or_none (kind_of (lookup r q))
                /\ file_or_none (kind_of (lookup r' q))).

(** [w'] is [w] after regular files were created or rewritten, stamped
    with the clock, and programs were spawned: nothing was removed, no
    directory or link was touched, and the working directory and the
    clock are the same. *)
Definition files_written (w w' : world) : Prop :=
  cwd w' = cwd w /\ clock w' = clock w
  /\ (exists spawned, procs w' = spawned ++ procs w)
  /\ forall q, entry_at w' q = entry_at w q
               \/ (file_or_none (entry_at w q)
                   /\ exists d, entry_at w' q = Some (KFile (clock w) d)).

(** A computation that only writes regular files and spawns programs,
    whether it returns or raises. *)
Definition only_writes {A} (m : M A) : Prop :=
  forall w, files_written w (snd (m w)).

(** The marker at [path] is an ordinary one: the path names, in an
    existing directory, a regular file or a free name (not a link and
    not a directory). *)
Definition plain_marker (w : world) (path : str) (R : seq str) : Prop :=
  entry_of w path = Some R /\ file_or_none (entry_at w R).

(** No regular file carries a time later than the clock. *)
Definition no_future_files (w : world) : Prop :=
  forall q m d, entry_at w q = Some (KFile m d) -> (m <= clock w)%Z.

(** [w'] is [w] after the marker entered at [A] was touched and the
    marker entered at [B] was removed if it was there. *)
Definition marked (w w' : world) (A B : seq str) : Prop :=
  (cwd w' = cwd w /\ clock w' = clock w /\ procs w' = procs w)
  /\ (exists d, entry_at w' A = Some (KFile (clock w) d))
  /\ entry_at w' B = None
  /\ (forall q, q <> A -> q <> B -> entry_at w' q = entry_at w q).

(** The same, as a check on a tree. *)
Fixpoint files_le (c : Z) (n : node) : bool :=
  match n with
  | File m _ => (m <=? c)%Z
  | Dir es => (fix all (es : seq (str * node)) : bool :=
                 match es with
                 | [] => true
                 | (_, x) :: es' => files_le c x && all es'
                 end) es
  | Symlink _ => true
  end.

(** Nothing is lost from [w] to [w']: files were only written, every
    path resolves as before, what was a file is a file, and the
    directories are the same. *)
Definition nothing_lost (w w' : world) : Prop :=
  files_written w w'
  /\ (forall p, locate w' p = locate w p)
  /\ (forall p, isfile w p = true -> isfile w' p = true)
  /\ (forall p, isdir w' p = isdir w p).

(** *** The getters *)

(** A task with an automatic submission. *)
Definition submit_params : pydict :=
  [("type", PStr "Batch"); ("time", PInt 3); ("memory", PInt 64);
   ("graders", PList [PStr "checker.cpp"]);
   ("auto_submit",
    PList [PDict [("name", PStr "full"); ("score", PInt 100);
                  ("files", PList [PStr "checker.cpp"])]]);
   ("subtasks",
    PList [PDict [("score", PInt 100);
                  ("testcases", PList [PDict [("seed", PInt 1)]])]])].

Definition list_at (params : pydict) (key : str) : seq pyval :=
  match dict_get params key with Some (PList l) => l | _ => [] end.

(** The path of a statement. *)
Definition path_of (v : pyval) : str :=
  match v with
  | PDict d => match dict_get d "path" with Some (PStr p) => p | _ => "" end
  | _ => ""
  end.

(** [r] lists the absolute paths of the strings in [l], each joined to
    the task directory. *)
Definition abs_all (w : world) (td : str) (l : seq pyval) (r : pyval) : Prop :=
  exists ps, l = map PStr ps
             /\ r = PList (map (fun p => PStr (abspath w (join td p))) ps).

(** An automatic submission as [get_auto_submit_items] returns it. *)
Definition abs_submit_item (w : world) (td : str) (item new_item : pyval) : Prop :=
  exists d name score p,
    item = PDict d
    /\ dict_get d "name" = Some name
    /\ dict_get d "score" = Some score
    /\ dict_get d "files" = Some (PList [PStr p])
    /\ new_item = PDict [("name", name); ("score", score);
                         ("files", PList [PStr (abspath w (join td p))])].

(** *** Names and plain data *)

(** A string without a dot. *)
Fixpoint dotless (s : str) : bool :=
  match s with
  | EmptyString => true
  | String c s' => negb (Ascii.eqb c ".") && dotless s'
  end.

(** Every entry of the parameters other than the testcase format and
    the subtasks is plain data, and no key occurs twice. *)
Definition plain_elsewhere (params : pydict) : Prop :=
  NoDup (map fst params)
  /\ Forall (fun kv => fst kv = "existing_testcases_format"
                       \/ fst kv = "subtasks"
                       \/ plain (snd kv) = true) params.

(** *** The documented template *)

(** The template with one entry removed, and with the subtasks given by
    their numbers of testcases. *)
Definition without_key (k : str) (v : pyval) : pyval :=
  match v with
  | PDict d => PDict (filter (fun kv => negb (fst kv =? k)%string) d)
  | _ => v
  end.

Definition counted_subtasks : pyval :=
  PList [PDict [("score", PInt 10); ("num_testcases", PInt 2)];
         PDict [("score", PInt 90); ("num_testcases", PInt 2)]].

Definition with_key (k : str) (x v : pyval) : pyval :=
  match v with
  | PDict d => PDict (dict_set d k x)
  | _ => v
  end.

(** A task directory that holds every file the template names. *)
Definition template_root : node :=
  Dir [("task",
        Dir [("checker.cpp", File 1%Z ""); ("task.h", File 1%Z "");
             ("manager.cpp", File 1%Z ""); ("statement.pdf", File 1%Z "");
             ("attachment.zip", File 1%Z ""); ("prog.cpp", File 1%Z "");
             ("graders", Dir [("grader.cpp", File 1%Z "")]);
             ("testcases",
              Dir [("1.in", File 1%Z ""); ("1.out", File 1%Z "");
                   ("2.in", File 1%Z ""); ("2.out", File 1%Z "");
                   ("3.in", File 1%Z ""); ("3.out", File 1%Z "");
                   ("4.in", File 1%Z ""); ("4.out", File 1%Z "")])])].

Definition template_world : world := mkWorld template_root [] 10%Z [].

(** *** Generating every testcase *)

(** A plain file name: one path component, not "", "." or "..". *)
Definition plain_name (name : str) : bool :=
  negb (startswith name "/")
  && match split_path name with [x] => (x =? name)%string | _ => false end
  && negb (is_special name) && negb (name =? "..")%string.

(** The generation directory [g] is the existing directory at the
    canonical path [D]: a plain name joined to [g] is an entry of [D]. *)
Definition gen_dir_at (w : world) (g : str) (D : seq str) : Prop :=
  forall name, plain_name name = true -> entry_of w (join g name) = Some (D ++ [name]).

(** What the task module returns for the testcase [t] of the subtask
    [s], when it is a mapping with an input and an output string. *)
Definition returned (cb : pydict -> result pyval) (subs : seq pyval) (s t : nat)
    : option (str * str) :=
  match nth_error subs s with
  | Some subtask =>
      match getitem subtask "testcases" with
      | Ok (PList testcases) =>
          match nth_error testcases t with
          | Some (PDict args) =>
              match cb args with
              | Ok (PDict io) =>
                  match dict_get io "input", dict_get io "output" with
                  | Some (PStr input), Some (PStr output) => Some (input, output)
                  | _, _ => None
                  end
              | _ => None
              end
          | _ => None
          end
      | _ => None
      end
  | None => None
  end.

(** The module answers every testcase of the parameters with an input
    and an output. *)
Definition answers_all (cb : pydict -> result pyval) (subs : seq pyval) : Prop :=
  forall s t subtask testcases,
    nth_error subs s = Some subtask ->
    getitem subtask "testcases" = Ok (PList testcases) ->
    t < List.length testcases ->
    returned cb subs s t <> None.

(** The files of the testcase [t] of the subtask [s] hold in [w] what
    the module returned, stamped with the clock of [w0]. *)
Definition holds (cb : pydict -> result pyval) (D : seq str) (subs : seq pyval)
    (w0 w : world) (s t : nat) : Prop :=
  forall inp out,
    returned cb subs s t = Some (inp, out) ->
    entry_at w (D ++ [Constants.input_namer s t None])
    = Some (KFile (clock w0) inp)
    /\ entry_at w (D ++ [Constants.output_namer s t None])
       = Some (KFile (clock w0) out).

(** What every step of the loops of [generate_testcases] keeps of the
    world [w0] it started in. *)
Definition ready (g : str) (D : seq str) (w0 w : world) : Prop :=
  (cwd w = cwd w0 /\ clock w = clock w0 /\ procs w = procs w0)
  /\ gen_dir_at w g D
  /\ forall name, plain_name name = true -> file_or_none (entry_at w (D ++ [name])).

(** ** Examples *)

Example realpath_examples :
  map (realpath demo_world)
      ["/srv/task/a.cpp"; "/srv/task/../task-extra/secret.c"; "/srv/task/out";
       "/srv/alias/sub/./b.txt"; "task/up/secret.c"; "/srv/task/missing/x"; "/"; "/.."]
  = ["/srv/task/a.cpp"; "/srv/task-extra/secret.c"; "/etc/passwd";
     "/srv/task/sub/b.txt"; "/srv/task-extra/secret.c"; "/srv/task/missing/x"; "/"; "/"].
Proof. vm_compute. reflexivity. Qed.

Example isfile_examples :
  map (isfile demo_world)
      ["/srv/task/a.cpp"; "/srv/task/sub"; "/srv/task/out"; "/srv/task/missing/../a.cpp";
       "/srv/task/a.cpp/"; ""; "task/a.cpp"]
  = [true; false; true; false; false; false; true].
Proof. vm_compute. reflexivity. Qed.

Example input_namer_first : Constants.input_namer 0 0 None = "01.01.in".
Proof. reflexivity. Qed.

Example splitext_examples :
  map splitext_ext ["a/b.c/d"; "x.tar.gz"; ".bashrc"; "dir/..hid.txt"; "a."; "..."]
  = [""; ".gz"; ""; ".txt"; "."; ""].
Proof. vm_compute. reflexivity. Qed.

Example join_examples :
  map (fun p => join (fst p) (snd p))
      [("/a", "b"); ("/a/", "b"); ("/a", "/b"); ("", "b"); ("/a", "")]
  = ["/a/b"; "/a/b"; "/b"; "b"; "/a/"].
Proof. vm_compute. reflexivity. Qed.

(** ** Strings and names *)

Lemma str_length_app (a b : str) :
  String.length (a ++ b) = String.length a + String.length b.
Proof. induction a as [|c a IH]; simpl; [reflexivity | now rewrite IH]. Qed.

Lemma namer_shape_all :
  forallb (fun s => forallb (namer_shape s) (List.seq 0 200)) (List.seq 0 100) = true.
Proof. vm_compute. reflexivity. Qed.

Lemma namer_shape_ok (s t : nat) : s < 100 -> t < 200 -> namer_shape s t = true.
Proof.
  intros Hs Ht.
  pose proof namer_shape_all as H.
  rewrite forallb_forall in H.
  specialize (H s). rewrite in_seq in H.
  assert (Hin : forallb (namer_shape s) (List.seq 0 200) = true) by (apply H; lia).
  rewrite forallb_forall in Hin. apply Hin. rewrite in_seq. lia.
Qed.

(** C10 (as amended): for every admissible subtask index [s] (below 100)
    and testcase index [t] (below 200) the default namers print the
    1-based subtask number and the 1-based testcase number in decimal,
    padded with zeros to at least two digits, joined by "." and followed
    by ".in" and ".out": two digits up to 99 and three digits for 100 to
    200. *)
Theorem default_namers_zero_padded (s t : nat) (o : option nat) :
  s < 100 -> t < 200 ->
  exists a b,
    two_numerals (Constants.input_namer s t o) ".in" a b
    /\ two_numerals (Constants.output_namer s t o) ".out" a b
    /\ decimal a = Some (s + 1) /\ decimal b = Some (t + 1)
    /\ String.length a = (if s + 1 <? 100 then 2 else 3)%nat
    /\ String.length b = (if t + 1 <? 100 then 2 else 3)%nat.
Proof.
  intros Hs Ht.
  exists (format_0d 2 (s + 1)), (format_0d 2 (t + 1)).
  split; [reflexivity|]. split; [reflexivity|].
  pose proof (namer_shape_ok s t Hs Ht) as H.
  unfold namer_shape in H.
  destruct (decimal (format_0d 2 (s + 1))) as [x|]; [|discriminate].
  destruct (decimal (format_0d 2 (t + 1))) as [y|]; [|discriminate].
  rewrite !andb_true_iff, !Nat.eqb_eq in H.
  destruct H as [[[Hx Hy] Ha] Hb].
  subst x y. repeat split; assumption.
Qed.

Lemma default_namers_zero_padded_witness :
  (0 < 100 /\ 98 < 200) /\
  exists a b,
    two_numerals (Constants.input_namer 0 98 None) ".in" a b
    /\ two_numerals (Constants.output_namer 0 98 None) ".out" a b
    /\ decimal a = Some 1 /\ decimal b = Some 99
    /\ String.length a = 2 /\ String.length b = 2.
Proof.
  split; [lia|].
  apply (default_namers_zero_padded 0 98 None); lia.
Defined.

(** C10 (as stated) fails: testcase index 99 of a subtask is admissible
    and its number, 100, is printed with three digits. *)
Lemma default_namers_three_digits :
  (0 < 100 /\ 99 < 200)
  /\ Constants.input_namer 0 99 None = "01.100.in"
  /\ Constants.output_namer 0 99 None = "01.100.out"
  /\ ~ (exists a b, String.length a = 2 /\ String.length b = 2
                    /\ two_numerals (Constants.input_namer 0 99 None) ".in" a b).
Proof.
  split; [lia|]. split; [reflexivity|]. split; [reflexivity|].
  intros (a & b & Ha & Hb & H).
  apply (f_equal String.length) in H.
  unfold two_numerals in H.
  rewrite !str_length_app, Ha, Hb in H. vm_compute in H. discriminate.
Qed.

(** ** The path guard *)

Lemma file_non_string (w : world) (v : pyval) (b : option str) :
  (forall s, v <> PStr s) -> Validator.file w v b = false.
Proof. intros H. destruct v; try reflexivity. now destruct (H s). Qed.

Lemma dir_non_string (w : world) (v : pyval) (b : option str) :
  (forall s, v <> PStr s) -> Validator.dir w v b = false.
Proof. intros H. destruct v; try reflexivity. now destruct (H s). Qed.

Lemma file_guarded (w : world) (b p : str) :
  Validator.file w (PStr p) (Some b)
  = startswith (realpath w (join b p)) b && isfile w (realpath w (join b p)).
Proof.
  unfold Validator.file.
  change (Validator.string (PStr p) None None) with true. cbv zeta.
  destruct (startswith (realpath w (join b p)) b); reflexivity.
Qed.

Lemma dir_guarded (w : world) (b p : str) :
  Validator.dir w (PStr p) (Some b)
  = startswith (realpath w (join b p)) b && isdir w (realpath w (join b p)).
Proof.
  unfold Validator.dir.
  change (Validator.string (PStr p) None None) with true. cbv zeta.
  destruct (startswith (realpath w (join b p)) b); reflexivity.
Qed.

(** The guard does its work on the paths it was written for: [..]
    segments and links that lead out of the task directory to a place
    whose name does not extend the task directory's. *)
Example guard_rejects_link_and_dotdot :
  map (fun p => Validator.file site (PStr p) (Some "/srv/task"))
      ["checker.cpp"; "notes/plan.txt"; "passwd"; "../../etc/passwd"; "/etc/passwd"; "notes"]
  = [true; true; false; false; false; false].
Proof. vm_compute. reflexivity. Qed.

(** C2: the containment check of [Validator.file] and [Validator.dir] is
    the string-prefix test of the canonicalized joined path against the
    base directory as supplied; so there are a base directory and a path
    whose canonical form is outside the tree rooted at the base directory
    but begins with its characters (a sibling named base + "-extra"), and
    [Validator.file] returns True for the file there. *)
Theorem guard_is_string_prefix_test :
  (forall w b p,
     Validator.file w (PStr p) (Some b)
     = startswith (realpath w (join b p)) b && isfile w (realpath w (join b p)))
  /\ (forall w b p,
        Validator.dir w (PStr p) (Some b)
        = startswith (realpath w (join b p)) b && isdir w (realpath w (join b p)))
  /\ exists w b p,
       realpath w (join b p) = (b ++ "-extra/secret.c")%string
       /\ inside w b (join b p) = false
       /\ startswith (realpath w (join b p)) b = true
       /\ isfile w (realpath w (join b p)) = true
       /\ Validator.file w (PStr p) (Some b) = true.
Proof.
  split; [exact file_guarded|]. split; [exact dir_guarded|].
  exists site, "/srv/task", "../task-extra/secret.c".
  vm_compute. repeat split; reflexivity.
Qed.

(** C1 (the code departs from it): a path that leaves the task directory
    is accepted when its canonical form still begins with the characters
    of the base directory.  The sibling directory [/srv/task-extra] is
    outside [/srv/task], yet the file in it passes [Validator.file] and a
    task description that lists it as an attachment is validated; and
    with the task directory given through a link ([/srv/alias]) a file
    whose canonical path does not start with the task directory's
    canonical path passes as well. *)
Theorem guard_accepts_escaping_path :
  inside site "/srv/task" (join "/srv/task" "../task-extra/secret.c") = false
  /\ Validator.file site (PStr "../task-extra/secret.c") (Some "/srv/task") = true
  /\ Validator.assert_task_params site (PDict site_params) "/srv/task" None = Ok tt
  /\ realpath site "/srv/alias" = "/srv/task"
  /\ startswith (realpath site (join "/srv/alias" "/srv/alias.bak"))
                (realpath site "/srv/alias") = false
  /\ Validator.file site (PStr "/srv/alias.bak") (Some "/srv/alias") = true.
Proof. vm_compute. repeat split; reflexivity. Qed.

(** ** The audit of a generated directory *)

(** C8 (the code departs from it): with a generation directory supplied
    and no existing-testcases format, the testcase's "input" and "output"
    paths are checked against the task directory, not the generation
    directory.  Files that exist under the generation directory [/g] are
    refused, and names that exist only under the task directory [/t] are
    accepted. *)
Theorem audit_checks_against_task_dir :
  (isfile audit "/g/01.01.in" = true /\ isfile audit "/g/01.01.out" = true)
  /\ Validator.file audit (PStr "/g/01.01.in") (Some "/g") = true
  /\ is_ok (Validator.assert_testcase audit
              (audit_params "/g/01.01.in" "/g/01.01.out") 0 0 0 "/t" (Some "/g"))
     = false
  /\ is_ok (Validator.assert_task_params audit
              (PDict (audit_params "/g/01.01.in" "/g/01.01.out")) "/t" (Some "/g"))
     = false
  /\ (Validator.file audit (PStr "a.in") (Some "/g") = false
      /\ Validator.file audit (PStr "a.out") (Some "/g") = false)
  /\ Validator.assert_testcase audit (audit_params "a.in" "a.out") 0 0 0 "/t" (Some "/g")
     = Ok tt
  /\ Validator.assert_task_params audit (PDict (audit_params "a.in" "a.out")) "/t" (Some "/g")
     = Ok tt.
Proof. vm_compute. repeat split; reflexivity. Qed.

(** ** Subtasks *)

Lemma rbind_ok {A B} (r : result A) (k : A -> result B) (b : B) :
  rbind r k = Ok b -> exists a, r = Ok a /\ k a = Ok b.
Proof. destruct r as [a|m]; simpl; [eauto | discriminate]. Qed.

Ltac bind_ok H :=
  let a := fresh "a" in
  let Ha := fresh "Ha" in
  apply rbind_ok in H; destruct H as (a & Ha & H).

Lemma not_below_iff (z lo : Z) :
  Validator.below (inject_Z z) (Some (inject_Z lo)) = false <-> (lo <= z)%Z.
Proof.
  unfold Validator.below. rewrite negb_false_iff, Qle_bool_iff, <- Zle_Qle.
  reflexivity.
Qed.

Lemma not_above_iff (z hi : Z) :
  Validator.above (inject_Z z) (Some (inject_Z hi)) = false <-> (z <= hi)%Z.
Proof.
  unfold Validator.above. rewrite negb_false_iff, Qle_bool_iff, <- Zle_Qle.
  reflexivity.
Qed.

Lemma number_int_range (v : pyval) (lo hi : Z) :
  Validator.number v false (Some (inject_Z lo)) (Some (inject_Z hi)) = true
  <-> int_between lo hi v.
Proof.
  unfold Validator.number, int_between, is_int_value, is_float_value,
    numeric_value.
  split.
  - destruct (int_value v) as [z|] eqn:Hz.
    + cbn [negb andb].
      destruct (Validator.below _ _) eqn:Hlo; [discriminate|].
      destruct (Validator.above _ _) eqn:Hhi; [discriminate|].
      intros _. exists z. apply not_below_iff in Hlo. apply not_above_iff in Hhi.
      split; [reflexivity | lia].
    + destruct (float_value v); simpl; discriminate.
  - intros (z & Hz & Hlo & Hhi). rewrite Hz. cbn [negb andb].
    apply not_below_iff in Hlo. apply not_above_iff in Hhi.
    now rewrite Hlo, Hhi.
Qed.

Lemma numbers_list_spec (c : pyval) (n : nat) (lo hi : Z) :
  Validator.numbers_list c None (Some n) (Some (inject_Z lo)) (Some (inject_Z hi)) = true
  <-> exists l, c = PList l /\ List.length l <= n /\ Forall (int_between lo hi) l.
Proof.
  unfold Validator.numbers_list, Validator.list. split.
  - destruct c; simpl; try discriminate.
    destruct (n <? List.length l) eqn:Hlen; simpl; [discriminate|].
    intros H. exists l. apply Nat.ltb_ge in Hlen.
    split; [reflexivity|]. split; [assumption|].
    rewrite forallb_forall in H. apply Forall_forall.
    intros v Hv. apply number_int_range. now apply H.
  - intros (l & -> & Hlen & Hall). simpl.
    apply Nat.ltb_ge in Hlen. rewrite Hlen. simpl.
    apply forallb_forall. intros v Hv. apply number_int_range.
    rewrite Forall_forall in Hall. now apply Hall.
Qed.

Lemma assert_value_ok (w : world) (v : pyval) (name : str) (kw : Validator.kwargs) :
  Validator.assert_value w v "numbers_list" name kw = Ok tt ->
  Validator.numbers_list v (Validator.min_list_len kw) (Validator.max_list_len kw)
    (Validator.min_val kw) (Validator.max_val kw) = true.
Proof.
  unfold Validator.assert_value. simpl.
  destruct (Validator.numbers_list _ _ _ _ _); simpl; [reflexivity | discriminate].
Qed.

(** What a successful [assert_subtask] says about a "contains" entry. *)
Lemma assert_subtask_contains (w : world) (params : pydict) (i acc : nat)
    (td : str) (gd : option str) (n : nat)
    (subs : seq pyval) (sd : pydict) (c : pyval) :
  dict_get params "subtasks" = Some (PList subs) ->
  nth_error subs i = Some (PDict sd) ->
  dict_get sd "contains" = Some c ->
  Validator.assert_subtask w params i acc td gd = Ok n ->
  exists l, c = PList l /\ List.length l <= i
            /\ Forall (int_between 1 (Z.of_nat i)) l.
Proof.
  intros Hsubs Hnth Hc H.
  unfold Validator.assert_subtask in H.
  unfold getitem at 1 in H. rewrite Hsubs in H. cbn [rbind] in H.
  unfold getindex at 1 in H. rewrite Hnth in H. cbn [rbind] in H.
  change (Validator.dict (PDict sd) None None) with true in H. cbn [negb] in H.
  bind_ok H. destruct (negb a); [discriminate|].
  bind_ok H. bind_ok H. bind_ok H.
  unfold contains, dict_has in Ha2. rewrite Hc in Ha2. injection Ha2 as <-.
  apply rbind_ok in H. destruct H as (u & Hcont & _).
  apply rbind_ok in Hcont. destruct Hcont as (o & Ho & Hv).
  unfold getitem in Ho. rewrite Hc in Ho. injection Ho as <-.
  destruct u. apply assert_value_ok in Hv. simpl in Hv.
  apply numbers_list_spec in Hv. exact Hv.
Qed.

Lemma check_subtasks_each (w : world) (params : pydict) (td : str)
    (gd : option str) (indices : seq nat) :
  forall acc,
    Validator.check_subtasks w params indices acc td gd = Ok tt ->
    forall i, In i indices ->
      exists acc' n, Validator.assert_subtask w params i acc' td gd = Ok n.
Proof.
  induction indices as [|j rest IH]; intros acc H i Hi; [destruct Hi|].
  simpl in H. bind_ok H.
  destruct Hi as [<- | Hi]; [eauto | eapply IH; eauto].
Qed.

Lemma assert_task_subtasks_each (w : world) (params : pydict) (td : str)
    (gd : option str) (subs : seq pyval) (i : nat) :
  Validator.assert_task_subtasks w params td gd = Ok tt ->
  dict_get params "subtasks" = Some (PList subs) ->
  i < List.length subs ->
  exists acc n, Validator.assert_subtask w params i acc td gd = Ok n.
Proof.
  intros H Hsubs Hi. unfold Validator.assert_task_subtasks in H.
  rewrite Hsubs in H.
  destruct (negb (Validator.list (PList subs) _ _)); [discriminate|].
  eapply check_subtasks_each; [exact H|].
  apply in_seq. simpl. lia.
Qed.

Lemma assert_task_params_subtasks (w : world) (params : pydict) (td : str)
    (gd : option str) :
  Validator.assert_task_params w (PDict params) td gd = Ok tt ->
  Validator.assert_task_subtasks w params td gd = Ok tt.
Proof.
  unfold Validator.assert_task_params. simpl. intros H.
  destruct (negb (isdir w td)); [discriminate|].
  repeat (bind_ok H). exact H.
Qed.

(** C9: when validation succeeds, the "contains" entry of the subtask at
    0-based index [i] is a list of at most [i] integers, each between 1
    and [i]: every referenced 1-based index is strictly less than the
    subtask's own 1-based index [i + 1].  A list that refers to the
    subtask's own index or to a later one makes validation fail. *)
Theorem contains_refers_to_earlier_subtasks
    (w : world) (params : pydict) (td : str) (gd : option str)
    (subs : seq pyval) (i : nat) (sd : pydict) (c : pyval) :
  dict_get params "subtasks" = Some (PList subs) ->
  nth_error subs i = Some (PDict sd) ->
  dict_get sd "contains" = Some c ->
  (Validator.assert_task_params w (PDict params) td gd = Ok tt ->
   exists l, c = PList l /\ List.length l <= i
             /\ Forall (fun v => exists z, int_value v = Some z
                                  /\ (1 <= z <= Z.of_nat i)%Z
                                  /\ (z < Z.of_nat (i + 1))%Z) l)
  /\ (forall l v z,
        c = PList l -> In v l -> int_value v = Some z ->
        (Z.of_nat (i + 1) <= z)%Z ->
        is_ok (Validator.assert_task_params w (PDict params) td gd) = false).
Proof.
  intros Hsubs Hnth Hc.
  assert (Hvalid : Validator.assert_task_params w (PDict params) td gd = Ok tt ->
                   exists l, c = PList l /\ List.length l <= i
                             /\ Forall (int_between 1 (Z.of_nat i)) l).
  { intros H. apply assert_task_params_subtasks in H.
    assert (Hi : i < List.length subs)
      by (apply nth_error_Some; rewrite Hnth; discriminate).
    destruct (assert_task_subtasks_each _ _ _ _ _ _ H Hsubs Hi) as (acc & n & Hsub).
    eapply assert_subtask_contains; eauto. }
  split.
  - intros H. destruct (Hvalid H) as (l & -> & Hlen & Hall).
    exists l. split; [reflexivity|]. split; [assumption|].
    eapply Forall_impl; [|exact Hall].
    intros v (z & Hz & Hrange). exists z. repeat split; try lia. assumption.
  - intros l v z -> Hin Hz Hbig.
    destruct (Validator.assert_task_params w (PDict params) td gd) as [[]|m] eqn:E;
      [|reflexivity].
    destruct (Hvalid eq_refl) as (l' & Heq & _ & Hall).
    injection Heq as <-.
    rewrite Forall_forall in Hall.
    destruct (Hall v Hin) as (z' & Hz' & Hrange).
    rewrite Hz in Hz'. injection Hz' as <-. lia.
Qed.

Lemma contains_refers_to_earlier_subtasks_witness :
  Validator.assert_task_params site (PDict (two_subtasks [PInt 1])) "/srv/task" None = Ok tt
  /\ exists l, PList [PInt 1] = PList l /\ List.length l <= 1
       /\ Forall (fun v => exists z, int_value v = Some z
                            /\ (1 <= z <= Z.of_nat 1)%Z
                            /\ (z < Z.of_nat (1 + 1))%Z) l.
Proof.
  assert (Hvalid : Validator.assert_task_params site (PDict (two_subtasks [PInt 1]))
                     "/srv/task" None = Ok tt) by (vm_compute; reflexivity).
  split; [exact Hvalid|].
  refine (proj1 (contains_refers_to_earlier_subtasks site (two_subtasks [PInt 1])
                   "/srv/task" None _ 1 _ (PList [PInt 1]) _ _ _) Hvalid);
    reflexivity.
Defined.

(** The scenario of the specification: the second subtask (index 2,
    1-based) containing [3], or itself, fails validation; so does the
    first subtask containing anything. *)
Example contains_scenarios :
  map (fun c => is_ok (Validator.assert_task_params site (PDict (two_subtasks c))
                         "/srv/task" None))
      [[]; [PInt 1]; [PInt 3]; [PInt 2]; [PInt 0]; [PInt 1; PInt 1]; [PFloat 1]; [PBool true]]
  = [true; true; false; false; false; false; false; true].
Proof. vm_compute. reflexivity. Qed.

(** ** Staleness *)

Lemma node_nested_ind (P : node -> Prop) :
  (forall m d, P (File m d)) ->
  (forall es, Forall (fun e => P (snd e)) es -> P (Dir es)) ->
  (forall t, P (Symlink t)) ->
  forall n, P n.
Proof.
  intros HF HD HS. fix IH 1. intros [m d|es|t]; [apply HF| |apply HS].
  apply HD. induction es as [|[k v] es IHes]; constructor;
    [apply IH | exact IHes].
Qed.

Lemma str_in_iff (s : str) (l : seq str) : str_in s l = true <-> In s l.
Proof.
  unfold str_in. rewrite existsb_exists. split.
  - intros (x & Hx & Heq). apply String.eqb_eq in Heq. now subst.
  - intros H. exists s. split; [assumption | apply String.eqb_refl].
Qed.

Lemma file_irrelevant_iff (r f : str) :
  TaskProcessor.is_file_irrelevant r f = true <-> skipped_file_name f.
Proof.
  unfold TaskProcessor.is_file_irrelevant, skipped_file_name.
  destruct (startswith f ".").
  - split; auto.
  - rewrite str_in_iff. unfold Constants.gen_check_ignore_exts.
    split; [auto | intros [H|H]; [discriminate | assumption]].
Qed.

Lemma keep_dir_iff (r d : str) : keep_dir r d = true <-> ~ pruned_dir_name d.
Proof.
  unfold keep_dir, TaskProcessor.is_dir_irrelevant, pruned_dir_name.
  rewrite negb_true_iff, orb_false_iff.
  change Constants.gen_check_ignore_dirs with ["auto.gen"].
  split.
  - intros [H1 H2] [H|H]; [congruence|].
    apply str_in_iff in H. congruence.
  - intros H. split.
    + destruct (startswith d "."); [exfalso; auto | reflexivity].
    + destruct (str_in d ["auto.gen"]) eqn:E; [|reflexivity].
      apply str_in_iff in E. exfalso; auto.
Qed.

Lemma walk_visits (w : world) (n : node) :
  forall top r ds fs f,
    In (r, ds, fs) (TaskProcessor.walk w keep_dir top n) ->
    In f fs -> ~ skipped_file_name f ->
    visited w top n (join r f).
Proof.
  induction n as [m d|es IH|t] using node_nested_ind;
    intros top r ds fs f Hin Hf Hskip; simpl in Hin; try contradiction.
  destruct Hin as [Heq | Hin].
  - injection Heq as <- _ <-.
    apply in_map_iff in Hf. destruct Hf as ([name child] & <- & Hf).
    apply filter_In in Hf. destruct Hf as [Hf Hlisted]. simpl in *.
    apply negb_true_iff in Hlisted.
    eapply visited_here; eauto.
  - apply in_flat_map in Hin. destruct Hin as ([name child] & He & Hin).
    simpl in Hin. rewrite Forall_forall in IH.
    destruct child as [m d|es'|t]; try contradiction.
    destruct (keep_dir top name) eqn:Hkeep; [|contradiction].
    eapply visited_below; [exact He | now apply (keep_dir_iff top) |].
    exact (IH _ He _ _ _ _ _ Hin Hf Hskip).
Qed.

Lemma visited_walked (w : world) (top : str) (n : node) (fp : str) :
  visited w top n fp ->
  exists r ds fs f,
    In (r, ds, fs) (TaskProcessor.walk w keep_dir top n)
    /\ In f fs /\ ~ skipped_file_name f /\ fp = join r f.
Proof.
  induction 1 as [top es name child Hin Hlisted Hskip
                 |top es name es' fp Hin Hkeep Hsub IH].
  - eexists top, _, _, name. split; [simpl; left; reflexivity|].
    split; [|split; [assumption | reflexivity]].
    apply in_map_iff. exists (name, child). split; [reflexivity|].
    apply filter_In. split; [assumption|]. simpl. now rewrite Hlisted.
  - destruct IH as (r & ds & fs & f & Hw & Hf & Hskip & ->).
    exists r, ds, fs, f. split; [|auto].
    simpl. right. apply in_flat_map. exists (name, Dir es').
    split; [assumption|]. simpl.
    apply (keep_dir_iff top) in Hkeep. now rewrite Hkeep.
Qed.

Lemma newer_in_spec (w : world) (last : Z) (r : str) (files : seq str) :
  (forall f, In f files -> ~ skipped_file_name f ->
             is_ok (getmtime w (join r f)) = true) ->
  exists b,
    TaskProcessor.newer_in w last r files = Ok b
    /\ (b = true <->
        exists f t, In f files /\ ~ skipped_file_name f
                    /\ getmtime w (join r f) = Ok t /\ (last < t)%Z).
Proof.
  induction files as [|f files IH]; intros Hstat; simpl.
  - exists false. split; [reflexivity|].
    split; [discriminate | intros (f & t & [] & _)].
  - destruct IH as (b & Hb & Hiff); [intros; apply Hstat; simpl; auto|].
    destruct (TaskProcessor.is_file_irrelevant r f) eqn:Hirr.
    + exists b. split; [assumption|]. rewrite Hiff. split.
      * intros (f' & t & Hin & H). exists f', t. simpl; auto.
      * intros (f' & t & [<- | Hin] & Hskip & H).
        -- apply file_irrelevant_iff in Hirr. contradiction.
        -- exists f', t. auto.
    + assert (Hskip : ~ skipped_file_name f).
      { intros H. apply (file_irrelevant_iff r) in H. congruence. }
      specialize (Hstat f (or_introl eq_refl) Hskip).
      destruct (getmtime w (join r f)) as [t|m] eqn:Ht; [|discriminate].
      simpl. destruct (last <? t)%Z eqn:Hlt.
      * exists true. split; [reflexivity|]. split; [|reflexivity].
        intros _. exists f, t. apply Z.ltb_lt in Hlt. simpl; auto.
      * exists b. split; [assumption|]. rewrite Hiff. split.
        -- intros (f' & t' & Hin & H). exists f', t'. simpl; auto.
        -- intros (f' & t' & [<- | Hin] & Hskip' & Ht' & Hlt').
           ++ rewrite Ht in Ht'. injection Ht' as <-.
              apply Z.ltb_ge in Hlt. lia.
           ++ exists f', t'. auto.
Qed.

Lemma newer_under_spec (w : world) (last : Z)
    (triples : seq (str * seq str * seq str)) :
  (forall r ds fs f, In (r, ds, fs) triples -> In f fs -> ~ skipped_file_name f ->
                     is_ok (getmtime w (join r f)) = true) ->
  exists b,
    TaskProcessor.newer_under w last triples = Ok b
    /\ (b = true <->
        exists r ds fs f t,
          In (r, ds, fs) triples /\ In f fs /\ ~ skipped_file_name f
          /\ getmtime w (join r f) = Ok t /\ (last < t)%Z).
Proof.
  induction triples as [|[[r ds] fs] triples IH]; intros Hstat; simpl.
  - exists false. split; [reflexivity|].
    split; [discriminate | intros (r & ds & fs & f & t & [] & _)].
  - destruct IH as (b & Hb & Hiff).
    { intros r' ds' fs' f Hin. apply (Hstat r' ds' fs' f). simpl; auto. }
    destruct (newer_in_spec w last r fs) as (b0 & Hb0 & Hiff0).
    { intros f. apply (Hstat r ds fs f). simpl; auto. }
    rewrite Hb0. simpl. destruct b0.
    + exists true. split; [reflexivity|]. split; [|reflexivity].
      intros _. destruct (proj1 Hiff0 eq_refl) as (f & t & Hf & H).
      exists r, ds, fs, f, t. simpl; auto.
    + exists b. split; [assumption|]. rewrite Hiff. split.
      * intros (r' & ds' & fs' & f & t & Hin & H).
        exists r', ds', fs', f, t. simpl; auto.
      * intros (r' & ds' & fs' & f & t & [Heq | Hin] & Hf & H).
        -- injection Heq as <- <- <-.
           assert (false = true) by (apply Hiff0; eauto). discriminate.
        -- exists r', ds', fs', f, t. auto.
Qed.

Lemma newer_in_sound (w : world) (last : Z) (r : str) (files : seq str) :
  TaskProcessor.newer_in w last r files = Ok true ->
  exists f t, In f files /\ ~ skipped_file_name f
              /\ getmtime w (join r f) = Ok t /\ (last < t)%Z.
Proof.
  induction files as [|f files IH]; simpl; [discriminate|].
  destruct (TaskProcessor.is_file_irrelevant r f) eqn:Hirr.
  - intros H. destruct (IH H) as (f' & t & Hin & Hrest).
    exists f', t. simpl; auto.
  - intros H. bind_ok H. destruct (last <? a)%Z eqn:Hlt.
    + exists f, a. split; [simpl; auto|]. split.
      * intros Hs. apply (file_irrelevant_iff r) in Hs. congruence.
      * split; [assumption | now apply Z.ltb_lt].
    + destruct (IH H) as (f' & t & Hin & Hrest). exists f', t. simpl; auto.
Qed.

Lemma newer_under_sound (w : world) (last : Z)
    (triples : seq (str * seq str * seq str)) :
  TaskProcessor.newer_under w last triples = Ok true ->
  exists r ds fs f t,
    In (r, ds, fs) triples /\ In f fs /\ ~ skipped_file_name f
    /\ getmtime w (join r f) = Ok t /\ (last < t)%Z.
Proof.
  induction triples as [|[[r ds] fs] triples IH]; simpl; [discriminate|].
  intros H. bind_ok H. destruct a.
  - destruct (newer_in_sound _ _ _ _ Ha) as (f & t & Hf & Hrest).
    exists r, ds, fs, f, t. simpl; auto.
  - destruct (IH H) as (r' & ds' & fs' & f & t & Hin & Hrest).
    exists r', ds', fs', f, t. simpl; auto.
Qed.

Lemma newer_in_false (w : world) (last : Z) (r : str) (files : seq str) :
  TaskProcessor.newer_in w last r files = Ok false ->
  forall f, In f files -> ~ skipped_file_name f ->
            exists t, getmtime w (join r f) = Ok t /\ (t <= last)%Z.
Proof.
  induction files as [|f0 files IH]; simpl; [intros _ f []|].
  destruct (TaskProcessor.is_file_irrelevant r f0) eqn:Hirr.
  - intros H f [<- | Hin] Hskip; [|now apply IH].
    apply file_irrelevant_iff in Hirr. contradiction.
  - intros H. bind_ok H. destruct (last <? a)%Z eqn:Hlt; [discriminate|].
    intros f [<- | Hin] Hskip; [|now apply IH].
    exists a. split; [assumption | now apply Z.ltb_ge].
Qed.

Lemma newer_under_false (w : world) (last : Z)
    (triples : seq (str * seq str * seq str)) :
  TaskProcessor.newer_under w last triples = Ok false ->
  forall r ds fs f, In (r, ds, fs) triples -> In f fs -> ~ skipped_file_name f ->
                    exists t, getmtime w (join r f) = Ok t /\ (t <= last)%Z.
Proof.
  induction triples as [|[[r0 ds0] fs0] triples IH]; simpl;
    [intros _ r ds fs f []|].
  intros H. bind_ok H. destruct a; [discriminate|].
  intros r ds fs f [Heq | Hin] Hf Hskip.
  - injection Heq as <- <- <-. now apply (newer_in_false _ _ _ _ Ha).
  - now apply (IH H r ds fs).
Qed.

Lemma newer_in_raises (w : world) (last : Z) (r : str) (files : seq str) (e : str) :
  TaskProcessor.newer_in w last r files = Raise e -> e = "OSError".
Proof.
  induction files as [|f files IH]; simpl; [discriminate|].
  destruct (TaskProcessor.is_file_irrelevant r f); [exact IH|].
  unfold getmtime.
  destruct (stat w (join r f)) as [[m d| |]|]; simpl; try congruence.
  destruct (last <? m)%Z; [discriminate | exact IH].
Qed.

Lemma newer_under_raises (w : world) (last : Z)
    (triples : seq (str * seq str * seq str)) (e : str) :
  TaskProcessor.newer_under w last triples = Raise e -> e = "OSError".
Proof.
  induction triples as [|[[r ds] fs] triples IH]; simpl; [discriminate|].
  destruct (TaskProcessor.newer_in w last r fs) as [b|e'] eqn:Hin; simpl.
  - destruct b; [discriminate | exact IH].
  - intros H. injection H as <-. now apply newer_in_raises in Hin.
Qed.

Lemma isfile_getmtime (w : world) (p : str) :
  isfile w p = true -> exists t, getmtime w p = Ok t.
Proof.
  unfold isfile, getmtime.
  destruct (stat w p) as [[m d| |]|]; try discriminate. eauto.
Qed.

(** True is returned only when the task has to be generated. *)
Lemma needs_generating_stale (w : world) (task_dir gen_dir : str) :
  TaskProcessor.needs_generating w task_dir gen_dir = Ok true ->
  generation_needed w task_dir gen_dir.
Proof.
  unfold TaskProcessor.needs_generating, generation_needed.
  change (fun root dirname => negb (TaskProcessor.is_dir_irrelevant root dirname))
    with keep_dir.
  destruct (isfile w (join gen_dir "gen.error")) eqn:Herr; simpl; [auto|].
  destruct (isfile w (join gen_dir "gen.ok")) eqn:Hok; simpl; [|auto].
  destruct (isfile_getmtime _ _ Hok) as (t_ok & Hget). rewrite Hget. simpl.
  destruct (stat w task_dir) as [n|] eqn:Hn; [|discriminate].
  intros H.
  destruct (newer_under_sound _ _ _ H)
    as (r & ds & fs & f & t & Hin & Hf & Hskip & Ht & Hlt).
  right. right. exists n, (join r f), t, t_ok.
  repeat split; auto. eapply walk_visits; eauto.
Qed.

(** False is returned only when the markers say that the task was
    generated and no file looked at is newer than the ok marker; each
    of them then has a time that could be read. *)
Lemma needs_generating_up_to_date (w : world) (task_dir gen_dir : str) :
  TaskProcessor.needs_generating w task_dir gen_dir = Ok false ->
  isfile w (join gen_dir "gen.error") = false
  /\ isfile w (join gen_dir "gen.ok") = true
  /\ forall n fp,
       stat w task_dir = Some n -> visited w task_dir n fp ->
       exists t t_ok, getmtime w fp = Ok t
                      /\ getmtime w (join gen_dir "gen.ok") = Ok t_ok
                      /\ (t <= t_ok)%Z.
Proof.
  unfold TaskProcessor.needs_generating.
  change (fun root dirname => negb (TaskProcessor.is_dir_irrelevant root dirname))
    with keep_dir.
  destruct (isfile w (join gen_dir "gen.error")) eqn:Herr; simpl; [discriminate|].
  destruct (isfile w (join gen_dir "gen.ok")) eqn:Hok; simpl; [|discriminate].
  destruct (isfile_getmtime _ _ Hok) as (t_ok & Hget). rewrite Hget. simpl.
  intros H. split; [reflexivity|]. split; [reflexivity|].
  intros n fp Hn Hv. rewrite Hn in H.
  destruct (visited_walked _ _ _ _ Hv) as (r & ds & fs & f & Hin & Hf & Hskip & ->).
  destruct (newer_under_false _ _ _ H r ds fs f Hin Hf Hskip) as (t & Ht & Hle).
  exists t, t_ok. auto.
Qed.

Lemma needs_generating_returns (w : world) (task_dir gen_dir : str) :
  mtimes_readable w task_dir ->
  exists b, TaskProcessor.needs_generating w task_dir gen_dir = Ok b.
Proof.
  intros Hread. unfold TaskProcessor.needs_generating.
  change (fun root dirname => negb (TaskProcessor.is_dir_irrelevant root dirname))
    with keep_dir.
  destruct (isfile w (join gen_dir "gen.error")) eqn:Herr; simpl; [eauto|].
  destruct (isfile w (join gen_dir "gen.ok")) eqn:Hok; simpl; [|eauto].
  destruct (isfile_getmtime _ _ Hok) as (t_ok & Hget). rewrite Hget. simpl.
  destruct (stat w task_dir) as [n|] eqn:Hn; [|eauto].
  destruct (newer_under_spec w t_ok (TaskProcessor.walk w keep_dir task_dir n))
    as (b & Hb & _); [|eauto].
  intros r ds fs f Hin Hf Hskip. apply (Hread n); [exact Hn|].
  eapply walk_visits; eauto.
Qed.

Lemma needs_generating_raises (w : world) (task_dir gen_dir e : str) :
  TaskProcessor.needs_generating w task_dir gen_dir = Raise e -> e = "OSError".
Proof.
  unfold TaskProcessor.needs_generating.
  destruct (isfile w (join gen_dir "gen.error")) eqn:Herr; simpl; [discriminate|].
  destruct (isfile w (join gen_dir "gen.ok")) eqn:Hok; simpl; [|discriminate].
  destruct (isfile_getmtime _ _ Hok) as (t_ok & Hget). rewrite Hget. simpl.
  destruct (stat w task_dir) as [n|]; [|discriminate].
  apply newer_under_raises.
Qed.

(** C3: whenever [needs_generating] returns, it returns True exactly
    when the error marker exists, or the ok marker does not exist, or
    some file under the task directory that is not skipped has a
    modification time strictly greater than the ok marker's
    ([generation_needed]); the files looked at are the non-directory
    entries whose name neither starts with "." nor has an ignored
    extension, reached through directories whose name neither starts
    with "." nor is in the ignore set ([visited]).  It returns when the
    modification time of every file looked at can be read; otherwise
    it may raise, and what it raises is OSError. *)
Theorem needs_generating_iff (w : world) (task_dir gen_dir : str) :
  (forall b, TaskProcessor.needs_generating w task_dir gen_dir = Ok b ->
             (b = true <-> generation_needed w task_dir gen_dir))
  /\ (mtimes_readable w task_dir ->
      exists b, TaskProcessor.needs_generating w task_dir gen_dir = Ok b)
  /\ (forall e, TaskProcessor.needs_generating w task_dir gen_dir = Raise e ->
                e = "OSError" /\ ~ mtimes_readable w task_dir).
Proof.
  split; [|split].
  - intros [|] H.
    + split; [intros _; now apply needs_generating_stale | reflexivity].
    + split; [discriminate|]. intros Hneed. exfalso.
      destruct (needs_generating_up_to_date _ _ _ H) as (Herr & Hok & Hold).
      destruct Hneed as [Hn | [Hn | (n & fp & t & t_ok & Hn & Hv & Ht & Hto & Hlt)]];
        try congruence.
      destruct (Hold n fp Hn Hv) as (t' & t_ok' & Ht' & Hto' & Hle).
      rewrite Ht in Ht'. injection Ht' as <-.
      rewrite Hto in Hto'. injection Hto' as <-. lia.
  - apply needs_generating_returns.
  - intros e H. split; [now apply needs_generating_raises in H|].
    intros Hread.
    destruct (needs_generating_returns w task_dir gen_dir Hread) as (b & Hb).
    congruence.
Qed.

Lemma stale_mtimes_readable (source_time : Z) :
  mtimes_readable (stale source_time) "/t".
Proof.
  intros n fp Hn Hv. injection Hn as <-.
  destruct (visited_walked _ _ _ _ Hv) as (r & ds & fs & f & Hin & Hf & Hskip & ->).
  unfold skipped_file_name in Hskip. simpl in Hin.
  repeat (destruct Hin as [Heq | Hin];
          [injection Heq as <- <- <-; simpl in Hf;
           repeat (destruct Hf as [<- | Hf];
                   [first [reflexivity
                          | exfalso; apply Hskip; vm_compute; tauto]|]);
           destruct Hf|]).
  destruct Hin.
Qed.

Lemma needs_generating_iff_witness :
  mtimes_readable (stale 9%Z) "/t"
  /\ TaskProcessor.needs_generating (stale 9%Z) "/t" "/g" = Ok true
  /\ generation_needed (stale 9%Z) "/t" "/g".
Proof.
  destruct (needs_generating_iff (stale 9%Z) "/t" "/g") as (Hiff & Hret & _).
  split; [apply stale_mtimes_readable|].
  split; [vm_compute; reflexivity|].
  apply (Hiff true); [vm_compute; reflexivity | reflexivity].
Defined.

(** C3 (as stated) fails: the task has to be generated in the words of
    the specification (a source file is newer than the ok marker), and
    the staleness check does not return True but raises: it meets a
    link to nothing first. *)
Theorem needs_generating_raises_when_needed :
  generation_needed dangling_world "/t" "/g"
  /\ TaskProcessor.needs_generating dangling_world "/t" "/g" = Raise "OSError".
Proof.
  split; [|vm_compute; reflexivity].
  right. right.
  exists (Dir [("old.cpp", Symlink "gone.cpp"); ("new.cpp", File 9%Z "")]),
         (join "/t" "new.cpp"), 9%Z, 8%Z.
  split; [reflexivity|]. split.
  - apply (visited_here dangling_world "/t" _ "new.cpp" (File 9%Z "")).
    + simpl. auto.
    + reflexivity.
    + intros [H | H]; [discriminate|].
      vm_compute in H. intuition discriminate.
  - split; [reflexivity|]. split; [reflexivity | lia].
Qed.

(** Touching a relevant file after the run makes the task stale; the
    ignored, hidden and pruned entries (all newer than the marker) do
    not. *)
Example staleness_scenarios :
  map (fun t => TaskProcessor.needs_generating (stale t) "/t" "/g") [7%Z; 8%Z; 9%Z]
  = [Ok false; Ok false; Ok true].
Proof. vm_compute. reflexivity. Qed.

(** A link to nothing among the files of the task directory: its
    modification time cannot be read and the staleness check raises. *)
Example needs_generating_dangling_link :
  TaskProcessor.needs_generating
    (mkWorld (Dir [("t", Dir [("old.cpp", Symlink "gone.cpp");
                              ("new.cpp", File 9%Z "")]);
                   ("g", Dir [("gen.ok", File 8%Z "")])]) [] 100%Z [])
    "/t" "/g"
  = Raise "OSError".
Proof. vm_compute. reflexivity. Qed.

(** ** The tree under updates *)

Lemma dict_get_set_eq {V} (d : seq (str * V)) (k : str) (v : V) :
  dict_get (dict_set d k v) k = Some v.
Proof.
  induction d as [|[k' v'] d IH]; simpl.
  - now rewrite String.eqb_refl.
  - destruct (String.eqb_spec k' k); simpl.
    + now rewrite String.eqb_refl.
    + destruct (String.eqb_spec k' k); [contradiction | exact IH].
Qed.

Lemma dict_get_set_ne {V} (d : seq (str * V)) (k k' : str) (v : V) :
  k <> k' -> dict_get (dict_set d k v) k' = dict_get d k'.
Proof.
  intros Hne. induction d as [|[k0 v0] d IH]; simpl.
  - destruct (String.eqb_spec k k'); [contradiction | reflexivity].
  - destruct (String.eqb_spec k0 k) as [->|Hk]; simpl.
    + destruct (String.eqb_spec k k'); [contradiction | reflexivity].
    + destruct (String.eqb_spec k0 k'); [reflexivity | exact IH].
Qed.

Lemma dict_get_del_eq (es : seq (str * node)) (k : str) :
  dict_get (del_entry k es) k = None.
Proof.
  induction es as [|[k0 v0] es IH]; simpl; [reflexivity|].
  destruct (String.eqb_spec k0 k) as [->|Hk]; simpl; [exact IH|].
  destruct (String.eqb_spec k0 k); [contradiction | exact IH].
Qed.

Lemma dict_get_del_ne (es : seq (str * node)) (k k' : str) :
  k <> k' -> dict_get (del_entry k es) k' = dict_get es k'.
Proof.
  intros Hne. induction es as [|[k0 v0] es IH]; simpl; [reflexivity|].
  destruct (String.eqb_spec k0 k) as [->|Hk]; simpl.
  - destruct (String.eqb_spec k k'); [contradiction | exact IH].
  - destruct (String.eqb_spec k0 k'); [reflexivity | exact IH].
Qed.

Lemma dict_get_alter_eq (es : seq (str * node)) (k : str)
    (f : option node -> option node) :
  dict_get (alter_entry k f es) k = f (dict_get es k).
Proof.
  unfold alter_entry. destruct (f (dict_get es k)).
  - apply dict_get_set_eq.
  - apply dict_get_del_eq.
Qed.

Lemma dict_get_alter_ne (es : seq (str * node)) (k k' : str)
    (f : option node -> option node) :
  k <> k' -> dict_get (alter_entry k f es) k' = dict_get es k'.
Proof.
  intros Hne. unfold alter_entry. destruct (f (dict_get es k)).
  - now apply dict_get_set_ne.
  - now apply dict_get_del_ne.
Qed.

Lemma dict_get_map_entry_eq (es : seq (str * node)) (k : str) (g : node -> node) :
  dict_get (map_entry k g es) k = option_map g (dict_get es k).
Proof.
  induction es as [|[k0 v0] es IH]; simpl; [reflexivity|].
  destruct (String.eqb_spec k0 k) as [->|Hk]; simpl.
  - now rewrite String.eqb_refl.
  - destruct (String.eqb_spec k0 k); [contradiction | exact IH].
Qed.

Lemma dict_get_map_entry_ne (es : seq (str * node)) (k k' : str) (g : node -> node) :
  k <> k' -> dict_get (map_entry k g es) k' = dict_get es k'.
Proof.
  intros Hne. induction es as [|[k0 v0] es IH]; simpl; [reflexivity|].
  destruct (String.eqb_spec k0 k) as [->|Hk]; simpl.
  - destruct (String.eqb_spec k k'); [contradiction | reflexivity].
  - destruct (String.eqb_spec k0 k'); [reflexivity | exact IH].
Qed.

Lemma lookup_below_non_dir (n : node) (c : str) (q : seq str) :
  is_dir_node (Some n) = false -> lookup n (c :: q) = None.
Proof. destruct n; simpl; [reflexivity | discriminate | reflexivity]. Qed.

(** An update that neither removes nor creates a directory is not seen
    from any other path. *)
Lemma lookup_update_ne (f : option node -> option node) (p : seq str) :
  (forall o, is_dir_node (f o) = false) ->
  forall n q,
    q <> p -> is_dir_node (lookup n p) = false ->
    kind_of (lookup (update p f n) q) = kind_of (lookup n q).
Proof.
  intros Hf. induction p as [|name p' IH]; intros n q Hne Hdir; [reflexivity|].
  destruct n as [m d|es|t]; try (destruct p'; reflexivity).
  destruct q as [|c q']; [destruct p'; reflexivity|].
  destruct p' as [|c2 p''].
  - simpl. destruct (String.eqb_spec name c) as [->|Hc].
    + rewrite dict_get_alter_eq.
      destruct q' as [|c' q'']; [congruence|].
      simpl in Hdir.
      assert (Hl : match f (dict_get es c) with
                   | Some m => lookup m (c' :: q'')
                   | None => None
                   end = None).
      { specialize (Hf (dict_get es c)).
        destruct (f (dict_get es c)); [|reflexivity].
        now apply lookup_below_non_dir. }
      rewrite Hl.
      destruct (dict_get es c) as [m|]; [|reflexivity].
      now rewrite lookup_below_non_dir.
    + now rewrite dict_get_alter_ne.
  - change (update (name :: c2 :: p'') f (Dir es))
      with (Dir (map_entry name (update (c2 :: p'') f) es)).
    change (lookup (Dir (map_entry name (update (c2 :: p'') f) es)) (c :: q'))
      with (match dict_get (map_entry name (update (c2 :: p'') f) es) c with
            | Some m => lookup m q'
            | None => None
            end).
    change (lookup (Dir es) (c :: q'))
      with (match dict_get es c with Some m => lookup m q' | None => None end).
    destruct (String.eqb_spec name c) as [->|Hc].
    + rewrite dict_get_map_entry_eq.
      change (lookup (Dir es) (c :: c2 :: p''))
        with (match dict_get es c with
              | Some m => lookup m (c2 :: p'')
              | None => None
              end) in Hdir.
      destruct (dict_get es c) as [m|]; [|reflexivity].
      simpl option_map. cbv iota. apply IH; [congruence | exact Hdir].
    + now rewrite dict_get_map_entry_ne.
Qed.

Lemma lookup_app (n : node) (p q : seq str) :
  lookup n (p ++ q) = match lookup n p with
                      | Some m => lookup m q
                      | None => None
                      end.
Proof.
  revert n. induction p as [|c p IH]; intros n; [reflexivity|].
  simpl. destruct n as [| es |]; try reflexivity.
  destruct (dict_get es c); [apply IH | reflexivity].
Qed.

(** An update under an existing directory is seen at its own path. *)
Lemma lookup_update_eq (f : option node -> option node) (d : seq str) (name : str) :
  forall n,
    is_dir_node (lookup n d) = true ->
    lookup (update (d ++ [name]) f n) (d ++ [name]) = f (lookup n (d ++ [name])).
Proof.
  induction d as [|c d IH]; intros n Hdir.
  - simpl in *. destruct n as [|es|]; try discriminate.
    rewrite dict_get_alter_eq.
    destruct (dict_get es name) as [m|];
      [destruct (f (Some m)) | destruct (f None)]; reflexivity.
  - destruct n as [|es|]; try discriminate.
    change (update ((c :: d) ++ [name]) f (Dir es))
      with (update (c :: d ++ [name]) f (Dir es)).
    assert (Hu : update (c :: d ++ [name]) f (Dir es)
                 = Dir (map_entry c (update (d ++ [name]) f) es))
      by (destruct d; reflexivity).
    rewrite Hu. simpl. rewrite dict_get_map_entry_eq.
    simpl in Hdir.
    destruct (dict_get es c) as [m|]; [|discriminate].
    simpl. now apply IH.
Qed.

(** ** Path resolution *)

Lemma stat_from_nil (l : nat) (r : node) (cur : seq str) :
  stat_from l r cur [] = Some cur.
Proof. destruct l; reflexivity. Qed.

Lemma stat_from_cons (l : nat) (r : node) (cur : seq str) (name : str)
    (rest : seq str) :
  stat_from l r cur (name :: rest) =
  if negb (is_dir_node (lookup r cur)) then None
  else if is_special name then stat_from l r cur rest
  else if (name =? "..")%string then stat_from l r (removelast cur) rest
  else
    match lookup r (cur ++ [name]) with
    | Some (Symlink t) =>
        match l with
        | O => None
        | S l' =>
            stat_from l' r (if isabs t then [] else cur) (split_path t ++ rest)
        end
    | Some _ => stat_from l r (cur ++ [name]) rest
    | None =>
        match rest with
        | [] => Some (cur ++ [name])
        | _ => None
        end
    end.
Proof. destruct l; reflexivity. Qed.

Lemma split_path_not_nil (s : str) : split_path s <> [].
Proof.
  destruct s as [|c s]; simpl; [discriminate|].
  destruct (Ascii.eqb c "/"); [discriminate|].
  destruct (split_path s); discriminate.
Qed.

Lemma is_dir_node_kind (o : option node) :
  is_dir_node o = match kind_of o with Some KDir => true | _ => false end.
Proof. destruct o as [[| |]|]; reflexivity. Qed.

Lemma lookup_removelast (r : node) (cur : seq str) :
  lookup r cur <> None -> lookup r (removelast cur) <> None.
Proof.
  destruct cur as [|c cur] using rev_ind; [auto|].
  rewrite removelast_last, lookup_app.
  destruct (lookup r cur); [discriminate | auto].
Qed.

Lemma lookup_parent_dir (r : node) (d : seq str) (name : str) :
  lookup r (d ++ [name]) <> None -> is_dir_node (lookup r d) = true.
Proof.
  rewrite lookup_app. destruct (lookup r d) as [[| |]|]; simpl; congruence.
Qed.

Lemma is_dir_lookup_some (r : node) (cur : seq str) :
  is_dir_node (lookup r cur) = true -> lookup r cur <> None.
Proof. destruct (lookup r cur); [discriminate | discriminate]. Qed.

(** A resolved path names something that exists or a free name in an
    existing directory. *)
Lemma stat_from_parent (r : node) (l : nat) :
  forall cur rest q,
    stat_from l r cur rest = Some q ->
    rest <> [] \/ lookup r cur <> None ->
    lookup r q = None ->
    exists d name, q = d ++ [name] /\ is_dir_node (lookup r d) = true.
Proof.
  induction l as [|l IHl];
    (intros cur rest; revert cur;
     induction rest as [|name rest IH]; intros cur q H Hne Hq;
     [rewrite stat_from_nil in H; injection H as <-;
      destruct Hne; congruence|]);
    rewrite stat_from_cons in H;
    (destruct (is_dir_node (lookup r cur)) eqn:Hdir; simpl in H; [|discriminate]);
    pose proof (is_dir_lookup_some _ _ Hdir) as Hcur;
    (destruct (is_special name);
     [apply (IH cur q H); auto|]);
    (destruct (name =? "..")%string;
     [apply (IH (removelast cur) q H); [right; now apply lookup_removelast | assumption]|]);
    destruct (lookup r (cur ++ [name])) as [[m d|es|t]|] eqn:Hl;
    try (apply (IH (cur ++ [name]) q H); [right; congruence | assumption]);
    try discriminate.
  - destruct rest; [|discriminate]. injection H as <-. eauto.
  - apply (IHl _ _ q H); [|assumption].
    left. intros Heq. apply app_eq_nil in Heq.
    now apply (split_path_not_nil t).
  - destruct rest; [|discriminate]. injection H as <-. eauto.
Qed.

Lemma stat_from_root_dir (r : node) (l : nat) (cur rest q : seq str) :
  stat_from l r cur rest = Some q -> rest <> [] -> is_dir_node (Some r) = true.
Proof.
  intros H Hne. destruct rest as [|name rest]; [congruence|].
  rewrite stat_from_cons in H.
  destruct (is_dir_node (lookup r cur)) eqn:Hdir; [|discriminate].
  destruct cur as [|c cur]; [exact Hdir|].
  destruct r; simpl in Hdir; try discriminate. reflexivity.
Qed.

(** Where a file can be opened for writing is a name in an existing
    directory that holds a regular file or nothing. *)
Lemma open_target_ok (w : world) (path : str) (T : seq str) :
  open_target w path = Ok T ->
  (exists d name, T = d ++ [name] /\ is_dir_node (lookup (root w) d) = true)
  /\ is_dir_node (lookup (root w) T) = false
  /\ (forall t, lookup (root w) T <> Some (Symlink t)).
Proof.
  unfold open_target, locate. intros H.
  destruct (path =? "")%string; [discriminate|].
  destruct (stat_from link_budget (root w) (start_of w path) (split_path path))
    as [q|] eqn:Hq; [|discriminate].
  pose proof (split_path_not_nil path) as Hne.
  destruct (lookup (root w) q) as [[m d|es|t]|] eqn:Hl; try discriminate;
    injection H as <-.
  - split; [|split; [now rewrite Hl | rewrite Hl; discriminate]].
    destruct q as [|c q] using rev_ind.
    + apply stat_from_root_dir in Hq; [|assumption].
      simpl in Hl. injection Hl as Hl. rewrite Hl in Hq. discriminate.
    + exists q, c. split; [reflexivity|].
      apply lookup_parent_dir with (name := c). congruence.
  - split; [|split; [now rewrite Hl | rewrite Hl; discriminate]].
    eapply stat_from_parent; eauto.
Qed.

Lemma stat_from_cons_kind (l : nat) (r : node) (cur : seq str) (name : str)
    (rest : seq str) :
  stat_from l r cur (name :: rest) =
  if negb (is_dir_node (lookup r cur)) then None
  else if is_special name then stat_from l r cur rest
  else if (name =? "..")%string then stat_from l r (removelast cur) rest
  else
    match kind_of (lookup r (cur ++ [name])) with
    | Some (KLink t) =>
        match l with
        | O => None
        | S l' =>
            stat_from l' r (if isabs t then [] else cur) (split_path t ++ rest)
        end
    | Some _ => stat_from l r (cur ++ [name]) rest
    | None =>
        match rest with
        | [] => Some (cur ++ [name])
        | _ => None
        end
    end.
Proof.
  rewrite stat_from_cons.
  destruct (lookup r (cur ++ [name])) as [[| |]|]; reflexivity.
Qed.

(** Two trees that hold the same kinds everywhere, except that a file
    was written at [T] (over a file or at a free name), resolve every
    path alike. *)
Lemma stat_from_stable (r r' : node) (T : seq str) :
  (forall q, q <> T -> kind_of (lookup r' q) = kind_of (lookup r q)) ->
  (kind_of (lookup r T) = None
   \/ exists m d, kind_of (lookup r T) = Some (KFile m d)) ->
  (exists m d, kind_of (lookup r' T) = Some (KFile m d)) ->
  forall l cur rest, stat_from l r' cur rest = stat_from l r cur rest.
Proof.
  intros Hk HT (m' & d' & HT').
  assert (HdirT : is_dir_node (lookup r T) = false).
  { rewrite is_dir_node_kind. destruct HT as [-> | (m & d & ->)]; reflexivity. }
  assert (Hdir : forall q, is_dir_node (lookup r' q) = is_dir_node (lookup r q)).
  { intros q. destruct (list_eq_dec string_dec q T) as [->|Hne].
    - rewrite HdirT, is_dir_node_kind, HT'. reflexivity.
    - rewrite !is_dir_node_kind, Hk by assumption. reflexivity. }
  induction l as [|l IHl];
    (intros cur rest; revert cur;
     induction rest as [|name rest IH]; intros cur;
     [now rewrite !stat_from_nil|]);
    rewrite !stat_from_cons_kind, Hdir;
    (destruct (negb (is_dir_node (lookup r cur))); [reflexivity|]);
    (destruct (is_special name); [apply IH|]);
    (destruct (name =? "..")%string; [apply IH|]);
    (destruct (list_eq_dec string_dec (cur ++ [name]) T) as [Heq|Hne];
     [rewrite Heq, HT', IH;
      destruct HT as [HT | (m & d & HT)]; rewrite HT; [|reflexivity];
      destruct rest as [|name' rest]; [apply stat_from_nil|];
      rewrite stat_from_cons_kind, HdirT; reflexivity
     |rewrite Hk by assumption;
      destruct (kind_of (lookup r (cur ++ [name]))) as [[| |t]|];
      try apply IH; try reflexivity]).
  apply IHl.
Qed.

Lemma writes_file_not_dir (f : option node -> option node) :
  writes_file f -> forall o, is_dir_node (f o) = false.
Proof. intros Hf o. destruct (Hf o) as (m & d & ->). reflexivity. Qed.

Lemma touch_node_writes (t : Z) : writes_file (touch_node t).
Proof. intros [[m d|es|l]|]; simpl; eauto. Qed.

Lemma const_file_writes (t : Z) (data : str) :
  writes_file (fun _ => Some (File t data)).
Proof. intros o. eauto. Qed.

(** The effect of writing a file at the place [open_target] gives. *)
Lemma written (w : world) (path : str) (T : seq str)
    (f : option node -> option node) :
  open_target w path = Ok T -> writes_file f ->
  let w' := set_root w (update T f (root w)) in
  lookup (root w') T = f (lookup (root w) T)
  /\ (forall q, q <> T -> entry_at w' q = entry_at w q)
  /\ (forall p, locate w' p = locate w p).
Proof.
  intros Hopen Hf w'.
  destruct (open_target_ok _ _ _ Hopen) as ((d & name & -> & Hparent) & HdirT & Hlink).
  assert (Heq : lookup (root w') (d ++ [name]) = f (lookup (root w) (d ++ [name])))
    by (now apply lookup_update_eq).
  assert (Hother : forall q, q <> d ++ [name] -> entry_at w' q = entry_at w q).
  { intros q Hq. apply lookup_update_ne; auto using writes_file_not_dir. }
  split; [exact Heq|]. split; [exact Hother|].
  intros p. unfold locate. destruct (p =? "")%string; [reflexivity|].
  change (start_of w' p) with (start_of w p).
  apply stat_from_stable with (T := d ++ [name]).
  - exact Hother.
  - destruct (lookup (root w) (d ++ [name])) as [[m x|es|t]|] eqn:Hl;
      simpl in *; eauto; [discriminate | now destruct (Hlink t)].
  - rewrite Heq. destruct (Hf (lookup (root w) (d ++ [name]))) as (m & x & ->).
    simpl. eauto.
Qed.

Lemma kind_of_file (o : option node) (m : Z) (d : str) :
  kind_of o = Some (KFile m d) -> o = Some (File m d).
Proof. destruct o as [[| |]|]; simpl; congruence. Qed.

Lemma kind_of_none (o : option node) : kind_of o = None -> o = None.
Proof. destruct o as [[| |]|]; simpl; congruence. Qed.

Lemma write_file_ok (w : world) (path data : str) (T : seq str) :
  open_target w path = Ok T ->
  write_file path data w
  = (Ok tt, set_root w (update T (fun _ => Some (File (clock w) data)) (root w))).
Proof. intros H. unfold write_file. now rewrite H. Qed.

(** A file that was written reads back. *)
Lemma read_after_write (w w' : world) (path data : str) :
  write_file path data w = (Ok tt, w') -> read_file w' path = Ok data.
Proof.
  unfold write_file. destruct (open_target w path) as [T|e] eqn:Hopen; [|discriminate].
  intros H. injection H as <-.
  destruct (written w path T _ Hopen (const_file_writes (clock w) data))
    as (Heq & _ & Hloc).
  unfold read_file, stat. rewrite Hloc.
  unfold open_target in Hopen.
  destruct (locate w path) as [q|]; [|discriminate].
  assert (q = T) by (destruct (lookup (root w) q) as [[| |]|]; congruence).
  subst q. now rewrite Heq.
Qed.

(** Writing one file leaves every other place writable, and every file
    at another place as it was. *)
Lemma write_keeps_open (w : world) (p1 p2 : str) (T1 T2 : seq str)
    (f : option node -> option node) :
  open_target w p1 = Ok T1 -> writes_file f ->
  open_target w p2 = Ok T2 ->
  open_target (set_root w (update T1 f (root w))) p2 = Ok T2.
Proof.
  intros H1 Hf H2.
  destruct (written w p1 T1 f H1 Hf) as (Heq & Hother & Hloc).
  unfold open_target in *. rewrite Hloc.
  destruct (locate w p2) as [q|]; [|discriminate].
  assert (q = T2) by (destruct (lookup (root w) q) as [[| |]|]; congruence).
  subst q.
  destruct (list_eq_dec string_dec T2 T1) as [->|Hne].
  - rewrite Heq. destruct (Hf (lookup (root w) T1)) as (m & d & ->). reflexivity.
  - specialize (Hother T2 Hne). unfold entry_at in Hother.
    destruct (lookup (root w) T2) as [[m d| |]|] eqn:Hl; try discriminate.
    + apply kind_of_file in Hother. simpl in Hother. simpl. now rewrite Hother.
    + apply kind_of_none in Hother. simpl in Hother. simpl. now rewrite Hother.
Qed.

Lemma same_kind_read (o o' : option node) :
  kind_of o' = kind_of o ->
  match o' with Some (File _ d) => Ok d | _ => Raise "IOError" end
  = match o with Some (File _ d) => Ok d | _ => Raise "IOError" end.
Proof. destruct o as [[| |]|], o' as [[| |]|]; simpl; congruence. Qed.

Lemma read_other (w : world) (p1 p2 : str) (T1 T2 : seq str)
    (f : option node -> option node) :
  open_target w p1 = Ok T1 -> writes_file f ->
  locate w p2 = Some T2 -> T2 <> T1 ->
  read_file (set_root w (update T1 f (root w))) p2 = read_file w p2.
Proof.
  intros H1 Hf H2 Hne.
  destruct (written w p1 T1 f H1 Hf) as (_ & Hother & Hloc).
  unfold read_file, stat. rewrite Hloc, H2.
  apply same_kind_read. exact (Hother T2 Hne).
Qed.

Lemma isfile_after_write (w : world) (p1 p2 : str) (T : seq str)
    (f : option node -> option node) :
  open_target w p1 = Ok T -> writes_file f ->
  isfile w p2 = true ->
  isfile (set_root w (update T f (root w))) p2 = true.
Proof.
  intros H1 Hf H2.
  destruct (written w p1 T f H1 Hf) as (Heq & Hother & Hloc).
  unfold isfile, stat in *. rewrite Hloc.
  destruct (locate w p2) as [q|]; [|discriminate].
  destruct (list_eq_dec string_dec q T) as [->|Hne].
  - rewrite Heq. destruct (Hf (lookup (root w) T)) as (m & d & ->). reflexivity.
  - specialize (Hother q Hne). unfold entry_at in Hother.
    destruct (lookup (root w) q) as [[m d| |]|]; try discriminate.
    apply kind_of_file in Hother. now rewrite Hother.
Qed.

(** ** The generation bracket *)

Lemma entry_of_parent (w : world) (path : str) (R : seq str) :
  entry_of w path = Some R ->
  exists d name, R = d ++ [name] /\ is_dir_node (lookup (root w) d) = true.
Proof.
  unfold entry_of. intros H.
  destruct (is_special _ || _); [discriminate|].
  destruct (stat_from _ _ _ _) as [d|]; [|discriminate].
  destruct (is_dir_node (lookup (root w) d)) eqn:Hd; [|discriminate].
  injection H as <-. eauto.
Qed.

(** The effect of a successful [os.remove]. *)
Lemma removed (w w' : world) (path : str) :
  remove path w = (Ok tt, w') ->
  exists R, entry_of w path = Some R
            /\ entry_at w' R = None
            /\ (forall q, q <> R -> entry_at w' q = entry_at w q)
            /\ cwd w' = cwd w /\ clock w' = clock w /\ procs w' = procs w.
Proof.
  unfold remove. intros H.
  destruct (entry_of w path) as [R|] eqn:HR; [|discriminate].
  exists R. split; [reflexivity|].
  destruct (entry_of_parent _ _ _ HR) as (d & name & -> & Hd).
  assert (Hnd : is_dir_node (lookup (root w) (d ++ [name])) = false)
    by (destruct (lookup (root w) (d ++ [name])) as [[| |]|];
        [reflexivity | discriminate | reflexivity | discriminate]).
  assert (Hw : w' = set_root w (update (d ++ [name]) (fun _ => None) (root w)))
    by (destruct (lookup (root w) (d ++ [name])) as [[| |]|]; congruence).
  subst w'. repeat split.
  - unfold entry_at. simpl root. now rewrite lookup_update_eq.
  - intros q Hq. apply lookup_update_ne; auto.
Qed.

(** C4 (as amended): a successful [mark_error] writes the error marker
    (creates it empty, or touches it keeping its contents), removes the ok
    marker when it is a file, and changes nothing else: every canonical
    path other than the error marker's and the removed ok marker's holds
    what it held before, and the working directory, the clock and the
    process log are as before. *)
Theorem mark_error_effect (w w' : world) (gen_dir : str) :
  TaskProcessor.mark_error gen_dir w = (Ok tt, w') ->
  let gen_error := join gen_dir "gen.error" in
  let gen_ok := join gen_dir "gen.ok" in
  exists T d,
    open_target w gen_error = Ok T
    /\ (entry_at w T = None /\ d = "" \/ exists m, entry_at w T = Some (KFile m d))
    /\ entry_at (touched w T) T = Some (KFile (clock w) d)
    /\ (cwd w' = cwd w /\ clock w' = clock w /\ procs w' = procs w)
    /\ (isfile w gen_ok = true -> isfile (touched w T) gen_ok = true)
    /\ (isfile (touched w T) gen_ok = false
        /\ w' = touched w T /\ unchanged_except w w' [T]
        \/
        isfile (touched w T) gen_ok = true
        /\ exists R,
             entry_of (touched w T) gen_ok = Some R
             /\ entry_at w' R = None
             /\ unchanged_except w w' [T; R]
             /\ (T <> R -> entry_at w' T = Some (KFile (clock w) d))).
Proof.
  intros H gen_error gen_ok.
  unfold TaskProcessor.mark_error, bind, TaskProcessor.touch, ask, ret in H.
  fold gen_error gen_ok in H.
  destruct (open_target w gen_error) as [T|e] eqn:Hopen; [|discriminate].
  fold (touched w T) in H.
  destruct (written w gen_error T _ Hopen (touch_node_writes (clock w)))
    as (Heq & Hother & Hloc).
  fold (touched w T) in Heq, Hother, Hloc.
  destruct (open_target_ok _ _ _ Hopen) as (_ & HdirT & Hlink).
  set (d := match lookup (root w) T with Some (File _ d) => d | _ => "" end).
  assert (Hd : entry_at (touched w T) T = Some (KFile (clock w) d)).
  { unfold entry_at. rewrite Heq. subst d.
    destruct (lookup (root w) T) as [[| |]|]; reflexivity. }
  exists T, d. split; [reflexivity|]. split.
  { unfold entry_at. subst d.
    destruct (lookup (root w) T) as [[m x|es|t]|]; simpl; eauto;
      [discriminate | now destruct (Hlink t)]. }
  split; [exact Hd|].
  assert (Hframe1 : unchanged_except w (touched w T) [T]).
  { intros q Hq. apply Hother. simpl in Hq. intuition congruence. }
  destruct (isfile (touched w T) gen_ok) eqn:Hok.
  - destruct (removed _ _ _ H) as (R & HR & Hgone & HotherR & Hcwd & Hclock & Hprocs).
    split; [auto|].
    split; [intros _; reflexivity|].
    right. split; [reflexivity|]. exists R.
    split; [exact HR|]. split; [exact Hgone|]. split.
    + intros q Hq. simpl in Hq.
      rewrite HotherR by intuition congruence.
      apply Hother. intuition congruence.
    + intros Hne. rewrite HotherR by assumption. exact Hd.
  - injection H as <-.
    split; [auto|].
    split.
    { intros Hbefore.
      pose proof (isfile_after_write w gen_error gen_ok T _ Hopen
                    (touch_node_writes (clock w)) Hbefore) as Hc.
      fold (touched w T) in Hc. congruence. }
    left. auto.
Qed.

Lemma mark_error_effect_witness :
  exists w', TaskProcessor.mark_error "/g" audit = (Ok tt, w')
  /\ exists T d,
    open_target audit "/g/gen.error" = Ok T
    /\ (entry_at audit T = None /\ d = "" \/ exists m, entry_at audit T = Some (KFile m d))
    /\ entry_at (touched audit T) T = Some (KFile (clock audit) d)
    /\ (cwd w' = cwd audit /\ clock w' = clock audit /\ procs w' = procs audit)
    /\ (isfile audit "/g/gen.ok" = true -> isfile (touched audit T) "/g/gen.ok" = true)
    /\ (isfile (touched audit T) "/g/gen.ok" = false
        /\ w' = touched audit T /\ unchanged_except audit w' [T]
        \/
        isfile (touched audit T) "/g/gen.ok" = true
        /\ exists R,
             entry_of (touched audit T) "/g/gen.ok" = Some R
             /\ entry_at w' R = None
             /\ unchanged_except audit w' [T; R]
             /\ (T <> R -> entry_at w' T = Some (KFile (clock audit) d))).
Proof.
  eexists. split; [vm_compute; reflexivity|].
  apply (mark_error_effect audit _ "/g"). vm_compute. reflexivity.
Defined.

(** C4 (as stated) fails: the step removes the ok marker.  In a
    generation directory that holds [gen.ok], the ok marker is a file
    before [mark_error] and is gone after it, while the error marker and
    the generated files are there. *)
Lemma mark_error_removes_ok_marker :
  exists w',
    TaskProcessor.mark_error "/g" audit = (Ok tt, w')
    /\ isfile audit "/g/gen.ok" = true
    /\ isfile w' "/g/gen.ok" = false
    /\ entry_at w' ["g"; "gen.ok"] = None
    /\ isfile w' "/g/gen.error" = true
    /\ read_file w' "/g/01.01.in" = read_file audit "/g/01.01.in".
Proof. eexists. vm_compute. repeat split; reflexivity. Qed.

(** ** Idempotence *)

Lemma needs_generating_false (w : world) (task_dir gen_dir : str) :
  isfile w (join gen_dir "gen.error") = false ->
  isfile w (join gen_dir "gen.ok") = true ->
  (forall n fp,
     stat w task_dir = Some n -> visited w task_dir n fp ->
     exists t t_ok, getmtime w fp = Ok t
                    /\ getmtime w (join gen_dir "gen.ok") = Ok t_ok
                    /\ (t <= t_ok)%Z) ->
  TaskProcessor.needs_generating w task_dir gen_dir = Ok false.
Proof.
  intros Herr Hok Hold. unfold TaskProcessor.needs_generating.
  rewrite Herr, Hok. simpl.
  destruct (getmtime w (join gen_dir "gen.ok")) as [t_ok|e] eqn:Hget.
  2:{ unfold isfile in Hok. unfold getmtime in Hget.
      destruct (stat w (join gen_dir "gen.ok")) as [[| |]|]; discriminate. }
  simpl. destruct (stat w task_dir) as [n|] eqn:Hn; [|reflexivity].
  destruct (newer_under_spec w t_ok (TaskProcessor.walk w keep_dir task_dir n))
    as (b & Hb & Hiff).
  { intros r ds fs f Hin Hf Hskip.
    destruct (Hold n (join r f) eq_refl) as (t & _ & -> & _);
      [eapply walk_visits; eauto | reflexivity]. }
  change (TaskProcessor.walk w
            (fun root dirname => negb (TaskProcessor.is_dir_irrelevant root dirname))
            task_dir n)
    with (TaskProcessor.walk w keep_dir task_dir n).
  rewrite Hb. destruct b; [|reflexivity].
  destruct (proj1 Hiff eq_refl) as (r & ds & fs & f & t & Hin & Hf & Hskip & Ht & Hlt).
  destruct (Hold n (join r f) eq_refl) as (t' & t_ok' & Ht' & Hok' & Hle);
    [eapply walk_visits; eauto|].
  rewrite Ht in Ht'. injection Ht' as <-. injection Hok' as <-. lia.
Qed.

(** C5: when the generation directory has no error marker, has the ok
    marker, and no file of the task directory that the staleness check
    looks at is newer than the ok marker, [generate_all] performs no
    work: the world it leaves is the world it found (no marker touched,
    no file written, no process spawned).  It returns, with the
    processor unchanged, exactly when the modification time of every
    file looked at can be read; otherwise it raises OSError. *)
Theorem generate_all_noop
    (exec : seq str -> str -> Z * str * str * seq (str * str))
    (yaml_dump : pyval -> str)
    (self : TaskProcessor.processor) (gen_dir : str) (yaml_path : option str)
    (w : world) :
  isfile w (join gen_dir "gen.error") = false ->
  isfile w (join gen_dir "gen.ok") = true ->
  none_newer w (TaskProcessor.task_dir self) gen_dir ->
  let r := TaskProcessor.generate_all exec yaml_dump self gen_dir yaml_path w in
  snd r = w
  /\ (fst r = Ok self \/ fst r = Raise "OSError")
  /\ (mtimes_readable w (TaskProcessor.task_dir self) <-> r = (Ok self, w)).
Proof.
  intros Herr Hok Hold r.
  assert (Hnot : TaskProcessor.needs_generating w (TaskProcessor.task_dir self) gen_dir
                 <> Ok true).
  { intros H. apply needs_generating_stale in H.
    destruct H as [H | [H | (n & fp & t & t_ok & Hn & Hv & Ht & Hto & Hlt)]];
      try congruence.
    specialize (Hold n fp t t_ok Hn Hv Ht Hto). lia. }
  assert (Hcases : r = (Ok self, w) \/ r = (Raise "OSError", w)).
  { subst r. unfold TaskProcessor.generate_all, bind.
    destruct (TaskProcessor.needs_generating w (TaskProcessor.task_dir self) gen_dir)
      as [[|]|e] eqn:Hneed.
    - congruence.
    - left. reflexivity.
    - right. apply needs_generating_raises in Hneed. now subst e. }
  split; [destruct Hcases as [-> | ->]; reflexivity|].
  split; [destruct Hcases as [-> | ->]; auto|].
  split.
  - intros Hread. destruct Hcases as [H | H]; [exact H|]. exfalso.
    destruct (needs_generating_returns w (TaskProcessor.task_dir self) gen_dir Hread)
      as (b & Hb).
    subst r. unfold TaskProcessor.generate_all, bind in H. rewrite Hb in H.
    destruct b; [congruence|discriminate].
  - intros H n fp Hn Hv.
    subst r. unfold TaskProcessor.generate_all, bind in H.
    destruct (TaskProcessor.needs_generating w (TaskProcessor.task_dir self) gen_dir)
      as [[|]|e] eqn:Hneed; [congruence| |discriminate].
    destruct (needs_generating_up_to_date _ _ _ Hneed) as (_ & _ & Hall).
    destruct (Hall n fp Hn Hv) as (t & _ & -> & _). reflexivity.
Qed.

Lemma stale_visited_old (fp : str) :
  visited (stale 7%Z) "/t" (Dir [("gen.cpp", File 7%Z "int main(){}");
                                 ("statement.pdf", File 50%Z "%PDF");
                                 (".git", Dir [("HEAD", File 60%Z "ref")]);
                                 ("auto.gen", Dir [("01.01.in", File 70%Z "1")]);
                                 ("lib", Dir [("util.h", File 2%Z "//");
                                              (".cache", File 80%Z "")])]) fp ->
  exists t t_ok, getmtime (stale 7%Z) fp = Ok t
                 /\ getmtime (stale 7%Z) (join "/g" "gen.ok") = Ok t_ok
                 /\ (t <= t_ok)%Z.
Proof.
  intros Hv.
  destruct (visited_walked _ _ _ _ Hv) as (r & ds & fs & f & Hin & Hf & Hskip & ->).
  unfold skipped_file_name in Hskip. simpl in Hin.
  repeat (destruct Hin as [Heq | Hin];
          [injection Heq as <- <- <-; simpl in Hf;
           repeat (destruct Hf as [<- | Hf];
                   [first [eexists _, _; vm_compute; repeat split; congruence
                          | exfalso; apply Hskip; vm_compute; tauto]|]);
           destruct Hf|]).
  destruct Hin.
Qed.

Lemma stale_none_newer : none_newer (stale 7%Z) "/t" "/g".
Proof.
  intros n fp t t_ok Hn Hv Ht Hto. injection Hn as <-.
  destruct (stale_visited_old fp Hv) as (t' & t_ok' & Ht' & Hto' & Hle).
  rewrite Ht in Ht'. injection Ht' as <-.
  change (join "/g" "gen.ok") with "/g/gen.ok" in *.
  rewrite Hto in Hto'. injection Hto' as <-. exact Hle.
Qed.

Lemma generate_all_noop_witness :
  let r := TaskProcessor.generate_all demo_exec demo_yaml demo_self "/g" None
             (stale 7%Z) in
  snd r = stale 7%Z
  /\ (fst r = Ok demo_self \/ fst r = Raise "OSError")
  /\ (mtimes_readable (stale 7%Z) "/t" <-> r = (Ok demo_self, stale 7%Z)).
Proof.
  apply (generate_all_noop demo_exec demo_yaml demo_self "/g" None (stale 7%Z)).
  - reflexivity.
  - reflexivity.
  - apply stale_none_newer.
Defined.

(** C5 (as stated) fails: a first run ends with the ok marker set, in
    a task directory that holds a link to nothing; nothing is changed
    afterwards, no file is newer than the marker, and the second run
    does not return but raises. *)
Theorem generate_all_second_run_raises :
  let run := TaskProcessor.generate_all demo_exec demo_yaml demo_self "/g" None in
  let w1 := snd (run linked_world) in
  fst (run linked_world) = Ok demo_self
  /\ isfile w1 "/g/gen.error" = false
  /\ isfile w1 "/g/gen.ok" = true
  /\ none_newer w1 "/t" "/g"
  /\ run w1 = (Raise "OSError", w1).
Proof.
  intros run w1.
  split; [vm_compute; reflexivity|].
  split; [vm_compute; reflexivity|].
  split; [vm_compute; reflexivity|].
  split; [|vm_compute; reflexivity].
  intros n fp t t_ok Hn Hv Ht Hto.
  vm_compute in Hto. injection Hto as <-.
  vm_compute in Hn. injection Hn as <-.
  destruct (visited_walked _ _ _ _ Hv) as (r & ds & fs & f & Hin & Hf & Hskip & ->).
  vm_compute in Hin.
  destruct Hin as [Heq | []]. injection Heq as <- <- <-.
  destruct Hf as [<- | [<- | []]].
  - vm_compute in Ht. injection Ht as <-. lia.
  - vm_compute in Ht. discriminate.
Qed.

Example generate_all_twice :
  let run := TaskProcessor.generate_all demo_exec demo_yaml demo_self "/g" None in
  let w1 := snd (run fresh_world) in
  fst (run fresh_world) = Ok demo_self
  /\ read_file w1 "/g/01.01.in" = Ok "2 1 2"
  /\ read_file w1 "/g/01.01.out" = Ok "3"
  /\ isfile w1 "/g/gen.ok" = true
  /\ isfile w1 "/g/gen.error" = false
  /\ run w1 = (Ok demo_self, w1).
Proof. vm_compute. repeat split; reflexivity. Qed.

(** ** Opening and writing a file *)

Lemma open_target_locate (w : world) (path : str) (T : seq str) :
  open_target w path = Ok T -> locate w path = Some T.
Proof.
  unfold open_target. destruct (locate w path) as [q|]; [|discriminate].
  destruct (lookup (root w) q) as [[| |]|]; congruence.
Qed.

(** What one successful [open(path, "w")] followed by a write does, as far
    as later steps can tell. *)
Lemma write_file_run (w : world) (path data : str) (T : seq str) :
  open_target w path = Ok T ->
  exists w',
    write_file path data w = (Ok tt, w')
    /\ read_file w' path = Ok data
    /\ (forall p2 T2, open_target w p2 = Ok T2 -> open_target w' p2 = Ok T2)
    /\ (forall p2 T2, locate w p2 = Some T2 -> T2 <> T ->
                      read_file w' p2 = read_file w p2)
    /\ (forall p2, locate w' p2 = locate w p2)
    /\ procs w' = procs w.
Proof.
  intros Hopen. eexists. split; [apply write_file_ok; exact Hopen|].
  split; [eapply read_after_write; apply write_file_ok; exact Hopen|].
  split; [intros p2 T2 H2; eapply write_keeps_open; eauto using const_file_writes|].
  split; [intros p2 T2 H2 Hne; eapply read_other; eauto using const_file_writes|].
  split; [|reflexivity].
  intros p2.
  now destruct (written w path T _ Hopen (const_file_writes (clock w) data))
    as (_ & _ & Hloc).
Qed.

Lemma bind_ok_eq {A B} (m : M A) (k : A -> M B) (w w1 : world) (a : A) :
  m w = (Ok a, w1) -> bind m k w = k a w1.
Proof. intros H. unfold bind. now rewrite H. Qed.

(** ** The safe serializer *)

Lemma testcase_paths_shape (ni no : pyval) (base : str) (si acc : nat) :
  forall indices paths,
    TaskProcessor.testcase_paths ni no base si acc indices = Ok paths ->
    List.length paths = List.length indices
    /\ forall j idx, nth_error indices j = Some idx ->
         exists name_in name_out,
           call3 ni si idx (idx + acc) = Ok (PStr name_in)
           /\ call3 no si idx (idx + acc) = Ok (PStr name_out)
           /\ nth_error paths j
              = Some (PDict [("input", PStr (join base name_in));
                             ("output", PStr (join base name_out))]).
Proof.
  induction indices as [|idx indices IH]; intros paths H; simpl in H.
  - injection H as <-. split; [reflexivity|]. intros [|j] idx' Hj; discriminate.
  - bind_ok H. bind_ok H. bind_ok H. bind_ok H. bind_ok H.
    injection H as <-.
    destruct (IH _ Ha3) as (Hlen & Hnth).
    unfold join_val in Ha1, Ha2.
    destruct a as [| | | |name_in| | |]; try discriminate.
    destruct a0 as [| | | |name_out| | |]; try discriminate.
    injection Ha1 as <-. injection Ha2 as <-.
    split; [simpl; now rewrite Hlen|].
    intros [|j] idx' Hj; simpl in Hj.
    + injection Hj as <-. exists name_in, name_out. auto.
    + apply Hnth. exact Hj.
Qed.

Lemma nth_error_seq (n j : nat) : j < n -> nth_error (List.seq 0 n) j = Some j.
Proof.
  intros H. rewrite nth_error_nth' with (d := 0) by (now rewrite length_seq).
  now rewrite seq_nth.
Qed.

Lemma safe_subtask_shape (existing : bool) (ni no : pyval) (base : str)
    (si acc : nat) (subtask copy : pyval) (n : nat) :
  TaskProcessor.safe_subtask existing ni no base si acc subtask = Ok (copy, n) ->
  n = subtask_size existing subtask
  /\ safe_copy_of existing ni no base si acc subtask copy.
Proof.
  unfold TaskProcessor.safe_subtask. intros H.
  bind_ok H.
  change (declared_count existing subtask = Ok a) in Ha.
  bind_ok H. bind_ok H. bind_ok H. bind_ok H. bind_ok H.
  injection H as <- <-.
  destruct (int_value a) as [z|] eqn:Hz; [|discriminate].
  injection Ha3 as <-.
  assert (Hsize : subtask_size existing subtask = Z.to_nat z)
    by (unfold subtask_size; now rewrite Ha, Hz).
  split; [now rewrite Hsize|].
  exists a2, a, a4, a1.
  split; [reflexivity|]. split; [assumption|]. split; [assumption|].
  split; [eauto|]. split.
  - destruct (testcase_paths_shape _ _ _ _ _ _ _ Ha4) as (Hlen & Hnth).
    unfold Validator.xrange in *. rewrite length_seq in Hlen.
    rewrite Hsize. split; [exact Hlen|].
    intros j Hj. apply Hnth. now apply nth_error_seq.
  - destruct a0; [left | right]; auto.
    injection Ha1 as <-. auto.
Qed.

Lemma safe_subtasks_shape (existing : bool) (ni no : pyval) (base : str) :
  forall subs i0 acc0 safe,
    TaskProcessor.safe_subtasks existing ni no base i0 acc0 subs = Ok safe ->
    List.length safe = List.length subs
    /\ forall k subtask, nth_error subs k = Some subtask ->
         exists copy,
           nth_error safe k = Some copy
           /\ safe_copy_of existing ni no base (i0 + k)
                (acc0 + testcases_before existing subs k) subtask copy.
Proof.
  induction subs as [|s subs IH]; intros i0 acc0 safe H; simpl in H.
  - injection H as <-. split; [reflexivity|]. intros [|k] ? Hk; discriminate.
  - bind_ok H. bind_ok H. injection H as <-.
    destruct a as [copy n].
    destruct (safe_subtask_shape _ _ _ _ _ _ _ _ _ Ha) as (-> & Hcopy).
    destruct (IH _ _ _ Ha0) as (Hlen & Hnth).
    split; [simpl; now rewrite Hlen|].
    intros [|k] subtask Hk; simpl in Hk.
    + injection Hk as <-. exists copy. split; [reflexivity|].
      simpl. now rewrite !Nat.add_0_r.
    + destruct (Hnth k subtask Hk) as (copy' & Hc & Hshape).
      exists copy'. split; [exact Hc|].
      simpl in Hshape. simpl testcases_before.
      replace (i0 + S k) with (S (i0 + k)) by lia.
      now rewrite Nat.add_assoc.
Qed.

(** The mapping the safe serializer returns has the shape [serialized]. *)
Lemma safe_params_shape (self : TaskProcessor.processor) (gen_dir : str)
    (out : pyval) :
  TaskProcessor.safe_params self gen_dir = Ok out ->
  serialized self gen_dir out.
Proof.
  intros H. unfold serialized.
  set (params := TaskProcessor.params self).
  set (existing := dict_has params "existing_testcases_format").
  unfold TaskProcessor.safe_params in H.
  fold params in H. fold existing in H.
  bind_ok H. destruct a as [ni no]. bind_ok H. bind_ok H.
  destruct a as [| | | | |subs| |]; try discriminate.
  bind_ok H. injection H as <-.
  cbn [fst snd] in Ha2.
  destruct (safe_subtasks_shape _ _ _ _ _ _ _ _ Ha2) as (Hlen & Hnth).
  eexists _, subs, a, ni, no, (if existing then TaskProcessor.task_dir self else gen_dir).
  split; [reflexivity|].
  assert (Hsubs : dict_get params "subtasks" = Some (PList subs)).
  { unfold getitem in Ha0. destruct (dict_get params "subtasks"); congruence. }
  split; [exact Hsubs|]. split.
  { unfold active_namers. fold params. fold existing.
    destruct existing.
    - split; [|reflexivity].
      bind_ok Ha. bind_ok Ha. bind_ok Ha. injection Ha as <- <-.
      exists a1. split; [|auto].
      unfold getitem in Ha3. destruct (dict_get params _); congruence.
    - injection Ha as <- <-. auto. }
  split.
  { intros k Hk1 Hk2. rewrite dict_get_set_ne by congruence.
    destruct existing; [apply dict_get_set_ne; congruence | reflexivity]. }
  split.
  { rewrite dict_get_set_ne by discriminate.
    subst existing. destruct (dict_has params "existing_testcases_format") eqn:He.
    - apply dict_get_set_eq.
    - unfold dict_has in He. now destruct (dict_get params _). }
  split; [apply dict_get_set_eq|].
  split; [exact Hlen|].
  intros i subtask Hi. exact (Hnth i subtask Hi).
Qed.

(** *** Validated parameters can be serialized *)

Lemma for_each_ok {A} (l : seq A) (body : A -> result unit) :
  for_each l body = Ok tt -> forall x, In x l -> body x = Ok tt.
Proof.
  induction l as [|y l IH]; simpl; intros H x Hx; [destruct Hx|].
  bind_ok H. destruct a. destruct Hx as [<- | Hx]; auto.
Qed.

Lemma assert_value_file_str (w : world) (v : pyval) (name : str)
    (kw : Validator.kwargs) :
  Validator.assert_value w v "file" name kw = Ok tt -> exists s, v = PStr s.
Proof.
  unfold Validator.assert_value. simpl.
  destruct v; simpl; try discriminate. eauto.
Qed.

Lemma assert_value_number_int (w : world) (v : pyval) (name : str) (lo hi : Q) :
  Validator.assert_value w v "number" name (Validator.in_range false lo hi) = Ok tt ->
  exists z, int_value v = Some z.
Proof.
  unfold Validator.assert_value, Validator.number, is_int_value, is_float_value.
  simpl. destruct (int_value v) as [z|]; [eauto|].
  destruct (float_value v); simpl; discriminate.
Qed.

Lemma assert_testcase_existing (w : world) (params ef : pydict) (i j t : nat)
    (td : str) (gd : option str) :
  dict_get params "existing_testcases_format" = Some (PDict ef) ->
  Validator.assert_testcase w params i j t td gd = Ok tt ->
  exists ni no name_in name_out,
    getitem (PDict ef) "input" = Ok ni
    /\ getitem (PDict ef) "output" = Ok no
    /\ call3 ni i j t = Ok (PStr name_in)
    /\ call3 no i j t = Ok (PStr name_out).
Proof.
  intros Hef H. unfold Validator.assert_testcase in H. rewrite Hef in H.
  bind_ok H. bind_ok H. bind_ok H. bind_ok H. bind_ok H. destruct a3.
  destruct (assert_value_file_str _ _ _ _ Ha3) as (name_in & ->).
  destruct (assert_value_file_str _ _ _ _ H) as (name_out & ->).
  exists a, a0, name_in, name_out. auto.
Qed.

Lemma testcase_paths_ok (ni no : pyval) (base : str) (si acc : nat) :
  forall indices,
    (forall idx, In idx indices ->
       exists a b, call3 ni si idx (idx + acc) = Ok (PStr a)
                   /\ call3 no si idx (idx + acc) = Ok (PStr b)) ->
    exists paths,
      TaskProcessor.testcase_paths ni no base si acc indices = Ok paths.
Proof.
  induction indices as [|idx indices IH]; intros H; simpl; [eauto|].
  destruct (H idx (or_introl eq_refl)) as (a & b & -> & ->).
  destruct IH as (paths & ->); [intros; apply H; simpl; auto|].
  simpl. eauto.
Qed.

(** The namers and the root as [safe_params] picks them. *)
Lemma assert_subtask_safe (w : world) (params : pydict) (i acc : nat)
    (td gen_dir : str) (gd : option str) (n : nat) (subs : seq pyval)
    (subtask ni no : pyval) (base : str) :
  let existing := dict_has params "existing_testcases_format" in
  dict_get params "subtasks" = Some (PList subs) ->
  nth_error subs i = Some subtask ->
  (if existing then
     exists ef, dict_get params "existing_testcases_format" = Some (PDict ef)
                /\ (forall ni' no', getitem (PDict ef) "input" = Ok ni' ->
                                    getitem (PDict ef) "output" = Ok no' ->
                                    ni' = ni /\ no' = no)
   else ni = PFunc TaskProcessor.default_input_namer
        /\ no = PFunc TaskProcessor.default_output_namer) ->
  Validator.assert_subtask w params i acc td gd = Ok n ->
  exists copy,
    TaskProcessor.safe_subtask existing ni no base i acc subtask = Ok (copy, n).
Proof.
  intros existing Hsubs Hnth Hnamers H.
  unfold Validator.assert_subtask in H.
  unfold getitem at 1 in H. rewrite Hsubs in H. cbn [rbind] in H.
  unfold getindex at 1 in H. rewrite Hnth in H. cbn [rbind] in H.
  destruct subtask as [| | | | | |sd|]; try discriminate.
  change (Validator.dict (PDict sd) None None) with true in H. cbn [negb] in H.
  bind_ok H. destruct (negb a) eqn:Hscore; [discriminate|].
  bind_ok H. bind_ok H. bind_ok H. bind_ok H. bind_ok H. bind_ok H. bind_ok H.
  rename a0 into score, Ha0 into Hgetscore, a2 into has_contains, Ha2 into Hhas,
    Ha3 into Hcontains, a4 into num, Ha4 into Hnum, Ha5 into Hrange,
    Ha6 into Hcases.
  destruct a5, a6.
  injection H as <-.
  destruct (assert_value_number_int _ _ _ _ _ Hrange) as (z & Hz).
  rewrite Hz in Hcases |- *.
  fold existing in Hnum.
  unfold TaskProcessor.safe_subtask.
  assert (Hdecl : (if existing then getitem (PDict sd) "num_testcases"
                   else (testcases <- getitem (PDict sd) "testcases" ;;
                         n <- py_len testcases ;;
                         Ok (PInt (Z.of_nat n)))%res) = Ok num).
  { destruct existing.
    - bind_ok Hnum. destruct (negb a0); [discriminate | exact Hnum].
    - bind_ok Hnum. destruct (negb a0); [discriminate|].
      bind_ok Hnum. bind_ok Hnum. injection Hnum as <-.
      rewrite Ha2. cbn [rbind].
      unfold Validator.assert_value in Ha3. simpl in Ha3.
      destruct a2; simpl in Ha3; try discriminate. reflexivity. }
  rewrite Hdecl. cbn [rbind]. rewrite Hhas. cbn [rbind].
  assert (Hother : exists other,
             (if has_contains then getitem (PDict sd) "contains" else Ok (PList []))
             = Ok other).
  { destruct has_contains; [|exists (PList []); reflexivity].
    apply rbind_ok in Hcontains. destruct Hcontains as (other & Hother & _).
    exists other. exact Hother. }
  destruct Hother as (other & ->). cbn [rbind].
  rewrite Hgetscore. cbn [rbind]. rewrite Hz. cbn [rbind].
  destruct (testcase_paths_ok ni no base i acc (Validator.xrange z)) as (paths & ->).
  { intros idx Hidx.
    pose proof (for_each_ok _ _ Hcases idx Hidx) as Hcase.
    rewrite (Nat.add_comm idx acc).
    destruct existing.
    - destruct Hnamers as (ef & Hef & Hsame).
      destruct (assert_testcase_existing _ _ _ _ _ _ _ _ Hef Hcase)
        as (ni' & no' & a1' & b1 & Hi & Ho & Hci & Hco).
      destruct (Hsame _ _ Hi Ho) as (<- & <-). eauto.
    - destruct Hnamers as (-> & ->).
      unfold call3, TaskProcessor.default_input_namer,
        TaskProcessor.default_output_namer.
      eexists _, _. split; reflexivity. }
  cbn [rbind]. eauto.
Qed.

Lemma check_subtasks_safe (w : world) (params : pydict) (td : str)
    (gd : option str) (ni no : pyval) (base : str) (subs : seq pyval) :
  dict_get params "subtasks" = Some (PList subs) ->
  picked_namers params ni no ->
  forall rest pre acc,
    subs = pre ++ rest ->
    Validator.check_subtasks w params
      (List.seq (List.length pre) (List.length rest)) acc td gd = Ok tt ->
    exists safe,
      TaskProcessor.safe_subtasks (dict_has params "existing_testcases_format")
        ni no base (List.length pre) acc rest = Ok safe.
Proof.
  intros Hsubs Hnamers.
  induction rest as [|s rest IH]; intros pre acc Hsplit H; simpl; [eauto|].
  simpl in H. bind_ok H.
  assert (Hnth : nth_error subs (List.length pre) = Some s).
  { rewrite Hsplit, nth_error_app2, Nat.sub_diag by lia. reflexivity. }
  destruct (assert_subtask_safe w params _ acc td base gd a subs s ni no base
              Hsubs Hnth Hnamers Ha) as (copy & ->).
  cbn [rbind snd fst].
  destruct (IH (pre ++ [s]) (acc + a)) as (safe & Hsafe).
  - rewrite <- app_assoc. exact Hsplit.
  - rewrite length_app, Nat.add_1_r. exact H.
  - rewrite length_app, Nat.add_1_r in Hsafe. rewrite Hsafe. simpl. eauto.
Qed.

(** In existing-testcases mode a validated first subtask has called both
    configured namers. *)
Lemma assert_subtask_namers (w : world) (params ef : pydict) (i acc n : nat)
    (td : str) (gd : option str) :
  dict_get params "existing_testcases_format" = Some (PDict ef) ->
  Validator.assert_subtask w params i acc td gd = Ok n ->
  exists ni no, getitem (PDict ef) "input" = Ok ni
                /\ getitem (PDict ef) "output" = Ok no.
Proof.
  intros Hef H. unfold Validator.assert_subtask in H.
  bind_ok H. bind_ok H. destruct (negb (Validator.dict a0 None None)); [discriminate|].
  bind_ok H. destruct (negb a1); [discriminate|].
  bind_ok H. bind_ok H. bind_ok H. bind_ok H.
  apply rbind_ok in H. destruct H as (num & _ & H).
  apply rbind_ok in H. destruct H as (u & Hnumber & H).
  apply rbind_ok in H. destruct H as (u' & Hcases & _). destruct u'.
  unfold Validator.assert_value in Hnumber. simpl in Hnumber.
  destruct (Validator.number num false _ _) eqn:Hnum; [|discriminate].
  apply number_int_range in Hnum. destruct Hnum as (z & Hz & Hrange).
  rewrite Hz in Hcases.
  assert (Hin : In 0 (Validator.xrange z)).
  { unfold Validator.xrange. apply in_seq.
    unfold Constants.min_subtask_testcases in Hrange. lia. }
  pose proof (for_each_ok _ _ Hcases 0 Hin) as Hcase.
  destruct (assert_testcase_existing _ _ _ _ _ _ _ _ Hef Hcase)
    as (ni & no & _ & _ & Hi & Ho & _).
  eauto.
Qed.

(** C7 (as amended): for validated parameters (whose
    existing_testcases_format, when present, is a mapping) the safe
    serializer produces a mapping, and that mapping has the top-level
    entries of the parameters, except that existing_testcases_format,
    when present, is the boolean True and that "subtasks" is the list of
    the safe copies of the subtasks, in order.  The safe copy of a
    subtask has exactly the four keys score, testcases, num_testcases
    and contains (any other key of the subtask is dropped): the score as
    given, the number of testcases, the "contains" entry or an empty list
    when absent, and as testcases the {input, output} pairs of paths
    obtained by joining the root (the task directory in
    existing-testcases mode, the generation directory otherwise, as
    given) with the names the active naming strategy returns at
    consecutive global testcase indices. *)
Theorem safe_params_of_validated (w : world) (self : TaskProcessor.processor)
    (gd : option str) (gen_dir : str) :
  Validator.assert_task_params w (PDict (TaskProcessor.params self))
    (TaskProcessor.task_dir self) gd = Ok tt ->
  (forall v, dict_get (TaskProcessor.params self) "existing_testcases_format" = Some v ->
             exists ef, v = PDict ef) ->
  exists out,
    TaskProcessor.safe_params self gen_dir = Ok out
    /\ serialized self gen_dir out.
Proof.
  intros Hvalid Hformat.
  assert (Hok : exists out, TaskProcessor.safe_params self gen_dir = Ok out).
  { apply assert_task_params_subtasks in Hvalid.
    pose proof Hvalid as Hsub.
    unfold Validator.assert_task_subtasks in Hsub.
    destruct (dict_get (TaskProcessor.params self) "subtasks")
      as [subtasks|] eqn:Hsubs; [|discriminate].
    destruct (negb (Validator.list subtasks _ _)) eqn:Hlist; [discriminate|].
    apply negb_false_iff in Hlist.
    destruct subtasks as [| | | | |subs| |]; try discriminate.
    simpl in Hsub.
    assert (Hlen : 0 < List.length subs).
    { unfold Validator.list in Hlist. simpl in Hlist.
      destruct (List.length subs); [discriminate | lia]. }
    unfold TaskProcessor.safe_params.
    set (params := TaskProcessor.params self) in *.
    set (existing := dict_has params "existing_testcases_format").
    assert (Hnamers : exists ni no,
               picked_namers params ni no
               /\ (if existing then
                     (format <- getitem (PDict params) "existing_testcases_format" ;;
                      input_namer <- getitem format "input" ;;
                      output_namer <- getitem format "output" ;;
                      Ok (input_namer, output_namer))%res
                   else Ok (PFunc TaskProcessor.default_input_namer,
                            PFunc TaskProcessor.default_output_namer))
                  = Ok (ni, no)).
    { unfold picked_namers. fold existing. destruct existing eqn:Hex.
      - unfold existing, dict_has in Hex.
        destruct (dict_get params "existing_testcases_format") as [v|] eqn:Hv;
          [|discriminate].
        destruct (Hformat v eq_refl) as (ef & ->).
        destruct (assert_task_subtasks_each w params _ gd subs 0 Hvalid Hsubs Hlen)
          as (acc & n & Hfirst).
        destruct (assert_subtask_namers _ _ _ _ _ _ _ _ Hv Hfirst)
          as (ni & no & Hi & Ho).
        exists ni, no. split.
        + exists ef. split; [reflexivity|]. intros ni' no' Hi' Ho'.
          split; congruence.
        + unfold getitem at 1. rewrite Hv. cbn [rbind].
          rewrite Hi. cbn [rbind]. rewrite Ho. reflexivity.
      - eexists _, _. split; [split; reflexivity | reflexivity]. }
    destruct Hnamers as (ni & no & Hpicked & ->). cbn [rbind fst snd].
    unfold getitem at 1. rewrite Hsubs. cbn [rbind py_len].
    destruct (check_subtasks_safe w params _ gd ni no
                (if existing then TaskProcessor.task_dir self else gen_dir)
                subs Hsubs Hpicked subs [] 0 eq_refl Hsub) as (safe & Hsafe).
    simpl List.length in Hsafe. fold existing in Hsafe. rewrite Hsafe.
    simpl. eauto. }
  destruct Hok as (out & Hout). exists out. split; [exact Hout|].
  now apply safe_params_shape.
Qed.

Lemma safe_params_of_validated_witness :
  exists out,
    TaskProcessor.safe_params existing_self "/g" = Ok out
    /\ serialized existing_self "/g" out.
Proof.
  apply (safe_params_of_validated existing_world existing_self None "/g").
  - vm_compute. reflexivity.
  - intros v H. injection H as <-. eauto.
Defined.

(** C7 (as stated) fails on validated parameters: the subtask's own key
    "name" is not in the output (the output does not equal the parameters
    outside the listed changes), and with the generation directory given
    as [gen] the testcase paths are relative, not absolute. *)
Lemma serializer_drops_keys_and_keeps_relative_paths :
  Validator.assert_task_params site (PDict named_params) "/srv/task" None = Ok tt
  /\ exists d copy,
       TaskProcessor.safe_params named_self "gen" = Ok (PDict d)
       /\ dict_get d "subtasks" = Some (PList [copy])
       /\ getitem named_subtask "name" = Ok (PStr "small")
       /\ getitem copy "name" = Raise "KeyError"
       /\ getitem copy "testcases"
          = Ok (PList [PDict [("input", PStr "gen/01.01.in");
                              ("output", PStr "gen/01.01.out")]])
       /\ isabs "gen/01.01.in" = false.
Proof.
  split; [vm_compute; reflexivity|].
  eexists _, _. vm_compute. repeat split; reflexivity.
Qed.

Example safe_params_existing :
  TaskProcessor.safe_params existing_self "/g"
  = Ok (PDict
          [("type", PStr "Batch"); ("time", PInt 3); ("memory", PInt 64);
           ("existing_testcases_format", PBool true);
           ("subtasks",
            PList [PDict [("score", PInt 40);
                          ("testcases",
                           PList [PDict [("input", PStr "/srv/task/testcases/1.in");
                                         ("output", PStr "/srv/task/testcases/1.out")]]);
                          ("num_testcases", PInt 1); ("contains", PList [])];
                   PDict [("score", PInt 60);
                          ("testcases",
                           PList [PDict [("input", PStr "/srv/task/testcases/2.in");
                                         ("output", PStr "/srv/task/testcases/2.out")];
                                  PDict [("input", PStr "/srv/task/testcases/3.in");
                                         ("output", PStr "/srv/task/testcases/3.out")]]);
                          ("num_testcases", PInt 2);
                          ("contains", PList [PInt 1])]])]).
Proof. vm_compute. reflexivity. Qed.

(** The text written to the snapshot is the encoding of that mapping,
    and there is one only when the mapping is plain data. *)
Lemma get_safe_yaml_plain (yaml_dump : pyval -> str)
    (self : TaskProcessor.processor) (gen_dir text : str) :
  TaskProcessor._get_safe_yaml yaml_dump self gen_dir = Ok text ->
  exists out,
    TaskProcessor.safe_params self gen_dir = Ok out
    /\ plain out = true /\ text = yaml_dump out.
Proof.
  unfold TaskProcessor._get_safe_yaml, TaskProcessor.safe_dump. intros H.
  bind_ok H. exists a. split; [assumption|].
  destruct (plain a); [|discriminate]. injection H as <-. auto.
Qed.

(** ** What validation establishes *)

Lemma rbind_unit_ok {B} (r : result unit) (k : unit -> result B) (b : B) :
  rbind r k = Ok b -> r = Ok tt /\ k tt = Ok b.
Proof.
  destruct r as [[]|]; simpl; [auto | discriminate].
Qed.

Lemma assert_task_params_validated (w : world) (params : pydict) (td : str)
    (gd : option str) :
  Validator.assert_task_params w (PDict params) td gd = Ok tt <->
  validated w params td gd.
Proof.
  unfold Validator.assert_task_params. simpl.
  split.
  - intros H.
    destruct (isdir w td) eqn:Hd; simpl in H; [|discriminate].
    apply rbind_unit_ok in H. destruct H as [Hty H].
    apply rbind_ok in H. destruct H as (ty & Hget & H).
    apply rbind_unit_ok in H. destruct H as [Hlim H].
    apply rbind_unit_ok in H. destruct H as [Hat H].
    apply rbind_unit_ok in H. destruct H as [Hgr H].
    apply rbind_unit_ok in H. destruct H as [Hma H].
    apply rbind_unit_ok in H. destruct H as [Hhe H].
    apply rbind_unit_ok in H. destruct H as [Hst H].
    apply rbind_unit_ok in H. destruct H as [Hog H].
    apply rbind_unit_ok in H. destruct H as [Hau H].
    apply rbind_unit_ok in H. destruct H as [Hch H].
    constructor; try assumption.
    intros ty' Hty' Hoo. unfold getitem in Hget. rewrite Hty' in Hget.
    injection Hget as <-. rewrite Hoo in Hlim. exact Hlim.
  - intros [Hd Hty Hlim Hat Hgr Hma Hhe Hst Hog Hau Hch Hsu].
    rewrite Hd. simpl. rewrite Hty. simpl.
    assert (Hex : exists ty, dict_get params "type" = Some ty).
    { unfold Validator.assert_task_type, Validator.assert_key_exists, dict_has in Hty.
      destruct (dict_get params "type") as [ty|]; [eauto | discriminate]. }
    destruct Hex as [ty Hget]. rewrite Hget. simpl.
    assert (Hl : (if negb (Validator.is_output_only ty)
                  then Validator.assert_task_limits w params else Ok tt) = Ok tt).
    { destruct (Validator.is_output_only ty) eqn:Hoo; simpl; [reflexivity|].
      apply (Hlim ty Hget Hoo). }
    rewrite Hl. simpl.
    rewrite Hat, Hgr, Hma, Hhe, Hst, Hog, Hau, Hch. simpl. exact Hsu.
Qed.

(** *** Lists of files *)

Lemma files_list_iff (w : world) (v : pyval) (lo hi : option nat) (b : str) :
  Validator.files_list w v lo hi (Some b) = true <->
  exists l, v = PList l
            /\ Validator.shorter (List.length l) lo = false
            /\ Validator.longer (List.length l) hi = false
            /\ Forall (guarded_file w b) l.
Proof.
  unfold Validator.files_list, Validator.strings_list, Validator.list.
  split.
  - intros H. destruct v as [| | | | |l| |]; try discriminate H.
    exists l. simpl in H.
    destruct (Validator.shorter (List.length l) lo); [discriminate|].
    destruct (Validator.longer (List.length l) hi); [discriminate|].
    simpl in H.
    destruct (forallb (fun s => Validator.string s None None) l) eqn:Hs;
      [|discriminate]. simpl in H.
    repeat split; try reflexivity.
    rewrite forallb_forall in H, Hs. apply Forall_forall. intros x Hx.
    specialize (H x Hx). specialize (Hs x Hx).
    destruct x; try discriminate Hs. eexists. split; [reflexivity | exact H].
  - intros (l & -> & Hlo & Hhi & Hall). simpl. rewrite Hlo, Hhi. simpl.
    assert (Hs : forallb (fun s => Validator.string s None None) l = true).
    { apply forallb_forall. intros x Hx. rewrite Forall_forall in Hall.
      destruct (Hall x Hx) as (p & -> & _). reflexivity. }
    rewrite Hs. simpl. apply forallb_forall. intros x Hx.
    rewrite Forall_forall in Hall. destruct (Hall x Hx) as (p & -> & Hp). exact Hp.
Qed.

Lemma assert_value_files_list (w : world) (v : pyval) (name : str)
    (kw : Validator.kwargs) :
  Validator.assert_value w v "files_list" name kw = Ok tt <->
  Validator.files_list w v (Validator.min_list_len kw) (Validator.max_list_len kw)
    (Validator.base_dir kw) = true.
Proof.
  unfold Validator.assert_value. simpl.
  destruct (Validator.files_list w v _ _ _); simpl; split; congruence.
Qed.

Lemma assert_value_file (w : world) (v : pyval) (name : str) (b : str) :
  Validator.assert_value w v "file" name (Validator.with_base b) = Ok tt <->
  guarded_file w b v.
Proof.
  unfold Validator.assert_value, guarded_file. simpl.
  split.
  - destruct (Validator.file w v (Some b)) eqn:H; simpl; [|discriminate].
    intros _. destruct v; try (rewrite file_non_string in H; [discriminate | congruence]).
    eauto.
  - intros (p & -> & H). rewrite H. reflexivity.
Qed.

Lemma check_ext_iff (known : seq str) (msg : str) (v : pyval) :
  Validator.check_ext known msg v = Ok tt <->
  exists p, v = PStr p /\ In (splitext_ext p) known.
Proof.
  unfold Validator.check_ext, splitext. split.
  - destruct v; simpl; try discriminate. intros H.
    destruct (str_in (splitext_ext s) known) eqn:Hin; [|discriminate].
    exists s. split; [reflexivity|]. now apply str_in_iff.
  - intros (p & -> & Hin). simpl. apply str_in_iff in Hin. rewrite Hin. reflexivity.
Qed.

Lemma for_each_iff {A} (l : seq A) (body : A -> result unit) :
  for_each l body = Ok tt <-> Forall (fun x => body x = Ok tt) l.
Proof.
  induction l as [|x l IH]; simpl.
  - split; auto.
  - split.
    + intros H. apply rbind_unit_ok in H. destruct H as [Hx H].
      constructor; [exact Hx | now apply IH].
    + intros H. inversion H as [|? ? Hx Hl]; subst. rewrite Hx. simpl. now apply IH.
Qed.

(** *** Graders *)

Lemma check_grader_exts_iff (l : seq pyval) :
  forall seen,
    Validator.check_grader_exts l seen = Ok tt <->
    Forall (fun g => exists p, g = PStr p) l
    /\ Forall (fun g => In (ext_of g) Constants.source_exts) l
    /\ NoDup (map ext_of l)
    /\ (forall g, In g l -> ~ In (ext_of g) seen).
Proof.
  induction l as [|g l IH]; intros seen.
  - split; [intros _ | reflexivity].
    repeat split; try constructor. intros g [].
  - cbn [Validator.check_grader_exts map]. split.
    + intros H. apply rbind_ok in H. destruct H as (ext & Hext & H).
      destruct g; try discriminate Hext.
      assert (He : ext = splitext_ext s) by (unfold splitext in Hext; congruence).
      subst ext. clear Hext.
      destruct (str_in (splitext_ext s) Constants.source_exts) eqn:Hk;
        [|discriminate]. cbn [negb] in H.
      destruct (str_in (splitext_ext s) seen) eqn:Hs; [discriminate|].
      apply IH in H. destruct H as (Hstr & Hin & Hnd & Hseen).
      apply str_in_iff in Hk.
      assert (Hns : ~ In (splitext_ext s) seen).
      { intros Hc. apply str_in_iff in Hc. congruence. }
      split; [constructor; eauto|]. split; [constructor; assumption|].
      split.
      * constructor; [|exact Hnd].
        intros Hc. apply in_map_iff in Hc. destruct Hc as (g' & He & Hg').
        apply (Hseen g' Hg'). rewrite He. left. reflexivity.
      * intros g' [<-|Hg']; [exact Hns|].
        intros Hc. apply (Hseen g' Hg'). right. exact Hc.
    + intros (Hstr & Hin & Hnd & Hseen).
      inversion Hstr as [|? ? (p & ->) Hstr']; subst.
      inversion Hin as [|? ? Hk Hin']; subst.
      inversion Hnd as [|? ? Hfresh Hnd']; subst.
      cbn [splitext rbind]. apply str_in_iff in Hk. cbn [ext_of] in Hk.
      rewrite Hk. cbn [negb].
      assert (Hs : str_in (splitext_ext p) seen = false).
      { destruct (str_in (splitext_ext p) seen) eqn:Hs; [|reflexivity].
        apply str_in_iff in Hs. exfalso.
        apply (Hseen (PStr p)); [now left | exact Hs]. }
      rewrite Hs. apply IH. repeat split; try assumption.
      intros g' Hg' [Hc|Hc].
      * apply Hfresh. apply in_map_iff. exists g'.
        split; [now rewrite Hc | exact Hg'].
      * apply (Hseen g'); [now right | exact Hc].
Qed.

(** X1: the graders entry, when present, passes validation exactly
    when it is a list of strings each naming a regular file that the
    path guard accepts for the task directory, each with a known source
    extension, no two with the same extension; such a list has at most
    five elements. *)
Theorem graders_one_per_language (w : world) (params : pydict) (td : str) :
  Validator.assert_task_graders w params td = Ok tt <->
  (forall graders, dict_get params "graders" = Some graders ->
     exists l, graders = PList l
               /\ Forall (guarded_file w td) l
               /\ Forall (fun g => In (ext_of g) Constants.source_exts) l
               /\ NoDup (map ext_of l)
               /\ List.length l <= 5).
Proof.
  unfold Validator.assert_task_graders.
  destruct (dict_get params "graders") as [graders|];
    [|split; [intros _ g Hg; discriminate | reflexivity]].
  split.
  - intros H g Hg. injection Hg as <-.
    apply rbind_unit_ok in H. destruct H as [Hfl Hex].
    apply assert_value_files_list in Hfl. apply files_list_iff in Hfl.
    destruct Hfl as (l & -> & _ & _ & Hall).
    apply check_grader_exts_iff in Hex. destruct Hex as (_ & Hin & Hnd & _).
    exists l. repeat split; auto.
    rewrite <- (length_map ext_of l).
    change 5 with (List.length Constants.source_exts).
    apply NoDup_incl_length; [exact Hnd|].
    intros e He. apply in_map_iff in He. destruct He as (g & <- & Hgl).
    rewrite Forall_forall in Hin. now apply Hin.
  - intros H. destruct (H graders eq_refl) as (l & -> & Hall & Hin & Hnd & _).
    assert (Hfl : Validator.assert_value w (PList l) "files_list" "graders"
                    (Validator.with_base td) = Ok tt).
    { apply assert_value_files_list. apply files_list_iff.
      exists l. repeat split; auto. }
    rewrite Hfl. cbn [rbind Validator.items_of].
    apply check_grader_exts_iff. repeat split; auto.
    apply Forall_forall. intros g Hgl. rewrite Forall_forall in Hall.
    destruct (Hall g Hgl) as (p & -> & _). eauto.
Qed.

(** *** Statements *)

Lemma check_statements_iff (w : world) (td : str) (l : seq pyval) :
  forall seen,
    Validator.check_statements w td l seen = Ok tt <->
    Forall (statement_ok w td) l
    /\ NoDup (map lang_of l)
    /\ (forall s, In s l -> ~ In (lang_of s) seen).
Proof.
  induction l as [|st l IH]; intros seen.
  - split; [intros _ | reflexivity].
    repeat split; try constructor. intros g [].
  - cbn [Validator.check_statements map]. split.
    + intros H.
      apply rbind_unit_ok in H. destruct H as [Hty H].
      destruct st as [| | | | | |d|]; try discriminate Hty.
      cbn [contains rbind getitem] in H. unfold dict_has in H.
      destruct (dict_get d "language") as [language|] eqn:Hl; [|discriminate].
      destruct (dict_get d "path") as [path|] eqn:Hp; [|discriminate].
      cbn [negb rbind] in H.
      apply rbind_ok in H. destruct H as (lang & Hlang & H).
      destruct language; try discriminate Hlang.
      injection Hlang as <-.
      destruct (str_in s Constants.statement_langs) eqn:Hk; [|discriminate].
      cbn [negb] in H.
      destruct (str_in s seen) eqn:Hs; [discriminate|].
      apply rbind_unit_ok in H. destruct H as [Hext H].
      apply rbind_unit_ok in H. destruct H as [Hfile H].
      apply check_ext_iff in Hext. destruct Hext as (p & -> & Hpdf).
      apply assert_value_file in Hfile. destruct Hfile as (p' & Hp' & Hfile).
      injection Hp' as <-.
      apply IH in H. destruct H as (Hall & Hnd & Hseen).
      apply str_in_iff in Hk.
      assert (Hst : lang_of (PDict d) = s) by (unfold lang_of; now rewrite Hl).
      split.
      * constructor; [|exact Hall].
        exists d, s, p. repeat split; auto.
        destruct Hpdf as [Hpdf|[]]. now symmetry.
      * split.
        -- constructor; [|exact Hnd]. rewrite Hst.
           intros Hc. apply in_map_iff in Hc. destruct Hc as (g' & He & Hg').
           apply (Hseen g' Hg'). rewrite He. left. reflexivity.
        -- intros g' [<-|Hg'].
           ++ rewrite Hst. intros Hc. apply str_in_iff in Hc. congruence.
           ++ intros Hc. apply (Hseen g' Hg'). right. exact Hc.
    + intros (Hall & Hnd & Hseen).
      inversion Hall as [|? ? (d & lang & p & -> & Hl & Hk & Hp & Hpdf & Hfile) Hall'];
        subst.
      inversion Hnd as [|? ? Hfresh Hnd']; subst.
      assert (Hst : lang_of (PDict d) = lang) by (unfold lang_of; now rewrite Hl).
      assert (Hfresh' : ~ In lang (map lang_of l))
        by (rewrite <- Hst; exact Hfresh).
      cbn [Validator.is_dict negb Validator.assert_type rbind contains getitem].
      unfold dict_has. rewrite Hl, Hp. cbn [negb rbind].
      apply str_in_iff in Hk. rewrite Hk. cbn [negb].
      assert (Hs : str_in lang seen = false).
      { destruct (str_in lang seen) eqn:Hs; [|reflexivity].
        apply str_in_iff in Hs. exfalso.
        apply (Hseen (PDict d)); [now left | now rewrite Hst]. }
      rewrite Hs.
      assert (Hext : Validator.check_ext Constants.statement_exts
                       "Unknown statement extension" (PStr p) = Ok tt).
      { apply check_ext_iff. exists p. split; [reflexivity|]. left. now symmetry. }
      rewrite Hext. cbn [rbind].
      assert (Hf : Validator.assert_value w (PStr p) "file" "statement"
                     (Validator.with_base td) = Ok tt).
      { apply assert_value_file. exists p. auto. }
      rewrite Hf. cbn [rbind].
      apply IH. repeat split; try assumption.
      intros g' Hg' [Hc|Hc].
      * apply Hfresh'. apply in_map_iff. exists g'.
        split; [now rewrite Hc | exact Hg'].
      * apply (Hseen g'); [now right | exact Hc].
Qed.

(** X2: the statements entry, when present, passes validation exactly
    when it is a list of mappings, each with a language that is "he" or
    "en" and a path with the extension ".pdf" that names a regular file
    accepted by the path guard for the task directory, no two with the
    same language; so there are at most two statements. *)
Theorem statements_one_per_language (w : world) (params : pydict) (td : str) :
  Validator.assert_task_statements w params td = Ok tt <->
  (forall statements, dict_get params "statements" = Some statements ->
     exists l, statements = PList l
               /\ Forall (statement_ok w td) l
               /\ NoDup (map lang_of l)
               /\ List.length l <= 2).
Proof.
  unfold Validator.assert_task_statements.
  destruct (dict_get params "statements") as [statements|];
    [|split; [intros _ g Hg; discriminate | reflexivity]].
  split.
  - intros H g Hg. injection Hg as <-.
    apply rbind_unit_ok in H. destruct H as [Hty H].
    destruct statements as [| | | | |l| |]; try discriminate Hty.
    apply check_statements_iff in H. destruct H as (Hall & Hnd & _).
    exists l. repeat split; auto.
    rewrite <- (length_map lang_of l).
    change 2 with (List.length Constants.statement_langs).
    apply NoDup_incl_length; [exact Hnd|].
    intros e He. apply in_map_iff in He. destruct He as (g & <- & Hgl).
    rewrite Forall_forall in Hall.
    destruct (Hall g Hgl) as (d & lang & p & -> & Hl & Hk & _).
    unfold lang_of. now rewrite Hl.
  - intros H. destruct (H statements eq_refl) as (l & -> & Hall & Hnd & _).
    cbn [Validator.is_list negb Validator.assert_type rbind Validator.items_of].
    apply check_statements_iff. repeat split; auto.
Qed.

(** *** Attachments, managers, headers *)

Lemma files_with_ext_iff (w : world) (td : str) (known : seq str) (msg : str)
    (l : seq pyval) :
  Forall (guarded_file w td) l ->
  (for_each l (Validator.check_ext known msg) = Ok tt <->
   Forall (fun g => In (ext_of g) known) l).
Proof.
  intros Hall. rewrite for_each_iff. split; intros H.
  - apply Forall_forall. intros g Hg. rewrite Forall_forall in H.
    specialize (H g Hg). apply check_ext_iff in H.
    destruct H as (p & -> & Hin). exact Hin.
  - apply Forall_forall. intros g Hg. rewrite Forall_forall in H, Hall.
    destruct (Hall g Hg) as (p & -> & _). apply check_ext_iff.
    exists p. split; [reflexivity|]. apply (H _ Hg).
Qed.

(** X3: the lists of files.  Attachments, when present, are validated
    exactly when they are a list of at most 100 strings naming regular
    files the path guard accepts for the task directory; managers
    additionally need a known source extension each, and headers the
    extension ".h". *)
Theorem file_lists_validated (w : world) (params : pydict) (td : str) :
  (Validator.assert_task_attachments w params td = Ok tt <->
   (forall v, dict_get params "attachments" = Some v ->
      exists l, v = PList l /\ List.length l <= 100
                /\ Forall (guarded_file w td) l))
  /\ (Validator.assert_task_managers w params td = Ok tt <->
      (forall v, dict_get params "managers" = Some v ->
         exists l, v = PList l /\ Forall (guarded_file w td) l
                   /\ Forall (fun g => In (ext_of g) Constants.source_exts) l))
  /\ (Validator.assert_task_headers w params td = Ok tt <->
      (forall v, dict_get params "headers" = Some v ->
         exists l, v = PList l /\ Forall (guarded_file w td) l
                   /\ Forall (fun g => ext_of g = ".h") l)).
Proof.
  split; [|split].
  - unfold Validator.assert_task_attachments.
    destruct (dict_get params "attachments") as [v|];
      [|split; [intros _ g Hg; discriminate | reflexivity]].
    rewrite assert_value_files_list.
    cbn [Validator.min_list_len Validator.max_list_len Validator.base_dir].
    rewrite files_list_iff. cbn [Validator.shorter Validator.longer].
    split.
    + intros (l & -> & _ & Hlen & Hall) v' Hv. injection Hv as <-.
      exists l. repeat split; auto.
      unfold Constants.max_attachments in Hlen.
      apply Nat.ltb_ge in Hlen. exact Hlen.
    + intros H. destruct (H v eq_refl) as (l & -> & Hlen & Hall).
      exists l. repeat split; auto.
      apply Nat.ltb_ge. exact Hlen.
  - unfold Validator.assert_task_managers.
    destruct (dict_get params "managers") as [v|];
      [|split; [intros _ g Hg; discriminate | reflexivity]].
    split.
    + intros H v' Hv. injection Hv as <-.
      apply rbind_unit_ok in H. destruct H as [Hfl Hext].
      apply assert_value_files_list in Hfl. apply files_list_iff in Hfl.
      destruct Hfl as (l & -> & _ & _ & Hall).
      exists l. repeat split; auto.
      cbn [Validator.items_of] in Hext.
      now apply (files_with_ext_iff w td _ _ l Hall) in Hext.
    + intros H. destruct (H v eq_refl) as (l & -> & Hall & Hext).
      assert (Hfl : Validator.assert_value w (PList l) "files_list" "managers"
                      (Validator.with_base td) = Ok tt).
      { apply assert_value_files_list. apply files_list_iff.
        exists l. repeat split; auto. }
      rewrite Hfl. cbn [rbind Validator.items_of].
      now apply (files_with_ext_iff w td _ _ l Hall).
  - unfold Validator.assert_task_headers.
    destruct (dict_get params "headers") as [v|];
      [|split; [intros _ g Hg; discriminate | reflexivity]].
    split.
    + intros H v' Hv. injection Hv as <-.
      apply rbind_unit_ok in H. destruct H as [Hfl Hext].
      apply assert_value_files_list in Hfl. apply files_list_iff in Hfl.
      destruct Hfl as (l & -> & _ & _ & Hall).
      exists l. repeat split; auto.
      cbn [Validator.items_of] in Hext.
      apply (files_with_ext_iff w td _ _ l Hall) in Hext.
      apply Forall_forall. intros g Hg. rewrite Forall_forall in Hext.
      destruct (Hext g Hg) as [He|[]]. now symmetry.
    + intros H. destruct (H v eq_refl) as (l & -> & Hall & Hext).
      assert (Hfl : Validator.assert_value w (PList l) "files_list" "headers"
                      (Validator.with_base td) = Ok tt).
      { apply assert_value_files_list. apply files_list_iff.
        exists l. repeat split; auto. }
      rewrite Hfl. cbn [rbind Validator.items_of].
      apply (files_with_ext_iff w td _ _ l Hall).
      apply Forall_forall. intros g Hg. rewrite Forall_forall in Hext.
      left. symmetry. now apply Hext.
Qed.

(** *** The checker and the output generator *)

(** X4: the output generator and the checker, when present, are
    validated exactly when each is a string naming a regular file the
    path guard accepts for the task directory, with the extension ".c",
    ".cpp" or ".cxx"; against a generation directory the checker
    additionally needs the regular file "checker" there. *)
Theorem checker_and_generator_validated (w : world) (params : pydict)
    (td : str) (gd : option str) :
  (Validator.assert_task_output_generator w params td = Ok tt <->
   (forall v, dict_get params "output_generator" = Some v ->
      guarded_file w td v /\ In (ext_of v) [".c"; ".cpp"; ".cxx"]))
  /\ (Validator.assert_task_checker w params td gd = Ok tt <->
      (forall v, dict_get params "checker" = Some v ->
         guarded_file w td v /\ In (ext_of v) [".c"; ".cpp"; ".cxx"]
         /\ forall g, gd = Some g -> guarded_file w g (PStr "checker"))).
Proof.
  split.
  - unfold Validator.assert_task_output_generator.
    destruct (dict_get params "output_generator") as [v|];
      [|split; [intros _ g Hg; discriminate | reflexivity]].
    split.
    + intros H v' Hv. injection Hv as <-.
      apply rbind_unit_ok in H. destruct H as [Hf Hext].
      apply assert_value_file in Hf. apply check_ext_iff in Hext.
      destruct Hext as (p & -> & Hin). split; assumption.
    + intros H. destruct (H v eq_refl) as [Hf Hext].
      apply assert_value_file with (name := "output_generator") in Hf.
      rewrite Hf. cbn [rbind]. apply check_ext_iff.
      apply assert_value_file in Hf. destruct Hf as (p & -> & _). eauto.
  - unfold Validator.assert_task_checker.
    destruct (dict_get params "checker") as [v|];
      [|split; [intros _ g Hg; discriminate | reflexivity]].
    split.
    + intros H v' Hv. injection Hv as <-.
      apply rbind_unit_ok in H. destruct H as [Hf H].
      apply rbind_unit_ok in H. destruct H as [Hext H].
      apply assert_value_file in Hf. apply check_ext_iff in Hext.
      destruct Hext as (p & -> & Hin). repeat split; try assumption.
      intros g ->. now apply assert_value_file in H.
    + intros H. destruct (H v eq_refl) as (Hf & Hext & Hg).
      apply assert_value_file with (name := "checker") in Hf.
      rewrite Hf. cbn [rbind].
      apply assert_value_file in Hf. destruct Hf as (p & -> & Hf).
      assert (He : Validator.check_ext Constants.checker_exts
                     "Unknown generator extension" (PStr p) = Ok tt).
      { apply check_ext_iff. eauto. }
      rewrite He. cbn [rbind].
      destruct gd as [g|]; [|reflexivity].
      apply assert_value_file. now apply Hg.
Qed.

(** *** Type and limits *)

Lemma assert_task_type_iff (params : pydict) :
  Validator.assert_task_type params = Ok tt <->
  exists ty, dict_get params "type" = Some (PStr ty) /\ In ty Constants.types.
Proof.
  unfold Validator.assert_task_type, Validator.assert_key_exists, dict_has, getitem.
  destruct (dict_get params "type") as [ty|]; cbn [negb rbind].
  - unfold Validator.assert_key_in_set. split.
    + intros H. destruct ty; try discriminate H.
      destruct (str_in s Constants.types) eqn:Hin; [|discriminate].
      exists s. split; [reflexivity | now apply str_in_iff].
    + intros (s & Heq & Hin). injection Heq as ->.
      apply str_in_iff in Hin. rewrite Hin. reflexivity.
  - split; [discriminate | intros (ty & H & _); discriminate].
Qed.

Lemma assert_value_number (w : world) (v : pyval) (name : str)
    (kw : Validator.kwargs) :
  Validator.assert_value w v "number" name kw = Ok tt <->
  Validator.number v (Validator.allow_float kw) (Validator.min_val kw)
    (Validator.max_val kw) = true.
Proof.
  unfold Validator.assert_value. simpl.
  destruct (Validator.number v _ _ _); simpl; split; congruence.
Qed.

Lemma number_int_case (v : pyval) (fl : bool) (lo hi z : Z) :
  Validator.number v fl (Some (inject_Z lo)) (Some (inject_Z hi)) = true ->
  int_value v = Some z -> (lo <= z <= hi)%Z.
Proof.
  unfold Validator.number, is_int_value, numeric_value. intros H Hz.
  rewrite Hz in H. cbn [negb andb] in H.
  destruct (Validator.below (inject_Z z) (Some (inject_Z lo))) eqn:Hlo;
    [discriminate|].
  destruct (Validator.above (inject_Z z) (Some (inject_Z hi))) eqn:Hhi;
    [discriminate|].
  apply not_below_iff in Hlo. apply not_above_iff in Hhi. lia.
Qed.

Lemma number_is_numeric (v : pyval) (fl : bool) (lo hi : option Q) :
  Validator.number v fl lo hi = true ->
  is_int_value v = true \/ (fl = true /\ is_float_value v = true).
Proof.
  unfold Validator.number.
  destruct (is_int_value v), (is_float_value v), fl; cbn [negb andb];
    intros H; try discriminate H; auto.
Qed.

Lemma min_time_int (v : pyval) (z : Z) :
  Validator.number v true (Some Constants.min_time) (Some Constants.max_time) = true ->
  int_value v = Some z -> (1 <= z <= 10)%Z.
Proof.
  unfold Validator.number, is_int_value, numeric_value. intros H Hz.
  rewrite Hz in H. cbn [negb andb] in H.
  destruct (Validator.below (inject_Z z) (Some Constants.min_time)) eqn:Hlo;
    [discriminate|].
  destruct (Validator.above (inject_Z z) (Some Constants.max_time)) eqn:Hhi;
    [discriminate|].
  change (Some Constants.max_time) with (Some (inject_Z 10)) in Hhi.
  apply not_above_iff in Hhi.
  unfold Validator.below in Hlo. apply negb_false_iff in Hlo.
  apply Qle_bool_iff in Hlo. unfold Constants.min_time, Qle, inject_Z in Hlo.
  simpl in Hlo. lia.
Qed.

(** X5: a validated task has one of the three task types; unless the
    type is "OutputOnly" it has a time limit that is a number, between
    1 and 10 when it is an integer, and a memory limit that is an
    integer between 16 and 1024. *)
Theorem validated_type_and_limits (w : world) (params : pydict) (td : str)
    (gd : option str) :
  Validator.assert_task_params w (PDict params) td gd = Ok tt ->
  exists ty,
    dict_get params "type" = Some (PStr ty)
    /\ In ty ["Batch"; "OutputOnly"; "TwoSteps"]
    /\ (ty <> "OutputOnly" ->
        exists time memory,
          dict_get params "time" = Some time
          /\ (is_int_value time = true \/ is_float_value time = true)
          /\ (forall z, int_value time = Some z -> (1 <= z <= 10)%Z)
          /\ dict_get params "memory" = Some memory
          /\ int_between 16 1024 memory).
Proof.
  intros H. apply assert_task_params_validated in H.
  destruct H as [_ Hty Hlim _ _ _ _ _ _ _ _ _].
  apply assert_task_type_iff in Hty. destruct Hty as (ty & Hget & Hin).
  exists ty. split; [exact Hget|]. split; [exact Hin|].
  intros Hne.
  assert (Hoo : Validator.is_output_only (PStr ty) = false).
  { cbn [Validator.is_output_only]. now apply String.eqb_neq. }
  specialize (Hlim _ Hget Hoo). clear Hget Hoo.
  unfold Validator.assert_task_limits, Validator.assert_key_exists, dict_has,
    getitem in Hlim.
  destruct (dict_get params "time") as [time|]; [|discriminate].
  cbn [negb rbind] in Hlim.
  apply rbind_unit_ok in Hlim. destruct Hlim as [Htime Hlim].
  destruct (dict_get params "memory") as [memory|]; [|discriminate].
  cbn [negb rbind] in Hlim.
  apply assert_value_number in Htime. apply assert_value_number in Hlim.
  cbn [Validator.in_range Validator.allow_float Validator.min_val
       Validator.max_val] in Htime, Hlim.
  exists time, memory.
  split; [reflexivity|].
  split; [destruct (number_is_numeric _ _ _ _ Htime) as [Hi|[_ Hf]]; auto|].
  split; [intros z Hz; apply (min_time_int time z Htime Hz)|].
  split; [reflexivity|].
  now apply number_int_range.
Qed.

Lemma validated_type_and_limits_witness :
  exists ty,
    dict_get site_params "type" = Some (PStr ty)
    /\ In ty ["Batch"; "OutputOnly"; "TwoSteps"]
    /\ (ty <> "OutputOnly" ->
        exists time memory,
          dict_get site_params "time" = Some time
          /\ (is_int_value time = true \/ is_float_value time = true)
          /\ (forall z, int_value time = Some z -> (1 <= z <= 10)%Z)
          /\ dict_get site_params "memory" = Some memory
          /\ int_between 16 1024 memory).
Proof.
  apply (validated_type_and_limits site site_params "/srv/task" None).
  vm_compute. reflexivity.
Defined.

(** *** Subtasks *)

Lemma assert_value_list (w : world) (v : pyval) (name : str) :
  Validator.assert_value w v "list" name Validator.no_kw = Ok tt ->
  exists l, v = PList l.
Proof.
  unfold Validator.assert_value. simpl.
  destruct v; simpl; try discriminate. eauto.
Qed.

Lemma assert_subtask_bounds (w : world) (params : pydict) (i acc : nat)
    (td : str) (gd : option str) (n : nat) (subs : seq pyval) (s : pyval) :
  dict_get params "subtasks" = Some (PList subs) ->
  nth_error subs i = Some s ->
  Validator.assert_subtask w params i acc td gd = Ok n ->
  subtask_bounded (dict_has params "existing_testcases_format") s
  /\ n = subtask_size (dict_has params "existing_testcases_format") s
  /\ (1 <= n <= 200).
Proof.
  intros Hsubs Hnth H. unfold Validator.assert_subtask in H.
  unfold getitem at 1 in H. rewrite Hsubs in H. cbn [rbind getindex] in H.
  rewrite Hnth in H. cbn [rbind] in H.
  destruct s as [| | | | | |sd|]; try discriminate H.
  cbn [Validator.dict Validator.shorter Validator.longer negb contains rbind getitem] in H.
  unfold dict_has at 1 in H.
  destruct (dict_get sd "score") as [score|] eqn:Hscore; [|discriminate].
  cbn [negb rbind] in H.
  apply rbind_unit_ok in H. destruct H as [Hsc H].
  apply assert_value_number in Hsc.
  cbn [Validator.in_range Validator.allow_float Validator.min_val
       Validator.max_val] in Hsc.
  apply number_int_range in Hsc.
  apply rbind_unit_ok in H. destruct H as [_ H].
  apply rbind_ok in H. destruct H as (num & Hnum & H).
  apply rbind_unit_ok in H. destruct H as [Hrange H].
  apply rbind_unit_ok in H. destruct H as [_ H].
  injection H as <-.
  apply assert_value_number in Hrange.
  cbn [Validator.in_range Validator.allow_float Validator.min_val
       Validator.max_val] in Hrange.
  apply number_int_range in Hrange. destruct Hrange as (z & Hz & Hlo & Hhi).
  unfold Constants.min_subtask_testcases in Hlo.
  unfold Constants.max_subtask_testcases in Hhi.
  rewrite Hz.
  unfold subtask_bounded, subtask_size, declared_count.
  destruct (dict_has params "existing_testcases_format").
  - unfold dict_has in Hnum.
    destruct (dict_get sd "num_testcases") as [nv|] eqn:Hnv; [|discriminate].
    cbn [negb] in Hnum. injection Hnum as ->.
    split; [|split].
    + exists sd, score. repeat split; auto. exists num. split; [exact Hnv|].
      exists z. auto.
    + cbn [getitem]. rewrite Hnv, Hz. reflexivity.
    + lia.
  - unfold dict_has in Hnum.
    destruct (dict_get sd "testcases") as [tv|] eqn:Htv; [|discriminate].
    cbn [negb rbind] in Hnum.
    apply rbind_unit_ok in Hnum. destruct Hnum as [Hl Hnum].
    apply assert_value_list in Hl. destruct Hl as (l & ->).
    cbn [Validator.items_of] in Hnum. injection Hnum as <-.
    cbn [int_value] in Hz. injection Hz as <-.
    split; [|split].
    + exists sd, score. repeat split; auto. exists l. split; [exact Htv|]. lia.
    + cbn [getitem rbind]. rewrite Htv. cbn [rbind py_len int_value]. reflexivity.
    + lia.
Qed.

Lemma subtasks_list_bounds (w : world) (params : pydict) (td : str)
    (gd : option str) :
  Validator.assert_task_subtasks w params td gd = Ok tt ->
  exists subs,
    dict_get params "subtasks" = Some (PList subs)
    /\ 1 <= List.length subs <= 100.
Proof.
  intros Hsub. unfold Validator.assert_task_subtasks in Hsub.
  destruct (dict_get params "subtasks") as [subtasks|] eqn:Hget; [|discriminate].
  destruct subtasks as [| | | | |subs| |]; try discriminate Hsub.
  cbn [Validator.list Validator.shorter Validator.longer] in Hsub.
  unfold Constants.min_subtasks, Constants.max_subtasks in Hsub.
  destruct (List.length subs <? 1) eqn:Hlo; [discriminate|].
  destruct (100 <? List.length subs) eqn:Hhi; [discriminate|].
  apply Nat.ltb_ge in Hlo, Hhi.
  exists subs. split; [reflexivity | lia].
Qed.

(** X6: a validated task has between 1 and 100 subtasks; each is a
    mapping with an integer score between 0 and 100 and between 1 and
    200 testcases: the integer under "num_testcases" in
    existing-testcases mode, the length of the list under "testcases"
    otherwise. *)
Theorem validated_subtasks_bounded (w : world) (params : pydict) (td : str)
    (gd : option str) :
  Validator.assert_task_params w (PDict params) td gd = Ok tt ->
  exists subs,
    dict_get params "subtasks" = Some (PList subs)
    /\ 1 <= List.length subs <= 100
    /\ Forall (subtask_bounded (dict_has params "existing_testcases_format")) subs.
Proof.
  intros H. apply assert_task_params_subtasks in H.
  destruct (subtasks_list_bounds w params td gd H) as (subs & Hget & Hlen).
  exists subs. split; [exact Hget|]. split; [exact Hlen|].
  apply Forall_forall. intros s Hin.
  apply In_nth_error in Hin. destruct Hin as [i Hi].
  assert (Hlt : i < List.length subs) by (apply nth_error_Some; congruence).
  destruct (assert_task_subtasks_each w params td gd subs i H Hget Hlt)
    as (acc & n & Hn).
  apply (assert_subtask_bounds w params i acc td gd n subs s Hget Hi Hn).
Qed.

Lemma validated_subtasks_bounded_witness :
  exists subs,
    dict_get (two_subtasks [PInt 1]) "subtasks" = Some (PList subs)
    /\ 1 <= List.length subs <= 100
    /\ Forall (subtask_bounded
                 (dict_has (two_subtasks [PInt 1]) "existing_testcases_format")) subs.
Proof.
  apply (validated_subtasks_bounded site (two_subtasks [PInt 1]) "/srv/task" None).
  vm_compute. reflexivity.
Defined.

(** *** Automatic submissions *)

Lemma assert_value_string (w : world) (v : pyval) (name : str) (lo hi : nat) :
  Validator.assert_value w v "string" name
    (Validator.mkKw false None None (Some lo) (Some hi) None None None None None)
  = Ok tt ->
  exists s, v = PStr s /\ lo <= String.length s <= hi.
Proof.
  unfold Validator.assert_value. simpl.
  destruct v; simpl; try discriminate.
  destruct (String.length s <? lo) eqn:Hlo; [discriminate|].
  destruct (hi <? String.length s) eqn:Hhi; [discriminate|].
  intros _. apply Nat.ltb_ge in Hlo, Hhi. eauto.
Qed.

Lemma assert_value_dict (w : world) (v : pyval) (name : str) (lo hi : nat) :
  Validator.assert_value w v "dict" name
    (Validator.mkKw false None None (Some lo) (Some hi) None None None None None)
  = Ok tt ->
  exists d, v = PDict d /\ lo <= List.length d <= hi.
Proof.
  unfold Validator.assert_value. simpl.
  destruct v; simpl; try discriminate.
  destruct (List.length d <? lo) eqn:Hlo; [discriminate|].
  destruct (hi <? List.length d) eqn:Hhi; [discriminate|].
  intros _. apply Nat.ltb_ge in Hlo, Hhi. eauto.
Qed.

Lemma check_submit_item_ok (w : world) (td : str) (item : pyval) :
  Validator.check_submit_item w td 1 item = Ok tt ->
  submit_item_ok w td item.
Proof.
  unfold Validator.check_submit_item. intros H.
  apply rbind_unit_ok in H. destruct H as [Hd H].
  apply assert_value_dict in Hd. destruct Hd as (d & -> & Hlen).
  apply rbind_unit_ok in H. destruct H as [Hname H].
  apply rbind_unit_ok in H. destruct H as [Hscore H].
  apply rbind_unit_ok in H. destruct H as [Hfiles Hext].
  apply assert_value_string in Hname. destruct Hname as (name & Hname & Hnl).
  apply assert_value_number in Hscore.
  cbn [Validator.in_range Validator.allow_float Validator.min_val
       Validator.max_val] in Hscore.
  apply assert_value_files_list in Hfiles.
  cbn [Validator.min_list_len Validator.max_list_len Validator.base_dir] in Hfiles.
  apply files_list_iff in Hfiles.
  destruct Hfiles as (l & Hl & Hlo & Hhi & Hall).
  cbn [Validator.shorter Validator.longer] in Hlo, Hhi.
  apply Nat.ltb_ge in Hlo, Hhi.
  destruct (dict_get d "name") as [nv|] eqn:Hn; [|discriminate Hname].
  destruct (dict_get d "score") as [sv|] eqn:Hs;
    [|apply number_is_numeric in Hscore; destruct Hscore as [Hc|[_ Hc]];
      discriminate Hc].
  destruct (dict_get d "files") as [fv|] eqn:Hf; [|discriminate Hl].
  subst nv fv. cbn [Validator.items_of] in Hext.
  destruct l as [|f [|f' l]]; cbn [List.length] in Hlo, Hhi; try lia.
  inversion Hall as [|? ? Hgf _]; subst.
  apply (files_with_ext_iff w td _ _ [f] Hall) in Hext.
  inversion Hext as [|? ? Hef _]; subst.
  exists d, name, sv, f.
  split; [reflexivity|]. split; [lia|]. split; [exact Hn|]. split; [exact Hnl|].
  split; [exact Hs|].
  split; [destruct (number_is_numeric _ _ _ _ Hscore) as [Hi|[_ Hfl]]; auto|].
  split; [intros z Hz; apply (number_int_case sv true 0 1000 z Hscore Hz)|].
  split; [exact Hf|]. split; assumption.
Qed.

Lemma assert_auto_submit_inv (w : world) (params : pydict) (td : str)
    (submit_items : pyval) :
  Validator.assert_auto_submit w params td = Ok tt ->
  dict_get params "auto_submit" = Some submit_items ->
  exists items,
    submit_items = PList items
    /\ List.length items <= 30
    /\ (items = []
        \/ exists ty, dict_get params "type" = Some ty
                      /\ Validator.is_batch ty = true
                      /\ Forall (submit_item_ok w td) items).
Proof.
  intros H Hget. unfold Validator.assert_auto_submit in H. rewrite Hget in H.
  destruct submit_items as [| | | | |items| |]; try discriminate H.
  cbn [Validator.list Validator.shorter Validator.longer Validator.items_of] in H.
  change (List.length items <? 0) with false in H.
  unfold Constants.max_auto_submits in H.
  destruct (30 <? List.length items) eqn:Hhi; [discriminate|].
  apply Nat.ltb_ge in Hhi. cbn [negb] in H.
  exists items. split; [reflexivity|]. split; [exact Hhi|].
  destruct items as [|it items]; [now left|]. right.
  apply rbind_ok in H. destruct H as (ty & Hty & H).
  destruct (Validator.is_batch ty) eqn:Hb; [|discriminate].
  cbn [negb] in H. apply for_each_iff in H.
  unfold getitem in Hty.
  destruct (dict_get params "type") as [ty'|]; [|discriminate].
  injection Hty as ->.
  exists ty. split; [reflexivity|]. split; [exact Hb|].
  apply Forall_forall. intros x Hx. rewrite Forall_forall in H.
  apply check_submit_item_ok. now apply H.
Qed.

(** X7: validated automatic submissions are a list of at most 30
    items, and a non-empty list is accepted for "Batch" tasks only.
    Each item is a mapping of exactly three entries: a name of 1 to 30
    characters, a score that is a number (between 0 and 1000 when it is
    an integer), and a list of exactly one file, which the path guard
    accepts for the task directory and which has a known source
    extension. *)
Theorem auto_submit_validated (w : world) (params : pydict) (td : str)
    (submit_items : pyval) :
  Validator.assert_auto_submit w params td = Ok tt ->
  dict_get params "auto_submit" = Some submit_items ->
  exists items,
    submit_items = PList items
    /\ List.length items <= 30
    /\ (items <> [] -> dict_get params "type" = Some (PStr "Batch"))
    /\ Forall (submit_item_ok w td) items.
Proof.
  intros H Hget.
  destruct (assert_auto_submit_inv w params td submit_items H Hget)
    as (items & -> & Hlen & Hcases).
  exists items. split; [reflexivity|]. split; [exact Hlen|].
  destruct Hcases as [-> | (ty & Hty & Hb & Hall)].
  - split; [congruence | constructor].
  - split; [|exact Hall]. intros _.
    destruct ty; try discriminate Hb.
    cbn [Validator.is_batch] in Hb. apply String.eqb_eq in Hb. now subst.
Qed.

(** *** Validation against a generation directory *)

Lemma assert_testcase_without_gen_dir (w : world) (params : pydict)
    (i j t : nat) (td g : str) :
  Validator.assert_testcase w params i j t td (Some g) = Ok tt ->
  Validator.assert_testcase w params i j t td None = Ok tt.
Proof.
  unfold Validator.assert_testcase.
  destruct (dict_get params "existing_testcases_format") as [[| | | | | |ef|]|];
    try exact (fun H => H); intros H.
  all: apply rbind_ok in H; destruct H as (subtasks & E1 & H); rewrite E1;
       cbn [rbind];
       apply rbind_ok in H; destruct H as (subtask & E2 & H); rewrite E2;
       cbn [rbind];
       apply rbind_ok in H; destruct H as (testcases & E3 & H); rewrite E3;
       cbn [rbind];
       apply rbind_ok in H; destruct H as (testcase & E4 & H); rewrite E4;
       cbn [rbind];
       apply rbind_ok in H; destruct H as (input_name & E5 & H);
       destruct testcase; try discriminate E5; reflexivity.
Qed.

Lemma for_each_impl {A} (l : seq A) (f g : A -> result unit) :
  (forall x, f x = Ok tt -> g x = Ok tt) ->
  for_each l f = Ok tt -> for_each l g = Ok tt.
Proof.
  intros Hfg. rewrite !for_each_iff. apply Forall_impl. exact Hfg.
Qed.

Ltac step_both H :=
  match type of H with
  | rbind (for_each _ _) _ = Ok _ => fail 1
  | rbind ?r _ = Ok _ =>
      let E := fresh "E" in
      destruct r eqn:E; cbn [rbind] in H |- *; [|discriminate H]
  | (if ?b then _ else _) = Ok _ =>
      let E := fresh "E" in
      destruct b eqn:E; cbn [negb] in H |- *; try discriminate H
  end.

Lemma assert_subtask_without_gen_dir (w : world) (params : pydict)
    (i acc : nat) (td g : str) (n : nat) :
  Validator.assert_subtask w params i acc td (Some g) = Ok n ->
  Validator.assert_subtask w params i acc td None = Ok n.
Proof.
  unfold Validator.assert_subtask. intros H.
  repeat (step_both H).
  apply rbind_unit_ok in H. destruct H as [Hfor H].
  apply (for_each_impl _ _
           (fun index => Validator.assert_testcase w params i index (acc + index) td None))
    in Hfor.
  - rewrite Hfor. exact H.
  - intros x. apply assert_testcase_without_gen_dir.
Qed.

Lemma check_subtasks_without_gen_dir (w : world) (params : pydict)
    (td g : str) (indices : seq nat) :
  forall acc,
    Validator.check_subtasks w params indices acc td (Some g) = Ok tt ->
    Validator.check_subtasks w params indices acc td None = Ok tt.
Proof.
  induction indices as [|i rest IH]; intros acc H; [reflexivity|].
  cbn [Validator.check_subtasks] in H |- *.
  apply rbind_ok in H. destruct H as (n & Hn & H).
  rewrite (assert_subtask_without_gen_dir _ _ _ _ _ _ _ Hn). cbn [rbind].
  now apply IH.
Qed.

(** X8: parameters that pass validation against a generation directory
    (the audit after generation) also pass validation without one. *)
Theorem audit_implies_plain_validation (w : world) (params : pyval)
    (td g : str) :
  Validator.assert_task_params w params td (Some g) = Ok tt ->
  Validator.assert_task_params w params td None = Ok tt.
Proof.
  destruct params as [| | | | | |params|]; try (intros H; discriminate H).
  rewrite !assert_task_params_validated.
  intros [Hd Hty Hlim Hat Hgr Hma Hhe Hst Hog Hau Hch Hsu].
  constructor; try assumption.
  - unfold Validator.assert_task_checker in *.
    destruct (dict_get params "checker") as [checker|]; [|reflexivity].
    apply rbind_unit_ok in Hch. destruct Hch as [Hf Hch]. rewrite Hf.
    apply rbind_unit_ok in Hch. destruct Hch as [He _]. rewrite He.
    reflexivity.
  - unfold Validator.assert_task_subtasks in *.
    destruct (dict_get params "subtasks") as [subtasks|]; [|discriminate].
    destruct (negb (Validator.list subtasks (Some Constants.min_subtasks)
                      (Some Constants.max_subtasks))); [discriminate|].
    now apply (check_subtasks_without_gen_dir w params td g).
Qed.

Lemma audit_implies_plain_validation_witness :
  Validator.assert_task_params audit (PDict (audit_params "a.in" "a.out")) "/t" None
  = Ok tt.
Proof.
  apply (audit_implies_plain_validation audit _ "/t" "/g").
  vm_compute. reflexivity.
Defined.

(** ** Writing files and the markers *)

Lemma file_or_none_not_dir (o : option node) :
  file_or_none (kind_of o) -> is_dir_node o = false.
Proof.
  rewrite is_dir_node_kind. intros [-> | (m & d & ->)]; reflexivity.
Qed.

Lemma same_dirs_links_is_dir (r r' : node) :
  same_dirs_links r r' ->
  forall q, is_dir_node (lookup r' q) = is_dir_node (lookup r q).
Proof.
  intros H q. destruct (H q) as [Hk | [H1 H2]].
  - now rewrite !is_dir_node_kind, Hk.
  - now rewrite !file_or_none_not_dir.
Qed.

Lemma stat_from_non_dir (l : nat) (r : node) (p rest : seq str) :
  is_dir_node (lookup r p) = false ->
  stat_from l r p rest = match rest with [] => Some p | _ => None end.
Proof.
  intros Hnd. destruct rest as [|name rest]; [apply stat_from_nil|].
  rewrite stat_from_cons, Hnd. reflexivity.
Qed.

(** Resolution only looks at directories and links. *)
Lemma stat_from_same (r r' : node) :
  same_dirs_links r r' ->
  forall l cur rest, stat_from l r' cur rest = stat_from l r cur rest.
Proof.
  intros Hs.
  pose proof (same_dirs_links_is_dir r r' Hs) as Hdir.
  induction l as [|l IHl];
    (intros cur rest; revert cur;
     induction rest as [|name rest IH]; intros cur;
     [now rewrite !stat_from_nil|]);
    rewrite !stat_from_cons_kind, Hdir;
    (destruct (negb (is_dir_node (lookup r cur))); [reflexivity|]);
    (destruct (is_special name); [apply IH|]);
    (destruct (name =? "..")%string; [apply IH|]);
    (destruct (Hs (cur ++ [name])) as [Hk | [H1 H2]];
     [rewrite Hk;
      destruct (kind_of (lookup r (cur ++ [name]))) as [[| |t]|];
      try apply IH; try reflexivity
     |pose proof (file_or_none_not_dir _ H1) as Hn1;
      pose proof (file_or_none_not_dir _ H2) as Hn2;
      destruct H1 as [E1 | (m1 & d1 & E1)], H2 as [E2 | (m2 & d2 & E2)];
      rewrite E1, E2;
      rewrite ?(stat_from_non_dir _ r _ rest Hn1),
              ?(stat_from_non_dir _ r' _ rest Hn2);
      reflexivity]).
  apply IHl.
Qed.

(** *** Paths of the form [join d name] *)

Lemma split_path_app_slash (a b : str) :
  split_path (a ++ String "/" b)%string = split_path a ++ split_path b.
Proof.
  induction a as [|c a IH]; [reflexivity|].
  cbn [String.append split_path]. rewrite IH.
  destruct (Ascii.eqb c "/"); [reflexivity|].
  pose proof (split_path_not_nil a) as Hne.
  destruct (split_path a) as [|x xs]; [congruence | reflexivity].
Qed.

Lemma endswith_char_app (s : str) (c : ascii) :
  endswith_char s c = true -> exists s', s = (s' ++ String c "")%string.
Proof.
  induction s as [|a s IH]; [discriminate|].
  destruct s as [|b s'].
  - cbn [endswith_char]. intros H. apply Ascii.eqb_eq in H. subst a.
    exists "". reflexivity.
  - intros H. change (endswith_char (String b s') c = true) in H.
    destruct (IH H) as (t & Ht). exists (String a t).
    cbn [String.append]. now rewrite <- Ht.
Qed.

Lemma str_app_assoc (a b c : str) : ((a ++ b) ++ c = a ++ (b ++ c))%string.
Proof. induction a as [|x a IH]; [reflexivity|]. cbn [String.append]. now rewrite IH. Qed.

(** The components of [join gen_dir name], for a plain file name. *)
Lemma split_path_join (g name : str) :
  startswith name "/" = false ->
  split_path name = [name] ->
  exists dir_part,
    split_path (join g name) = dir_part ++ [name]
    /\ (forall name', startswith name' "/" = false -> split_path name' = [name'] ->
          split_path (join g name') = dir_part ++ [name']).
Proof.
  intros Habs Hone. unfold join.
  destruct ((g =? "")%string || endswith_char g "/") eqn:Hg.
  - apply orb_true_iff in Hg. destruct Hg as [Hg|Hg].
    + apply String.eqb_eq in Hg. subst g. exists [].
      rewrite Habs. split; [exact Hone|].
      intros name' Habs' Hone'. rewrite Habs'. exact Hone'.
    + destruct (endswith_char_app _ _ Hg) as (g' & ->).
      exists (split_path g'). rewrite Habs.
      rewrite str_app_assoc. cbn [String.append].
      rewrite split_path_app_slash, Hone. split; [reflexivity|].
      intros name' Habs' Hone'. rewrite Habs'.
      rewrite str_app_assoc. cbn [String.append].
      now rewrite split_path_app_slash, Hone'.
  - exists (split_path g). rewrite Habs.
    change (g ++ "/" ++ name)%string with (g ++ String "/" name)%string.
    rewrite split_path_app_slash, Hone. split; [reflexivity|].
    intros name' Habs' Hone'. rewrite Habs'.
    change (g ++ "/" ++ name')%string with (g ++ String "/" name')%string.
    now rewrite split_path_app_slash, Hone'.
Qed.

Lemma join_not_empty (g name : str) : name <> "" -> join g name <> "".
Proof.
  intros Hne. unfold join.
  destruct (startswith name "/"); [exact Hne|].
  destruct ((g =? "")%string || endswith_char g "/").
  - destruct g; [exact Hne | discriminate].
  - destruct g; discriminate.
Qed.

Lemma prefix_empty (s : str) : String.prefix "" s = true.
Proof. destruct s; reflexivity. Qed.

Lemma isabs_join (g name name' : str) :
  startswith name "/" = false -> startswith name' "/" = false ->
  name <> "" -> name' <> "" ->
  (g = "" -> isabs name = isabs name') ->
  isabs (join g name) = isabs (join g name').
Proof.
  intros H1 H2 Hn Hn' Hg. unfold join. rewrite H1, H2.
  destruct g as [|c g]; [cbn; now apply Hg|].
  destruct ((String c g =? "")%string || endswith_char (String c g) "/");
    unfold isabs, startswith; cbn [String.append String.prefix];
    destruct (ascii_dec "/" c); rewrite ?prefix_empty; reflexivity.
Qed.

(** *** Entries and what paths resolve to *)

(** Resolving a path that ends in the name of a regular file or of
    nothing, after its directory part. *)
Lemma stat_from_snoc (r : node) (name : str) :
  is_special name = false -> (name =? "..")%string = false ->
  forall l cur xs d,
    stat_from l r cur xs = Some d ->
    is_dir_node (lookup r d) = true ->
    file_or_none (kind_of (lookup r (d ++ [name]))) ->
    stat_from l r cur (xs ++ [name]) = Some (d ++ [name]).
Proof.
  intros Hsp Hdd.
  induction l as [|l IHl];
    (intros cur xs; revert cur;
     induction xs as [|x xs IH]; intros cur d H Hd Hf;
     [rewrite stat_from_nil in H; injection H as <-;
      cbn [app]; rewrite stat_from_cons_kind, Hd, Hsp, Hdd; cbn [negb];
      pose proof (file_or_none_not_dir _ Hf) as Hn;
      destruct Hf as [-> | (m & dd & ->)];
      [reflexivity | apply stat_from_nil]
     |]);
    cbn [app]; rewrite stat_from_cons_kind in H |- *;
    (destruct (negb (is_dir_node (lookup r cur))); [discriminate|]);
    (destruct (is_special x); [now apply IH|]);
    (destruct (x =? "..")%string; [now apply IH|]);
    destruct (kind_of (lookup r (cur ++ [x]))) as [[| |t]|] eqn:Hk;
    try (now apply IH); try discriminate.
  - destruct xs; [|discriminate]. injection H as <-.
    rewrite is_dir_node_kind, Hk in Hd. discriminate.
  - rewrite app_assoc. now apply IHl.
  - destruct xs; [|discriminate]. injection H as <-.
    rewrite is_dir_node_kind, Hk in Hd. discriminate.
Qed.

Lemma removelast_snoc {A} (xs : seq A) (x : A) : removelast (xs ++ [x]) = xs.
Proof. apply removelast_last. Qed.

Lemma last_snoc {A} (xs : seq A) (x d : A) : last (xs ++ [x]) d = x.
Proof. apply last_last. Qed.

(** An ordinary marker is found where it is entered in its directory. *)
Lemma plain_marker_locate (w : world) (path : str) (R : seq str) :
  plain_marker w path R -> path <> "" -> locate w path = Some R.
Proof.
  intros [He Hf] Hne. unfold entry_of in He. unfold locate.
  destruct (String.eqb_spec path ""); [congruence|].
  pose proof (split_path_not_nil path) as Hnn.
  destruct (split_path path) as [|x xs] eqn:Hsp using rev_ind; [congruence|].
  clear IHxs. rewrite removelast_snoc, last_snoc in He.
  destruct (is_special x || (x =? "..")%string) eqn:Hx; [discriminate|].
  apply orb_false_iff in Hx. destruct Hx as [Hx1 Hx2].
  destruct (stat_from link_budget (root w) (start_of w path) xs) as [d|] eqn:Hd;
    [|discriminate].
  destruct (is_dir_node (lookup (root w) d)) eqn:Hdir; [|discriminate].
  injection He as <-.
  now apply stat_from_snoc.
Qed.

Lemma plain_marker_isfile (w : world) (path : str) (R : seq str) :
  plain_marker w path R -> path <> "" ->
  isfile w path = match entry_at w R with Some (KFile _ _) => true | _ => false end.
Proof.
  intros Hp Hne. unfold isfile, stat. rewrite (plain_marker_locate _ _ _ Hp Hne).
  unfold entry_at. destruct (lookup (root w) R) as [[| |]|]; reflexivity.
Qed.

Lemma plain_marker_open (w : world) (path : str) (R : seq str) :
  plain_marker w path R -> path <> "" -> open_target w path = Ok R.
Proof.
  intros Hp Hne. unfold open_target. rewrite (plain_marker_locate _ _ _ Hp Hne).
  destruct Hp as [_ Hf]. unfold entry_at in Hf.
  destruct Hf as [Hf | (m & d & Hf)].
  - apply kind_of_none in Hf. now rewrite Hf.
  - apply kind_of_file in Hf. now rewrite Hf.
Qed.

(** *** Worlds after files were written *)

Lemma files_written_refl (w : world) : files_written w w.
Proof.
  repeat split; auto. exists []. reflexivity.
Qed.

Lemma files_written_trans (w1 w2 w3 : world) :
  files_written w1 w2 -> files_written w2 w3 -> files_written w1 w3.
Proof.
  intros (Hc1 & Hk1 & (s1 & Hp1) & H1) (Hc2 & Hk2 & (s2 & Hp2) & H2).
  split; [congruence|]. split; [congruence|].
  split; [exists (s2 ++ s1); rewrite Hp2, Hp1; now rewrite app_assoc|].
  intros q. destruct (H1 q) as [E1 | [F1 (d1 & E1)]];
    destruct (H2 q) as [E2 | [F2 (d2 & E2)]].
  - left. congruence.
  - right. rewrite E1 in F2. split; [exact F2|]. exists d2. congruence.
  - right. split; [exact F1|]. exists d1. congruence.
  - right. split; [exact F1|]. exists d2. congruence.
Qed.

Lemma files_written_log (w : world) (cmd : seq str) :
  files_written w (log_proc w cmd).
Proof.
  repeat split; auto. exists [cmd]. reflexivity.
Qed.

Lemma files_written_update (w : world) (path : str) (T : seq str)
    (f : option node -> option node) :
  open_target w path = Ok T ->
  (forall o, exists d, f o = Some (File (clock w) d)) ->
  files_written w (set_root w (update T f (root w))).
Proof.
  intros Hopen Hf.
  assert (Hwf : writes_file f).
  { intros o. destruct (Hf o) as (d & ->). eauto. }
  destruct (written w path T f Hopen Hwf) as (Heq & Hother & _).
  destruct (open_target_ok _ _ _ Hopen) as (_ & HdirT & Hlink).
  split; [reflexivity|]. split; [reflexivity|].
  split; [exists []; reflexivity|].
  intros q. destruct (list_eq_dec string_dec q T) as [->|Hne].
  - right. split.
    + unfold file_or_none, entry_at.
      destruct (lookup (root w) T) as [[m d|es|t]|]; simpl in *; eauto;
        [discriminate | now destruct (Hlink t)].
    + unfold entry_at. rewrite Heq.
      destruct (Hf (lookup (root w) T)) as (d & ->). exists d. reflexivity.
  - left. now apply Hother.
Qed.

Lemma files_written_same (w w' : world) :
  files_written w w' -> same_dirs_links (root w) (root w').
Proof.
  intros (_ & _ & _ & H) q. destruct (H q) as [E | [F (d & E)]].
  - left. exact E.
  - right. split; [exact F|]. right. unfold entry_at in E. eauto.
Qed.

Lemma same_dirs_links_locate (w w' : world) :
  cwd w' = cwd w -> same_dirs_links (root w) (root w') ->
  forall p, locate w' p = locate w p.
Proof.
  intros Hc Hs p. unfold locate, start_of. rewrite Hc.
  destruct (p =? "")%string; [reflexivity|]. now apply stat_from_same.
Qed.

Lemma same_dirs_links_entry_of (w w' : world) :
  cwd w' = cwd w -> same_dirs_links (root w) (root w') ->
  forall p, entry_of w' p = entry_of w p.
Proof.
  intros Hc Hs p. unfold entry_of, start_of. rewrite Hc.
  rewrite (stat_from_same _ _ Hs).
  destruct (is_special _ || _); [reflexivity|].
  destruct (stat_from _ _ _ _) as [d|]; [|reflexivity].
  now rewrite (same_dirs_links_is_dir _ _ Hs).
Qed.

Lemma files_written_isfile (w w' : world) (p : str) :
  files_written w w' -> isfile w p = true -> isfile w' p = true.
Proof.
  intros Hw. pose proof Hw as (Hc & _ & _ & H).
  unfold isfile, stat.
  rewrite (same_dirs_links_locate w w' Hc (files_written_same _ _ Hw)).
  destruct (locate w p) as [q|]; [|discriminate].
  destruct (H q) as [E | [_ (d & E)]]; unfold entry_at in E.
  - destruct (lookup (root w) q) as [[m d| |]|]; try discriminate.
    apply kind_of_file in E. now rewrite E.
  - apply kind_of_file in E. now rewrite E.
Qed.

Lemma files_written_plain (w w' : world) (p : str) (R : seq str) :
  files_written w w' -> plain_marker w p R -> plain_marker w' p R.
Proof.
  intros Hw [He Hf]. pose proof Hw as (Hc & _ & _ & H). split.
  - now rewrite (same_dirs_links_entry_of w w' Hc (files_written_same _ _ Hw)).
  - destruct (H R) as [E | [_ (d & E)]]; [now rewrite E|].
    right. eauto.
Qed.

Lemma files_written_no_future (w w' : world) :
  files_written w w' -> no_future_files w -> no_future_files w'.
Proof.
  intros (_ & Hk & _ & H) Hn q m d Hq. rewrite Hk.
  destruct (H q) as [E | [_ (d' & E)]].
  - apply (Hn q m d). congruence.
  - rewrite Hq in E. injection E as -> _. lia.
Qed.

(** *** Computations that only write *)

Lemma only_writes_ret {A} (a : A) : only_writes (ret a).
Proof. intros w. apply files_written_refl. Qed.

Lemma only_writes_throw {A} (msg : str) : only_writes (@throw A msg).
Proof. intros w. apply files_written_refl. Qed.

Lemma only_writes_lift {A} (r : result A) : only_writes (lift r).
Proof. intros w. apply files_written_refl. Qed.

Lemma only_writes_bind {A B} (m : M A) (k : A -> M B) :
  only_writes m -> (forall a, only_writes (k a)) -> only_writes (bind m k).
Proof.
  intros Hm Hk w. unfold bind. specialize (Hm w).
  destruct (m w) as [[a|e] w1]; cbn [snd] in *; [|exact Hm].
  apply (files_written_trans _ _ _ Hm). apply Hk.
Qed.

Lemma only_writes_write_file (path data : str) : only_writes (write_file path data).
Proof.
  intros w. unfold write_file.
  destruct (open_target w path) as [T|e] eqn:Hopen; cbn [snd];
    [|apply files_written_refl].
  apply (files_written_update w path T _ Hopen). eauto.
Qed.

Lemma only_writes_touch (path : str) : only_writes (TaskProcessor.touch path).
Proof.
  intros w. unfold TaskProcessor.touch.
  destruct (open_target w path) as [T|e] eqn:Hopen; cbn [snd];
    [|apply files_written_refl].
  apply (files_written_update w path T _ Hopen).
  intros [[m d|es|t]|]; cbn [touch_node]; eauto.
Qed.

Lemma files_written_leave_files (files : seq (str * str)) :
  forall w, files_written w (leave_files files w).
Proof.
  induction files as [|[path data] rest IH]; intros w; cbn [leave_files].
  - apply files_written_refl.
  - eapply files_written_trans; [apply only_writes_write_file | apply IH].
Qed.

Lemma files_written_spawn (files : seq (str * str)) (commands : seq str) (w : world) :
  files_written w (leave_files files (log_proc w commands)).
Proof.
  eapply files_written_trans;
    [apply files_written_log | apply files_written_leave_files].
Qed.

Section OnlyWrites.

Variable exec : seq str -> str -> Z * str * str * seq (str * str).
Variable yaml_dump : pyval -> str.

Lemma only_writes_run (commands : seq str) (input : str) (fail_abort : bool) :
  only_writes (TaskProcessor.run exec commands input fail_abort).
Proof.
  intros w. unfold TaskProcessor.run.
  destruct (exec commands input) as [[[rc out] err] files].
  destruct (negb (rc =? 0)%Z && fail_abort); apply files_written_spawn.
Qed.

Lemma only_writes_redirect (path : option str) (data : str) :
  only_writes (TaskProcessor.redirect path data).
Proof.
  destruct path; [apply only_writes_write_file | apply only_writes_ret].
Qed.

Lemma only_writes_run_io (commands : seq str) (i o e : option str)
    (fail_abort : bool) :
  only_writes (TaskProcessor.run_io exec commands i o e fail_abort).
Proof.
  unfold TaskProcessor.run_io.
  apply only_writes_bind.
  { intros w. destruct i; cbn; [destruct (open_source w s)|];
      apply files_written_refl. }
  intros input. apply only_writes_bind; [apply only_writes_redirect|]. intros _.
  apply only_writes_bind; [apply only_writes_redirect|]. intros _.
  intros w.
  destruct (exec commands _) as [[[rc out] err] files].
  apply (files_written_trans _ _ _ (files_written_spawn files commands w)).
  generalize (leave_files files (log_proc w commands)).
  change (only_writes
            (TaskProcessor.redirect o out ;;;
             TaskProcessor.redirect e err ;;;
             if negb (rc =? 0)%Z && fail_abort
             then throw "Command returned non-zero"
             else ret (rc, match o with Some _ => None | None => Some out end,
                       match e with Some _ => None | None => Some err end))%M).
  apply only_writes_bind; [apply only_writes_redirect|]. intros _.
  apply only_writes_bind; [apply only_writes_redirect|]. intros _.
  destruct (negb (rc =? 0)%Z && fail_abort);
    [apply only_writes_throw | apply only_writes_ret].
Qed.

Lemma only_writes_compile_cpp (sources : seq str) (out_path : str) :
  only_writes (TaskProcessor.compile_cpp exec sources out_path).
Proof.
  unfold TaskProcessor.compile_cpp.
  apply only_writes_bind; [apply only_writes_run|]. intros r. apply only_writes_ret.
Qed.

Lemma only_writes_write_value (path : str) (v : pyval) :
  only_writes (TaskProcessor.write_value path v).
Proof.
  destruct v; try apply only_writes_throw. apply only_writes_write_file.
Qed.

Lemma only_writes_generate_testcase (self : TaskProcessor.processor)
    (testcase : pyval) (si sti : nat) (gen_dir : str) :
  only_writes (TaskProcessor._generate_testcase exec self testcase si sti gen_dir).
Proof.
  unfold TaskProcessor._generate_testcase.
  apply only_writes_bind; [apply only_writes_lift|]. intros io.
  apply only_writes_bind; [apply only_writes_lift|]. intros has_input.
  destruct (negb has_input); [apply only_writes_throw|].
  apply only_writes_bind; [apply only_writes_write_file|]. intros _.
  apply only_writes_bind; [apply only_writes_lift|]. intros input.
  apply only_writes_bind; [apply only_writes_write_value|]. intros _.
  apply only_writes_bind; [apply only_writes_lift|]. intros has_output.
  destruct has_output.
  - apply only_writes_bind; [apply only_writes_write_file|]. intros _.
    apply only_writes_bind; [apply only_writes_lift|]. intros output.
    apply only_writes_write_value.
  - destruct (TaskProcessor.generator self); [|apply only_writes_throw].
    apply only_writes_bind; [apply only_writes_run_io|]. intros _.
    apply only_writes_ret.
Qed.

Lemma only_writes_generate_subtask (self : TaskProcessor.processor)
    (gen_dir : str) (si : nat) (subtask : pyval) :
  only_writes (TaskProcessor.generate_subtask exec self gen_dir si subtask).
Proof.
  unfold TaskProcessor.generate_subtask.
  apply only_writes_bind; [apply only_writes_lift|]. intros testcases.
  apply only_writes_bind; [apply only_writes_lift|]. intros n.
  induction (List.seq 0 n) as [|i rest IH]; [apply only_writes_ret|].
  apply only_writes_bind; [apply only_writes_lift|]. intros testcase.
  apply only_writes_bind; [apply only_writes_generate_testcase|]. intros _.
  exact IH.
Qed.

Lemma only_writes_generate_subtasks (self : TaskProcessor.processor)
    (gen_dir : str) (subtasks : seq pyval) :
  forall si, only_writes (TaskProcessor.generate_subtasks exec self gen_dir si subtasks).
Proof.
  induction subtasks as [|s rest IH]; intros si; [apply only_writes_ret|].
  cbn [TaskProcessor.generate_subtasks].
  apply only_writes_bind; [apply only_writes_generate_subtask|]. intros _.
  apply IH.
Qed.

Lemma only_writes_generate_testcases (self : TaskProcessor.processor)
    (gen_dir : str) :
  only_writes (TaskProcessor.generate_testcases exec self gen_dir).
Proof.
  unfold TaskProcessor.generate_testcases.
  destruct (TaskProcessor.module self); [|apply only_writes_throw].
  destruct (dict_has _ _); [apply only_writes_ret|].
  apply only_writes_bind.
  - destruct (dict_get _ "output_generator"); [|apply only_writes_ret].
    apply only_writes_bind; [apply only_writes_lift|]. intros sp.
    apply only_writes_bind; [apply only_writes_compile_cpp|]. intros _.
    apply only_writes_ret.
  - intros self'.
    apply only_writes_bind; [apply only_writes_lift|]. intros subtasks.
    destruct subtasks; try apply only_writes_throw.
    apply only_writes_bind; [apply only_writes_generate_subtasks|]. intros _.
    apply only_writes_ret.
Qed.

Lemma only_writes_generate_checker (self : TaskProcessor.processor)
    (gen_dir : str) :
  only_writes (TaskProcessor.generate_checker exec self gen_dir).
Proof.
  unfold TaskProcessor.generate_checker.
  destruct (dict_get _ "checker"); [|apply only_writes_ret].
  apply only_writes_bind; [apply only_writes_lift|]. intros sp.
  apply only_writes_bind; [apply only_writes_compile_cpp|]. intros _.
  apply only_writes_ret.
Qed.

Lemma only_writes_generate_yaml (self : TaskProcessor.processor)
    (gen_dir yaml_path : str) :
  only_writes (TaskProcessor.generate_yaml yaml_dump self gen_dir yaml_path).
Proof.
  unfold TaskProcessor.generate_yaml.
  apply only_writes_bind; [apply only_writes_write_file|]. intros _.
  apply only_writes_bind; [apply only_writes_lift|]. intros text.
  apply only_writes_write_file.
Qed.

End OnlyWrites.

(** *** The two marks *)

Lemma entry_of_last (w : world) (path : str) (R : seq str) :
  entry_of w path = Some R -> last R "" = last (split_path path) "".
Proof.
  unfold entry_of. intros H.
  destruct (is_special _ || _); [discriminate|].
  destruct (stat_from _ _ _ _) as [d|]; [|discriminate].
  destruct (is_dir_node _); [|discriminate].
  injection H as <-. apply last_snoc.
Qed.

Lemma marker_entries_differ (w : world) (g : str) (E O : seq str) :
  entry_of w (join g "gen.error") = Some E ->
  entry_of w (join g "gen.ok") = Some O ->
  E <> O.
Proof.
  intros HE HO Heq. apply entry_of_last in HE, HO.
  destruct (split_path_join g "gen.error" eq_refl eq_refl) as (dp & H1 & H2).
  rewrite H1, last_snoc in HE.
  rewrite (H2 "gen.ok" eq_refl eq_refl), last_snoc in HO.
  subst O. rewrite HE in HO. discriminate.
Qed.

(** Touching one ordinary marker and removing the other. *)
Lemma touch_and_remove (w : world) (pa pb : str) (RA RB : seq str) :
  pa <> "" -> pb <> "" -> RA <> RB ->
  plain_marker w pa RA -> plain_marker w pb RB ->
  exists w',
    (TaskProcessor.touch pa ;;;
     is_file <- ask (fun w => isfile w pb) ;;
     if is_file then remove pb else ret tt)%M w = (Ok tt, w')
    /\ marked w w' RA RB.
Proof.
  intros Hpa Hpb Hne HA HB.
  pose proof (plain_marker_open _ _ _ HA Hpa) as Hopen.
  assert (Hf : forall o, exists d, touch_node (clock w) o = Some (File (clock w) d)).
  { intros [[m d|es|t]|]; cbn [touch_node]; eauto. }
  pose proof (files_written_update w pa RA _ Hopen Hf) as Hw.
  destruct (written w pa RA _ Hopen (touch_node_writes (clock w)))
    as (Heq & Hother & _).
  set (w1 := set_root w (update RA (touch_node (clock w)) (root w))) in *.
  assert (Ht : TaskProcessor.touch pa w = (Ok tt, w1)).
  { unfold TaskProcessor.touch. now rewrite Hopen. }
  assert (HA1 : exists d, entry_at w1 RA = Some (KFile (clock w) d)).
  { unfold entry_at. rewrite Heq. destruct (Hf (lookup (root w) RA)) as (d & ->).
    exists d. reflexivity. }
  pose proof (files_written_plain _ _ _ _ Hw HB) as HB1.
  pose proof (plain_marker_isfile _ _ _ HB1 Hpb) as Hisf.
  rewrite (bind_ok_eq _ _ _ _ _ Ht).
  unfold bind at 1, ask. rewrite Hisf.
  destruct HB1 as [He1 Hfon1].
  destruct Hfon1 as [Hnone | (m & d & Hfile)].
  - rewrite Hnone. exists w1. split; [reflexivity|].
    split; [auto|]. split; [exact HA1|]. split; [exact Hnone|].
    intros q Hq _. now apply Hother.
  - rewrite Hfile.
    assert (Hrm : remove pb w1
                  = (Ok tt, set_root w1 (update RB (fun _ => None) (root w1)))).
    { unfold remove. rewrite He1. unfold entry_at in Hfile.
      apply kind_of_file in Hfile. now rewrite Hfile. }
    destruct (removed _ _ _ Hrm) as (R & HR & Hgone & HotherR & Hc & Hk & Hp).
    assert (R = RB) by congruence. subst R.
    eexists. split; [exact Hrm|].
    split; [auto|]. split.
    { destruct HA1 as (d' & HA1). exists d'. rewrite HotherR by assumption. exact HA1. }
    split; [exact Hgone|].
    intros q Hq1 Hq2. rewrite HotherR by assumption. now apply Hother.
Qed.

(** What the two marks leave: the touched marker is a file, the other
    one is gone, and every path resolves as before. *)
Lemma touch_and_remove_state (w w' : world) (pa pb : str) (RA RB : seq str) :
  pa <> "" -> pb <> "" -> RA <> RB ->
  plain_marker w pa RA -> plain_marker w pb RB ->
  marked w w' RA RB ->
  same_dirs_links (root w) (root w')
  /\ plain_marker w' pa RA /\ plain_marker w' pb RB
  /\ isfile w' pa = true /\ isfile w' pb = false
  /\ getmtime w' pa = Ok (clock w).
Proof.
  intros Hpa Hpb Hne [HeA HfA] [HeB HfB] ((Hc & _ & _) & (d & HA') & HB' & Hother).
  assert (Hs : same_dirs_links (root w) (root w')).
  { intros q. destruct (list_eq_dec string_dec q RA) as [->|H1].
    - right. split; [exact HfA|]. right. eauto.
    - destruct (list_eq_dec string_dec q RB) as [->|H2].
      + right. split; [exact HfB|]. left. exact HB'.
      + left. now apply Hother. }
  assert (HA1 : plain_marker w' pa RA).
  { split; [now rewrite (same_dirs_links_entry_of w w' Hc Hs)|]. right. eauto. }
  assert (HB1 : plain_marker w' pb RB).
  { split; [now rewrite (same_dirs_links_entry_of w w' Hc Hs)|]. left. exact HB'. }
  split; [exact Hs|]. split; [exact HA1|]. split; [exact HB1|].
  rewrite (plain_marker_isfile _ _ _ HA1 Hpa), (plain_marker_isfile _ _ _ HB1 Hpb).
  rewrite HA', HB'. split; [reflexivity|]. split; [reflexivity|].
  unfold getmtime, stat. rewrite (plain_marker_locate _ _ _ HA1 Hpa).
  unfold entry_at in HA'. apply kind_of_file in HA'. now rewrite HA'.
Qed.

Lemma marker_names (g : str) :
  join g "gen.error" <> "" /\ join g "gen.ok" <> "".
Proof. split; apply join_not_empty; discriminate. Qed.

Lemma needs_generating_marked (w : world) (td g : str) :
  isfile w (join g "gen.error") = true ->
  TaskProcessor.needs_generating w td g = Ok true.
Proof. intros H. unfold TaskProcessor.needs_generating. now rewrite H. Qed.

Section Marks.

Variable w : world.
Variable g : str.
Variables E O : seq str.

Hypothesis HE : plain_marker w (join g "gen.error") E.
Hypothesis HO : plain_marker w (join g "gen.ok") O.

Lemma mark_error_marked :
  exists w', TaskProcessor.mark_error g w = (Ok tt, w') /\ marked w w' E O.
Proof.
  destruct (marker_names g) as [Hne Hno].
  pose proof (marker_entries_differ w g E O (proj1 HE) (proj1 HO)) as Hdiff.
  exact (touch_and_remove w _ _ E O Hne Hno Hdiff HE HO).
Qed.

Lemma mark_ok_marked :
  exists w', TaskProcessor.mark_ok g w = (Ok tt, w') /\ marked w w' O E.
Proof.
  destruct (marker_names g) as [Hne Hno].
  pose proof (marker_entries_differ w g E O (proj1 HE) (proj1 HO)) as Hdiff.
  assert (Hdiff' : O <> E) by congruence.
  exact (touch_and_remove w _ _ O E Hno Hne Hdiff' HO HE).
Qed.

Lemma marked_error_state (w' : world) :
  marked w w' E O ->
  same_dirs_links (root w) (root w')
  /\ plain_marker w' (join g "gen.error") E
  /\ plain_marker w' (join g "gen.ok") O
  /\ isfile w' (join g "gen.error") = true
  /\ isfile w' (join g "gen.ok") = false.
Proof.
  intros Hm.
  destruct (marker_names g) as [Hne Hno].
  pose proof (marker_entries_differ w g E O (proj1 HE) (proj1 HO)) as Hdiff.
  destruct (touch_and_remove_state w w' _ _ E O Hne Hno Hdiff HE HO Hm)
    as (Hs & H1 & H2 & H3 & H4 & _).
  auto.
Qed.

Lemma marked_ok_state (w' : world) :
  marked w w' O E ->
  same_dirs_links (root w) (root w')
  /\ plain_marker w' (join g "gen.error") E
  /\ plain_marker w' (join g "gen.ok") O
  /\ isfile w' (join g "gen.ok") = true
  /\ isfile w' (join g "gen.error") = false
  /\ getmtime w' (join g "gen.ok") = Ok (clock w).
Proof.
  intros Hm.
  destruct (marker_names g) as [Hne Hno].
  pose proof (marker_entries_differ w g E O (proj1 HE) (proj1 HO)) as Hdiff.
  assert (Hdiff' : O <> E) by congruence.
  destruct (touch_and_remove_state w w' _ _ O E Hno Hne Hdiff' HO HE Hm)
    as (Hs & H1 & H2 & H3 & H4 & H5).
  auto 10.
Qed.

End Marks.

Lemma marked_no_future (w w' : world) (A B : seq str) :
  marked w w' A B -> no_future_files w -> no_future_files w'.
Proof.
  intros ((_ & Hk & _) & (d & HA) & HB & Hother) Hn q m x Hq. rewrite Hk.
  destruct (list_eq_dec string_dec q A) as [->|H1].
  - rewrite HA in Hq. injection Hq as -> _. lia.
  - destruct (list_eq_dec string_dec q B) as [->|H2]; [congruence|].
    apply (Hn q m x). rewrite <- Hother by assumption. exact Hq.
Qed.

(** X9: in a generation directory whose markers are ordinary (each is
    a regular file or absent, not a link or a directory), [mark_error]
    succeeds; afterwards the error marker is a file and the ok marker
    is not, so the staleness check answers True for any task directory;
    nothing but the two markers has changed and every path resolves as
    before. *)
Theorem mark_error_leaves_error_state (w : world) (g : str) (E O : seq str) :
  plain_marker w (join g "gen.error") E ->
  plain_marker w (join g "gen.ok") O ->
  exists w',
    TaskProcessor.mark_error g w = (Ok tt, w')
    /\ isfile w' (join g "gen.error") = true
    /\ isfile w' (join g "gen.ok") = false
    /\ (forall td, TaskProcessor.needs_generating w' td g = Ok true)
    /\ (forall q, q <> E -> q <> O -> entry_at w' q = entry_at w q)
    /\ (forall p, locate w' p = locate w p).
Proof.
  intros HE HO.
  destruct (mark_error_marked w g E O HE HO) as (w' & Hrun & Hm).
  destruct (marked_error_state w g E O HE HO w' Hm) as (Hs & _ & _ & Hfe & Hfo).
  destruct Hm as ((Hc & _ & _) & _ & _ & Hother).
  exists w'. split; [exact Hrun|]. split; [exact Hfe|]. split; [exact Hfo|].
  split; [intros td; now apply needs_generating_marked|].
  split; [exact Hother|].
  now apply same_dirs_links_locate.
Qed.

Lemma mark_error_leaves_error_state_witness :
  exists w',
    TaskProcessor.mark_error "/g" audit = (Ok tt, w')
    /\ isfile w' (join "/g" "gen.error") = true
    /\ isfile w' (join "/g" "gen.ok") = false
    /\ (forall td, TaskProcessor.needs_generating w' td "/g" = Ok true)
    /\ (forall q, q <> ["g"; "gen.error"] -> q <> ["g"; "gen.ok"] ->
                  entry_at w' q = entry_at audit q)
    /\ (forall p, locate w' p = locate audit p).
Proof.
  apply (mark_error_leaves_error_state audit "/g" ["g"; "gen.error"] ["g"; "gen.ok"]).
  - split; [reflexivity|]. left. reflexivity.
  - split; [reflexivity|]. right. exists 8%Z, "". reflexivity.
Defined.

(** X10: in a generation directory whose markers are ordinary,
    [mark_ok] succeeds; afterwards the ok marker is a file stamped with
    the clock and the error marker is not a file; nothing but the two
    markers has changed and every path resolves as before. *)
Theorem mark_ok_leaves_ok_state (w : world) (g : str) (E O : seq str) :
  plain_marker w (join g "gen.error") E ->
  plain_marker w (join g "gen.ok") O ->
  exists w',
    TaskProcessor.mark_ok g w = (Ok tt, w')
    /\ isfile w' (join g "gen.ok") = true
    /\ isfile w' (join g "gen.error") = false
    /\ getmtime w' (join g "gen.ok") = Ok (clock w)
    /\ (forall q, q <> E -> q <> O -> entry_at w' q = entry_at w q)
    /\ (forall p, locate w' p = locate w p).
Proof.
  intros HE HO.
  destruct (mark_ok_marked w g E O HE HO) as (w' & Hrun & Hm).
  destruct (marked_ok_state w g E O HE HO w' Hm) as (Hs & _ & _ & Hfo & Hfe & Ht).
  destruct Hm as ((Hc & _ & _) & _ & _ & Hother).
  exists w'. split; [exact Hrun|]. split; [exact Hfo|]. split; [exact Hfe|].
  split; [exact Ht|].
  split; [intros q H1 H2; now apply Hother|].
  now apply same_dirs_links_locate.
Qed.

Lemma mark_ok_leaves_ok_state_witness :
  exists w',
    TaskProcessor.mark_ok "/g" audit = (Ok tt, w')
    /\ isfile w' (join "/g" "gen.ok") = true
    /\ isfile w' (join "/g" "gen.error") = false
    /\ getmtime w' (join "/g" "gen.ok") = Ok (clock audit)
    /\ (forall q, q <> ["g"; "gen.error"] -> q <> ["g"; "gen.ok"] ->
                  entry_at w' q = entry_at audit q)
    /\ (forall p, locate w' p = locate audit p).
Proof.
  apply (mark_ok_leaves_ok_state audit "/g" ["g"; "gen.error"] ["g"; "gen.ok"]).
  - split; [reflexivity|]. left. reflexivity.
  - split; [reflexivity|]. right. exists 8%Z, "". reflexivity.
Defined.

(** *** A whole run *)

Section WholeRun.

Variable exec : seq str -> str -> Z * str * str * seq (str * str).
Variable yaml_dump : pyval -> str.
Variable self : TaskProcessor.processor.
Variable g : str.
Variable yaml_path : option str.
Variable w : world.
Variables E O : seq str.

Hypothesis HE : plain_marker w (join g "gen.error") E.
Hypothesis HO : plain_marker w (join g "gen.ok") O.
Hypothesis Hneeded :
  TaskProcessor.needs_generating w (TaskProcessor.task_dir self) g = Ok true.

(** The steps of a run that finds something to do: the error mark, the
    three generation steps, which only write files, and, when they
    succeed, the ok mark. *)
Lemma generate_all_steps :
  exists w1 w4,
    marked w w1 E O
    /\ files_written w1 w4
    /\ ((exists e, TaskProcessor.generate_all exec yaml_dump self g yaml_path w
                   = (Raise e, w4))
        \/ (exists self' w',
              TaskProcessor.generate_all exec yaml_dump self g yaml_path w
              = (Ok self', w')
              /\ marked w4 w' O E)).
Proof.
  destruct (mark_error_marked w g E O HE HO) as (w1 & Hrun & Hm).
  destruct (marked_error_state w g E O HE HO w1 Hm) as (_ & HE1 & HO1 & _).
  exists w1.
  remember (TaskProcessor.generate_all exec yaml_dump self g yaml_path w) as res
    eqn:Hres.
  unfold TaskProcessor.generate_all in Hres.
  unfold bind at 1 in Hres. rewrite Hneeded in Hres. cbn [negb] in Hres.
  rewrite (bind_ok_eq _ _ _ _ _ Hrun) in Hres.
  set (yp := match yaml_path with Some p => p | None => join g "module.yaml" end)
    in Hres.
  pose proof (only_writes_generate_yaml yaml_dump self g yp w1) as H2.
  unfold bind at 1 in Hres.
  destruct (TaskProcessor.generate_yaml yaml_dump self g yp w1) as [[[]|e2] w2];
    cbn [snd] in H2;
    [|exists w2; split; [exact Hm|]; split; [exact H2|]; left; eauto].
  pose proof (only_writes_generate_checker exec self g w2) as H3.
  unfold bind at 1 in Hres.
  destruct (TaskProcessor.generate_checker exec self g w2) as [[[]|e3] w3];
    cbn [snd] in H3;
    [|exists w3; split; [exact Hm|];
      split; [exact (files_written_trans _ _ _ H2 H3)|]; left; eauto].
  pose proof (only_writes_generate_testcases exec self g w3) as H4.
  unfold bind at 1 in Hres.
  destruct (TaskProcessor.generate_testcases exec self g w3) as [[self'|e4] w4];
    cbn [snd] in H4;
    exists w4; (split; [exact Hm|]);
    (split; [exact (files_written_trans _ _ _ H2 (files_written_trans _ _ _ H3 H4))|]);
    [|left; eauto].
  right.
  assert (Hw : files_written w1 w4)
    by exact (files_written_trans _ _ _ H2 (files_written_trans _ _ _ H3 H4)).
  pose proof (files_written_plain _ _ _ _ Hw HE1) as HE4.
  pose proof (files_written_plain _ _ _ _ Hw HO1) as HO4.
  destruct (mark_ok_marked w4 g E O HE4 HO4) as (w' & Hok & Hm').
  exists self', w'. split; [|exact Hm'].
  rewrite (bind_ok_eq _ _ _ _ _ Hok) in Hres. exact Hres.
Qed.

End WholeRun.

(** X11: a run that finds something to do, in a generation directory
    with ordinary markers, leaves its outcome in the markers: when it
    returns, the ok marker is a file and the error marker is not; when
    it raises, the error marker is a file, so that the next staleness
    check answers True. *)
Theorem generate_all_marks_outcome
    (exec : seq str -> str -> Z * str * str * seq (str * str)) (yaml_dump : pyval -> str)
    (self : TaskProcessor.processor) (g : str) (yaml_path : option str)
    (w : world) (E O : seq str) (r : result TaskProcessor.processor)
    (w' : world) :
  plain_marker w (join g "gen.error") E ->
  plain_marker w (join g "gen.ok") O ->
  TaskProcessor.needs_generating w (TaskProcessor.task_dir self) g = Ok true ->
  TaskProcessor.generate_all exec yaml_dump self g yaml_path w = (r, w') ->
  if is_ok r
  then isfile w' (join g "gen.ok") = true
       /\ isfile w' (join g "gen.error") = false
  else isfile w' (join g "gen.error") = true
       /\ forall td, TaskProcessor.needs_generating w' td g = Ok true.
Proof.
  intros HE HO Hneeded Hrun.
  destruct (generate_all_steps exec yaml_dump self g yaml_path w E O HE HO Hneeded)
    as (w1 & w4 & Hm & Hw & Hcases).
  destruct (marked_error_state w g E O HE HO w1 Hm) as (_ & HE1 & HO1 & Hfe1 & _).
  destruct Hcases as [(e & Hraise) | (self' & w'' & Hok & Hm')].
  - rewrite Hraise in Hrun. injection Hrun as <- <-. cbn [is_ok].
    assert (Hfe : isfile w4 (join g "gen.error") = true)
      by exact (files_written_isfile _ _ _ Hw Hfe1).
    split; [exact Hfe|]. intros td. now apply needs_generating_marked.
  - rewrite Hok in Hrun. injection Hrun as <- <-. cbn [is_ok].
    pose proof (files_written_plain _ _ _ _ Hw HE1) as HE4.
    pose proof (files_written_plain _ _ _ _ Hw HO1) as HO4.
    destruct (marked_ok_state w4 g E O HE4 HO4 w'' Hm')
      as (_ & _ & _ & Hfo & Hfe & _).
    split; assumption.
Qed.

Lemma generate_all_marks_outcome_witness :
  let r := TaskProcessor.generate_all demo_exec demo_yaml demo_self "/g" None
             fresh_world in
  if is_ok (fst r)
  then isfile (snd r) (join "/g" "gen.ok") = true
       /\ isfile (snd r) (join "/g" "gen.error") = false
  else isfile (snd r) (join "/g" "gen.error") = true
       /\ forall td, TaskProcessor.needs_generating (snd r) td "/g" = Ok true.
Proof.
  intros r.
  apply (generate_all_marks_outcome demo_exec demo_yaml demo_self "/g" None
           fresh_world ["g"; "gen.error"] ["g"; "gen.ok"] (fst r) (snd r)).
  - split; [reflexivity|]. left. reflexivity.
  - split; [reflexivity|]. left. reflexivity.
  - reflexivity.
  - apply surjective_pairing.
Defined.

(** *** After a run *)

Lemma files_le_lookup (c : Z) (q : seq str) :
  forall n m d,
    files_le c n = true -> lookup n q = Some (File m d) -> (m <= c)%Z.
Proof.
  induction q as [|a q IH]; intros n m d Hle Hl.
  - cbn [lookup] in Hl. injection Hl as ->. cbn [files_le] in Hle. lia.
  - destruct n as [|es|]; try discriminate Hl. cbn [lookup] in Hl.
    destruct (dict_get es a) as [x|] eqn:Hx; [|discriminate].
    apply (IH x m d); [|exact Hl].
    clear Hl IH. cbn [files_le] in Hle.
    induction es as [|[k v] es IHes]; [discriminate|].
    apply andb_true_iff in Hle. destruct Hle as [Hv Hes].
    cbn [dict_get] in Hx. destruct (k =? a)%string.
    + injection Hx as <-. exact Hv.
    + now apply IHes.
Qed.

Lemma files_le_no_future (w : world) :
  files_le (clock w) (root w) = true -> no_future_files w.
Proof.
  intros H q m d Hq. unfold entry_at in Hq. apply kind_of_file in Hq.
  exact (files_le_lookup _ q _ m d H Hq).
Qed.

Lemma getmtime_no_future (w : world) (p : str) (t : Z) :
  no_future_files w -> getmtime w p = Ok t -> (t <= clock w)%Z.
Proof.
  intros Hn H. unfold getmtime, stat in H.
  destruct (locate w p) as [q|]; [|discriminate].
  destruct (lookup (root w) q) as [[m d| |]|] eqn:Hl; try discriminate.
  injection H as <-. apply (Hn q m d). unfold entry_at. now rewrite Hl.
Qed.

(** With the ok marker stamped with the clock and no file from the
    future, the staleness check finds nothing to do. *)
Lemma needs_generating_fresh (w : world) (td g : str) :
  isfile w (join g "gen.error") = false ->
  isfile w (join g "gen.ok") = true ->
  getmtime w (join g "gen.ok") = Ok (clock w) ->
  no_future_files w ->
  TaskProcessor.needs_generating w td g <> Ok true
  /\ (mtimes_readable w td -> TaskProcessor.needs_generating w td g = Ok false).
Proof.
  intros Hfe Hfo Ht Hn. split.
  - unfold TaskProcessor.needs_generating. rewrite Hfe, Hfo, Ht. cbn [orb negb rbind].
    destruct (stat w td) as [n|]; [|discriminate].
    intros H. apply newer_under_sound in H.
    destruct H as (r & ds & fs & f & t & _ & _ & _ & Hm & Hlt).
    pose proof (getmtime_no_future w _ t Hn Hm). lia.
  - intros Hr. apply needs_generating_false; try assumption.
    intros n fp Hs Hv. specialize (Hr n fp Hs Hv).
    destruct (getmtime w fp) as [t|] eqn:Hm; [|discriminate].
    exists t, (clock w). repeat split; auto.
    now apply (getmtime_no_future w fp).
Qed.

(** X12: a run that returns leaves nothing to do.  In a generation
    directory with ordinary markers and a tree without files from the
    future, after [generate_all] has returned the staleness check does
    not answer True; and when the times of the files it visits can be
    read, it answers False and a second run changes nothing. *)
Theorem generate_all_then_up_to_date
    (exec : seq str -> str -> Z * str * str * seq (str * str)) (yaml_dump : pyval -> str)
    (self self' : TaskProcessor.processor) (g : str) (yaml_path : option str)
    (w w' : world) (E O : seq str) :
  plain_marker w (join g "gen.error") E ->
  plain_marker w (join g "gen.ok") O ->
  no_future_files w ->
  TaskProcessor.generate_all exec yaml_dump self g yaml_path w = (Ok self', w') ->
  TaskProcessor.needs_generating w' (TaskProcessor.task_dir self) g <> Ok true
  /\ (mtimes_readable w' (TaskProcessor.task_dir self) ->
      TaskProcessor.needs_generating w' (TaskProcessor.task_dir self) g = Ok false
      /\ TaskProcessor.generate_all exec yaml_dump self g yaml_path w' = (Ok self, w')).
Proof.
  intros HE HO Hn Hrun.
  assert (Hnoop : forall w0,
            TaskProcessor.needs_generating w0 (TaskProcessor.task_dir self) g = Ok false ->
            TaskProcessor.generate_all exec yaml_dump self g yaml_path w0 = (Ok self, w0)).
  { intros w0 H0. unfold TaskProcessor.generate_all, bind. rewrite H0. reflexivity. }
  destruct (TaskProcessor.needs_generating w (TaskProcessor.task_dir self) g)
    as [[|]|e] eqn:Hneeded.
  - destruct (generate_all_steps exec yaml_dump self g yaml_path w E O HE HO Hneeded)
      as (w1 & w4 & Hm & Hw & Hcases).
    destruct (marked_error_state w g E O HE HO w1 Hm) as (_ & HE1 & HO1 & _).
    destruct Hcases as [(e & Hraise) | (self'' & w'' & Hok & Hm')]; [congruence|].
    rewrite Hok in Hrun. injection Hrun as <- <-.
    pose proof (files_written_plain _ _ _ _ Hw HE1) as HE4.
    pose proof (files_written_plain _ _ _ _ Hw HO1) as HO4.
    destruct (marked_ok_state w4 g E O HE4 HO4 w'' Hm')
      as (_ & _ & _ & Hfo & Hfe & Ht).
    assert (Hn' : no_future_files w'').
    { apply (marked_no_future _ _ _ _ Hm').
      apply (files_written_no_future _ _ Hw).
      apply (marked_no_future _ _ _ _ Hm Hn). }
    assert (Hk : clock w'' = clock w4) by (destruct Hm' as ((_ & Hk & _) & _); exact Hk).
    rewrite <- Hk in Ht.
    destruct (needs_generating_fresh w'' (TaskProcessor.task_dir self) g Hfe Hfo Ht Hn')
      as [H1 H2].
    split; [exact H1|]. intros Hr. split; [now apply H2|].
    apply Hnoop. now apply H2.
  - rewrite (Hnoop w Hneeded) in Hrun. injection Hrun as <- <-.
    rewrite Hneeded. split; [discriminate|]. intros _. split; [reflexivity|].
    now apply Hnoop.
  - unfold TaskProcessor.generate_all, bind in Hrun. rewrite Hneeded in Hrun.
    discriminate.
Qed.

Lemma generate_all_then_up_to_date_witness :
  let w' := snd (TaskProcessor.generate_all demo_exec demo_yaml demo_self "/g" None
                   fresh_world) in
  TaskProcessor.needs_generating w' "/t" "/g" <> Ok true
  /\ (mtimes_readable w' "/t" ->
      TaskProcessor.needs_generating w' "/t" "/g" = Ok false
      /\ TaskProcessor.generate_all demo_exec demo_yaml demo_self "/g" None w'
         = (Ok demo_self, w')).
Proof.
  intros w'.
  apply (generate_all_then_up_to_date demo_exec demo_yaml demo_self demo_self "/g"
           None fresh_world w' ["g"; "gen.error"] ["g"; "gen.ok"]).
  - split; [reflexivity|]. left. reflexivity.
  - split; [reflexivity|]. left. reflexivity.
  - apply files_le_no_future. reflexivity.
  - reflexivity.
Defined.

(** ** What generation leaves in place *)

Lemma same_dirs_links_isdir (w w' : world) :
  cwd w' = cwd w -> same_dirs_links (root w) (root w') ->
  forall p, isdir w' p = isdir w p.
Proof.
  intros Hc Hs p. unfold isdir, stat.
  rewrite (same_dirs_links_locate w w' Hc Hs).
  destruct (locate w p) as [q|]; [|reflexivity].
  pose proof (same_dirs_links_is_dir _ _ Hs q) as H.
  unfold is_dir_node in H.
  destruct (lookup (root w') q) as [[| |]|], (lookup (root w) q) as [[| |]|];
    congruence.
Qed.

Lemma files_written_nothing_lost (w w' : world) :
  files_written w w' -> nothing_lost w w'.
Proof.
  intros Hw.
  pose proof (files_written_same _ _ Hw) as Hs.
  pose proof Hw as (Hc & _).
  split; [exact Hw|]. split; [now apply same_dirs_links_locate|].
  split; [intros p; now apply files_written_isfile|].
  now apply same_dirs_links_isdir.
Qed.

(** X13: between the two marks, generation only writes regular files
    and spawns programs, which write regular files of their own (the
    compiler its output file).  Whether they return or raise,
    [generate_yaml], [generate_checker] and [generate_testcases] leave
    a world in which every canonical path holds what it held, or holds
    a regular file stamped with the clock where there was a regular
    file or nothing; so every path resolves as before, what was a file
    is a file, and the directories are the same. *)
Theorem generation_only_writes_files
    (exec : seq str -> str -> Z * str * str * seq (str * str)) (yaml_dump : pyval -> str)
    (self : TaskProcessor.processor) (g yaml_path : str) (w : world) :
  nothing_lost w (snd (TaskProcessor.generate_yaml yaml_dump self g yaml_path w))
  /\ nothing_lost w (snd (TaskProcessor.generate_checker exec self g w))
  /\ nothing_lost w (snd (TaskProcessor.generate_testcases exec self g w)).
Proof.
  split; [|split]; apply files_written_nothing_lost.
  - apply only_writes_generate_yaml.
  - apply only_writes_generate_checker.
  - apply only_writes_generate_testcases.
Qed.

(** ** Spawned programs *)

Lemma leave_files_procs (files : seq (str * str)) :
  forall w, procs (leave_files files w) = procs w.
Proof.
  induction files as [|[path data] rest IH]; intros w; cbn [leave_files];
    [reflexivity|].
  rewrite IH. unfold write_file.
  destruct (open_target w path); reflexivity.
Qed.

Lemma files_written_open_target (w w' : world) (p : str) :
  files_written w w' -> open_target w' p = open_target w p.
Proof.
  intros Hw. pose proof Hw as (Hc & _ & _ & H).
  unfold open_target.
  rewrite (same_dirs_links_locate w w' Hc (files_written_same _ _ Hw)).
  destruct (locate w p) as [q|]; [|reflexivity].
  destruct (H q) as [E | [F (d & E)]]; unfold entry_at in *.
  - destruct (lookup (root w') q) as [[| |]|], (lookup (root w) q) as [[| |]|];
      simpl in E; congruence.
  - apply kind_of_file in E. rewrite E.
    destruct F as [F | (m & d' & F)].
    + apply kind_of_none in F. now rewrite F.
    + apply kind_of_file in F. now rewrite F.
Qed.

Lemma open_source_file (w : world) (p : str) (T : seq str) :
  open_source w p = Ok T ->
  locate w p = Some T /\ exists m d, lookup (root w) T = Some (File m d).
Proof.
  unfold open_source. destruct (locate w p) as [q|]; [|discriminate].
  destruct (lookup (root w) q) as [[m d| |]|] eqn:E; try discriminate.
  intros H. injection H as <-. eauto.
Qed.

Lemma open_source_read (w : world) (p : str) (T : seq str) :
  open_source w p = Ok T -> read_file w p = Ok (contents_at w T).
Proof.
  intros H. destruct (open_source_file _ _ _ H) as (Hl & m & d & E).
  unfold read_file, stat, contents_at. now rewrite Hl, E.
Qed.

(** A file that was written can be opened for reading, where it was
    opened for writing. *)
Lemma open_source_written (w w' : world) (p data : str) (T : seq str) :
  open_target w p = Ok T -> write_file p data w = (Ok tt, w') ->
  open_source w' p = Ok T /\ contents_at w' T = data.
Proof.
  intros Hopen Hw. rewrite (write_file_ok _ _ _ _ Hopen) in Hw. injection Hw as <-.
  destruct (written w p T _ Hopen (const_file_writes (clock w) data))
    as (Heq & _ & Hloc).
  unfold open_source, contents_at. rewrite Hloc.
  rewrite (open_target_locate _ _ _ Hopen). now rewrite Heq.
Qed.

Lemma same_entry_contents (w w' : world) (q : seq str) :
  entry_at w' q = entry_at w q -> contents_at w' q = contents_at w q.
Proof.
  unfold entry_at, contents_at.
  destruct (lookup (root w') q) as [[| |]|], (lookup (root w) q) as [[| |]|];
    simpl; congruence.
Qed.

(** What the file opened at [Ti] holds once the file at [To] has been
    emptied. *)
Lemma contents_after_truncation (w w' : world) (p : str) (Ti To : seq str) :
  open_target w p = Ok To -> write_file p "" w = (Ok tt, w') ->
  contents_at w' Ti = stdin_after Ti To (contents_at w Ti).
Proof.
  intros Hopen Hw. rewrite (write_file_ok _ _ _ _ Hopen) in Hw. injection Hw as <-.
  destruct (written w p To _ Hopen (const_file_writes (clock w) ""))
    as (Heq & Hother & _).
  unfold stdin_after. destruct (list_eq_dec string_dec Ti To) as [->|Hne].
  - unfold contents_at. now rewrite Heq.
  - apply same_entry_contents. now apply Hother.
Qed.

(** [run_io] with the standard input and output redirected, once both
    files are open. *)
Lemma run_io_files (exec : seq str -> str -> Z * str * str * seq (str * str))
    (commands : seq str) (input_path output_path : str) (fail_abort : bool)
    (w : world) (Ti To : seq str) :
  open_source w input_path = Ok Ti ->
  open_target w output_path = Ok To ->
  let input := stdin_after Ti To (contents_at w Ti) in
  let r := TaskProcessor.run_io exec commands (Some input_path) (Some output_path)
             None fail_abort w in
  fst r = (if negb (exit_code exec commands input =? 0)%Z && fail_abort
           then Raise "Command returned non-zero"
           else Ok (exit_code exec commands input, None,
                    Some (stderr_of exec commands input)))
  /\ read_file (snd r) output_path = Ok (stdout_of exec commands input)
  /\ procs (snd r) = commands :: procs w
  /\ (Ti <> To -> files_of exec commands input = [] ->
      read_file (snd r) input_path = Ok (contents_at w Ti)).
Proof.
  intros Hin Hout input r.
  destruct (write_file_run w output_path "" To Hout)
    as (w1 & Hw1 & _ & Hkeep1 & Hread1 & Hloc1 & Hprocs1).
  pose proof (contents_after_truncation w w1 output_path Ti To Hout Hw1) as Hstdin.
  fold input in Hstdin.
  set (w2 := spawned exec commands input w1).
  assert (Hfw : files_written w1 w2) by apply files_written_spawn.
  assert (Hout2 : open_target w2 output_path = Ok To).
  { rewrite (files_written_open_target _ _ _ Hfw). now apply Hkeep1. }
  destruct (write_file_run w2 output_path (stdout_of exec commands input) To Hout2)
    as (w3 & Hw3 & Hread3 & _ & Hother3 & _ & Hprocs3).
  assert (Hrun : r = ((if negb (exit_code exec commands input =? 0)%Z && fail_abort
                       then Raise "Command returned non-zero"
                       else Ok (exit_code exec commands input, None,
                                Some (stderr_of exec commands input))), w3)).
  { subst r. unfold TaskProcessor.run_io, TaskProcessor.open_stdin,
      TaskProcessor.redirect.
    unfold bind at 1. rewrite Hin.
    unfold bind at 1. rewrite Hw1.
    unfold bind at 1. unfold ret at 1.
    rewrite Hstdin.
    unfold w2, spawned, files_of, stdout_of, exit_code, stderr_of in *.
    destruct (exec commands input) as [[[rc out] err] files].
    cbn [fst snd] in *.
    unfold bind at 1. rewrite Hw3.
    unfold bind, ret, throw.
    destruct (negb (rc =? 0)%Z && fail_abort); reflexivity. }
  rewrite Hrun. cbn [fst snd].
  split; [reflexivity|]. split; [exact Hread3|]. split.
  - rewrite Hprocs3. unfold w2, spawned. rewrite leave_files_procs.
    cbn [log_proc procs]. now rewrite Hprocs1.
  - intros Hne Hfiles.
    destruct (open_source_file _ _ _ Hin) as (Hl & _).
    assert (Hl2 : locate w2 input_path = Some Ti).
    { pose proof Hfw as (Hc & _).
      rewrite (same_dirs_links_locate w1 w2 Hc (files_written_same _ _ Hfw)).
      rewrite Hloc1. exact Hl. }
    rewrite (Hother3 input_path Ti Hl2 Hne).
    unfold w2, spawned. rewrite Hfiles. cbn [leave_files].
    change (read_file (log_proc w1 commands) input_path)
      with (read_file w1 input_path).
    rewrite (Hread1 input_path Ti Hl Hne).
    now apply open_source_read.
Qed.

(** X14: [generate_checker] does nothing when the parameters name no
    checker.  Otherwise it spawns the compiler once, with the checker
    source joined to the task directory and the output "checker" in
    the generation directory, and raises exactly when the compiler
    exits non-zero; the world is then as the compiler left it.  A
    checker that is not a string raises before anything is spawned. *)
Theorem generate_checker_compiles
    (exec : seq str -> str -> Z * str * str * seq (str * str))
    (self : TaskProcessor.processor) (g : str) (w : world) :
  match dict_get (TaskProcessor.params self) "checker" with
  | None => TaskProcessor.generate_checker exec self g w = (Ok tt, w)
  | Some (PStr source) =>
      let command :=
        ["/usr/bin/g++"; "-Wall"; "-O2"; "-std=c++0x"; "-o";
         join g "checker"; join (TaskProcessor.task_dir self) source] in
      TaskProcessor.generate_checker exec self g w
      = (if (exit_code exec command "" =? 0)%Z then Ok tt
         else Raise "Command returned non-zero",
         leave_files (files_of exec command "") (log_proc w command))
  | Some _ =>
      exists e, TaskProcessor.generate_checker exec self g w = (Raise e, w)
  end.
Proof.
  unfold TaskProcessor.generate_checker.
  destruct (dict_get (TaskProcessor.params self) "checker") as [c|]; [|reflexivity].
  destruct c; try (eexists; reflexivity).
  cbv zeta. unfold bind, lift, join_val, TaskProcessor.compile_cpp, bind,
    TaskProcessor.run, ret, exit_code, files_of. cbn [app].
  destruct (exec _ "") as [[[rc out] err] files]. cbn [fst snd].
  destruct (rc =? 0)%Z; reflexivity.
Qed.

(** The compiler of the examples: it writes its output file and
    succeeds; every other program prints "out". *)
Example generate_checker_leaves_binary :
  let exec (cmd : seq str) (input : str) :=
    match cmd with
    | "/usr/bin/g++" :: _ :: _ :: _ :: _ :: out_path :: _ =>
        (0%Z, "", "", [(out_path, "ELF")])
    | _ => (0%Z, "out", "", [])
    end in
  let self := TaskProcessor.mkProcessor "/t"
                (("checker", PStr "checker.cpp") :: demo_params) None None in
  let r := TaskProcessor.generate_checker exec self "/g" fresh_world in
  fst r = Ok tt
  /\ read_file (snd r) "/g/checker" = Ok "ELF"
  /\ procs (snd r) = [["/usr/bin/g++"; "-Wall"; "-O2"; "-std=c++0x"; "-o";
                       "/g/checker"; "/t/checker.cpp"]].
Proof. vm_compute. repeat split; reflexivity. Qed.

(** X16: [generate_yaml] opens the snapshot file, which empties it,
    before it asks for the safe dump.  If the file cannot be opened
    nothing changes; otherwise the file holds the dump when the
    serializer succeeds, and is left empty when the serializer
    raises. *)
Theorem generate_yaml_snapshot (yaml_dump : pyval -> str)
    (self : TaskProcessor.processor) (g yaml_path : str) (w : world) :
  let r := TaskProcessor.generate_yaml yaml_dump self g yaml_path w in
  match open_target w yaml_path with
  | Raise e => r = (Raise e, w)
  | Ok _ =>
      match TaskProcessor._get_safe_yaml yaml_dump self g with
      | Ok text => fst r = Ok tt /\ read_file (snd r) yaml_path = Ok text
      | Raise e => fst r = Raise e /\ read_file (snd r) yaml_path = Ok ""
      end
  end.
Proof.
  intros r. subst r. unfold TaskProcessor.generate_yaml.
  destruct (open_target w yaml_path) as [T|e] eqn:Hopen.
  - destruct (write_file_run w yaml_path "" T Hopen)
      as (w1 & Hw1 & Hread1 & Hkeep1 & _).
    rewrite (bind_ok_eq _ _ _ _ _ Hw1). unfold bind, lift.
    destruct (TaskProcessor._get_safe_yaml yaml_dump self g) as [text|e].
    + destruct (write_file_run w1 yaml_path text T (Hkeep1 _ _ Hopen))
        as (w2 & Hw2 & Hread2 & _).
      rewrite Hw2. split; [reflexivity | exact Hread2].
    + split; [reflexivity | exact Hread1].
  - unfold bind, write_file. rewrite Hopen. reflexivity.
Qed.

(** X17: [run_io] with the standard input and output redirected to
    files.  The input file is opened for reading and then the output
    file for writing, which empties it; when either cannot be opened
    the error is raised and nothing has changed.  Otherwise the program
    is spawned once on what the input file then holds (nothing, when
    both paths name one file); the output file holds what it printed,
    also when it fails; the call raises exactly when the program exits
    non-zero and [fail_abort] is set, and otherwise returns the exit
    code, None for the redirected standard output, and the standard
    error.  The input file is as it was when it is another file than
    the output file and the program writes no file by name. *)
Theorem run_io_redirected (exec : seq str -> str -> Z * str * str * seq (str * str))
    (commands : seq str) (input_path output_path : str) (fail_abort : bool)
    (w : world) :
  let r := TaskProcessor.run_io exec commands (Some input_path) (Some output_path)
             None fail_abort w in
  match open_source w input_path, open_target w output_path with
  | Raise e, _ => r = (Raise e, w)
  | Ok _, Raise e => r = (Raise e, w)
  | Ok Ti, Ok To =>
      let input := stdin_after Ti To (contents_at w Ti) in
      fst r = (if negb (exit_code exec commands input =? 0)%Z && fail_abort
               then Raise "Command returned non-zero"
               else Ok (exit_code exec commands input, None,
                        Some (stderr_of exec commands input)))
      /\ read_file (snd r) output_path = Ok (stdout_of exec commands input)
      /\ procs (snd r) = commands :: procs w
      /\ (Ti <> To -> files_of exec commands input = [] ->
          read_file (snd r) input_path = read_file w input_path)
  end.
Proof.
  intros r.
  destruct (open_source w input_path) as [Ti|e] eqn:Hin.
  2:{ subst r. unfold TaskProcessor.run_io, TaskProcessor.open_stdin.
      unfold bind at 1. now rewrite Hin. }
  destruct (open_target w output_path) as [To|e] eqn:Hout.
  2:{ subst r. unfold TaskProcessor.run_io, TaskProcessor.open_stdin,
        TaskProcessor.redirect.
      unfold bind at 1. rewrite Hin.
      unfold bind at 1. unfold write_file. now rewrite Hout. }
  destruct (run_io_files exec commands input_path output_path fail_abort w Ti To
              Hin Hout) as (Hr & Hread & Hprocs & Hsame).
  fold r in Hr, Hread, Hprocs, Hsame.
  cbv zeta. repeat split; auto.
  intros Hne Hfiles. rewrite (open_source_read _ _ _ Hin). now apply Hsame.
Qed.

(** A generator that fails on the testcase written before, and a
    program that reads the file it prints to. *)
Example run_io_scenarios :
  let r := TaskProcessor.run_io failing_exec ["/g/generator.out"]
             (Some "/g/01.01.in") (Some "/g/01.01.out") None true audit in
  let echo (cmd : seq str) (input : str) := (0%Z, ("<" ++ input ++ ">")%string, "", []) in
  let r' := TaskProcessor.run_io echo ["cat"] (Some "/g/01.01.in")
              (Some "/g/01.01.in") None true audit in
  fst r = Raise "Command returned non-zero"
  /\ read_file (snd r) "/g/01.01.out" = Ok "partial"
  /\ read_file (snd r) "/g/01.01.in" = read_file audit "/g/01.01.in"
  /\ procs (snd r) = [["/g/generator.out"]]
  /\ fst r' = Ok (0%Z, None, Some "")
  /\ read_file (snd r') "/g/01.01.in" = Ok "<>"
  /\ fst (TaskProcessor.run_io echo ["cat"] (Some "/g/missing") (Some "/g/x") None
            true audit) = Raise "IOError".
Proof. vm_compute. repeat split; reflexivity. Qed.

(** ** Generating one testcase *)

Lemma bind_raise_eq {A B} (m : M A) (k : A -> M B) (w w1 : world) (e : str) :
  m w = (Raise e, w1) -> bind m k w = (Raise e, w1).
Proof. intros H. unfold bind. now rewrite H. Qed.

Lemma answered_unique (self : TaskProcessor.processor) (testcase : pyval)
    (io io' : pydict) :
  answered self testcase io -> answered self testcase io' -> io = io'.
Proof.
  intros (cb & args & Hm & -> & Hc) (cb' & args' & Hm' & Ht & Hc').
  injection Ht as <-. rewrite Hm in Hm'. injection Hm' as <-.
  congruence.
Qed.

Lemma stdin_after_other (Ti To : seq str) (inp : str) :
  Ti <> To -> stdin_after Ti To inp = inp.
Proof.
  intros Hne. unfold stdin_after.
  now destruct (list_eq_dec string_dec Ti To).
Qed.

Lemma generation_succeeds_unique
    (exec : seq str -> str -> Z * str * str * seq (str * str))
    (self : TaskProcessor.processor) (testcase : pyval) (si sti : nat)
    (gen_dir : str) (w : world) (io io' : pydict) (inp inp' out out' : str)
    (Ti Ti' To To' : seq str) :
  generation_succeeds exec self testcase si sti gen_dir w io inp out Ti To ->
  generation_succeeds exec self testcase si sti gen_dir w io' inp' out' Ti' To' ->
  io = io' /\ inp = inp' /\ out = out' /\ Ti = Ti' /\ To = To'.
Proof.
  intros (Ha & Hi & Hti & Hto & Ho) (Ha' & Hi' & Hti' & Hto' & Ho').
  pose proof (answered_unique _ _ _ _ Ha Ha') as <-.
  rewrite Hi in Hi'. injection Hi' as <-.
  rewrite Hti in Hti'. injection Hti' as <-.
  rewrite Hto in Hto'. injection Hto' as <-.
  repeat split; auto.
  destruct Ho as [Ho | (Ho & g & Hg & _ & ->)],
           Ho' as [Ho' | (Ho' & g' & Hg' & _ & ->)]; try congruence.
Qed.

(** One call of [_generate_testcase] in which the task module answers
    with the mapping [io]. *)
Section OneTestcase.

Variable exec : seq str -> str -> Z * str * str * seq (str * str).
Variable self : TaskProcessor.processor.
Variable cb : pydict -> result pyval.
Variables args io : pydict.
Variables si sti : nat.
Variable gen_dir : str.
Variable w : world.

Let input_path := input_path_of gen_dir si sti.
Let output_path := output_path_of gen_dir si sti.
Let r := TaskProcessor._generate_testcase exec self (PDict args) si sti gen_dir w.

Hypothesis Hmod : TaskProcessor.module self = Some cb.
Hypothesis Hcb : cb args = Ok (PDict io).

Lemma gen_no_input :
  dict_get io "input" = None ->
  r = (Raise "Testcase must contain 'input' key.", w).
Proof.
  intros Hin. unfold r, TaskProcessor._generate_testcase.
  rewrite Hmod, Hcb.
  cbn [bind lift contains negb]. unfold dict_has. rewrite Hin. reflexivity.
Qed.

Lemma gen_input_unopened (v : pyval) (e : str) :
  dict_get io "input" = Some v ->
  open_target w input_path = Raise e ->
  r = (Raise e, w).
Proof.
  intros Hin Hopen. unfold r, TaskProcessor._generate_testcase.
  fold (input_path_of gen_dir si sti). fold input_path.
  rewrite Hmod, Hcb.
  cbn [bind lift contains negb]. unfold dict_has at 1. rewrite Hin.
  cbn [negb]. apply bind_raise_eq. unfold write_file. now rewrite Hopen.
Qed.

Lemma gen_input_not_string (v : pyval) (Ti : seq str) :
  dict_get io "input" = Some v ->
  open_target w input_path = Ok Ti ->
  (forall s, v <> PStr s) ->
  is_ok (fst r) = false.
Proof.
  intros Hin Hopen Hv. unfold r, TaskProcessor._generate_testcase.
  fold (input_path_of gen_dir si sti). fold input_path.
  rewrite Hmod, Hcb.
  cbn [bind lift contains negb]. unfold dict_has at 1. rewrite Hin.
  cbn [negb].
  destruct (write_file_run w input_path "" Ti Hopen) as (w1 & Hw1 & _).
  rewrite (bind_ok_eq _ _ _ _ _ Hw1).
  cbn [bind lift getitem]. rewrite Hin.
  destruct v; try reflexivity. now destruct (Hv s).
Qed.

(** The world after the input file has been written. *)
Lemma gen_input_written (inp : str) (Ti : seq str) :
  dict_get io "input" = Some (PStr inp) ->
  open_target w input_path = Ok Ti ->
  exists w2,
    r = (has_output <- lift (contains (PDict io) "output") ;;
         if has_output then
           write_file output_path "" ;;;
           output <- lift (getitem (PDict io) "output") ;;
           TaskProcessor.write_value output_path output
         else
           match TaskProcessor.generator self with
           | None => throw "Testcase did not specify output, but an output generator was not found."
           | Some g =>
               TaskProcessor.run_io exec [g] (Some input_path) (Some output_path) None true ;;;
               ret tt
           end)%M w2
    /\ files_written w w2
    /\ open_source w2 input_path = Ok Ti
    /\ contents_at w2 Ti = inp
    /\ procs w2 = procs w.
Proof.
  intros Hin Hopen_in. unfold r, TaskProcessor._generate_testcase.
  fold (input_path_of gen_dir si sti) (output_path_of gen_dir si sti).
  fold input_path output_path.
  rewrite Hmod, Hcb.
  destruct (write_file_run w input_path "" Ti Hopen_in)
    as (w1 & Hw1 & _ & Hkeep1 & _ & Hloc1 & Hprocs1).
  pose proof (Hkeep1 _ _ Hopen_in) as Hopen1.
  destruct (write_file_run w1 input_path inp Ti Hopen1)
    as (w2 & Hw2 & Hread2 & Hkeep2 & _ & Hloc2 & Hprocs2).
  exists w2.
  split.
  - cbn [bind lift contains negb]. unfold dict_has at 1. rewrite Hin.
    cbn [negb]. rewrite (bind_ok_eq _ _ _ _ _ Hw1).
    cbn [bind lift getitem]. rewrite Hin.
    cbn [TaskProcessor.write_value]. rewrite (bind_ok_eq _ _ _ _ _ Hw2).
    reflexivity.
  - split.
    { apply (files_written_trans w w1 w2).
      - pose proof (only_writes_write_file input_path "" w) as H.
        now rewrite Hw1 in H.
      - pose proof (only_writes_write_file input_path inp w1) as H.
        now rewrite Hw2 in H. }
    destruct (open_source_written w1 w2 input_path inp Ti Hopen1 Hw2) as (Hs & Hc).
    split; [exact Hs|]. split; [exact Hc|]. congruence.
Qed.

Lemma gen_output_given (inp : str) (v : pyval) (Ti : seq str) :
  dict_get io "input" = Some (PStr inp) ->
  open_target w input_path = Ok Ti ->
  dict_get io "output" = Some v ->
  match open_target w output_path, v with
  | Raise e, _ => fst r = Raise e
  | Ok To, PStr out =>
      fst r = Ok tt
      /\ read_file (snd r) output_path = Ok out
      /\ (Ti <> To -> read_file (snd r) input_path = Ok inp)
  | Ok _, _ => is_ok (fst r) = false
  end.
Proof.
  intros Hin Hopen_in Hout.
  destruct (gen_input_written inp Ti Hin Hopen_in)
    as (w2 & -> & Hfw & Hsrc & Hcont & Hprocs2).
  cbn [bind lift contains]. unfold dict_has. rewrite Hout.
  pose proof (files_written_open_target w w2 output_path Hfw) as Hsame.
  destruct (open_target w output_path) as [To|e] eqn:Hopen_out.
  2:{ rewrite (bind_raise_eq _ _ w2 w2 e); [reflexivity|].
      unfold write_file. now rewrite Hsame. }
  destruct (write_file_run w2 output_path "" To Hsame)
    as (w3 & Hw3 & _ & Hkeep3 & Hread3 & Hloc3 & Hprocs3).
  rewrite (bind_ok_eq _ _ _ _ _ Hw3).
  cbn [bind lift getitem]. rewrite Hout.
  destruct v as [| | | |out| | |]; try reflexivity.
  cbn [TaskProcessor.write_value].
  destruct (write_file_run w3 output_path out To (Hkeep3 _ _ Hsame))
    as (w4 & Hw4 & Hread4 & _ & Hother4 & _ & Hprocs4).
  rewrite Hw4. cbn [fst snd].
  split; [reflexivity|]. split; [exact Hread4|].
  intros Hne.
  destruct (open_source_file _ _ _ Hsrc) as (Hl2 & _).
  assert (Hl : locate w3 input_path = Some Ti) by (rewrite Hloc3; exact Hl2).
  rewrite (Hother4 input_path Ti Hl Hne).
  rewrite (Hread3 input_path Ti Hl2 Hne).
  rewrite (open_source_read _ _ _ Hsrc). now rewrite Hcont.
Qed.

Lemma gen_no_generator (inp : str) (Ti : seq str) :
  dict_get io "input" = Some (PStr inp) ->
  open_target w input_path = Ok Ti ->
  dict_get io "output" = None ->
  TaskProcessor.generator self = None ->
  is_ok (fst r) = false.
Proof.
  intros Hin Hopen_in Hout Hgen.
  destruct (gen_input_written inp Ti Hin Hopen_in) as (w2 & -> & _).
  cbn [bind lift contains]. unfold dict_has. rewrite Hout, Hgen.
  reflexivity.
Qed.

Lemma gen_generator_run (inp g : str) (Ti : seq str) :
  dict_get io "input" = Some (PStr inp) ->
  open_target w input_path = Ok Ti ->
  dict_get io "output" = None ->
  TaskProcessor.generator self = Some g ->
  match open_target w output_path with
  | Raise e => fst r = Raise e
  | Ok To =>
      let input := stdin_after Ti To inp in
      fst r = (if (exit_code exec [g] input =? 0)%Z then Ok tt
               else Raise "Command returned non-zero")
      /\ read_file (snd r) output_path = Ok (stdout_of exec [g] input)
      /\ (Ti <> To -> files_of exec [g] input = [] ->
          read_file (snd r) input_path = Ok inp)
  end.
Proof.
  intros Hin Hopen_in Hout Hgen.
  destruct (gen_input_written inp Ti Hin Hopen_in)
    as (w2 & -> & Hfw & Hsrc & Hcont & Hprocs2).
  cbn [bind lift contains]. unfold dict_has. rewrite Hout, Hgen.
  pose proof (files_written_open_target w w2 output_path Hfw) as Hsame.
  destruct (open_target w output_path) as [To|e] eqn:Hopen_out.
  - destruct (run_io_files exec [g] input_path output_path true w2 Ti To Hsrc Hsame)
      as (Hr & Hread & _ & Hkeep).
    rewrite Hcont in Hr, Hread, Hkeep.
    cbv zeta in Hr, Hread, Hkeep |- *.
    set (m := TaskProcessor.run_io exec [g] (Some input_path) (Some output_path)
                None true) in *.
    assert (Hb : (m ;;; ret tt)%M w2
                 = (match fst (m w2) with Ok _ => Ok tt | Raise e => Raise e end,
                    snd (m w2))).
    { unfold bind, ret. destruct (m w2) as [[res|e] w3]; reflexivity. }
    rewrite Hb. cbn [fst snd]. rewrite Hr, andb_true_r.
    split; [|split; [exact Hread|]].
    + destruct (exit_code exec [g] (stdin_after Ti To inp) =? 0)%Z; reflexivity.
    + intros Hne Hfiles. now apply Hkeep.
  - rewrite (bind_raise_eq _ _ w2 w2 e); [reflexivity|].
    unfold TaskProcessor.run_io, TaskProcessor.open_stdin, TaskProcessor.redirect.
    unfold bind at 1. rewrite Hsrc.
    unfold bind at 1. unfold write_file. now rewrite Hsame.
Qed.

End OneTestcase.

Lemma gen_not_answered (exec : seq str -> str -> Z * str * str * seq (str * str))
    (self : TaskProcessor.processor) (testcase : pyval) (si sti : nat)
    (gen_dir : str) (w : world) :
  (forall io, ~ answered self testcase io) ->
  is_ok (fst (TaskProcessor._generate_testcase exec self testcase si sti gen_dir w))
  = false.
Proof.
  intros Hno. unfold TaskProcessor._generate_testcase.
  destruct (TaskProcessor.module self) as [cb|] eqn:Hmod;
    [|destruct testcase; reflexivity].
  destruct testcase as [| | | | | |args|]; try reflexivity.
  destruct (cb args) as [v|e] eqn:Hcb; [|reflexivity].
  destruct v as [| | | |s|l|io|]; try reflexivity.
  - cbn [bind lift contains]. destruct (negb _); [reflexivity|].
    unfold bind at 1.
    destruct (write_file _ "" w) as [[[]|e] w1]; reflexivity.
  - cbn [bind lift contains]. destruct (negb _); [reflexivity|].
    unfold bind at 1.
    destruct (write_file _ "" w) as [[[]|e] w1]; reflexivity.
  - destruct (Hno io). exists cb, args. auto.
Qed.

(** Every call of [_generate_testcase] either goes through, with both
    files written, or raises. *)
Lemma generate_testcase_table
    (exec : seq str -> str -> Z * str * str * seq (str * str))
    (self : TaskProcessor.processor) (testcase : pyval) (si sti : nat)
    (gen_dir : str) (w : world) :
  let r := TaskProcessor._generate_testcase exec self testcase si sti gen_dir w in
  (exists io inp out Ti To,
     generation_succeeds exec self testcase si sti gen_dir w io inp out Ti To
     /\ fst r = Ok tt
     /\ read_file (snd r) (output_path_of gen_dir si sti) = Ok out
     /\ (Ti <> To ->
         (dict_has io "output" = false -> generator_leaves_nothing exec self inp) ->
         read_file (snd r) (input_path_of gen_dir si sti) = Ok inp))
  \/ (is_ok (fst r) = false
      /\ forall io inp out Ti To,
           ~ generation_succeeds exec self testcase si sti gen_dir w io inp out Ti To).
Proof.
  intros r.
  destruct (TaskProcessor.module self) as [cb|] eqn:Hmod.
  2:{ right. split.
      - apply gen_not_answered. intros io (cb & args & Hm & _). congruence.
      - intros io inp out Ti To ((cb & args & Hm & _) & _). congruence. }
  destruct testcase as [| | | | | |args|];
    try (right; split;
         [apply gen_not_answered; intros io (cb' & args' & _ & Ht & _); discriminate
         |intros io inp out Ti To ((cb' & args' & _ & Ht & _) & _); discriminate]).
  destruct (cb args) as [v|e] eqn:Hcb.
  2:{ right. split.
      - apply gen_not_answered. intros io (cb' & args' & Hm & Ht & Hc).
        injection Ht as <-. congruence.
      - intros io inp out Ti To ((cb' & args' & Hm & Ht & Hc) & _).
        injection Ht as <-. congruence. }
  assert (Hans : forall io, answered self (PDict args) io -> v = PDict io).
  { intros io (cb' & args' & Hm & Ht & Hc). injection Ht as <-. congruence. }
  destruct v as [| | | |s|l|io|];
    try (right; split;
         [apply gen_not_answered; intros io Ha; apply Hans in Ha; discriminate
         |intros io inp out Ti To (Ha & _); apply Hans in Ha; discriminate]).
  assert (Hio : forall io', answered self (PDict args) io' -> io' = io).
  { intros io' Ha. apply Hans in Ha. now injection Ha. }
  assert (Ha : answered self (PDict args) io) by (exists cb, args; auto).
  clear Hans.
  (* the input *)
  destruct (dict_get io "input") as [vin|] eqn:Hin.
  2:{ right. split.
      - subst r.
        now rewrite (gen_no_input exec self cb args io si sti gen_dir w Hmod Hcb Hin).
      - intros io' inp out Ti To (Ha' & Hi & _).
        apply Hio in Ha'. subst io'. congruence. }
  destruct (open_target w (input_path_of gen_dir si sti)) as [Ti|e] eqn:Hopen_in.
  2:{ right. split.
      - subst r.
        now rewrite (gen_input_unopened exec self cb args io si sti gen_dir w
                       Hmod Hcb vin e Hin Hopen_in).
      - intros io' inp out Ti To (_ & _ & Hti & _). congruence. }
  assert (Hstr : (exists inp, vin = PStr inp) \/ forall s, vin <> PStr s).
  { destruct vin; try (right; discriminate). left. eauto. }
  destruct Hstr as [(inp & ->) | Hstr].
  2:{ right. split.
      - exact (gen_input_not_string exec self cb args io si sti gen_dir w
                 Hmod Hcb vin Ti Hin Hopen_in Hstr).
      - intros io' inp out Ti' To (Ha' & Hi & _).
        apply Hio in Ha'. subst io'. rewrite Hin in Hi. injection Hi as ->.
        now destruct (Hstr inp). }
  (* the output *)
  destruct (dict_get io "output") as [vout|] eqn:Hout.
  - pose proof (gen_output_given exec self cb args io si sti gen_dir w Hmod Hcb
                  inp vout Ti Hin Hopen_in Hout) as H.
    fold r in H.
    destruct (open_target w (output_path_of gen_dir si sti)) as [To|e] eqn:Hopen_out.
    2:{ right. split; [now rewrite H|].
        intros io' inp' out Ti' To (_ & _ & _ & Hto & _). congruence. }
    assert (Hstr : (exists out, vout = PStr out) \/ forall s, vout <> PStr s).
    { destruct vout; try (right; discriminate). left. eauto. }
    destruct Hstr as [(out & ->) | Hstr].
    + left. exists io, inp, out, Ti, To.
      destruct H as (Hr & Hro & Hri).
      split; [|split; [exact Hr|split; [exact Hro|]]].
      * repeat split; auto.
      * intros Hne _. now apply Hri.
    + right. split.
      * destruct vout; try exact H. now destruct (Hstr s).
      * intros io' inp' out Ti' To' (Ha' & _ & _ & _ & Ho).
        apply Hio in Ha'. subst io'.
        destruct Ho as [Ho | (Ho & _)]; [|congruence].
        rewrite Hout in Ho. injection Ho as ->. now destruct (Hstr out).
  - destruct (TaskProcessor.generator self) as [g|] eqn:Hgen.
    2:{ right. split.
        - exact (gen_no_generator exec self cb args io si sti gen_dir w Hmod Hcb
                   inp Ti Hin Hopen_in Hout Hgen).
        - intros io' inp' out Ti' To' (Ha' & _ & _ & _ & Ho).
          apply Hio in Ha'. subst io'.
          destruct Ho as [Ho | (_ & g & Hg & _)]; congruence. }
    pose proof (gen_generator_run exec self cb args io si sti gen_dir w Hmod Hcb
                  inp g Ti Hin Hopen_in Hout Hgen) as H.
    fold r in H.
    destruct (open_target w (output_path_of gen_dir si sti)) as [To|e] eqn:Hopen_out.
    2:{ right. split; [now rewrite H|].
        intros io' inp' out Ti' To (_ & _ & _ & Hto & _). congruence. }
    cbv zeta in H. destruct H as (Hr & Hro & Hri).
    destruct (exit_code exec [g] (stdin_after Ti To inp) =? 0)%Z eqn:Hrc.
    + left. exists io, inp, (stdout_of exec [g] (stdin_after Ti To inp)), Ti, To.
      apply Z.eqb_eq in Hrc.
      split; [|split; [exact Hr|split; [exact Hro|]]].
      * repeat split; auto. right. split; [exact Hout|]. exists g. auto.
      * intros Hne Hquiet. apply Hri; [exact Hne|].
        rewrite (stdin_after_other _ _ _ Hne).
        apply Hquiet; [|exact Hgen]. unfold dict_has. now rewrite Hout.
    + right. split; [now rewrite Hr|].
      intros io' inp' out Ti' To' (Ha' & Hi & Hti & Hto & Ho).
      apply Hio in Ha'. subst io'.
      rewrite Hin in Hi. injection Hi as <-.
      rewrite Hopen_in in Hti. injection Hti as <-.
      rewrite Hopen_out in Hto. injection Hto as <-.
      destruct Ho as [Ho | (_ & g' & Hg & Hz & _)]; [congruence|].
      rewrite Hgen in Hg. injection Hg as <-.
      apply Z.eqb_neq in Hrc. contradiction.
Qed.

(** Before any testcase is generated the output generator is compiled,
    and a compiler that exits non-zero ends the run there. *)
Lemma generate_testcases_compile_failure
    (exec : seq str -> str -> Z * str * str * seq (str * str))
    (self : TaskProcessor.processor) (gen_dir source : str) (w : world) :
  TaskProcessor.module self <> None ->
  dict_has (TaskProcessor.params self) "existing_testcases_format" = false ->
  dict_get (TaskProcessor.params self) "output_generator" = Some (PStr source) ->
  let command :=
    ["/usr/bin/g++"; "-Wall"; "-O2"; "-std=c++0x"; "-o";
     join gen_dir "generator.out"; join (TaskProcessor.task_dir self) source] in
  exit_code exec command "" <> 0%Z ->
  TaskProcessor.generate_testcases exec self gen_dir w
  = (Raise "Command returned non-zero",
     leave_files (files_of exec command "") (log_proc w command)).
Proof.
  intros Hmod Hex Hgen command Hrc.
  unfold TaskProcessor.generate_testcases.
  destruct (TaskProcessor.module self) as [cb|]; [|congruence].
  rewrite Hex, Hgen.
  unfold TaskProcessor.compile_cpp, TaskProcessor.run, bind, lift, join_val, ret.
  cbn [app]. fold command. unfold exit_code, files_of in *.
  destruct (exec command "") as [[[rc out] err] files]. cbn [fst snd] in *.
  apply Z.eqb_neq in Hrc. rewrite Hrc. reflexivity.
Qed.

(** C6: generating one testcase returns exactly when the task module
    answers with a mapping whose "input" is a string, the input and the
    output file can be opened for writing, and "output" is a string, or
    is absent while the output generator that is configured exits with
    zero ([generation_succeeds]); in every other case it raises.  It
    raises in particular in the three cases of the specification
    ([generation_fails]): "input" is missing, "output" is missing and
    no output generator is configured, the output generator that is
    spawned exits non-zero.  When it returns, the output file holds the
    returned output, or the standard output of the output generator run
    on the input; the input file holds the returned input when it is
    another file than the output file and the output generator, if
    run, writes no file by name.  The compiler is spawned once, before
    the first testcase: when it exits non-zero [generate_testcases]
    raises there, and no testcase is generated. *)
Theorem generate_testcase_outcome
    (exec : seq str -> str -> Z * str * str * seq (str * str))
    (self : TaskProcessor.processor) (testcase : pyval) (si sti : nat)
    (gen_dir : str) (w : world) :
  let r := TaskProcessor._generate_testcase exec self testcase si sti gen_dir w in
  (fst r = Ok tt <->
   exists io inp out Ti To,
     generation_succeeds exec self testcase si sti gen_dir w io inp out Ti To)
  /\ (is_ok (fst r) = false <->
      ~ exists io inp out Ti To,
          generation_succeeds exec self testcase si sti gen_dir w io inp out Ti To)
  /\ (generation_fails exec self testcase si sti gen_dir w ->
      is_ok (fst r) = false)
  /\ (forall io inp out Ti To,
        generation_succeeds exec self testcase si sti gen_dir w io inp out Ti To ->
        read_file (snd r) (output_path_of gen_dir si sti) = Ok out
        /\ (Ti <> To ->
            (dict_has io "output" = false ->
             generator_leaves_nothing exec self inp) ->
            read_file (snd r) (input_path_of gen_dir si sti) = Ok inp))
  /\ (forall source,
        TaskProcessor.module self <> None ->
        dict_has (TaskProcessor.params self) "existing_testcases_format" = false ->
        dict_get (TaskProcessor.params self) "output_generator" = Some (PStr source) ->
        let command :=
          ["/usr/bin/g++"; "-Wall"; "-O2"; "-std=c++0x"; "-o";
           join gen_dir "generator.out"; join (TaskProcessor.task_dir self) source] in
        exit_code exec command "" <> 0%Z ->
        TaskProcessor.generate_testcases exec self gen_dir w
        = (Raise "Command returned non-zero",
           leave_files (files_of exec command "") (log_proc w command))).
Proof.
  intros r.
  pose proof (generate_testcase_table exec self testcase si sti gen_dir w) as T.
  fold r in T.
  assert (Hyes : fst r = Ok tt <->
                 exists io inp out Ti To,
                   generation_succeeds exec self testcase si sti gen_dir w
                     io inp out Ti To).
  { split.
    - intros Hr. destruct T as [(io & inp & out & Ti & To & Hs & _) | (Hbad & _)].
      + exists io, inp, out, Ti, To. exact Hs.
      + rewrite Hr in Hbad. discriminate.
    - intros (io & inp & out & Ti & To & Hs).
      destruct T as [(_ & _ & _ & _ & _ & _ & Hr & _) | (_ & Hno)]; [exact Hr|].
      destruct (Hno _ _ _ _ _ Hs). }
  assert (Hno : is_ok (fst r) = false <->
                ~ exists io inp out Ti To,
                    generation_succeeds exec self testcase si sti gen_dir w
                      io inp out Ti To).
  { split.
    - intros Hbad Hs. apply Hyes in Hs. rewrite Hs in Hbad. discriminate.
    - intros Hs. destruct (fst r) as [[]|e] eqn:Hr; [|reflexivity].
      destruct Hs. now apply Hyes. }
  split; [exact Hyes|]. split; [exact Hno|]. split; [|split].
  - intros (io & Ha & Hcase). apply Hno.
    intros (io' & inp & out & Ti & To & Ha' & Hi & Hti & Hto & Ho).
    pose proof (answered_unique _ _ _ _ Ha Ha') as <-.
    unfold dict_has in Hcase.
    destruct Hcase as [H | [[H Hg] | (H & g & inp' & Ti' & To' & Hg & Hi' & Hti' & Hto' & Hrc)]].
    + rewrite Hi in H. discriminate.
    + destruct Ho as [Ho | (_ & g & Hg' & _)]; [|congruence].
      rewrite Ho in H. discriminate.
    + destruct Ho as [Ho | (_ & g' & Hg' & Hz & _)].
      * rewrite Ho in H. discriminate.
      * rewrite Hi in Hi'. injection Hi' as <-.
        rewrite Hti in Hti'. injection Hti' as <-.
        rewrite Hto in Hto'. injection Hto' as <-.
        rewrite Hg in Hg'. injection Hg' as <-. contradiction.
  - intros io inp out Ti To Hs.
    destruct T as [(io' & inp' & out' & Ti' & To' & Hs' & _ & Hro & Hri) | (_ & Hnone)];
      [|destruct (Hnone _ _ _ _ _ Hs)].
    destruct (generation_succeeds_unique _ _ _ _ _ _ _ _ _ _ _ _ _ _ _ _ _ Hs Hs')
      as (<- & <- & <- & <- & <-).
    split; [exact Hro | exact Hri].
  - intros source Hmod Hex Hgen command Hrc.
    now apply generate_testcases_compile_failure.
Qed.

Lemma generate_testcase_outcome_witness :
  let r := TaskProcessor._generate_testcase demo_exec demo_self
             (PDict [("seed", PInt 1); ("n", PInt 2)]) 0 0 "/g" fresh_world in
  fst r = Ok tt
  /\ read_file (snd r) "/g/01.01.out" = Ok "3"
  /\ read_file (snd r) "/g/01.01.in" = Ok "2 1 2".
Proof.
  intros r.
  pose proof (generate_testcase_outcome demo_exec demo_self
                (PDict [("seed", PInt 1); ("n", PInt 2)]) 0 0 "/g" fresh_world)
    as (Hyes & _ & _ & Hfiles & _).
  assert (Hs : generation_succeeds demo_exec demo_self
                 (PDict [("seed", PInt 1); ("n", PInt 2)]) 0 0 "/g" fresh_world
                 [("input", PStr "2 1 2"); ("output", PStr "3")] "2 1 2" "3"
                 ["g"; "01.01.in"] ["g"; "01.01.out"]).
  { split.
    - exists demo_callback, [("seed", PInt 1); ("n", PInt 2)].
      repeat split; reflexivity.
    - repeat split; try reflexivity. left. reflexivity. }
  split; [apply Hyes; eauto 10|].
  destruct (Hfiles _ _ _ _ _ Hs) as (Hout & Hin).
  split; [exact Hout|].
  apply Hin; [discriminate|]. intros H. discriminate.
Defined.

(** C6 (as stated) fails: the generation directory is missing, or the
    task module returns a number for the input; none of the three
    cases of the specification holds and generating the testcase
    raises. *)
Theorem generate_testcase_raises_otherwise :
  let testcase := PDict [("seed", PInt 1); ("n", PInt 2)] in
  let numeric := TaskProcessor.mkProcessor "/t" demo_params (Some number_input) None in
  fst (TaskProcessor._generate_testcase demo_exec demo_self testcase 0 0 "/missing"
         fresh_world) = Raise "IOError"
  /\ ~ generation_fails demo_exec demo_self testcase 0 0 "/missing" fresh_world
  /\ fst (TaskProcessor._generate_testcase demo_exec numeric testcase 0 0 "/g"
            fresh_world) = Raise "TypeError"
  /\ ~ generation_fails demo_exec numeric testcase 0 0 "/g" fresh_world.
Proof.
  intros testcase numeric.
  split; [vm_compute; reflexivity|]. split; [|split; [vm_compute; reflexivity|]].
  - intros (io & (cb & args & Hm & Ht & Hc) & Hcase).
    injection Hm as <-. injection Hc as <-.
    destruct Hcase as [H | [[H _] | [H _]]]; discriminate.
  - intros (io & (cb & args & Hm & Ht & Hc) & Hcase).
    injection Hm as <-. injection Hc as <-.
    destruct Hcase as [H | [[H _] | [H _]]]; discriminate.
Qed.

Example generate_testcase_scenarios :
  let self g := TaskProcessor.mkProcessor "/t" demo_params (Some input_only) g in
  let run exec g := TaskProcessor._generate_testcase exec (self g) (PDict []) 0 0 "/g"
                      fresh_world in
  is_ok (fst (run demo_exec None)) = false
  /\ fst (run demo_exec (Some "/g/generator.out")) = Ok tt
  /\ read_file (snd (run demo_exec (Some "/g/generator.out"))) "/g/01.01.out" = Ok "out"
  /\ procs (snd (run demo_exec (Some "/g/generator.out"))) = [["/g/generator.out"]]
  /\ is_ok (fst (run failing_exec (Some "/g/generator.out"))) = false
  /\ read_file (snd (run failing_exec (Some "/g/generator.out"))) "/g/01.01.in" = Ok "2 1 2".
Proof. vm_compute. repeat split; reflexivity. Qed.

(** ** Construction and getters *)

Example abspath_examples :
  map (abspath demo_world)
      ["a/b"; "/srv/task/../x"; "//srv//task/"; "///a"; ""; "/.."; "../../.."; "./a/./b/.."]
  = ["/srv/a/b"; "/srv/x"; "//srv/task"; "/a"; "/srv"; "/"; "/"; "/srv/a"].
Proof. vm_compute. reflexivity. Qed.

(** *** Construction *)

Lemma generate_all_without_module
    (exec : seq str -> str -> Z * str * str * seq (str * str)) (yaml_dump : pyval -> str)
    (self : TaskProcessor.processor) (g : str) (yaml_path : option str) (w : world) :
  TaskProcessor.module self = None ->
  TaskProcessor.needs_generating w (TaskProcessor.task_dir self) g = Ok true ->
  is_ok (fst (TaskProcessor.generate_all exec yaml_dump self g yaml_path w)) = false.
Proof.
  intros Hmod Hneeded. unfold TaskProcessor.generate_all.
  unfold bind at 1. rewrite Hneeded. cbn [negb].
  unfold bind at 1. destruct (TaskProcessor.mark_error g w) as [[[]|e] w1];
    [|reflexivity].
  unfold bind at 1. destruct (TaskProcessor.generate_yaml _ _ _ _ w1) as [[[]|e] w2];
    [|reflexivity].
  unfold bind at 1. destruct (TaskProcessor.generate_checker _ _ _ w2) as [[[]|e] w3];
    [|reflexivity].
  unfold bind at 1. unfold TaskProcessor.generate_testcases. rewrite Hmod.
  reflexivity.
Qed.

(** X15: a processor that was constructed holds the task directory and
    parameters that passed validation; its source was a dictionary, a
    ".yaml" file or a ".py" file, and only the last gives it a module.
    Without a module [generate_all] raises whenever there is something
    to generate. *)
Theorem constructed_processor
    (yaml_load : str -> result pyval)
    (load_source : world -> str -> result TaskProcessor.task_module)
    (w : world) (params_source : pyval) (td : str) (gd : option str)
    (self : TaskProcessor.processor) :
  TaskProcessor.__init__ yaml_load load_source w params_source td gd = Ok self ->
  TaskProcessor.task_dir self = td
  /\ Validator.assert_task_params w (PDict (TaskProcessor.params self)) td gd = Ok tt
  /\ (Validator.is_dict params_source = true /\ TaskProcessor.module self = None
      \/ (exists p, params_source = PStr p /\ splitext_ext p = ".yaml")
         /\ TaskProcessor.module self = None
      \/ (exists p, params_source = PStr p /\ splitext_ext p = ".py")
         /\ TaskProcessor.module self <> None)
  /\ (TaskProcessor.module self = None ->
      forall exec yaml_dump g yaml_path w',
        TaskProcessor.needs_generating w' td g = Ok true ->
        is_ok (fst (TaskProcessor.generate_all exec yaml_dump self g yaml_path w'))
        = false).
Proof.
  unfold TaskProcessor.__init__. intros H.
  apply rbind_ok in H. destruct H as ([params module] & Hload & H).
  cbn [fst snd] in H.
  apply rbind_unit_ok in H. destruct H as [Hval H].
  destruct params as [| | | | | |d|]; try discriminate H.
  injection H as <-. cbn [TaskProcessor.task_dir TaskProcessor.params TaskProcessor.module].
  split; [reflexivity|]. split; [exact Hval|]. split.
  - unfold TaskProcessor._load_params in Hload.
    destruct params_source as [| | | |p| |d0|]; try discriminate Hload.
    + destruct (String.eqb_spec (splitext_ext p) ".yaml") as [Hy|Hy].
      * right. left. split; [eauto|].
        apply rbind_ok in Hload. destruct Hload as (text & _ & Hload).
        apply rbind_ok in Hload. destruct Hload as (pv & _ & Hload).
        congruence.
      * destruct (String.eqb_spec (splitext_ext p) ".py") as [Hp|Hp];
          [|discriminate Hload].
        right. right. split; [eauto|].
        apply rbind_ok in Hload. destruct Hload as (m & _ & Hload).
        apply rbind_ok in Hload. destruct Hload as (pv & _ & Hload).
        injection Hload as _ <-. discriminate.
    + left. split; [reflexivity|]. congruence.
  - intros Hmod exec yd g yp w' Hneeded.
    apply generate_all_without_module; assumption.
Qed.

Lemma constructed_processor_witness :
  let self := TaskProcessor.mkProcessor "/t" demo_params None None in
  TaskProcessor.task_dir self = "/t"
  /\ Validator.assert_task_params fresh_world (PDict (TaskProcessor.params self))
       "/t" None = Ok tt
  /\ (Validator.is_dict (PDict demo_params) = true /\ TaskProcessor.module self = None
      \/ (exists p, PDict demo_params = PStr p /\ splitext_ext p = ".yaml")
         /\ TaskProcessor.module self = None
      \/ (exists p, PDict demo_params = PStr p /\ splitext_ext p = ".py")
         /\ TaskProcessor.module self <> None)
  /\ (TaskProcessor.module self = None ->
      forall exec yaml_dump g yaml_path w',
        TaskProcessor.needs_generating w' "/t" g = Ok true ->
        is_ok (fst (TaskProcessor.generate_all exec yaml_dump self g yaml_path w'))
        = false).
Proof.
  intros self.
  apply (constructed_processor (fun _ => Raise "no yaml")
           (fun _ _ => Raise "no module") fresh_world (PDict demo_params) "/t" None).
  reflexivity.
Defined.

Lemma abspath_isabs (w : world) (p : str) : isabs (abspath w p) = true.
Proof.
  unfold abspath, normpath_abs, isabs, startswith.
  destruct (_ && _); cbn [String.append String.prefix];
    (destruct (ascii_dec "/" "/"); [rewrite ?prefix_empty; reflexivity | congruence]).
Qed.

Lemma guarded_strings (w : world) (td : str) (l : seq pyval) :
  Forall (guarded_file w td) l -> exists ps, l = map PStr ps.
Proof.
  induction 1 as [|x l (p & -> & _) _ (ps & ->)].
  - exists []. reflexivity.
  - exists (p :: ps). reflexivity.
Qed.

Lemma files_list_strings (w : world) (v : pyval) (name : str)
    (kw : Validator.kwargs) (td : str) :
  Validator.base_dir kw = Some td ->
  Validator.assert_value w v "files_list" name kw = Ok tt ->
  exists ps, v = PList (map PStr ps).
Proof.
  intros Hb H. apply assert_value_files_list in H. rewrite Hb in H.
  apply files_list_iff in H. destruct H as (l & -> & _ & _ & Hall).
  destruct (guarded_strings _ _ _ Hall) as (ps & ->). eauto.
Qed.

Lemma map_result_abs (w : world) (self : TaskProcessor.processor) (ps : seq str) :
  map_result (TaskProcessor.abs_in_task_dir w self) (map PStr ps)
  = Ok (map (fun p => PStr (abspath w (join (TaskProcessor.task_dir self) p))) ps).
Proof.
  induction ps as [|p ps IH]; [reflexivity|].
  cbn [map map_result]. unfold TaskProcessor.abs_in_task_dir at 1. cbn [join_val rbind].
  rewrite IH. reflexivity.
Qed.

Lemma abs_paths_at_strings (w : world) (self : TaskProcessor.processor) (key : str) :
  (forall v, dict_get (TaskProcessor.params self) key = Some v ->
             exists ps, v = PList (map PStr ps)) ->
  exists r, TaskProcessor.abs_paths_at w self key = Ok r
            /\ abs_all w (TaskProcessor.task_dir self)
                 (list_at (TaskProcessor.params self) key) r.
Proof.
  intros H. unfold TaskProcessor.abs_paths_at, list_at, dict_has, getitem.
  destruct (dict_get (TaskProcessor.params self) key) as [v|]; cbn [negb].
  - destruct (H v eq_refl) as (ps & ->). cbn [rbind iterate].
    rewrite map_result_abs. cbn [rbind]. eexists. split; [reflexivity|].
    exists ps. auto.
  - eexists. split; [reflexivity|]. exists []. auto.
Qed.

(** X20: on validated parameters the getters of file lists do not
    raise: [get_attachments], [get_graders], [get_headers] and
    [get_managers] return, for the list under their key (the empty list
    when the key is absent), the absolute path of every entry joined to
    the task directory, in order; every returned path starts with a
    slash. *)
Theorem path_getters_of_validated (w : world) (self : TaskProcessor.processor)
    (gd : option str) :
  Validator.assert_task_params w (PDict (TaskProcessor.params self))
    (TaskProcessor.task_dir self) gd = Ok tt ->
  let td := TaskProcessor.task_dir self in
  let params := TaskProcessor.params self in
  (exists r, TaskProcessor.get_attachments w self = Ok r
             /\ abs_all w td (list_at params "attachments") r)
  /\ (exists r, TaskProcessor.get_graders w self = Ok r
                /\ abs_all w td (list_at params "graders") r)
  /\ (exists r, TaskProcessor.get_headers w self = Ok r
                /\ abs_all w td (list_at params "headers") r)
  /\ (exists r, TaskProcessor.get_managers w self = Ok r
                /\ abs_all w td (list_at params "managers") r)
  /\ forall p, isabs (abspath w p) = true.
Proof.
  intros H td params. apply assert_task_params_validated in H.
  destruct H as [_ _ _ Hat Hgr Hma Hhe _ _ _ _ _].
  repeat split; try apply abspath_isabs;
    apply abs_paths_at_strings; intros v Hv.
  - unfold Validator.assert_task_attachments in Hat. rewrite Hv in Hat.
    refine (files_list_strings w v _ _ (TaskProcessor.task_dir self) _ Hat);
      reflexivity.
  - unfold Validator.assert_task_graders in Hgr. rewrite Hv in Hgr.
    apply rbind_unit_ok in Hgr. destruct Hgr as [Hgr _].
    refine (files_list_strings w v _ _ (TaskProcessor.task_dir self) _ Hgr);
      reflexivity.
  - unfold Validator.assert_task_headers in Hhe. rewrite Hv in Hhe.
    apply rbind_unit_ok in Hhe. destruct Hhe as [Hhe _].
    refine (files_list_strings w v _ _ (TaskProcessor.task_dir self) _ Hhe);
      reflexivity.
  - unfold Validator.assert_task_managers in Hma. rewrite Hv in Hma.
    apply rbind_unit_ok in Hma. destruct Hma as [Hma _].
    refine (files_list_strings w v _ _ (TaskProcessor.task_dir self) _ Hma);
      reflexivity.
Qed.

Lemma get_statement_entries (w : world) (self : TaskProcessor.processor)
    (l : seq pyval) :
  Forall (statement_ok w (TaskProcessor.task_dir self)) l ->
  map_result
    (fun statement_info =>
       language <- getitem statement_info "language" ;;
       path <- getitem statement_info "path" ;;
       abs <- TaskProcessor.abs_in_task_dir w self path ;;
       Ok (PDict [("language", language); ("path", abs)]))%res l
  = Ok (map (fun s =>
               PDict [("language", PStr (lang_of s));
                      ("path", PStr (abspath w (join (TaskProcessor.task_dir self)
                                                     (path_of s))))]) l).
Proof.
  induction 1 as [|s l (d & lang & p & -> & Hl & _ & Hp & _) _ IH]; [reflexivity|].
  cbn [map map_result getitem]. rewrite Hl, Hp. cbn [rbind].
  unfold TaskProcessor.abs_in_task_dir at 1. cbn [join_val rbind]. rewrite IH. cbn [rbind].
  unfold lang_of, path_of. rewrite Hl, Hp. reflexivity.
Qed.

Lemma get_submit_entries (w : world) (self : TaskProcessor.processor)
    (items : seq pyval) :
  Forall (submit_item_ok w (TaskProcessor.task_dir self)) items ->
  exists new_items,
    map_result
      (fun item =>
         files <- getitem item "files" ;;
         files <- iterate files ;;
         new_files <- map_result (TaskProcessor.abs_in_task_dir w self) files ;;
         name <- getitem item "name" ;;
         score <- getitem item "score" ;;
         Ok (PDict [("name", name); ("score", score);
                    ("files", PList new_files)]))%res items
    = Ok new_items
    /\ Forall2 (abs_submit_item w (TaskProcessor.task_dir self)) items new_items.
Proof.
  induction 1 as [|it items (d & name & score & f & -> & _ & Hn & _ & Hs & _ & _
                            & Hf & (p & -> & _) & _) _ (new_items & IH & Hall)].
  - exists []. split; [reflexivity | constructor].
  - eexists. cbn [map_result getitem]. rewrite Hf, Hn, Hs. cbn [rbind iterate].
    change [PStr p] with (map PStr [p]).
    rewrite (map_result_abs w self [p]). cbn [rbind map]. rewrite IH. cbn [rbind].
    split; [reflexivity|]. constructor; [|exact Hall].
    exists d, (PStr name), score, p. auto.
Qed.

(** X21: on validated parameters [get_statements] and
    [get_auto_submit_items] do not raise.  The first returns one
    mapping per statement, in order, with the language and the absolute
    path of the statement file joined to the task directory; the second
    one mapping per automatic submission, with its name, its score and
    the absolute path of its one file.  Both return the empty list when
    their key is absent. *)
Theorem record_getters_of_validated (w : world) (self : TaskProcessor.processor)
    (gd : option str) :
  Validator.assert_task_params w (PDict (TaskProcessor.params self))
    (TaskProcessor.task_dir self) gd = Ok tt ->
  let td := TaskProcessor.task_dir self in
  let params := TaskProcessor.params self in
  TaskProcessor.get_statements w self
  = Ok (PList (map (fun s =>
                      PDict [("language", PStr (lang_of s));
                             ("path", PStr (abspath w (join td (path_of s))))])
                   (list_at params "statements")))
  /\ exists new_items,
       TaskProcessor.get_auto_submit_items w self = Ok (PList new_items)
       /\ Forall2 (abs_submit_item w td) (list_at params "auto_submit") new_items.
Proof.
  intros H td params. subst td params. apply assert_task_params_validated in H.
  destruct H as [_ _ _ _ _ _ _ Hst _ Hau _ _]. split.
  - unfold TaskProcessor.get_statements, list_at, dict_has.
    unfold Validator.assert_task_statements in Hst.
    destruct (dict_get (TaskProcessor.params self) "statements") as [v|] eqn:Hv;
      [|reflexivity].
    unfold getitem at 1. rewrite Hv. cbn [negb rbind].
    apply rbind_unit_ok in Hst. destruct Hst as [Hty Hst].
    destruct v as [| | | | |l| |]; try discriminate Hty.
    apply check_statements_iff in Hst. destruct Hst as (Hall & _).
    cbn [iterate rbind]. rewrite (get_statement_entries w self l Hall).
    reflexivity.
  - unfold TaskProcessor.get_auto_submit_items, list_at, dict_has.
    destruct (dict_get (TaskProcessor.params self) "auto_submit") as [v|] eqn:Hv;
      [|exists []; split; [reflexivity | constructor]].
    destruct (assert_auto_submit_inv w _ _ v Hau Hv) as (items & -> & _ & Hcases).
    assert (Hall : Forall (submit_item_ok w (TaskProcessor.task_dir self)) items).
    { destruct Hcases as [-> | (ty & _ & _ & Hall)]; [constructor | exact Hall]. }
    unfold getitem at 1. rewrite Hv. cbn [negb rbind iterate].
    destruct (get_submit_entries w self items Hall) as (new_items & Hrun & H2).
    rewrite Hrun. exists new_items. split; [reflexivity | exact H2].
Qed.

Lemma record_getters_of_validated_witness :
  let self := TaskProcessor.mkProcessor "/srv/task" submit_params None None in
  TaskProcessor.get_statements site self
  = Ok (PList (map (fun s =>
                      PDict [("language", PStr (lang_of s));
                             ("path", PStr (abspath site (join "/srv/task" (path_of s))))])
                   (list_at submit_params "statements")))
  /\ exists new_items,
       TaskProcessor.get_auto_submit_items site self = Ok (PList new_items)
       /\ Forall2 (abs_submit_item site "/srv/task")
            (list_at submit_params "auto_submit") new_items.
Proof.
  intros self.
  apply (record_getters_of_validated site self None).
  vm_compute. reflexivity.
Defined.

Lemma path_getters_of_validated_witness :
  let self := TaskProcessor.mkProcessor "/srv/task" submit_params None None in
  (exists r, TaskProcessor.get_attachments site self = Ok r
             /\ abs_all site "/srv/task" (list_at submit_params "attachments") r)
  /\ (exists r, TaskProcessor.get_graders site self = Ok r
                /\ abs_all site "/srv/task" (list_at submit_params "graders") r)
  /\ (exists r, TaskProcessor.get_headers site self = Ok r
                /\ abs_all site "/srv/task" (list_at submit_params "headers") r)
  /\ (exists r, TaskProcessor.get_managers site self = Ok r
                /\ abs_all site "/srv/task" (list_at submit_params "managers") r)
  /\ forall p, isabs (abspath site p) = true.
Proof.
  intros self.
  apply (path_getters_of_validated site self None).
  vm_compute. reflexivity.
Defined.

Lemma auto_submit_validated_witness :
  exists items,
    PList [PDict [("name", PStr "full"); ("score", PInt 100);
                  ("files", PList [PStr "checker.cpp"])]] = PList items
    /\ List.length items <= 30
    /\ (items <> [] -> dict_get submit_params "type" = Some (PStr "Batch"))
    /\ Forall (submit_item_ok site "/srv/task") items.
Proof.
  apply (auto_submit_validated site submit_params "/srv/task").
  - vm_compute. reflexivity.
  - reflexivity.
Defined.

(** ** Default names are distinct *)

Lemma decimal_from_dotless (s : str) :
  forall acc n, decimal_from acc s = Some n -> dotless s = true.
Proof.
  induction s as [|c s IH]; intros acc n H; [reflexivity|].
  cbn [decimal_from] in H. cbn [dotless].
  destruct (digit_of_char c) as [d|] eqn:Hd; [|discriminate].
  rewrite (IH _ _ H), andb_true_r.
  destruct (Ascii.eqb_spec c "."); [subst c; discriminate Hd | reflexivity].
Qed.

Lemma decimal_dotless (s : str) (n : nat) : decimal s = Some n -> dotless s = true.
Proof.
  destruct s; [discriminate|]. unfold decimal. apply decimal_from_dotless.
Qed.

(** Two strings that agree up to their first dot. *)
Lemma split_at_dot (a a' x x' : str) :
  dotless a = true -> dotless a' = true ->
  (a ++ String "." x)%string = (a' ++ String "." x')%string ->
  a = a' /\ x = x'.
Proof.
  revert a'. induction a as [|c a IH]; intros a' Ha Ha' H.
  - destruct a' as [|c' a']; cbn [String.append] in H.
    + injection H as H. auto.
    + injection H as Hc _. subst c'. discriminate Ha'.
  - destruct a' as [|c' a']; cbn [String.append] in H.
    + injection H as Hc _. subst c. discriminate Ha.
    + injection H as Hc H. subst c'.
      cbn [dotless] in Ha, Ha'.
      apply andb_true_iff in Ha, Ha'.
      destruct (IH a' (proj2 Ha) (proj2 Ha') H) as [-> ->]. auto.
Qed.

Lemma default_name_parts (s t : nat) :
  s < 100 -> t < 200 ->
  decimal (format_0d 2 (s + 1)) = Some (s + 1)
  /\ decimal (format_0d 2 (t + 1)) = Some (t + 1).
Proof.
  intros Hs Ht. pose proof (namer_shape_ok s t Hs Ht) as H.
  unfold namer_shape in H.
  destruct (decimal (format_0d 2 (s + 1))) as [x|]; [|discriminate].
  destruct (decimal (format_0d 2 (t + 1))) as [y|]; [|discriminate].
  rewrite !andb_true_iff, !Nat.eqb_eq in H.
  destruct H as [[[Hx Hy] _] _]. subst. auto.
Qed.

Lemma default_names_split (s t s' t' : nat) (suffix suffix' : str) :
  s < 100 -> t < 200 -> s' < 100 -> t' < 200 ->
  (format_0d 2 (s + 1) ++ "." ++ format_0d 2 (t + 1) ++ String "." suffix)%string
  = (format_0d 2 (s' + 1) ++ "." ++ format_0d 2 (t' + 1) ++ String "." suffix')%string ->
  s = s' /\ t = t' /\ suffix = suffix'.
Proof.
  intros Hs Ht Hs' Ht' H.
  destruct (default_name_parts s t Hs Ht) as [Ha Hb].
  destruct (default_name_parts s' t' Hs' Ht') as [Ha' Hb'].
  apply split_at_dot in H; try (eapply decimal_dotless; eassumption).
  destruct H as [Hab H].
  apply split_at_dot in H; try (eapply decimal_dotless; eassumption).
  destruct H as [Hbb Hsuf].
  rewrite Hab in Ha. rewrite Hbb in Hb.
  assert (H1 : s + 1 = s' + 1) by congruence.
  assert (H2 : t + 1 = t' + 1) by congruence.
  split; [lia|]. split; [lia | exact Hsuf].
Qed.

(** X19: within the bounds validation allows (subtask index below 100,
    testcase index below 200) the default namers give every testcase
    its own files: two input names, or two output names, are equal
    only for the same subtask and testcase, and no input name is an
    output name. *)
Theorem default_names_distinct (s t s' t' : nat) (o o' : option nat) :
  s < 100 -> t < 200 -> s' < 100 -> t' < 200 ->
  (Constants.input_namer s t o = Constants.input_namer s' t' o' -> s = s' /\ t = t')
  /\ (Constants.output_namer s t o = Constants.output_namer s' t' o' ->
      s = s' /\ t = t')
  /\ Constants.input_namer s t o <> Constants.output_namer s' t' o'.
Proof.
  intros Hs Ht Hs' Ht'. unfold Constants.input_namer, Constants.output_namer.
  split; [|split]; intros H;
    apply (default_names_split s t s' t' _ _ Hs Ht Hs' Ht') in H;
    destruct H as (H1 & H2 & H3); auto; discriminate H3.
Qed.

Lemma default_names_distinct_witness :
  (Constants.input_namer 0 99 None = Constants.input_namer 9 0 None -> 0 = 9 /\ 99 = 0)
  /\ (Constants.output_namer 0 99 None = Constants.output_namer 9 0 None ->
      0 = 9 /\ 99 = 0)
  /\ Constants.input_namer 0 99 None <> Constants.output_namer 9 0 None.
Proof.
  apply (default_names_distinct 0 99 9 0 None None); lia.
Defined.

(** ** Validated parameters can be dumped *)

Lemma plain_list (l : seq pyval) :
  plain (PList l) = forallb plain l.
Proof. induction l as [|x l IH]; [reflexivity|]. cbn [forallb]. rewrite <- IH. reflexivity. Qed.

Lemma plain_dict (d : pydict) :
  plain (PDict d) = forallb (fun kv => plain (snd kv)) d.
Proof.
  induction d as [|[k v] d IH]; [reflexivity|]. cbn [forallb snd]. rewrite <- IH.
  reflexivity.
Qed.

Lemma int_value_plain (v : pyval) (z : Z) : int_value v = Some z -> plain v = true.
Proof. destruct v; try discriminate; reflexivity. Qed.

Lemma int_between_plain (lo hi : Z) (v : pyval) : int_between lo hi v -> plain v = true.
Proof. intros (z & Hz & _). now apply (int_value_plain v z). Qed.

Lemma ints_plain (lo hi : Z) (l : seq pyval) :
  Forall (int_between lo hi) l -> plain (PList l) = true.
Proof.
  intros H. rewrite plain_list. apply forallb_forall. intros x Hx.
  rewrite Forall_forall in H. apply (int_between_plain lo hi). now apply H.
Qed.

Lemma paths_named_plain (ni no : pyval) (base : str) (si acc n : nat)
    (paths : seq pyval) :
  paths_named ni no base si acc n paths -> plain (PList paths) = true.
Proof.
  intros [Hlen H]. rewrite plain_list. apply forallb_forall. intros x Hx.
  apply In_nth_error in Hx. destruct Hx as [j Hj].
  assert (Hlt : j < n) by (rewrite <- Hlen; apply nth_error_Some; congruence).
  destruct (H j Hlt) as (a & b & _ & _ & Hnth).
  rewrite Hj in Hnth. injection Hnth as ->. reflexivity.
Qed.

(** Replacing the value of a key by plain data. *)
Lemma forallb_dict_set (P : str * pyval -> bool) (d : pydict) (k : str) (v : pyval) :
  NoDup (map fst d) ->
  P (k, v) = true ->
  Forall (fun kv => fst kv = k \/ P kv = true) d ->
  forallb P (dict_set d k v) = true.
Proof.
  intros Hnd Hv. induction d as [|[k' v'] d IH]; intros Hall.
  - cbn. now rewrite Hv.
  - inversion Hall as [|? ? Hhead Htail]; subst.
    inversion Hnd as [|? ? Hfresh Hnd']; subst.
    cbn [dict_set]. destruct (String.eqb_spec k' k) as [->|Hne].
    + cbn [forallb]. rewrite Hv. cbn [andb].
      apply forallb_forall. intros x Hx. rewrite Forall_forall in Htail.
      destruct (Htail x Hx) as [Hk | Hp]; [|exact Hp].
      exfalso. apply Hfresh. apply in_map_iff. exists x. auto.
    + cbn [forallb]. destruct Hhead as [Hk | Hp]; [cbn in Hk; congruence|].
      rewrite Hp. cbn [andb]. now apply IH.
Qed.

Lemma dict_set_keys (d : pydict) (k : str) (v : pyval) :
  dict_has d k = true -> map fst (dict_set d k v) = map fst d.
Proof.
  unfold dict_has. induction d as [|[k' v'] d IH]; [discriminate|].
  cbn [dict_get dict_set]. destruct (String.eqb_spec k' k) as [->|Hne].
  - reflexivity.
  - intros H. cbn [map fst]. now rewrite IH.
Qed.

Lemma dict_set_forall (Q : str * pyval -> Prop) (d : pydict) (k : str) (v : pyval) :
  Q (k, v) -> Forall Q d -> Forall Q (dict_set d k v).
Proof.
  intros Hv. induction 1 as [|[k' v'] d Hh Ht IH]; cbn [dict_set].
  - constructor; [exact Hv | constructor].
  - destruct (k' =? k)%string; constructor; auto.
Qed.

Lemma Forall_dict_set (Q : str * pyval -> Prop) (d : pydict) (k : str) (v : pyval) :
  NoDup (map fst d) ->
  Q (k, v) ->
  Forall (fun kv => fst kv = k \/ Q kv) d ->
  Forall Q (dict_set d k v).
Proof.
  intros Hnd Hv. induction d as [|[k' v'] d IH]; intros Hall.
  - cbn. constructor; [exact Hv | constructor].
  - inversion Hall as [|? ? Hhead Htail]; subst.
    inversion Hnd as [|? ? Hfresh Hnd']; subst.
    cbn [dict_set]. destruct (String.eqb_spec k' k) as [->|Hne].
    + constructor; [exact Hv|].
      apply Forall_forall. intros x Hx. rewrite Forall_forall in Htail.
      destruct (Htail x Hx) as [Hk | Hp]; [|exact Hp].
      exfalso. apply Hfresh. apply in_map_iff. exists x. auto.
    + constructor; [|now apply IH].
      destruct Hhead as [Hk | Hp]; [cbn in Hk; congruence | exact Hp].
Qed.

Lemma dict_has_false_keys {V} (d : seq (str * V)) (k : str) :
  dict_has d k = false -> Forall (fun kv => fst kv <> k) d.
Proof.
  unfold dict_has. induction d as [|[k' v'] d IH]; [constructor|].
  cbn [dict_get]. destruct (String.eqb_spec k' k) as [->|Hne]; [discriminate|].
  intros H. constructor; [exact Hne | now apply IH].
Qed.

Lemma safe_params_inv (self : TaskProcessor.processor) (gen_dir : str) (out : pyval) :
  TaskProcessor.safe_params self gen_dir = Ok out ->
  let params := TaskProcessor.params self in
  let existing := dict_has params "existing_testcases_format" in
  exists subs safe ni no base,
    dict_get params "subtasks" = Some (PList subs)
    /\ TaskProcessor.safe_subtasks existing ni no base 0 0 subs = Ok safe
    /\ out = PDict (dict_set (if existing
                              then dict_set params "existing_testcases_format"
                                     (PBool true)
                              else params) "subtasks" (PList safe)).
Proof.
  intros H params existing. unfold TaskProcessor.safe_params in H.
  fold params in H. fold existing in H.
  apply rbind_ok in H. destruct H as ([ni no] & _ & H).
  apply rbind_ok in H. destruct H as (subtasks & Hs & H).
  apply rbind_ok in H. destruct H as (n & _ & H).
  destruct subtasks as [| | | | |subs| |]; try discriminate H.
  apply rbind_ok in H. destruct H as (safe & Hsafe & H).
  injection H as <-.
  unfold getitem in Hs. destruct (dict_get params "subtasks") as [v|] eqn:Hv;
    [|discriminate].
  injection Hs as ->.
  exists subs, safe, ni, no, (if existing then TaskProcessor.task_dir self else gen_dir).
  auto.
Qed.

Lemma safe_copy_plain (existing : bool) (ni no : pyval) (base : str)
    (si acc : nat) (sd : pydict) (copy : pyval) :
  safe_copy_of existing ni no base si acc (PDict sd) copy ->
  (forall score, dict_get sd "score" = Some score -> plain score = true) ->
  (forall c, dict_get sd "contains" = Some c -> plain c = true) ->
  plain copy = true.
Proof.
  intros (score & num & paths & contained & -> & Hscore & _ & (n & Hn) & Hpaths & Hc)
         Hps Hpc.
  rewrite plain_dict. cbn [forallb snd].
  cbn [getitem] in Hscore.
  destruct (dict_get sd "score") as [s|] eqn:Hs; [|discriminate].
  injection Hscore as ->. rewrite (Hps score eq_refl).
  rewrite (paths_named_plain _ _ _ _ _ _ _ Hpaths).
  rewrite (int_value_plain num n Hn).
  destruct Hc as [[_ Hc] | [_ ->]]; [|reflexivity].
  cbn [getitem] in Hc.
  destruct (dict_get sd "contains") as [c|] eqn:Hcc; [|discriminate].
  injection Hc as ->. now rewrite (Hpc contained eq_refl).
Qed.

(** The first half of the serializer on validated parameters: it
    returns. *)
Lemma safe_params_total (w : world) (self : TaskProcessor.processor)
    (gd : option str) (gen_dir : str) :
  Validator.assert_task_params w (PDict (TaskProcessor.params self))
    (TaskProcessor.task_dir self) gd = Ok tt ->
  (forall v, dict_get (TaskProcessor.params self) "existing_testcases_format" = Some v ->
             exists ef, v = PDict ef) ->
  exists out, TaskProcessor.safe_params self gen_dir = Ok out.
Proof.
  intros Hvalid Hformat.
  apply assert_task_params_subtasks in Hvalid.
  pose proof Hvalid as Hsub.
  unfold Validator.assert_task_subtasks in Hsub.
  destruct (dict_get (TaskProcessor.params self) "subtasks")
    as [subtasks|] eqn:Hsubs; [|discriminate].
  destruct (negb (Validator.list subtasks _ _)) eqn:Hlist; [discriminate|].
  apply negb_false_iff in Hlist.
  destruct subtasks as [| | | | |subs| |]; try discriminate.
  simpl in Hsub.
  assert (Hlen : 0 < List.length subs).
  { unfold Validator.list in Hlist. simpl in Hlist.
    destruct (List.length subs); [discriminate | lia]. }
  unfold TaskProcessor.safe_params.
  set (params := TaskProcessor.params self) in *.
  set (existing := dict_has params "existing_testcases_format").
  assert (Hnamers : exists ni no,
             picked_namers params ni no
             /\ (if existing then
                   (format <- getitem (PDict params) "existing_testcases_format" ;;
                    input_namer <- getitem format "input" ;;
                    output_namer <- getitem format "output" ;;
                    Ok (input_namer, output_namer))%res
                 else Ok (PFunc TaskProcessor.default_input_namer,
                          PFunc TaskProcessor.default_output_namer))
                = Ok (ni, no)).
  { unfold picked_namers. fold existing. destruct existing eqn:Hex.
    - unfold existing, dict_has in Hex.
      destruct (dict_get params "existing_testcases_format") as [v|] eqn:Hv;
        [|discriminate].
      destruct (Hformat v eq_refl) as (ef & ->).
      destruct (assert_task_subtasks_each w params _ gd subs 0 Hvalid Hsubs Hlen)
        as (acc & n & Hfirst).
      destruct (assert_subtask_namers _ _ _ _ _ _ _ _ Hv Hfirst)
        as (ni & no & Hi & Ho).
      exists ni, no. split.
      + exists ef. split; [reflexivity|]. intros ni' no' Hi' Ho'.
        split; congruence.
      + unfold getitem at 1. rewrite Hv. cbn [rbind].
        rewrite Hi. cbn [rbind]. rewrite Ho. reflexivity.
    - eexists _, _. split; [split; reflexivity | reflexivity]. }
  destruct Hnamers as (ni & no & Hpicked & ->). cbn [rbind fst snd].
  unfold getitem at 1. rewrite Hsubs. cbn [rbind py_len].
  destruct (check_subtasks_safe w params _ gd ni no
              (if existing then TaskProcessor.task_dir self else gen_dir)
              subs Hsubs Hpicked subs [] 0 eq_refl Hsub) as (safe & Hsafe).
  simpl List.length in Hsafe. fold existing in Hsafe. rewrite Hsafe.
  simpl. eauto.
Qed.

(** X18: validated parameters can always be written as YAML.  When the
    parameters pass validation and hold plain data under every key
    other than "existing_testcases_format" (a mapping when present) and
    "subtasks", the serializer returns a mapping without callables and
    [_get_safe_yaml] returns its dump. *)
Theorem validated_params_can_be_dumped (yaml_dump : pyval -> str) (w : world)
    (self : TaskProcessor.processor) (gd : option str) (gen_dir : str) :
  Validator.assert_task_params w (PDict (TaskProcessor.params self))
    (TaskProcessor.task_dir self) gd = Ok tt ->
  (forall v, dict_get (TaskProcessor.params self) "existing_testcases_format" = Some v ->
             exists ef, v = PDict ef) ->
  plain_elsewhere (TaskProcessor.params self) ->
  exists out,
    TaskProcessor.safe_params self gen_dir = Ok out
    /\ plain out = true
    /\ TaskProcessor._get_safe_yaml yaml_dump self gen_dir = Ok (yaml_dump out).
Proof.
  intros Hvalid Hformat [Hnd Hplain].
  destruct (safe_params_total w self gd gen_dir Hvalid Hformat) as (out & Hout).
  exists out. split; [exact Hout|].
  assert (Hp : plain out = true).
  { destruct (safe_params_inv self gen_dir out Hout)
      as (subs & safe & ni & no & base & Hsubs & Hsafe & ->).
    set (params := TaskProcessor.params self) in *.
    set (existing := dict_has params "existing_testcases_format") in *.
    (* the safe copies are plain *)
    assert (Hsp : plain (PList safe) = true).
    { destruct (safe_subtasks_shape existing ni no base subs 0 0 safe Hsafe)
        as [Hlen Hcopies].
      rewrite plain_list. apply forallb_forall. intros copy Hin.
      apply In_nth_error in Hin. destruct Hin as [i Hi].
      assert (Hlt : i < List.length subs)
        by (rewrite <- Hlen; apply nth_error_Some; congruence).
      destruct (nth_error subs i) as [subtask|] eqn:Hnth;
        [|apply nth_error_None in Hnth; lia].
      destruct (Hcopies i subtask Hnth) as (copy' & Hc' & Hcopy).
      assert (copy' = copy) by congruence. subst copy'.
      apply assert_task_params_subtasks in Hvalid.
      destruct (assert_task_subtasks_each w params _ gd subs i Hvalid Hsubs Hlt)
        as (acc & n & Hsub).
      destruct (assert_subtask_bounds w params i acc _ gd n subs subtask Hsubs Hnth Hsub)
        as ((sd & score & -> & Hscore & Hsb & _) & _ & _).
      apply (safe_copy_plain _ _ _ _ _ _ sd copy Hcopy).
      - intros s Hs. rewrite Hscore in Hs. injection Hs as <-.
        now apply (int_between_plain 0 100).
      - intros c Hc.
        destruct (assert_subtask_contains w params i acc _ gd n subs sd c
                    Hsubs Hnth Hc Hsub) as (l & -> & _ & Hall).
        now apply (ints_plain 1 (Z.of_nat i)). }
    rewrite plain_dict.
    apply forallb_forall. apply Forall_forall.
    apply Forall_dict_set with (Q := fun kv => plain (snd kv) = true).
    - destruct existing eqn:Hex; [|exact Hnd].
      rewrite dict_set_keys; [exact Hnd | exact Hex].
    - exact Hsp.
    - destruct existing eqn:Hex.
      + apply Forall_dict_set
          with (Q := fun kv => fst kv = "subtasks" \/ plain (snd kv) = true).
        * exact Hnd.
        * right. reflexivity.
        * exact Hplain.
      + pose proof (dict_has_false_keys params _ Hex) as Hk.
        apply Forall_forall. intros kv Hin.
        rewrite Forall_forall in Hplain, Hk.
        destruct (Hplain kv Hin) as [He | H]; [|exact H].
        now destruct (Hk kv Hin). }
  split; [exact Hp|].
  unfold TaskProcessor._get_safe_yaml. rewrite Hout. cbn [rbind].
  unfold TaskProcessor.safe_dump. now rewrite Hp.
Qed.

Lemma validated_params_can_be_dumped_witness :
  exists out,
    TaskProcessor.safe_params existing_self "/g" = Ok out
    /\ plain out = true
    /\ TaskProcessor._get_safe_yaml demo_yaml existing_self "/g" = Ok (demo_yaml out).
Proof.
  apply (validated_params_can_be_dumped demo_yaml existing_world existing_self None "/g").
  - vm_compute. reflexivity.
  - intros v Hv. vm_compute in Hv. injection Hv as <-. eauto.
  - split.
    + cbn. repeat (constructor; [cbn; intuition discriminate|]). constructor.
    + repeat (constructor; [cbn; auto|]). constructor.
Defined.

(** ** The documented template is not ready to use *)

Lemma rbind_raise {A B} (r : result A) (k : A -> result B) :
  (forall a, is_ok (k a) = false) -> is_ok (rbind r k) = false.
Proof. intros H. destruct r; [apply H | reflexivity]. Qed.

(** X22: the documented template does not pass validation as it is
    written, whatever the task directory holds: it gives
    "existing_testcases_format" together with subtasks that list
    "testcases" and no "num_testcases".  With the format removed, or
    with the subtasks given by their numbers of testcases, it passes in
    a task directory that holds the files it names. *)
Theorem documented_template_rejected :
  (forall w td gd,
     is_ok (Validator.assert_task_params w documented_template.get_task_params td gd)
     = false)
  /\ Validator.assert_task_params template_world
       (without_key "existing_testcases_format" documented_template.get_task_params)
       "/task" None = Ok tt
  /\ Validator.assert_task_params template_world
       (with_key "subtasks" counted_subtasks documented_template.get_task_params)
       "/task" None = Ok tt.
Proof.
  split; [|split; vm_compute; reflexivity].
  intros w td gd. unfold Validator.assert_task_params, documented_template.get_task_params.
  cbn [Validator.is_dict negb Validator.assert_type rbind].
  destruct (negb (isdir w td)); [reflexivity|].
  do 11 (apply rbind_raise; intros ?).
  vm_compute. reflexivity.
Qed.

(** ** Every testcase is written *)

Lemma default_names_plain_all :
  forallb (fun s =>
             forallb (fun t => plain_name (Constants.input_namer s t None)
                               && plain_name (Constants.output_namer s t None))
                     (List.seq 0 200))
          (List.seq 0 100) = true.
Proof. vm_compute. reflexivity. Qed.

Lemma default_names_plain (s t : nat) (o : option nat) :
  s < 100 -> t < 200 ->
  plain_name (Constants.input_namer s t o) = true
  /\ plain_name (Constants.output_namer s t o) = true.
Proof.
  intros Hs Ht. pose proof default_names_plain_all as H.
  rewrite forallb_forall in H. specialize (H s).
  rewrite in_seq in H.
  assert (Hin : forallb (fun t => plain_name (Constants.input_namer s t None)
                                  && plain_name (Constants.output_namer s t None))
                        (List.seq 0 200) = true) by (apply H; lia).
  rewrite forallb_forall in Hin. specialize (Hin t).
  rewrite in_seq in Hin. apply andb_true_iff. apply Hin. lia.
Qed.

Lemma plain_name_parts (name : str) :
  plain_name name = true ->
  startswith name "/" = false /\ split_path name = [name]
  /\ is_special name = false /\ (name =? "..")%string = false /\ name <> "".
Proof.
  unfold plain_name. rewrite !andb_true_iff, !negb_true_iff.
  intros [[[H1 H2] H3] H4].
  split; [exact H1|]. split.
  - destruct (split_path name) as [|x [|y l]]; try discriminate.
    apply String.eqb_eq in H2. now subst.
  - split; [exact H3|]. split; [exact H4|].
    intros ->. discriminate H3.
Qed.

(** All plain names joined to the same directory are entries of one
    directory. *)
Lemma entry_of_sibling (w : world) (g : str) (D : seq str) (name name' : str) :
  plain_name name = true -> plain_name name' = true ->
  entry_of w (join g name) = Some (D ++ [name]) ->
  entry_of w (join g name') = Some (D ++ [name']).
Proof.
  intros Hn Hn' H.
  destruct (plain_name_parts _ Hn) as (Ha & Hs & Hsp & Hdd & Hne).
  destruct (plain_name_parts _ Hn') as (Ha' & Hs' & Hsp' & Hdd' & Hne').
  destruct (split_path_join g name Ha Hs) as (dp & Hsplit & Hothers).
  specialize (Hothers name' Ha' Hs').
  unfold entry_of in *. rewrite Hsplit in H. rewrite Hothers.
  rewrite removelast_snoc, last_snoc in *.
  rewrite Hsp, Hdd in H. rewrite Hsp', Hdd'. cbn [orb] in *.
  assert (Hstart : start_of w (join g name') = start_of w (join g name)).
  { unfold start_of.
    rewrite (isabs_join g name' name Ha' Ha Hne' Hne); [reflexivity|].
    intros _. unfold isabs. now rewrite Ha, Ha'. }
  rewrite Hstart.
  destruct (stat_from link_budget (root w) (start_of w (join g name)) dp) as [d|];
    [|discriminate].
  destruct (is_dir_node (lookup (root w) d)); [|discriminate].
  injection H as H. apply app_inj_tail in H. destruct H as [-> _]. reflexivity.
Qed.

Lemma gen_dir_at_marker (w : world) (g : str) (D : seq str) (name : str) :
  plain_name name = true ->
  entry_of w (join g name) = Some (D ++ [name]) ->
  gen_dir_at w g D.
Proof.
  intros Hn H name' Hn'. exact (entry_of_sibling w g D name name' Hn Hn' H).
Qed.

Lemma gen_dir_at_written (w w' : world) (g : str) (D : seq str) :
  files_written w w' -> gen_dir_at w g D -> gen_dir_at w' g D.
Proof.
  intros Hw H name Hn. pose proof Hw as (Hc & _).
  rewrite (same_dirs_links_entry_of w w' Hc (files_written_same _ _ Hw)).
  now apply H.
Qed.

(** *** Writing at the entry level *)

Lemma write_file_entries (w : world) (path data : str) (T : seq str) :
  open_target w path = Ok T ->
  exists w',
    write_file path data w = (Ok tt, w')
    /\ entry_at w' T = Some (KFile (clock w) data)
    /\ (forall q, q <> T -> entry_at w' q = entry_at w q)
    /\ (cwd w' = cwd w /\ clock w' = clock w /\ procs w' = procs w)
    /\ (forall p2 T2, open_target w p2 = Ok T2 -> open_target w' p2 = Ok T2).
Proof.
  intros Hopen.
  destruct (written w path T _ Hopen (const_file_writes (clock w) data))
    as (Heq & Hother & _).
  eexists. split; [apply write_file_ok; exact Hopen|].
  split; [unfold entry_at; now rewrite Heq|].
  split; [exact Hother|]. split; [auto|].
  intros p2 T2 H2. eapply write_keeps_open; eauto using const_file_writes.
Qed.

(** One testcase whose input and output the module returns: the two
    files hold them, nothing else changes, nothing is spawned. *)
Lemma gen_testcase_entries (exec : seq str -> str -> Z * str * str * seq (str * str))
    (self : TaskProcessor.processor) (cb : pydict -> result pyval)
    (args io : pydict) (inp out : str) (s t : nat) (g : str) (w : world)
    (Ti To : seq str) :
  TaskProcessor.module self = Some cb ->
  cb args = Ok (PDict io) ->
  dict_get io "input" = Some (PStr inp) ->
  dict_get io "output" = Some (PStr out) ->
  open_target w (join g (Constants.input_namer s t None)) = Ok Ti ->
  open_target w (join g (Constants.output_namer s t None)) = Ok To ->
  Ti <> To ->
  exists w',
    TaskProcessor._generate_testcase exec self (PDict args) s t g w = (Ok tt, w')
    /\ entry_at w' Ti = Some (KFile (clock w) inp)
    /\ entry_at w' To = Some (KFile (clock w) out)
    /\ (forall q, q <> Ti -> q <> To -> entry_at w' q = entry_at w q)
    /\ (cwd w' = cwd w /\ clock w' = clock w /\ procs w' = procs w).
Proof.
  intros Hmod Hcb Hin Hout Hoi Hoo Hne.
  destruct (write_file_entries w _ "" Ti Hoi)
    as (w1 & Hw1 & _ & Hf1 & (Hc1 & Hk1 & Hp1) & Hkeep1).
  destruct (write_file_entries w1 _ inp Ti (Hkeep1 _ _ Hoi))
    as (w2 & Hw2 & Hi2 & Hf2 & (Hc2 & Hk2 & Hp2) & Hkeep2).
  pose proof (Hkeep2 _ _ (Hkeep1 _ _ Hoo)) as Hoo2.
  destruct (write_file_entries w2 _ "" To Hoo2)
    as (w3 & Hw3 & _ & Hf3 & (Hc3 & Hk3 & Hp3) & Hkeep3).
  destruct (write_file_entries w3 _ out To (Hkeep3 _ _ Hoo2))
    as (w4 & Hw4 & Ho4 & Hf4 & (Hc4 & Hk4 & Hp4) & _).
  exists w4. split.
  - unfold TaskProcessor._generate_testcase. rewrite Hmod, Hcb.
    cbn [bind lift contains]. unfold dict_has. rewrite Hin, Hout. cbn [negb].
    unfold bind at 1. rewrite Hw1.
    unfold bind at 1. cbn [lift getitem]. rewrite Hin.
    unfold bind at 1. cbn [TaskProcessor.write_value]. rewrite Hw2.
    unfold bind at 1. cbn [lift].
    unfold bind at 1. rewrite Hw3.
    unfold bind at 1. cbn [lift getitem]. rewrite Hout.
    cbn [TaskProcessor.write_value]. exact Hw4.
  - split.
    { rewrite Hf4, Hf3 by assumption. rewrite Hi2. congruence. }
    split; [rewrite Ho4; congruence|].
    split.
    { intros q H1 H2. rewrite Hf4, Hf3, Hf2, Hf1 by assumption. reflexivity. }
    repeat split; congruence.
Qed.

(** *** The loops of [generate_testcases] *)

Section AllTestcases.

Variable exec : seq str -> str -> Z * str * str * seq (str * str).
Variable self : TaskProcessor.processor.
Variable cb : pydict -> result pyval.
Variable g : str.
Variable D : seq str.
Variable subs : seq pyval.
Variable w0 : world.

Hypothesis Hmod : TaskProcessor.module self = Some cb.

Let input_entry (s t : nat) : seq str := D ++ [Constants.input_namer s t None].
Let output_entry (s t : nat) : seq str := D ++ [Constants.output_namer s t None].

Lemma ready_open (w : world) (name : str) :
  ready g D w0 w -> plain_name name = true ->
  open_target w (join g name) = Ok (D ++ [name]).
Proof.
  intros (_ & Hdir & Hfon) Hn.
  apply plain_marker_open.
  - split; [now apply Hdir | now apply Hfon].
  - apply join_not_empty. now destruct (plain_name_parts _ Hn) as (_ & _ & _ & _ & ?).
Qed.

Lemma entries_differ (s t s' t' : nat) :
  s < 100 -> t < 200 -> s' < 100 -> t' < 200 ->
  input_entry s t <> output_entry s' t'
  /\ ((s, t) <> (s', t') ->
      input_entry s t <> input_entry s' t'
      /\ output_entry s t <> output_entry s' t').
Proof.
  intros Hs Ht Hs' Ht'. unfold input_entry, output_entry.
  unfold Constants.input_namer, Constants.output_namer.
  split; [|intros Hne; split]; intros H; apply app_inj_tail in H;
    destruct H as [_ H];
    apply (default_names_split s t s' t' _ _ Hs Ht Hs' Ht') in H;
    destruct H as (H1 & H2 & H3); try discriminate H3;
    apply Hne; congruence.
Qed.

Lemma one_testcase (w : world) (s t : nat) (testcase : pyval)
    (subtask : pyval) (testcases : seq pyval) :
  ready g D w0 w -> s < 100 -> t < 200 ->
  nth_error subs s = Some subtask ->
  getitem subtask "testcases" = Ok (PList testcases) ->
  nth_error testcases t = Some testcase ->
  returned cb subs s t <> None ->
  exists w',
    TaskProcessor._generate_testcase exec self testcase s t g w = (Ok tt, w')
    /\ ready g D w0 w'
    /\ holds cb D subs w0 w' s t
    /\ (forall s' t', s' < 100 -> t' < 200 -> (s', t') <> (s, t) ->
                      holds cb D subs w0 w s' t' -> holds cb D subs w0 w' s' t').
Proof.
  intros Hready Hs Ht Hsub Htcs Htc Hret.
  pose proof Hready as ((Hc & Hk & Hp) & Hdir & Hfon).
  destruct (default_names_plain s t None Hs Ht) as [Hpi Hpo].
  pose proof (ready_open w _ Hready Hpi) as Hoi.
  pose proof (ready_open w _ Hready Hpo) as Hoo.
  fold (input_entry s t) in Hoi. fold (output_entry s t) in Hoo.
  destruct (entries_differ s t s t Hs Ht Hs Ht) as [Hio _].
  assert (Hval : exists args io inp out,
             testcase = PDict args /\ cb args = Ok (PDict io)
             /\ dict_get io "input" = Some (PStr inp)
             /\ dict_get io "output" = Some (PStr out)
             /\ returned cb subs s t = Some (inp, out)).
  { unfold returned in *. rewrite Hsub, Htcs, Htc in Hret |- *.
    destruct testcase as [| | | | | |args|]; try congruence.
    destruct (cb args) as [[| | | | | |io|]|] eqn:E1; try congruence.
    destruct (dict_get io "input") as [[| | | |inp| | |]|] eqn:E2; try congruence.
    destruct (dict_get io "output") as [[| | | |out| | |]|] eqn:E3; try congruence.
    exists args, io, inp, out. rewrite E2, E3. auto. }
  destruct Hval as (args & io & inp & out & -> & Hcb & Hin & Hout & Hr).
  destruct (gen_testcase_entries exec self cb args io inp out s t g w _ _
              Hmod Hcb Hin Hout Hoi Hoo Hio)
    as (w' & Hrun & Hi & Ho & Hframe & (Hc' & Hk' & Hp')).
  exists w'. split; [exact Hrun|].
  assert (Hw : files_written w w').
  { pose proof (only_writes_generate_testcase exec self (PDict args) s t g w) as H.
    now rewrite Hrun in H. }
  split.
  { split; [repeat split; congruence|]. split; [exact (gen_dir_at_written _ _ _ _ Hw Hdir)|].
    intros name Hn. destruct Hw as (_ & _ & _ & Hq).
    destruct (Hq (D ++ [name])) as [-> | [_ (d & ->)]]; [now apply Hfon|].
    right. eauto. }
  split.
  { intros inp' out' Hr'. rewrite Hr in Hr'. injection Hr' as <- <-.
    rewrite <- Hk. split; assumption. }
  intros s' t' Hs' Ht' Hne Hold inp' out' Hr'.
  destruct (Hold inp' out' Hr') as [H1 H2].
  destruct (entries_differ s' t' s t Hs' Ht' Hs Ht) as [Hd1 Hd2].
  destruct (Hd2 Hne) as [Hd3 Hd4].
  destruct (entries_differ s t s' t' Hs Ht Hs' Ht') as [Hd5 _].
  unfold input_entry, output_entry in *.
  rewrite !Hframe by congruence. split; assumption.
Qed.

(** The loop over the testcases of one subtask. *)
Let testcase_loop (s : nat) (testcases : pyval) : seq nat -> M unit :=
  fix loop (indices : seq nat) : M unit :=
    match indices with
    | [] => ret tt
    | testcase_index :: rest =>
        (testcase <- lift (getindex testcases testcase_index) ;;
         TaskProcessor._generate_testcase exec self testcase s testcase_index g ;;;
         loop rest)%M
    end.

Lemma testcases_written (s : nat) (subtask : pyval) (testcases : seq pyval) :
  s < 100 -> List.length testcases <= 200 ->
  nth_error subs s = Some subtask ->
  getitem subtask "testcases" = Ok (PList testcases) ->
  (forall t, t < List.length testcases -> returned cb subs s t <> None) ->
  forall indices w,
    (forall i, In i indices -> i < List.length testcases) ->
    ready g D w0 w ->
    exists w',
      testcase_loop s (PList testcases) indices w = (Ok tt, w')
      /\ ready g D w0 w'
      /\ (forall i, In i indices -> holds cb D subs w0 w' s i)
      /\ (forall s' t', s' < 100 -> t' < 200 -> s' <> s \/ ~ In t' indices ->
                        holds cb D subs w0 w s' t' -> holds cb D subs w0 w' s' t').
Proof.
  intros Hs Hlen Hsub Htcs Hans.
  induction indices as [|i rest IH]; intros w Hin Hready.
  - exists w. split; [reflexivity|]. split; [exact Hready|].
    split; [intros i []|]. auto.
  - assert (Hi : i < List.length testcases) by (apply Hin; now left).
    destruct (nth_error testcases i) as [testcase|] eqn:Hnth;
      [|apply nth_error_None in Hnth; lia].
    destruct (one_testcase w s i testcase subtask testcases Hready Hs
                ltac:(lia) Hsub Htcs Hnth (Hans i Hi))
      as (w1 & Hrun1 & Hready1 & Hholds1 & Hframe1).
    destruct (IH w1 (fun j Hj => Hin j (or_intror Hj)) Hready1)
      as (w2 & Hrun2 & Hready2 & Hholds2 & Hframe2).
    exists w2. split.
    + cbn [testcase_loop]. unfold bind at 1. cbn [lift getindex]. rewrite Hnth.
      rewrite (bind_ok_eq _ _ _ _ _ Hrun1). exact Hrun2.
    + split; [exact Hready2|]. split.
      * intros j [<-|Hj]; [|now apply Hholds2].
        destruct (in_dec Nat.eq_dec i rest) as [Hir|Hir]; [now apply Hholds2|].
        apply Hframe2; auto. lia.
      * intros s' t' Hs' Ht' Hcase Hold.
        apply Hframe2; [assumption | assumption | |].
        -- destruct Hcase as [Hc|Hc]; [now left|]. right. intros Hr. apply Hc. now right.
        -- apply Hframe1; try assumption.
           destruct Hcase as [Hc|Hc]; [congruence|].
           intros Heq. injection Heq as -> ->. apply Hc. now left.
Qed.

Lemma subtask_written (w : world) (s : nat) (subtask : pyval)
    (testcases : seq pyval) :
  s < 100 -> List.length testcases <= 200 ->
  nth_error subs s = Some subtask ->
  getitem subtask "testcases" = Ok (PList testcases) ->
  (forall t, t < List.length testcases -> returned cb subs s t <> None) ->
  ready g D w0 w ->
  exists w',
    TaskProcessor.generate_subtask exec self g s subtask w = (Ok tt, w')
    /\ ready g D w0 w'
    /\ (forall t, holds cb D subs w0 w' s t)
    /\ (forall s' t', s' < 100 -> t' < 200 -> s' <> s ->
                      holds cb D subs w0 w s' t' -> holds cb D subs w0 w' s' t').
Proof.
  intros Hs Hlen Hsub Htcs Hans Hready.
  destruct (testcases_written s subtask testcases Hs Hlen Hsub Htcs Hans
              (List.seq 0 (List.length testcases)) w) as (w' & Hrun & Hr & Hh & Hf).
  { intros i Hi. apply in_seq in Hi. lia. }
  { exact Hready. }
  exists w'. split.
  - unfold TaskProcessor.generate_subtask. rewrite Htcs.
    cbn [bind lift py_len]. exact Hrun.
  - split; [exact Hr|]. split.
    + intros t. destruct (Nat.lt_ge_cases t (List.length testcases)) as [Ht|Ht].
      * apply Hh. apply in_seq. lia.
      * intros inp out Hret. exfalso. unfold returned in Hret.
        rewrite Hsub, Htcs in Hret.
        apply nth_error_None in Ht. rewrite Ht in Hret. discriminate.
    + intros s' t' Hs' Ht' Hne. apply Hf; auto.
Qed.

Hypothesis Hsize : List.length subs <= 100.
Hypothesis Htestcases :
  forall s subtask, nth_error subs s = Some subtask ->
    exists testcases, getitem subtask "testcases" = Ok (PList testcases)
                      /\ List.length testcases <= 200.
Hypothesis Hanswers : answers_all cb subs.

Lemma returned_bounds (s t : nat) (inp out : str) :
  returned cb subs s t = Some (inp, out) -> s < 100 /\ t < 200.
Proof.
  unfold returned. intros H.
  destruct (nth_error subs s) as [subtask|] eqn:Hsub; [|discriminate].
  assert (Hs : s < List.length subs) by (apply nth_error_Some; congruence).
  destruct (Htestcases s subtask Hsub) as (testcases & Htcs & Hlen).
  rewrite Htcs in H.
  destruct (nth_error testcases t) as [tc|] eqn:Htc; [|discriminate].
  assert (Ht : t < List.length testcases) by (apply nth_error_Some; congruence).
  lia.
Qed.

Lemma holds_frame (w w' : world) (s t : nat) :
  (s < 100 -> t < 200 -> holds cb D subs w0 w s t -> holds cb D subs w0 w' s t) ->
  holds cb D subs w0 w s t -> holds cb D subs w0 w' s t.
Proof.
  intros Hf Hold inp out Hret.
  destruct (returned_bounds s t inp out Hret) as [Hs Ht].
  exact (Hf Hs Ht Hold inp out Hret).
Qed.

Lemma subtasks_written (rest : seq pyval) :
  forall pre w,
    subs = pre ++ rest ->
    ready g D w0 w ->
    (forall s t, s < List.length pre -> holds cb D subs w0 w s t) ->
    exists w',
      TaskProcessor.generate_subtasks exec self g (List.length pre) rest w = (Ok tt, w')
      /\ ready g D w0 w'
      /\ forall s t, holds cb D subs w0 w' s t.
Proof.
  induction rest as [|subtask rest IH]; intros pre w Hsubs Hready Hdone.
  - exists w. split; [reflexivity|]. split; [exact Hready|].
    intros s t inp out Hret. apply Hdone; [|exact Hret].
    unfold returned in Hret.
    destruct (nth_error subs s) eqn:Hs; [|discriminate].
    assert (s < List.length subs) by (apply nth_error_Some; congruence).
    rewrite Hsubs, app_nil_r in H. exact H.
  - set (s := List.length pre).
    assert (Hsub : nth_error subs s = Some subtask).
    { rewrite Hsubs, nth_error_app2 by (unfold s; lia).
      unfold s. now rewrite Nat.sub_diag. }
    assert (Hs : s < 100).
    { assert (s < List.length subs) by (apply nth_error_Some; congruence). lia. }
    destruct (Htestcases s subtask Hsub) as (testcases & Htcs & Hlen).
    destruct (subtask_written w s subtask testcases Hs Hlen Hsub Htcs
                (fun t Ht => Hanswers s t subtask testcases Hsub Htcs Ht) Hready)
      as (w1 & Hrun1 & Hready1 & Hholds1 & Hframe1).
    destruct (IH (pre ++ [subtask]) w1) as (w2 & Hrun2 & Hready2 & Hholds2).
    { now rewrite <- app_assoc. }
    { exact Hready1. }
    { intros s' t'. rewrite length_app. cbn [List.length]. intros Hlt.
      destruct (Nat.eq_dec s' s) as [->|Hne]; [apply Hholds1|].
      apply (holds_frame w w1). 
      - intros Hs' Ht'. now apply Hframe1.
      - apply Hdone. unfold s in Hne. lia. }
    exists w2. split.
    + cbn [TaskProcessor.generate_subtasks].
      rewrite (bind_ok_eq _ _ _ _ _ Hrun1).
      rewrite length_app in Hrun2. cbn [List.length] in Hrun2.
      rewrite Nat.add_1_r in Hrun2. exact Hrun2.
    + split; assumption.
Qed.

End AllTestcases.

Lemma ready_read (g : str) (D : seq str) (w0 w : world) (name data : str) :
  ready g D w0 w -> plain_name name = true ->
  entry_at w (D ++ [name]) = Some (KFile (clock w0) data) ->
  read_file w (join g name) = Ok data.
Proof.
  intros (_ & Hdir & Hfon) Hn He.
  assert (Hp : plain_marker w (join g name) (D ++ [name]))
    by (split; [now apply Hdir | now apply Hfon]).
  unfold read_file, stat. rewrite (plain_marker_locate _ _ _ Hp).
  - unfold entry_at in He. apply kind_of_file in He. now rewrite He.
  - apply join_not_empty. now destruct (plain_name_parts _ Hn) as (_ & _ & _ & _ & ?).
Qed.

(** X23: generating the testcases of a validated task whose module
    answers every testcase with an input and an output.  When the
    parameters name no existing testcases and no output generator, and
    the generation directory is an existing directory that holds
    nothing but regular files, [generate_testcases] returns, spawns
    nothing, and afterwards the input and the output file of every
    testcase hold what the module returned for it. *)
Theorem generate_testcases_writes_all
    (exec : seq str -> str -> Z * str * str * seq (str * str))
    (self : TaskProcessor.processor) (cb : pydict -> result pyval)
    (g td : str) (w w0 : world) (D : seq str) (subs : seq pyval) :
  TaskProcessor.module self = Some cb ->
  dict_has (TaskProcessor.params self) "existing_testcases_format" = false ->
  dict_get (TaskProcessor.params self) "output_generator" = None ->
  dict_get (TaskProcessor.params self) "subtasks" = Some (PList subs) ->
  Validator.assert_task_params w0 (PDict (TaskProcessor.params self)) td None = Ok tt ->
  answers_all cb subs ->
  gen_dir_at w g D ->
  (forall name, plain_name name = true -> file_or_none (entry_at w (D ++ [name]))) ->
  exists w',
    TaskProcessor.generate_testcases exec self g w
    = (Ok (TaskProcessor.set_generator self None), w')
    /\ procs w' = procs w
    /\ forall s t inp out,
         returned cb subs s t = Some (inp, out) ->
         read_file w' (join g (Constants.input_namer s t None)) = Ok inp
         /\ read_file w' (join g (Constants.output_namer s t None)) = Ok out.
Proof.
  intros Hmod Hex Hog Hsubs Hvalid Hans Hdir Hfon.
  apply assert_task_params_subtasks in Hvalid.
  destruct (subtasks_list_bounds w0 _ td None Hvalid) as (subs' & Hsubs' & Hlen).
  rewrite Hsubs in Hsubs'. injection Hsubs' as <-.
  assert (Htcs : forall s subtask, nth_error subs s = Some subtask ->
             exists testcases, getitem subtask "testcases" = Ok (PList testcases)
                               /\ List.length testcases <= 200).
  { intros s subtask Hs.
    assert (Hlt : s < List.length subs) by (apply nth_error_Some; congruence).
    destruct (assert_task_subtasks_each w0 _ td None subs s Hvalid Hsubs Hlt)
      as (acc & n & Hn).
    destruct (assert_subtask_bounds w0 _ s acc td None n subs subtask Hsubs Hs Hn)
      as ((sd & score & -> & _ & _ & Hb) & _).
    rewrite Hex in Hb. destruct Hb as (l & Hl & Hb).
    exists l. cbn [getitem]. rewrite Hl. split; [reflexivity | lia]. }
  set (self' := TaskProcessor.set_generator self None).
  assert (Hmod' : TaskProcessor.module self' = Some cb) by exact Hmod.
  assert (Hready : ready g D w w).
  { split; [auto|]. split; assumption. }
  destruct (subtasks_written exec self' cb g D subs w Hmod' (proj2 Hlen) Htcs Hans
              subs [] w eq_refl Hready) as (w' & Hrun & Hready' & Hholds).
  { intros s t Hlt. cbn in Hlt. lia. }
  exists w'. split.
  - unfold TaskProcessor.generate_testcases. rewrite Hmod, Hex, Hog.
    cbn [bind ret]. fold self'.
    change (TaskProcessor.params self') with (TaskProcessor.params self).
    cbn [lift getitem]. rewrite Hsubs.
    cbn [List.length] in Hrun. unfold bind at 1, lift.
    rewrite (bind_ok_eq _ _ _ _ _ Hrun). reflexivity.
  - split; [now destruct Hready' as ((_ & _ & Hp) & _)|].
    intros s t inp out Hret.
    destruct (returned_bounds cb subs (proj2 Hlen) Htcs s t inp out Hret) as [Hs Ht].
    destruct (default_names_plain s t None Hs Ht) as [Hpi Hpo].
    destruct (Hholds s t inp out Hret) as [Hi Ho].
    split; eapply ready_read; eauto.
Qed.

Lemma generate_testcases_writes_all_witness :
  exists w',
    TaskProcessor.generate_testcases demo_exec demo_self "/g" fresh_world
    = (Ok (TaskProcessor.set_generator demo_self None), w')
    /\ procs w' = procs fresh_world
    /\ forall s t inp out,
         returned demo_callback
           [PDict [("score", PInt 100);
                   ("testcases", PList [PDict [("seed", PInt 1); ("n", PInt 2)]])]]
           s t = Some (inp, out) ->
         read_file w' (join "/g" (Constants.input_namer s t None)) = Ok inp
         /\ read_file w' (join "/g" (Constants.output_namer s t None)) = Ok out.
Proof.
  apply (generate_testcases_writes_all demo_exec demo_self demo_callback "/g" "/t"
           fresh_world fresh_world ["g"]).
  - reflexivity.
  - reflexivity.
  - reflexivity.
  - reflexivity.
  - vm_compute. reflexivity.
  - intros s t subtask testcases Hs Ht Hlt.
    destruct s as [|[|s]]; try discriminate Hs.
    injection Hs as <-. injection Ht as <-.
    destruct t as [|t]; [discriminate | cbn in Hlt; lia].
  - apply (gen_dir_at_marker fresh_world "/g" ["g"] "gen.ok"); reflexivity.
  - intros name _. left. reflexivity.
Defined.
